(* ===== verification/_CoqProject ===== *)
-Q . S2P
Prelude.v
JsString.v
JsValue.v
Regex.v
Normalise.v
Framework.v
KnexAdapter.v
Bounds.v
MongoAdapter.v
Access.v
Dispatch.v
FieldType.v
Usage.v
Heap.v
InPlace.v
Ownership.v
ListAdapter.v
Request.v
Store.v
Documents.v
Confidentiality.v
InPlaceList.v
Mutation.v
Integrity.v
StoreRequests.v
