(* ===== verification/Prelude.v ===== *)
(** * A verification of the identifier field type and of the User list

    ** The program

    The repository configures a content-management backend.  It has two
    source files.

    [src/fb/field-fbId.js] declares a field type for identifiers of 24
    hexadecimal digits: the two functions [validator] and [normaliseValue]
    (lines 25 and 26), the class [FbIdImplementation] that contributes the
    fragments of the GraphQL schema (lines 7 to 23), the adapter
    [FbMongoIdInterface] for a document store (lines 28 to 78), the adapter
    [KnexMongoIdInterface] for a relational store (lines 80 to 124), and the
    descriptor [FirebaseId] that names them (lines 126 to 151).  An adapter
    declares the field in the schema of its store, registers a hook that runs
    on a record before it is saved and one that runs after it is read, and
    builds the conditions of queries on the field.

    [src/index.js] creates the application: the access functions
    [userIsAdmin], [userOwnsItem] and [userIsAdminOrOwner] (lines 22 to 34),
    the list [User] with its fields and the access functions written inside
    it (lines 36 to 79), the authentication strategy and the two
    applications it exports (lines 81 to 94).

    The framework that calls all of this, the two stores, the base classes
    of the adapters and the modules [./adapter-fb], [./initial-data] and
    [./views/...] are not among the sources.

    ** The files

    - [Prelude] (this file): computations that return or throw ([result],
      [let* x := m in k]), runs of fallible steps ([rfold], [rmapM]), their
      laws, and the tactics of the development.
    - [JsString]: strings as sequences of code units, [toLowerCase], the
      class of hexadecimal digits, equality up to case ([ci_eq]) as an
      equivalence with its [Proper] instances.
    - [JsValue]: the values of the language that the sources compute with
      ([value]), what can be thrown ([exn]), [truthy], [typeof],
      [toString], [===] ([strict_eq]); records as finite maps ([item]) and
      the references by value [ref] that the hooks receive, with property
      read, write and delete and the [TypeError] of each on [undefined] and
      [null].
    - [Regex]: the operators of the literal [/^[0-9a-fA-F]{24}$/], a matcher
      for them ([rmatch], [regex_test]) and the literal itself
      ([objectid_regex]).
    - [Normalise]: [validator] and [normaliseValue].
    - [Framework]: what the adapters ask of the framework.  The hook
      registry ([addPreSaveHook], [addPostReadHook], [onPreSave],
      [onPostRead]), the conditions that a query builder returns ([cond],
      [builder]) and, as the class [QueryBase], the inherited methods
      [equalityConditions] and [inConditions] with the laws that the
      adapters rely on; [StandardBase] is an instance.
    - [KnexAdapter]: module [KnexMongoIdInterface]: the constructor [new],
      [addToTableSchema] on a table that is the list of its columns,
      [preSaveHook], [postReadHook], [setupHooks], [getQueryConditions].
    - [MongoAdapter]: module [FbMongoIdInterface]: [addToMongooseSchema] on
      a schema that is the options it holds by path, [preSaveHook],
      [postReadHook], [setupHooks], [getQueryConditions]; the inherited
      [buildValidator] and [mergeSchemaOptions] are the class [SchemaBase].
    - [Access]: the access functions of [src/index.js], the declaration of
      the list [User], the authentication strategy and the applications; the
      policy that the comments of the source state ([may_touch],
      [may_see_password], [may_read_record]) and the records that a filter
      lets through ([where_holds]).
    - [FieldType]: module [FbIdImplementation], the descriptor [FirebaseId]
      with the two [getConfig] functions, and the evaluation of the
      top-level statements of the two modules ([eval_module]), in which
      reading an identifier that nothing has bound throws a
      [ReferenceError].
    - [Heap]: a store of objects by location, pointers, and computations
      that read and write the store and may throw ([hget], [hset],
      [hdelete], [halloc]); [in_place] says what it is for a function on
      references by value to be carried out on the object behind a
      pointer.
    - [InPlace]: the four hooks statement by statement against that store
      (modules [KnexInPlace] and [MongoInPlace]), and runs of hooks
      ([run_hooks]).
    - [Ownership]: the access of [email] on two records as the post-read
      hooks of a list return them ([email_access_of]).
    - [ListAdapter]: the driver of the hooks over a table of rows ([create],
      [update], [remove], [find], [findOne]) and the tables that it reaches
      ([step], [reachable]); the record [writer] is what a request calls of
      a list adapter, with the law that each of its operations is a step,
      and [list_adapter] implements it.
    - [Bounds]: the lengths that the sources name, the count [{24}] of the
      regular expression and the length of the column of line 88, against
      what the pre-save hook stores ([fits], [row_fits]); the string form of
      a safe integer ([isSafeInteger]).
    - [Dispatch]: the calls of lines 30 and 31, which read the functions
      from the object [access] of line 34 when [userIsAdminOrOwner] is
      called ([closure], [access_object], [binding], [call]).
    - [Usage]: what the bodies of the functions and methods of the two
      modules read ([index_body_reads], [field_fbId_body_reads]), what the
      modules export, and the names that a module uses as the closure of
      its roots under the reads ([close], [used], [unused]).
    - [Store]: the relational store under the list adapter: the default and
      the constraints of the column that [addToTableSchema] declares
      ([apply_default], [violated], [check]), the writes that respect them
      ([insert_row], [replace_row], [checked_create], [checked_update]),
      the tables that they reach ([checked_step], [checked_reachable]), and
      the [writer] that they implement ([checked_adapter]).
    - [Documents]: the document store under the list adapter: the
      validation of a document against the schema that
      [addToMongooseSchema] builds ([validate]), the message of a failure
      ([render]) and the save of a document ([save]).
    - [Request]: a query for the records of a list from the access of the
      list to the fields of the response, as a machine ([phase], [rstep],
      [run]) and as a function ([query]).
    - [Confidentiality]: what a table shows to a principal ([redact],
      [low_view]), the tables that a principal may not tell apart
      ([low_equiv], an equivalence), and the query as a function of the
      view ([answer_from]).
    - [InPlaceList]: the operations of the list adapter on the shared
      objects of [Heap] ([create_in_place], [update_in_place],
      [find_in_place], [findOne_in_place], [remove_in_place]): the pre-save
      hooks run on the object of the caller, the store hands back a new
      object for every row that is read ([read_back], [read_all]); the
      registration of the hooks of the two adapters as they run
      ([knex_setupHooks_in_place], [mongo_setupHooks_in_place]), what it
      is for such a registry to carry out a registry by value ([agrees]),
      and the stores and tables that callers and operations reach
      ([world_step], [world_reachable]).
    - [Mutation]: the creation, the update and the deletion of a user as
      the framework serves them ([createMutation], [updateMutation],
      [deleteMutation]), over any list adapter that implements [writer]:
      the access of the fields that the data name ([checkFieldAccess]), the
      defaults of a creation ([resolveDefaults]), the authenticated item of
      a session ([authenticated]), and sequences of requests ([serve],
      [mstep], [mreachable], [serve_all]).
    - [Integrity]: the requests whose data name declared fields other than
      [isAdmin] ([ordinary], [input_names]), the fields that decide who a
      row is ([identity]), the state that such requests keep ([guarded]),
      and the name that the update input of the identifier field declares
      ([identifier_input]).
    - [StoreRequests]: the requests of [Mutation] over the list adapter of
      [Store].

    Every definition that models code carries the name it has in the source
    and quotes the source in its comment.  A function of the source that
    can throw returns a [result]; a method that reads [this] takes the
    adapter as its first argument; a method that changes the schema, the
    table or the registry takes it and returns it.

    ** What the theorems show

    - The validator and the normal form ([Regex], [Normalise]): the matcher
      accepts exactly the strings of 24 hexadecimal digits; the validator
      answers that question for every non-empty string, accepts every falsy
      value, judges any other value by its string form, never throws and
      does not see case; [normaliseValue] never throws and returns [null]
      or a string in lower case, is idempotent except on a truthy value
      whose string form is empty, and identifies two strings exactly when
      they are equal up to case.
    - The relational adapter ([KnexAdapter]): no adapter and no column is
      both unique and indexed; the branch that the pre-save hook takes on
      every value; the invariant of what it stores (the field is absent or a
      non-empty string in lower case); it touches no other field and is
      idempotent; the post-read hook is the identity on what was saved; a
      query finds a saved record by any spelling of the identifier that
      differs only by case, for every instance of [QueryBase].
    - The document-store adapter ([MongoAdapter]): a primary key is never
      added to the schema and another field is added at its own path with
      the validator; the outcome of each hook on each shape of argument;
      the round trips of a record through the two hooks and the records on
      which a round trip changes something.
    - Access ([Access]): the answer of each access function for an
      administrator, for the owner, for another user and for a request
      without authentication; for authenticated users the answers are
      exactly what the policy of the comments allows; without
      authentication the functions written inside the list throw instead of
      refusing.
    - The field type ([FieldType]): a module loads exactly when its free
      identifiers are bound from outside; [field-fbId.js] has two free
      identifiers, [Implementation] and [FbId], and the body of
      [primaryKeyDefaults.mongoose.getConfig] reads a third, [MongoId];
      [index.js] has none; the query fields that the implementation
      declares are named by the keys for which the adapter builds
      conditions.
    - Mutation in place ([Heap], [InPlace]): each hook is the function of
      its adapter file carried out in place (it returns the pointer it was
      given, the object behind it takes the fields that the function
      computes, no other object changes, a throw leaves the store as it
      was); the exception is the post-read hook of the document store on a
      document, which changes the copy that [toObject()] returns; a run of
      hooks is not atomic.

    - Ownership ([Ownership]): after the post-read hook of a primary-key
      identifier field the ownership test of the access functions compares
      strings, so that it holds exactly of the records with the identifier
      of the user; on records without [id] it holds of every record, and on
      identifiers that are still objects of the store it holds of none.
    - Sequences of operations ([ListAdapter]): whatever the operations
      carried out, every row of the table satisfies the invariant that the
      pre-save hook establishes (by induction on the steps); reading from
      such a table never throws and returns the rows as they are stored; a
      record is found after its creation by any spelling of its identifier;
      a query for one record that finds none throws in the post-read hook;
      an update cannot clear the identifier.
    - Lengths ([Bounds]): a record whose identifier the validator accepts
      fits the column that the adapter declares, 24 characters against 24;
      the pre-save hook itself stores a string of any length; the string
      form of a safe integer has at most 17 characters, so that no number
      but [0] is a valid identifier.
    - Calls ([Dispatch]): with the object of line 34 every call returns
      within two frames, with the result of the function of [Access]; fuel
      does not matter once a call returns; a call of [userIsAdminOrOwner]
      returns for some fuel exactly when the function does not reach itself
      through the object; before line 34 has run the call throws a
      [ReferenceError].
    - Uses ([Usage]): the iteration that computes the used names ends, with
      the least set that holds the roots and is closed under the reads, in
      as many rounds as there are names; [src/index.js] uses every name it
      binds except [Adapter], the three access functions and [access];
      through the descriptor [FirebaseId] alone neither adapter of
      [src/fb/field-fbId.js] is reached.
    - The relational store ([Store]): the constraints of the column hold of
      every table that is reached (by induction on the steps); with a
      unique column no two rows hold identifiers that are equal up to case;
      a second record that differs by case is refused; a string of more
      than 24 characters is refused by the store, not by the hook; a row
      that takes the default of the column holds it as configured, and is
      then read with an identifier by which it is not found.
    - The document store ([Documents]): a field that is not the primary
      key is saved exactly when it is absent, [null] or valid, with the
      message of line 37 otherwise; the identifier is kept in the case it
      was given; the identifier of a primary key is not validated.
    - Requests ([Request]): every run of the machine ends, in the state
      that the function computes; for an authenticated user the answer
      holds the records that the policy of the comments lets the user read
      and shows each field exactly when the policy allows; a request
      without authentication fails with a [TypeError]; no answer shows a
      password.
    - What a query lets a user learn ([Confidentiality]): the query is a
      function of the view that the table has for the user who asks, so
      it does not tell apart two tables with the same view, whatever
      fields it selects; a change of a password, a change of the [email]
      of a record of another user, and the presence of a deactivated
      record do not change the answer to a user who is no administrator,
      and a change from one password that is set to another changes the
      answer to nobody.
    - Shared objects ([InPlaceList]): for every list whose hooks work in
      place, the creation, the update and the two queries on shared
      objects compute what [create], [update], [find] and [findOne] of
      [ListAdapter] compute by value, the same table and the same results
      or exception; the tables that callers and operations reach are
      tables of [ListAdapter] (a simulation, step by step), so that the
      invariant of the stored rows holds of the code as it runs; after a
      creation the object of the caller holds the row as it was stored,
      and what is returned is another object; reading a row leaves the
      objects that were there as they were; with a store that hands back
      documents, the creation leaves three objects, of which only the
      returned one has [id].
    - Mutations ([Mutation]): an update is refused exactly when it names
      [email] or [password] and the user is neither an administrator nor
      the owner; one update leaves every [email] and every [password] as
      it was unless the user is one of the two, whoever asks; [isAdmin] is
      set, and a record is deleted, by anyone; a user who is no
      administrator changes the [email] of another user with two updates;
      a creation takes the defaults of the list, and with an [email] it
      throws for everyone but an administrator; every sequence of requests
      is a sequence of steps of the [writer] it is served by, so that the
      invariant of the stored rows holds under requests.
    - Sequences of requests ([Integrity]): the guarantee of one update
      holds of every sequence of creations and updates whose data name
      declared fields other than [isAdmin]: a record that has an
      identifier keeps its [email] and its [password] whatever the users
      who are neither administrators nor its owner send, by induction on
      the requests with the identity of every row as the invariant.  Both
      conditions on the data are needed: [Mutation.escalation] goes
      through [isAdmin], and an update that names [id], the input that
      [gqlUpdateInputFields] declares, lets a user take the identifier of
      another record and then change its [email].
    - Requests over the relational store ([StoreRequests]): whatever
      requests are sent, the table satisfies the constraints of the column,
      its rows are what the pre-save hook stores and the identifiers of a
      unique column are distinct up to case; a creation that repeats an
      identifier in another case is refused, whoever asks.

    ** Bounds

    Three definitions take fuel.  [Dispatch.call] takes one unit for each
    frame of a call; two are enough for every call through the object of
    line 34, and the theorems say for which objects no amount is.
    [Usage.close] takes one unit for each round; one more than the number
    of names that read or are read is enough, because every round but the
    last adds a name.  [Request.run] takes one unit for each transition;
    two more than the table has rows are enough.  Every other recursion is
    structural, on a string, a list or the count of a regular expression.
    A string is a sequence of code units below 256, on which [toLowerCase]
    is the one of the language; the identifiers that the validator accepts
    are ASCII.  A number is an integer, written in decimal by [toString],
    which is the string form of the language for the safe integers
    ([Bounds.isSafeInteger]); the theorems on numbers are stated for that
    range.  An object that occurs as the value of a property is known by
    its identity and by the string that its [toString()] returns, which is
    all that the sources ask of it; getters and prototypes are not
    modelled.  A location outside the store reads as an object without
    fields; the theorems of [InPlace] speak of allocated locations.  The
    relational store of [Store] refuses a string that is longer than its
    column, as the stores that enforce the declared length do.  In
    [Mutation] and [Request] an operation for which the list or a field
    declares no access is served, which is the default of the framework,
    and the answer of an access function is read by its truthiness; a
    record is named by its row, and the authenticated item of a request is
    the row of its session as the post-read hooks return it when the
    request is served.  What a mutation returns is the record as the list
    adapter reads it back; the fields of the response are not filtered.
    In [Integrity] the conditions on the data of a request are hypotheses
    of the theorems, since the generated input types are not among the
    sources; deletions are left out there because a record is named by its
    row, which a deletion shifts.  In [InPlaceList] the store keeps a copy
    of the fields that the pre-save hooks leave and hands back a new
    object for every row it reads, so that the caller and the store share
    no object; objects are never freed.

    ** What is not modelled

    The framework, the stores and the base classes are outside the
    repository.  What the sources use of them is stated as interfaces with
    laws ([QueryBase], [SchemaBase], [InputBase]), each with a standard
    instance that shows the laws can be met, and as small models of the
    registry, the schema, the table, the list adapter, the two stores and
    the handling of queries and of mutations.  Theorems about the adapters
    hold for every instance of the interfaces.  The login that opens a
    session, the transport and the parsing of requests, the generated
    schema, the hashing of passwords, the views of the admin interface,
    the initial data and the module [./adapter-fb] are not modelled:
    nothing in the sources or in their specification says what they
    compute.

    ** Further work

    The pagination and ordering of queries, relations between lists and the
    other field types of the [User] list belong to the framework.  The
    requests of [Mutation] are served by value; serving them over the
    shared objects of [InPlaceList], and naming records by identifier so
    that the theorems of [Integrity] extend to deletions, are not done. *)

From stdpp Require Export base option list strings gmap.

(** ** Results of computations that may throw

    JavaScript code either returns a value or throws.  A computation of the
    model returns [Ok a] or [Throw e]; [e] ranges over the exceptions of the
    file that uses the monad. *)

Inductive result (E A : Type) : Type :=
| Ok (a : A)
| Throw (e : E).

Arguments Ok {E A} a.
Arguments Throw {E A} e.

Definition rbind {E A B} (m : result E A) (k : A → result E B) : result E B :=
  match m with
  | Ok a => k a
  | Throw e => Throw e
  end.

Definition rmap {E A B} (f : A → B) (m : result E A) : result E B :=
  rbind m (λ a, Ok (f a)).

Definition is_ok {E A} (m : result E A) : bool :=
  match m with Ok _ => true | Throw _ => false end.

(** Running a list of fallible steps from left to right, as
    [hooks.reduce((acc, hook) => hook(acc), x)] does. *)
Fixpoint rfold {E A} (fs : list (A → result E A)) (a : A) : result E A :=
  match fs with
  | [] => Ok a
  | f :: fs => rbind (f a) (rfold fs)
  end.

(** Mapping a fallible function over a list, stopping at the first throw, as
    [xs.map(f)] does when [f] throws. *)
Fixpoint rmapM {E A B} (f : A → result E B) (xs : list A) : result E (list B) :=
  match xs with
  | [] => Ok []
  | x :: xs => rbind (f x) (λ y, rbind (rmapM f xs) (λ ys, Ok (y :: ys)))
  end.

Declare Scope js_scope.
Delimit Scope js_scope with js.

Notation "'let*' x ':=' m 'in' k" := (rbind m (λ x, k))
  (at level 10, x name, m at level 100, k at level 200,
   format "'[' 'let*'  x  ':='  m  'in'  '/' k ']'") : js_scope.

Notation "m ';;;' k" := (rbind m (λ _, k))
  (at level 100, k at level 200, right associativity) : js_scope.

Open Scope js_scope.

Create HintDb js discriminated.
Create Rewrite HintDb js.

Section result_laws.
Context {E A B C : Type}.
Implicit Types (m : result E A) (k : A → result E B) (h : B → result E C).

Lemma rbind_Ok_l a k : rbind (Ok a) k = k a.
Proof. done. Qed.

Lemma rbind_Ok_r m : rbind m Ok = m.
Proof. by destruct m. Qed.

Lemma rbind_assoc m k h : rbind (rbind m k) h = rbind m (λ a, rbind (k a) h).
Proof. by destruct m. Qed.

Lemma rbind_ext m k k' : (∀ a, k a = k' a) → rbind m k = rbind m k'.
Proof. intros Hk. destruct m; simpl; auto. Qed.

Lemma rbind_Throw e k : rbind (Throw e : result E A) k = Throw e.
Proof. done. Qed.

Lemma rbind_Ok_inv m k b :
  rbind m k = Ok b ↔ ∃ a, m = Ok a ∧ k a = Ok b.
Proof. destruct m; simpl; split; [eauto|intros (? & [= <-] & ?)|done|by intros (? & ? & ?)]; done. Qed.

Lemma rbind_Throw_inv m k e :
  rbind m k = Throw e ↔ m = Throw e ∨ ∃ a, m = Ok a ∧ k a = Throw e.
Proof.
  destruct m as [a|e']; simpl; split.
  - intros Hk. right. by exists a.
  - intros [Hm|(a' & Hm & Hk)]; [done|]. by injection Hm as <-.
  - intros [= ->]. by left.
  - intros [[= ->]|(a' & Hm & _)]; done.
Qed.

Lemma rmap_Ok_inv (f : A → B) m b :
  rmap f m = Ok b ↔ ∃ a, m = Ok a ∧ b = f a.
Proof.
  unfold rmap. rewrite rbind_Ok_inv. split.
  - intros (a & -> & [= <-]). by exists a.
  - intros (a & -> & ->). by exists a.
Qed.

Lemma is_ok_true m : is_ok m = true ↔ ∃ a, m = Ok a.
Proof. destruct m as [a|e]; simpl; split; [by exists a|done|done|by intros [? ?]]. Qed.

Lemma is_ok_false m : is_ok m = false ↔ ∃ e, m = Throw e.
Proof. destruct m as [a|e]; simpl; split; [done|by intros [? ?]|by exists e|done]. Qed.

Lemma is_ok_rbind m k :
  is_ok (rbind m k) = match m with Ok a => is_ok (k a) | Throw _ => false end.
Proof. by destruct m. Qed.

End result_laws.

#[export] Hint Rewrite @rbind_Ok_l @rbind_Ok_r @rbind_Throw : js.

Section rfold_laws.
Context {E A : Type}.
Implicit Types (fs gs : list (A → result E A)) (a : A).

Lemma rfold_app fs gs a : rfold (fs ++ gs) a = rbind (rfold fs a) (rfold gs).
Proof.
  revert a; induction fs as [|f fs IH]; intros a; simpl; [done|].
  rewrite rbind_assoc. destruct (f a); simpl; auto.
Qed.

Lemma rfold_singleton (f : A → result E A) a : rfold [f] a = f a.
Proof. simpl. apply rbind_Ok_r. Qed.

Lemma rfold_total fs :
  Forall (λ f, ∀ a, is_ok (f a) = true) fs → ∀ a, is_ok (rfold fs a) = true.
Proof.
  induction 1 as [|f fs Hf _ IH]; intros a; simpl; [done|].
  rewrite is_ok_rbind. specialize (Hf a). destruct (f a); [apply IH|done].
Qed.

End rfold_laws.

Section rmapM_laws.
Context {E A B : Type}.
Implicit Types (f : A → result E B) (xs : list A).

Lemma rmapM_total f g xs :
  (∀ x, f x = Ok (g x)) → rmapM f xs = Ok (g <$> xs).
Proof.
  intros Hf. induction xs as [|x xs IH]; simpl; [done|].
  by rewrite Hf, IH.
Qed.

Lemma rmapM_Forall f g xs :
  Forall (λ x, f x = Ok (g x)) xs → rmapM f xs = Ok (g <$> xs).
Proof. induction 1 as [|x xs Hx _ IH]; simpl; [done|]. by rewrite Hx, IH. Qed.

(** A function that throws one exception, and only outside a decidable
    set: the map returns when every element is in the set. *)
Lemma rmapM_guard f (ok : A → bool) (g : A → B) (e : E) xs :
  (∀ x, f x = if ok x then Ok (g x) else Throw e) →
  rmapM f xs = if forallb ok xs then Ok (g <$> xs) else Throw e.
Proof.
  intros Hf. induction xs as [|x xs IH]; simpl; [done|].
  rewrite Hf. destruct (ok x); simpl; [|done]. rewrite IH. by destruct (forallb ok xs).
Qed.

Lemma rmapM_length f xs ys : rmapM f xs = Ok ys → length ys = length xs.
Proof.
  revert ys; induction xs as [|x xs IH]; intros ys; simpl.
  - by intros [= <-].
  - intros (y & _ & (ys' & Hys & [= <-])%rbind_Ok_inv)%rbind_Ok_inv.
    simpl. f_equal. eauto.
Qed.

End rmapM_laws.

(** ** Lists *)

Section list_lemmas.
Context {A : Type}.
Implicit Types (f : A → bool) (l : list A).

Lemma existsb_false_forall f l :
  (∀ x, In x l → f x = false) → existsb f l = false.
Proof.
  induction l as [|x l IH]; simpl; [done|]. intros H.
  rewrite (H x) by auto. rewrite IH; auto.
Qed.

Lemma Forall_filter_iff (P Q : A → Prop) `{!∀ x, Decision (Q x)} l :
  Forall P (filter Q l) ↔ Forall (λ x, Q x → P x) l.
Proof.
  induction l as [|x l IH]; [done|]. rewrite filter_cons, Forall_cons.
  destruct (decide (Q x)); rewrite ?Forall_cons, IH; tauto.
Qed.

Lemma forallb_take_all f l n : length l ≤ n → forallb f (take n l) = forallb f l.
Proof. intros. by rewrite take_ge. Qed.

Lemma forallb_fmap_ext {B} (g : B → A) f (h : B → bool) (xs : list B) :
  (∀ x, f (g x) = h x) → forallb f (g <$> xs) = forallb h xs.
Proof. intros Hfg. induction xs as [|x xs IH]; [done|]. cbn. by rewrite Hfg, <-IH. Qed.

(** Replacing an element by one that a filter and a function do not tell
    from it. *)
Lemma fmap_filter_insert {B} (P : A → Prop) `{!∀ x, Decision (P x)} (g : A → B)
    l i x y :
  l !! i = Some x → (P y ↔ P x) → g y = g x →
  g <$> filter P (<[i := y]> l) = g <$> filter P l.
Proof.
  intros Hi HP Hg. rewrite insert_take_drop by (by eapply lookup_lt_Some).
  rewrite <-(take_drop_middle l i x) at 3 by done.
  rewrite !filter_app, !filter_cons, !fmap_app.
  destruct (decide (P y)), (decide (P x)); try tauto; by rewrite ?fmap_cons, ?Hg.
Qed.

End list_lemmas.

(** ** Tactics *)

(** [by_compute] decides a closed decidable proposition by evaluation. *)
Ltac by_compute :=
  match goal with
  | |- ?P =>
      let d := constr:(_ : Decision P) in
      apply (@bool_decide_eq_true_1 P d); vm_compute; reflexivity
  end.
