(* ===== verification/JsString.v ===== *)
(** * Strings of the JavaScript runtime

    A JavaScript string is modelled by a [string] whose characters are its
    code units; the model covers the strings whose code units are below 256
    (ASCII and the Latin-1 supplement).  This file holds what
    [src/fb/field-fbId.js] uses of them: [String.prototype.toLowerCase]
    (lines 26, 100 and 112 through [normaliseValue]), the character ranges of
    the regular expression of line 25, and the case-insensitive equality that
    normalisation induces. *)

From Stdlib Require Import Ascii String.
From S2P Require Import Prelude.

(** ** Characters *)

(** The code unit of a character. *)
Definition code (c : ascii) : N := N_of_ascii c.

(** [lo <= c <= hi] on code units, the meaning of a range [lo-hi] of a
    character class. *)
Definition in_range (lo hi c : ascii) : bool :=
  (code lo <=? code c)%N && (code c <=? code hi)%N.

(** The characters that [toLowerCase] changes, among the code units below
    256: [A-Z], and the Latin-1 capitals U+00C0 to U+00DE without the
    multiplication sign U+00D7. *)
Definition is_upper (c : ascii) : bool :=
  in_range "A" "Z" c
  || (in_range "192" "222" c && negb (Ascii.eqb c "215")).

(** Every capital below 256 has its small letter 32 code units above. *)
Definition lower_char (c : ascii) : ascii :=
  if is_upper c then ascii_of_N (code c + 32) else c.

(** The hexadecimal digits, [[0-9a-fA-F]]. *)
Definition is_hex_digit (c : ascii) : bool :=
  in_range "0" "9" c || in_range "a" "f" c || in_range "A" "F" c.

(** The hexadecimal digits in canonical (lower) case, [[0-9a-f]]. *)
Definition is_lower_hex_digit (c : ascii) : bool :=
  in_range "0" "9" c || in_range "a" "f" c.

(** ** Strings *)

Fixpoint string_map (f : ascii → ascii) (s : string) : string :=
  match s with
  | EmptyString => EmptyString
  | String c s => String (f c) (string_map f s)
  end.

Fixpoint string_forallb (p : ascii → bool) (s : string) : bool :=
  match s with
  | EmptyString => true
  | String c s => p c && string_forallb p s
  end.

(** [s.toLowerCase()]. *)
Definition toLowerCase (s : string) : string := string_map lower_char s.

(** [s] is the empty string; [""] is the one falsy string. *)
Definition string_is_empty (s : string) : bool :=
  match s with EmptyString => true | String _ _ => false end.

(** A string in canonical case: [toLowerCase] leaves it as it is. *)
Definition is_lower_string (s : string) : bool :=
  string_forallb (λ c, negb (is_upper c)) s.

(** Equality up to case, the equivalence that normalisation decides. *)
Definition ci_eq (s t : string) : Prop := toLowerCase s = toLowerCase t.

#[export] Instance ci_eq_dec : RelDecision ci_eq.
Proof. intros s t. unfold ci_eq. apply _. Defined.

(** ** Lemmas on characters

    Facts about one character are decided by running through the 256 code
    units. *)

Ltac by_cases_on_char c :=
  destruct c as [[] [] [] [] [] [] [] []]; vm_compute; try reflexivity; try discriminate.

Lemma lower_char_idemp c : lower_char (lower_char c) = lower_char c.
Proof. by_cases_on_char c. Qed.

Lemma lower_char_not_upper c : is_upper (lower_char c) = false.
Proof. by_cases_on_char c. Qed.

Lemma lower_char_fixed c : is_upper c = false → lower_char c = c.
Proof. unfold lower_char. by intros ->. Qed.

Lemma lower_char_fixed_inv c : lower_char c = c → is_upper c = false.
Proof. by_cases_on_char c. Qed.

Lemma lower_char_hex c : is_hex_digit (lower_char c) = is_hex_digit c.
Proof. by_cases_on_char c. Qed.

Lemma lower_char_hex_lower c :
  is_hex_digit c = true → is_lower_hex_digit (lower_char c) = true.
Proof. by_cases_on_char c. Qed.

Lemma lower_hex_digit_hex c :
  is_lower_hex_digit c = true → is_hex_digit c = true.
Proof. unfold is_hex_digit, is_lower_hex_digit. by intros ->. Qed.

Lemma lower_hex_digit_not_upper c :
  is_lower_hex_digit c = true → is_upper c = false.
Proof. by_cases_on_char c. Qed.

Lemma hex_digit_ascii c : is_hex_digit c = true → (code c < 128)%N.
Proof. by_cases_on_char c. Qed.

(** ** Lemmas on strings *)

Section string_map_lemmas.
Context (f g : ascii → ascii) (p : ascii → bool).
Implicit Types (s t : string).

Lemma string_map_length s : String.length (string_map f s) = String.length s.
Proof. induction s; simpl; congruence. Qed.

Lemma string_map_compose s :
  string_map f (string_map g s) = string_map (λ c, f (g c)) s.
Proof. induction s; simpl; congruence. Qed.

Lemma string_map_ext s : (∀ c, f c = g c) → string_map f s = string_map g s.
Proof. intros Hfg. induction s; simpl; congruence. Qed.

Lemma string_map_empty s : string_is_empty (string_map f s) = string_is_empty s.
Proof. by destruct s. Qed.

Lemma string_map_fixed s :
  string_forallb (λ c, bool_decide (f c = c)) s = true → string_map f s = s.
Proof.
  induction s as [|c s IH]; simpl; [done|].
  intros [Hc Hs]%andb_prop. apply bool_decide_eq_true in Hc. rewrite Hc. f_equal; auto.
Qed.

Lemma string_forallb_map s :
  string_forallb p (string_map f s) = string_forallb (λ c, p (f c)) s.
Proof. induction s; simpl; congruence. Qed.

Lemma string_forallb_ext (q : ascii → bool) s :
  (∀ c, p c = q c) → string_forallb p s = string_forallb q s.
Proof. intros Hpq. induction s; simpl; congruence. Qed.

Lemma string_forallb_impl (q : ascii → bool) s :
  (∀ c, p c = true → q c = true) →
  string_forallb p s = true → string_forallb q s = true.
Proof.
  intros Hpq. induction s as [|c s IH]; simpl; [done|].
  intros [Hc Hs]%andb_prop. by rewrite Hpq, IH.
Qed.

Lemma string_forallb_true s : (∀ c, p c = true) → string_forallb p s = true.
Proof. intros Hp. induction s; simpl; [done|]. by rewrite Hp. Qed.

Lemma string_forallb_list s :
  string_forallb p s = forallb p (list_ascii_of_string s).
Proof. induction s; simpl; congruence. Qed.

End string_map_lemmas.

(** The equations of append, which [simpl] leaves folded. *)
Lemma string_app_cons c s t : String c s +:+ t = String c (s +:+ t).
Proof. done. Qed.

Lemma string_app_nil_l t : EmptyString +:+ t = t.
Proof. done. Qed.

Lemma string_app_assoc s t u : (s +:+ t) +:+ u = s +:+ (t +:+ u).
Proof. induction s as [|c s IH]; [done|]. by rewrite !string_app_cons, IH. Qed.

Lemma string_is_empty_true s : string_is_empty s = true ↔ s = EmptyString.
Proof. by destruct s. Qed.

Lemma string_is_empty_length s : string_is_empty s = (String.length s =? 0)%nat.
Proof. by destruct s. Qed.

Lemma string_length_list s : String.length s = length (list_ascii_of_string s).
Proof. induction s; simpl; congruence. Qed.

(** ** [toLowerCase] *)

Lemma toLowerCase_idemp s : toLowerCase (toLowerCase s) = toLowerCase s.
Proof.
  unfold toLowerCase. rewrite string_map_compose.
  apply string_map_ext, lower_char_idemp.
Qed.

Lemma toLowerCase_length s : String.length (toLowerCase s) = String.length s.
Proof. apply string_map_length. Qed.

Lemma toLowerCase_empty s : string_is_empty (toLowerCase s) = string_is_empty s.
Proof. apply string_map_empty. Qed.

Lemma toLowerCase_is_lower s : is_lower_string (toLowerCase s) = true.
Proof.
  unfold is_lower_string, toLowerCase. rewrite string_forallb_map.
  apply string_forallb_true. intros c. by rewrite lower_char_not_upper.
Qed.

Lemma toLowerCase_fixed s : is_lower_string s = true → toLowerCase s = s.
Proof.
  intros Hs. apply string_map_fixed. revert Hs. apply string_forallb_impl.
  intros c Hc. apply bool_decide_eq_true, lower_char_fixed.
  by destruct (is_upper c).
Qed.

Lemma toLowerCase_fixed_iff s : toLowerCase s = s ↔ is_lower_string s = true.
Proof.
  split; [|apply toLowerCase_fixed].
  intros <-. apply toLowerCase_is_lower.
Qed.

Lemma toLowerCase_hex s :
  string_forallb is_hex_digit (toLowerCase s) = string_forallb is_hex_digit s.
Proof.
  unfold toLowerCase. rewrite string_forallb_map.
  apply string_forallb_ext, lower_char_hex.
Qed.

Lemma toLowerCase_lower_hex s :
  string_forallb is_hex_digit s = true →
  string_forallb is_lower_hex_digit (toLowerCase s) = true.
Proof.
  unfold toLowerCase. rewrite string_forallb_map.
  apply string_forallb_impl, lower_char_hex_lower.
Qed.

Lemma lower_hex_is_lower s :
  string_forallb is_lower_hex_digit s = true → is_lower_string s = true.
Proof.
  apply string_forallb_impl. intros c Hc.
  by rewrite lower_hex_digit_not_upper.
Qed.

(** ** Equality up to case *)

#[export] Instance ci_eq_equiv : Equivalence ci_eq.
Proof.
  unfold ci_eq. split.
  - by intros s.
  - by intros s t.
  - intros s t u Hst Htu. by rewrite Hst.
Qed.

#[export] Instance toLowerCase_proper : Proper (ci_eq ==> eq) toLowerCase.
Proof. by intros s t Hst. Qed.

Lemma ci_eq_toLowerCase s : ci_eq (toLowerCase s) s.
Proof. apply toLowerCase_idemp. Qed.

Lemma ci_eq_lower s t :
  is_lower_string s = true → is_lower_string t = true → ci_eq s t ↔ s = t.
Proof.
  intros Hs Ht. unfold ci_eq.
  by rewrite (toLowerCase_fixed s), (toLowerCase_fixed t).
Qed.

#[export] Instance string_length_ci_proper : Proper (ci_eq ==> eq) String.length.
Proof.
  intros s t Hst. rewrite <-(toLowerCase_length s), <-(toLowerCase_length t).
  by rewrite Hst.
Qed.

#[export] Hint Rewrite toLowerCase_idemp toLowerCase_length toLowerCase_empty
  toLowerCase_is_lower toLowerCase_hex : js.
#[export] Hint Resolve toLowerCase_is_lower toLowerCase_fixed lower_hex_is_lower
  toLowerCase_lower_hex : js.
