(* ===== verification/JsValue.v ===== *)
(** * Values of the JavaScript runtime

    The values that flow through [src/fb/field-fbId.js] and [src/index.js]:
    primitives, objects seen from outside (an identity and the string their
    [toString()] returns: an [ObjectId], an array, a date), records (items)
    whose properties the code reads, writes and deletes, and the references
    to such records that a hook or an access function receives.  With them
    the operations of the language that the sources apply to values:
    truthiness, [typeof], [toString()], [===], property access, [&&] and
    [||].  Exceptions are results of the [result] monad of [Prelude]. *)

From Stdlib Require Import Ascii String ZArith.
From stdpp Require Import pretty.
From S2P Require Import Prelude JsString.

(** ** Values *)

(** [VNum] holds the integer-valued numbers (the safe integers); [NaN],
    infinities and fractions are outside the model.  [VObj addr repr] is an
    object that is not a record of the model: [addr] is its identity (what
    [===] compares) and [repr] the string that its [toString()] returns, for
    instance the 24 hexadecimal digits of a mongoose [ObjectId],
    ["[object Object]"] for a plain object, the empty string for the empty
    array. *)
Inductive value : Type :=
| VUndefined
| VNull
| VBool (b : bool)
| VNum (n : Z)
| VStr (s : string)
| VObj (addr : positive) (repr : string).

#[export] Instance value_eq_dec : EqDecision value.
Proof. solve_decision. Defined.

#[export] Instance value_inhabited : Inhabited value := populate VUndefined.

(** What a [throw] statement or the runtime raises. *)
Inductive exn : Type :=
| TypeError (msg : string)
| ReferenceError (name : string)
| Thrown (v : value).

#[export] Instance exn_eq_dec : EqDecision exn.
Proof. solve_decision. Defined.

Notation js := (result exn).

(** ** Operations on values *)

(** [ToBoolean]: the test of [c ? a : b], [if (c)], [!c], [&&] and [||]. *)
Definition truthy (v : value) : bool :=
  match v with
  | VUndefined | VNull => false
  | VBool b => b
  | VNum n => negb (n =? 0)%Z
  | VStr s => negb (string_is_empty s)
  | VObj _ _ => true
  end.

(** [typeof v]. *)
Definition typeof (v : value) : string :=
  match v with
  | VUndefined => "undefined"
  | VNull => "object"
  | VBool _ => "boolean"
  | VNum _ => "number"
  | VStr _ => "string"
  | VObj _ _ => "object"
  end.

(** The message of the [TypeError] raised by reading property [k] of
    [undefined] or [null]. *)
Definition no_property (base k : string) : exn :=
  TypeError ("Cannot read properties of " +:+ base +:+ " (reading '" +:+ k +:+ "')").

(** [v.toString()].  The method call is a property read first, so it throws
    on [undefined] and [null]. *)
Definition toString (v : value) : js string :=
  match v with
  | VUndefined => Throw (no_property "undefined" "toString")
  | VNull => Throw (no_property "null" "toString")
  | VBool b => Ok (if b then "true" else "false")
  | VNum n => Ok (pretty n)
  | VStr s => Ok s
  | VObj _ repr => Ok repr
  end.

(** [a === b]: no conversion; objects are equal when they are the same
    object. *)
Definition strict_eq (a b : value) : bool :=
  match a, b with
  | VUndefined, VUndefined => true
  | VNull, VNull => true
  | VBool x, VBool y => bool_decide (x = y)
  | VNum x, VNum y => bool_decide (x = y)
  | VStr x, VStr y => bool_decide (x = y)
  | VObj x _, VObj y _ => bool_decide (x = y)
  | _, _ => false
  end.

(** [a || b] on values that are already evaluated. *)
Definition js_or (a b : value) : value := if truthy a then a else b.

(** ** Records *)

(** An item is a record: a finite map from property names to values.  A
    property may be present with the value [undefined]; [delete] removes the
    property itself. *)
Notation item := (gmap string value).

(** [o[k]] and [o.k]: the value of an absent property is [undefined]. *)
Definition get_prop (o : item) (k : string) : value := default VUndefined (o !! k).

(** ** References to records

    What a hook or an access function is handed: [undefined], [null], a
    plain record, or a mongoose document, which is an object with a
    [toObject] method that returns the plain record of its fields. *)
Inductive ref : Type :=
| RUndefined
| RNull
| RItem (o : item)
| RModel (o : item).

#[export] Instance ref_eq_dec : EqDecision ref.
Proof. solve_decision. Defined.

Definition ref_truthy (r : ref) : bool :=
  match r with
  | RUndefined | RNull => false
  | RItem _ | RModel _ => true
  end.

(** [r[k]]: a [TypeError] on [undefined] and [null]. *)
Definition ref_get (r : ref) (k : string) : js value :=
  match r with
  | RUndefined => Throw (no_property "undefined" k)
  | RNull => Throw (no_property "null" k)
  | RItem o | RModel o => Ok (get_prop o k)
  end.

(** The message of the [TypeError] raised by writing property [k] of
    [undefined] or [null]. *)
Definition no_set_property (base k : string) : exn :=
  TypeError ("Cannot set properties of " +:+ base +:+ " (setting '" +:+ k +:+ "')").

(** [r[k] = v]. *)
Definition ref_set (r : ref) (k : string) (v : value) : js ref :=
  match r with
  | RUndefined => Throw (no_set_property "undefined" k)
  | RNull => Throw (no_set_property "null" k)
  | RItem o => Ok (RItem (<[k := v]> o))
  | RModel o => Ok (RModel (<[k := v]> o))
  end.

(** The message of the [TypeError] raised by [delete r[k]] on [undefined] or
    [null]. *)
Definition no_delete_property (base : string) : exn :=
  TypeError ("Cannot convert undefined or null to object: " +:+ base).

(** [delete r[k]]. *)
Definition ref_delete (r : ref) (k : string) : js ref :=
  match r with
  | RUndefined => Throw (no_delete_property "undefined")
  | RNull => Throw (no_delete_property "null")
  | RItem o => Ok (RItem (delete k o))
  | RModel o => Ok (RModel (delete k o))
  end.

(** The record behind a reference, when there is one. *)
Definition ref_item (r : ref) : option item :=
  match r with
  | RUndefined | RNull => None
  | RItem o | RModel o => Some o
  end.

(** The reference to the same object after its record has changed by
    [f]. *)
Definition ref_map (f : item → item) (r : ref) : ref :=
  match r with
  | RUndefined => RUndefined
  | RNull => RNull
  | RItem o => RItem (f o)
  | RModel o => RModel (f o)
  end.

(** ** Lemmas *)

Lemma truthy_typeof_undefined v : typeof v = "undefined" → truthy v = false.
Proof. by destruct v. Qed.

Lemma typeof_undefined_iff v : typeof v = "undefined" ↔ v = VUndefined.
Proof. by destruct v. Qed.

Lemma typeof_string_iff v : typeof v = "string" ↔ ∃ s, v = VStr s.
Proof. destruct v; simpl; split; try done; try (by intros [? ?]). by eexists. Qed.

Lemma truthy_string v :
  typeof v = "string" → truthy v = true → ∃ s, v = VStr s ∧ s ≠ EmptyString.
Proof.
  intros [s ->]%typeof_string_iff Hs. exists s. split; [done|].
  intros ->. discriminate Hs.
Qed.

Lemma truthy_VStr s : truthy (VStr s) = true ↔ s ≠ EmptyString.
Proof. by destruct s. Qed.

(** [toString] throws on nothing but [undefined] and [null], which are
    falsy: behind a truthiness test it returns. *)
Lemma toString_truthy v : truthy v = true → is_ok (toString v) = true.
Proof. by destruct v. Qed.

Lemma toString_VStr_inv v s :
  typeof v = "string" → toString v = Ok s → v = VStr s.
Proof. intros [s' ->]%typeof_string_iff [= ->]. done. Qed.

Lemma strict_eq_sym a b : strict_eq a b = strict_eq b a.
Proof. destruct a, b; simpl; try done; apply bool_decide_ext; split; congruence. Qed.

Lemma strict_eq_VStr s t : strict_eq (VStr s) (VStr t) = true ↔ s = t.
Proof. simpl. apply bool_decide_eq_true. Qed.

Lemma strict_eq_refl v : strict_eq v v = true.
Proof. destruct v; simpl; try done; by apply bool_decide_eq_true. Qed.

(** Values that [===] equates have the same type and convert to the same
    string. *)
Lemma strict_eq_typeof a b : strict_eq a b = true → typeof a = typeof b.
Proof. by destruct a, b. Qed.

Lemma js_or_truthy a b : truthy (js_or a b) = truthy a || truthy b.
Proof. unfold js_or. by destruct (truthy a) eqn:Ha; rewrite ?Ha. Qed.


Section item_lemmas.
Implicit Types (o : item) (k j : string) (v : value).

Lemma get_prop_insert_eq o k v : get_prop (<[k := v]> o) k = v.
Proof. unfold get_prop. by rewrite lookup_insert_eq. Qed.

Lemma get_prop_insert_ne o k j v : k ≠ j → get_prop (<[k := v]> o) j = get_prop o j.
Proof. intros. unfold get_prop. by rewrite lookup_insert_ne. Qed.

Lemma get_prop_delete_eq o k : get_prop (delete k o) k = VUndefined.
Proof. unfold get_prop. by rewrite lookup_delete_eq. Qed.

Lemma get_prop_delete_ne o k j : k ≠ j → get_prop (delete k o) j = get_prop o j.
Proof. intros. unfold get_prop. by rewrite lookup_delete_ne. Qed.

Lemma get_prop_None o k : o !! k = None → get_prop o k = VUndefined.
Proof. unfold get_prop. by intros ->. Qed.

Lemma get_prop_Some o k v : o !! k = Some v → get_prop o k = v.
Proof. unfold get_prop. by intros ->. Qed.

Lemma get_prop_truthy_Some o k : truthy (get_prop o k) = true → o !! k = Some (get_prop o k).
Proof. unfold get_prop. by destruct (o !! k). Qed.

Lemma get_prop_empty k : get_prop ∅ k = VUndefined.
Proof. done. Qed.

Lemma get_prop_singleton k v : get_prop {[k := v]} k = v.
Proof. unfold get_prop. by rewrite lookup_singleton_eq. Qed.

End item_lemmas.

#[export] Hint Rewrite get_prop_insert_eq get_prop_delete_eq get_prop_empty
  get_prop_singleton : js.
#[export] Hint Rewrite get_prop_insert_ne get_prop_delete_ne using done : js.

Section ref_lemmas.
Implicit Types (r : ref) (o : item) (k : string) (v : value).

Lemma ref_get_ok r k : is_ok (ref_get r k) = ref_truthy r.
Proof. by destruct r. Qed.

Lemma ref_set_ok r k v : is_ok (ref_set r k v) = ref_truthy r.
Proof. by destruct r. Qed.

Lemma ref_delete_ok r k : is_ok (ref_delete r k) = ref_truthy r.
Proof. by destruct r. Qed.

Lemma ref_truthy_item r : ref_truthy r = true ↔ is_Some (ref_item r).
Proof. destruct r; simpl; split; try done; by intros [? ?]. Qed.

Lemma ref_get_item r o k : ref_item r = Some o → ref_get r k = Ok (get_prop o k).
Proof. destruct r; simpl; by intros [= ->]. Qed.

Lemma ref_get_throw_inv r k e : ref_get r k = Throw e → ref_truthy r = false.
Proof. by destruct r. Qed.

Lemma ref_set_item r o k v :
  ref_item r = Some o → ref_set r k v = Ok (ref_map (insert k v) r).
Proof. destruct r; simpl; by intros [= ->]. Qed.

Lemma ref_delete_item r o k :
  ref_item r = Some o → ref_delete r k = Ok (ref_map (delete k) r).
Proof. destruct r; simpl; by intros [= ->]. Qed.

Lemma ref_item_map (f : item → item) r : ref_item (ref_map f r) = f <$> ref_item r.
Proof. by destruct r. Qed.

Lemma ref_map_id (f : item → item) r o :
  ref_item r = Some o → f o = o → ref_map f r = r.
Proof. destruct r; simpl; intros [= ->] Hf; by rewrite ?Hf. Qed.

Lemma ref_map_ext (f g : item → item) r o :
  ref_item r = Some o → f o = g o → ref_map f r = ref_map g r.
Proof. destruct r; simpl; intros [= ->] Hf; by rewrite ?Hf. Qed.

Lemma ref_item_None_get r k : ref_item r = None → is_ok (ref_get r k) = false.
Proof. by destruct r. Qed.

End ref_lemmas.
