(* ===== verification/Regex.v ===== *)
(** * The regular expression of the validator

    [src/fb/field-fbId.js], line 25, tests a string with the literal
    [/^[0-9a-fA-F]{24}$/].  This file holds the regular expressions built
    from the operators that the literal uses (the anchors [^] and [$] without
    the multiline flag, a character class of ranges, a counted repetition
    [{n}] and concatenation), a matcher for them, [RegExp.prototype.test] for
    a pattern without flags, and the theorem that the test of the literal
    accepts exactly the strings of 24 hexadecimal digits. *)

From Stdlib Require Import Ascii String.
From S2P Require Import Prelude JsString.

(** ** Syntax *)

Inductive regex : Type :=
| RStart                                (* ^ *)
| REnd                                  (* $ *)
| RSet (ranges : list (ascii * ascii))  (* [a-b...] *)
| RCount (r : regex) (n : nat)          (* r{n} *)
| RCat (r1 r2 : regex).                 (* r1 r2 *)

(** ** Matching *)

(** A character is in a class when one of its ranges holds it. *)
Definition in_set (ranges : list (ascii * ascii)) (c : ascii) : bool :=
  existsb (λ lh, in_range lh.1 lh.2 c) ranges.

(** A match state is the index reached in the input and the input that
    remains after it. *)
Notation mstate := (nat * list ascii)%type.

(** [n] successive matches of [m]. *)
Fixpoint match_count (m : nat → list ascii → option mstate) (n : nat)
    (pos : nat) (rest : list ascii) : option mstate :=
  match n with
  | 0 => Some (pos, rest)
  | S n =>
      match m pos rest with
      | Some (pos', rest') => match_count m n pos' rest'
      | None => None
      end
  end.

(** [rmatch r pos rest] matches [r] at index [pos], where [rest] is the input
    from [pos] on.  The operators of this fragment leave no choice, so a
    match is a function of the start. *)
Fixpoint rmatch (r : regex) (pos : nat) (rest : list ascii) : option mstate :=
  match r with
  | RStart => if decide (pos = 0) then Some (pos, rest) else None
  | REnd => match rest with [] => Some (pos, rest) | _ :: _ => None end
  | RSet ranges =>
      match rest with
      | c :: rest' => if in_set ranges c then Some (S pos, rest') else None
      | [] => None
      end
  | RCount r n => match_count (rmatch r) n pos rest
  | RCat r1 r2 =>
      match rmatch r1 pos rest with
      | Some (pos', rest') => rmatch r2 pos' rest'
      | None => None
      end
  end.

(** [r.test(s)] for a pattern without flags: the search tries every start
    index from 0 to the length of [s]. *)
Definition regex_test (r : regex) (s : string) : bool :=
  let input := list_ascii_of_string s in
  existsb (λ i, bool_decide (is_Some (rmatch r i (drop i input))))
          (seq 0 (S (length input))).

(** The literal of line 25. *)
Definition objectid_regex : regex :=
  RCat RStart
    (RCat (RCount (RSet [("0", "9"); ("a", "f"); ("A", "F")]%char) 24) REnd).

(** The strings of 24 hexadecimal digits, said directly. *)
Definition is_objectid_string (s : string) : bool :=
  (String.length s =? 24)%nat && string_forallb is_hex_digit s.

(** ** Lemmas *)

Lemma in_set_hex c : in_set [("0", "9"); ("a", "f"); ("A", "F")]%char c = is_hex_digit c.
Proof. unfold in_set, is_hex_digit. simpl. by rewrite orb_false_r, orb_assoc. Qed.

Section matching.
Implicit Types (r : regex) (pos n : nat) (rest : list ascii).

(** The equations of [rmatch], for rewriting without unfolding the matcher
    of a subpattern. *)
Lemma rmatch_RCat r1 r2 pos rest :
  rmatch (RCat r1 r2) pos rest
  = match rmatch r1 pos rest with
    | Some (pos', rest') => rmatch r2 pos' rest'
    | None => None
    end.
Proof. done. Qed.

Lemma rmatch_RCount r n pos rest :
  rmatch (RCount r n) pos rest = match_count (rmatch r) n pos rest.
Proof. done. Qed.

Lemma rmatch_REnd pos rest :
  rmatch REnd pos rest = match rest with [] => Some (pos, rest) | _ :: _ => None end.
Proof. done. Qed.

(** A match moves forward: it returns a suffix of its input, and the index
    advances by what was consumed. *)
Lemma match_count_suffix (m : nat → list ascii → option mstate) n :
  (∀ pos rest pos' rest', m pos rest = Some (pos', rest') →
     rest' = drop (pos' - pos) rest ∧ pos ≤ pos' ∧ pos' - pos ≤ length rest) →
  ∀ pos rest pos' rest', match_count m n pos rest = Some (pos', rest') →
     rest' = drop (pos' - pos) rest ∧ pos ≤ pos' ∧ pos' - pos ≤ length rest.
Proof.
  intros Hm. induction n as [|n IH]; intros pos rest pos' rest'; simpl.
  - intros [= <- <-]. rewrite Nat.sub_diag. repeat split; [done|lia..].
  - destruct (m pos rest) as [[p l]|] eqn:E; [|done].
    intros H. destruct (Hm _ _ _ _ E) as (-> & ? & ?).
    destruct (IH _ _ _ _ H) as (-> & ? & Hlen).
    rewrite length_drop in Hlen. rewrite drop_drop.
    repeat split; [f_equal|..]; lia.
Qed.

Lemma rmatch_suffix r pos rest pos' rest' :
  rmatch r pos rest = Some (pos', rest') →
  rest' = drop (pos' - pos) rest ∧ pos ≤ pos' ∧ pos' - pos ≤ length rest.
Proof.
  revert pos rest pos' rest'.
  induction r as [| |ranges|r IH n|r1 IH1 r2 IH2]; intros pos rest pos' rest'; simpl.
  - case_decide; [|done]. intros [= <- <-]. rewrite Nat.sub_diag. repeat split; [done|lia..].
  - destruct rest; [|done]. intros [= <- <-]. by rewrite Nat.sub_diag.
  - destruct rest as [|c rest]; [done|]. case_match; [|done].
    intros [= <- <-]. replace (S pos - pos) with 1 by lia.
    split_and!; [by rewrite skipn_cons, drop_0|lia|simpl; lia].
  - by apply match_count_suffix.
  - destruct (rmatch r1 pos rest) as [[p l]|] eqn:E; [|done].
    intros H. destruct (IH1 _ _ _ _ E) as (-> & ? & ?).
    destruct (IH2 _ _ _ _ H) as (-> & ? & Hlen).
    rewrite length_drop in Hlen. rewrite drop_drop.
    repeat split; [f_equal|..]; lia.
Qed.

(** A counted class consumes [n] characters of the class or fails. *)
Lemma match_count_set ranges n pos rest :
  match_count (rmatch (RSet ranges)) n pos rest =
  if bool_decide (n ≤ length rest) && forallb (in_set ranges) (take n rest)
  then Some (pos + n, drop n rest) else None.
Proof.
  set (m := rmatch (RSet ranges)).
  assert (Hnil : ∀ pos, m pos [] = None) by done.
  assert (Hcons : ∀ pos c rest, m pos (c :: rest)
            = if in_set ranges c then Some (S pos, rest) else None) by done.
  clearbody m. revert pos rest. induction n as [|n IH]; intros pos rest.
  - simpl. by rewrite Nat.add_0_r.
  - cbn [match_count]. destruct rest as [|c rest]; [by rewrite Hnil|].
    rewrite Hcons. cbn [take forallb length].
    destruct (in_set ranges c); [|by rewrite andb_false_r].
    rewrite IH, (bool_decide_ext (S n ≤ S (length rest)) (n ≤ length rest)) by lia.
    by replace (S pos + n) with (pos + S n) by lia.
Qed.

(** A pattern anchored at the start matches at index 0 or nowhere. *)
Lemma rmatch_anchored_later r pos rest : pos ≠ 0 → rmatch (RCat RStart r) pos rest = None.
Proof. intros. simpl. by rewrite decide_False. Qed.

Lemma regex_test_anchored r s :
  regex_test (RCat RStart r) s
  = bool_decide (is_Some (rmatch r 0 (list_ascii_of_string s))).
Proof.
  unfold regex_test. cbn [seq existsb]. rewrite drop_0.
  rewrite existsb_false_forall, orb_false_r; [done|].
  intros i [? _]%in_seq. rewrite rmatch_anchored_later by lia.
  apply bool_decide_eq_false_2. by intros [? ?].
Qed.

End matching.


(** ** A counted class between the two anchors *)

Section exact_class.
Context (ranges : list (ascii * ascii)) (n : nat).

Lemma rmatch_exact_set (l : list ascii) :
  is_Some (rmatch (RCat (RCount (RSet ranges) n) REnd) 0 l)
  ↔ length l = n ∧ forallb (in_set ranges) l = true.
Proof.
  rewrite rmatch_RCat, rmatch_RCount, match_count_set. split.
  - destruct (bool_decide_reflect (n ≤ length l)) as [Hle|]; [|by intros [? ?]].
    cbn [andb]. destruct (forallb _ (take n l)) eqn:Hf; [|by intros [? ?]].
    rewrite rmatch_REnd. destruct (drop n l) eqn:Hd; [|by intros [? ?]].
    apply (f_equal length) in Hd. rewrite length_drop in Hd. simpl in Hd.
    intros _. split; [lia|]. by rewrite <-Hf, forallb_take_all by lia.
  - intros [<- Hf]. rewrite bool_decide_eq_true_2, firstn_all, Hf, drop_all by done.
    by eexists.
Qed.

Lemma regex_test_exact_set (s : string) :
  regex_test (RCat RStart (RCat (RCount (RSet ranges) n) REnd)) s
  = (String.length s =? n)%nat && string_forallb (in_set ranges) s.
Proof.
  rewrite regex_test_anchored, string_forallb_list, string_length_list.
  apply eq_true_iff_eq.
  rewrite bool_decide_eq_true, rmatch_exact_set, andb_true_iff, Nat.eqb_eq.
  done.
Qed.

End exact_class.

(** The test of the literal accepts the strings of 24 hexadecimal digits and
    no other. *)
Lemma regex_test_objectid_regex (s : string) :
  regex_test objectid_regex s = is_objectid_string s.
Proof.
  unfold objectid_regex, is_objectid_string. rewrite regex_test_exact_set.
  f_equal. apply string_forallb_ext, in_set_hex.
Qed.

Lemma is_objectid_string_length s : is_objectid_string s = true → String.length s = 24.
Proof. by intros [?%Nat.eqb_eq _]%andb_prop. Qed.

Lemma is_objectid_string_hex s :
  is_objectid_string s = true → string_forallb is_hex_digit s = true.
Proof. by intros [_ ?]%andb_prop. Qed.

Lemma is_objectid_string_nonempty s : is_objectid_string s = true → string_is_empty s = false.
Proof. intros Hs%is_objectid_string_length. by destruct s. Qed.

(** Whether a string is an identifier does not depend on its case. *)
Lemma is_objectid_string_toLowerCase s :
  is_objectid_string (toLowerCase s) = is_objectid_string s.
Proof. unfold is_objectid_string. by rewrite toLowerCase_length, toLowerCase_hex. Qed.

#[export] Instance is_objectid_string_proper : Proper (ci_eq ==> eq) is_objectid_string.
Proof.
  intros s t Hst.
  by rewrite <-(is_objectid_string_toLowerCase s), <-(is_objectid_string_toLowerCase t), Hst.
Qed.

#[export] Hint Rewrite regex_test_objectid_regex is_objectid_string_toLowerCase : js.
#[export] Hint Resolve is_objectid_string_nonempty is_objectid_string_hex : js.

(** C38: the matcher agrees with the direct reading of the literal: the test
    of [/^[0-9a-fA-F]{24}$/] succeeds on a string exactly when the string has
    24 characters and each of them is a hexadecimal digit. *)
Theorem objectid_regex_accepts (s : string) :
  regex_test objectid_regex s = true
  ↔ String.length s = 24 ∧ Forall (λ c, is_hex_digit c = true) (list_ascii_of_string s).
Proof.
  rewrite regex_test_objectid_regex. unfold is_objectid_string.
  rewrite andb_true_iff, Nat.eqb_eq, string_forallb_list, forallb_forall, Forall_forall.
  by setoid_rewrite list_elem_of_In.
Qed.

(** A search that is not anchored would accept more: without [^] and
    [$] the same class and count match inside a longer string, which the
    literal of the validator rejects. *)
Theorem objectid_regex_anchors :
  regex_test objectid_regex "x5f8d0d55b54764421b7156c3y" = false
  ∧ regex_test (RCount (RSet [("0", "9"); ("a", "f"); ("A", "F")]%char) 24)
      "x5f8d0d55b54764421b7156c3y" = true.
Proof. split; by vm_compute. Qed.
