(* ===== verification/Normalise.v ===== *)
(** * The validator and the normaliser of identifier values

    The two module-level functions of [src/fb/field-fbId.js], lines 25 and
    26: [validator], which the document-store adapter installs on the schema
    path of the field, and [normaliseValue], which the relational adapter
    applies when it saves, reads and queries.  The theorems say which values
    the validator accepts, that neither function throws, that a normalised
    value is [null] or a string in lower case, when normalisation is
    idempotent, and that it identifies exactly the strings that differ by
    case. *)

From Stdlib Require Import Ascii String.
From S2P Require Import Prelude JsString JsValue Regex.

(** ** The functions *)

(** [const validator = a => (a ? /^[0-9a-fA-F]{24}$/.test(a.toString()) : true)] *)
Definition validator (a : value) : js bool :=
  if truthy a then
    let* s := toString a in
    Ok (regex_test objectid_regex s)
  else Ok true.

(** [const normaliseValue = a => (a ? a.toString().toLowerCase() : null)] *)
Definition normaliseValue (a : value) : js value :=
  if truthy a then
    let* s := toString a in
    Ok (VStr (toLowerCase s))
  else Ok VNull.

(** ** What the theorems speak of *)

(** A value in normal form: [null], or a string in lower case. *)
Definition is_normal (v : value) : bool :=
  match v with
  | VNull => true
  | VStr s => is_lower_string s
  | _ => false
  end.

(** A canonical identifier: a string of 24 hexadecimal digits in lower
    case. *)
Definition is_canonical_id (v : value) : bool :=
  match v with
  | VStr s => (String.length s =? 24)%nat && string_forallb is_lower_hex_digit s
  | _ => false
  end.

(** The string that a truthy value converts to; the empty string stands for
    the values that [toString] is never applied to. *)
Definition string_of (a : value) : string :=
  match toString a with Ok s => s | Throw _ => EmptyString end.

(** ** Shared lemmas *)

Lemma toString_string_of a : truthy a = true → toString a = Ok (string_of a).
Proof. unfold string_of. by destruct a. Qed.

Lemma string_of_VStr s : string_of (VStr s) = s.
Proof. done. Qed.

Lemma validator_eq a :
  validator a = Ok (negb (truthy a) || is_objectid_string (string_of a)).
Proof.
  unfold validator. destruct (truthy a) eqn:Ha; [|done].
  rewrite toString_string_of by done. simpl. by rewrite regex_test_objectid_regex.
Qed.

Lemma normaliseValue_eq a :
  normaliseValue a
  = Ok (if truthy a then VStr (toLowerCase (string_of a)) else VNull).
Proof.
  unfold normaliseValue. destruct (truthy a) eqn:Ha; [|done].
  by rewrite toString_string_of.
Qed.

Lemma normaliseValue_VStr s :
  normaliseValue (VStr s)
  = Ok (if string_is_empty s then VNull else VStr (toLowerCase s)).
Proof. rewrite normaliseValue_eq. simpl. by destruct (string_is_empty s). Qed.

Lemma normaliseValue_falsy a : truthy a = false → normaliseValue a = Ok VNull.
Proof. intros Ha. by rewrite normaliseValue_eq, Ha. Qed.

Lemma is_canonical_id_objectid s :
  is_canonical_id (VStr s) = true → is_objectid_string s = true.
Proof.
  simpl. unfold is_objectid_string. intros [-> Hs]%andb_prop. simpl.
  revert Hs. apply string_forallb_impl, lower_hex_digit_hex.
Qed.

Lemma is_canonical_id_lower s :
  is_canonical_id (VStr s) = true → is_lower_string s = true.
Proof. simpl. intros [_ Hs]%andb_prop. by apply lower_hex_is_lower. Qed.

Lemma is_canonical_id_inv v :
  is_canonical_id v = true →
  ∃ s, v = VStr s ∧ is_objectid_string s = true ∧ toLowerCase s = s.
Proof.
  destruct v as [| | | |s|]; try done. intros Hs. exists s. split_and!; [done|..].
  - by apply is_canonical_id_objectid.
  - by apply toLowerCase_fixed, is_canonical_id_lower.
Qed.

Lemma is_canonical_id_truthy v : is_canonical_id v = true → truthy v = true.
Proof.
  intros (s & -> & Hs & _)%is_canonical_id_inv. simpl.
  by rewrite (is_objectid_string_nonempty s).
Qed.

Lemma is_canonical_id_toLowerCase s :
  is_objectid_string s = true → is_canonical_id (VStr (toLowerCase s)) = true.
Proof.
  unfold is_objectid_string. intros [Hl Hs]%andb_prop. simpl.
  by rewrite toLowerCase_length, Hl, toLowerCase_lower_hex.
Qed.

#[export] Hint Resolve is_canonical_id_truthy is_canonical_id_toLowerCase
  is_canonical_id_objectid is_canonical_id_lower : js.

(** ** The validator *)

(** C1: for every non-empty string the validator answers whether the string
    is made of exactly 24 hexadecimal digits, and it answers without
    throwing. *)
Theorem validator_string (s : string) :
  s ≠ EmptyString →
  validator (VStr s)
  = Ok ((String.length s =? 24)%nat && string_forallb is_hex_digit s).
Proof.
  intros Hs. rewrite validator_eq. simpl.
  by destruct s.
Qed.

Lemma validator_string_witness :
  validator (VStr "5F8D0D55B54764421B7156C3") = Ok true
  ∧ validator (VStr "5f8d0d55b54764421b7156c") = Ok false
  ∧ validator (VStr "5f8d0d55b54764421b7156c3a") = Ok false
  ∧ validator (VStr "5f8d0d55b54764421b7156cg") = Ok false.
Proof.
  split; [|split; [|split]].
  - by rewrite (validator_string "5F8D0D55B54764421B7156C3").
  - by rewrite (validator_string "5f8d0d55b54764421b7156c").
  - by rewrite (validator_string "5f8d0d55b54764421b7156c3a").
  - by rewrite (validator_string "5f8d0d55b54764421b7156cg").
Defined.

(** The validator accepts every falsy value: [undefined], [null],
    [false], [0] and the empty string pass, so an absent identifier is
    valid. *)
Theorem validator_falsy (a : value) :
  truthy a = false → validator a = Ok true.
Proof. intros Ha. by rewrite validator_eq, Ha. Qed.

Lemma validator_falsy_witness :
  validator VUndefined = Ok true ∧ validator (VStr "") = Ok true
  ∧ validator (VNum 0) = Ok true.
Proof.
  split_and!.
  - by apply (validator_falsy VUndefined).
  - by apply (validator_falsy (VStr "")).
  - by apply (validator_falsy (VNum 0)).
Defined.

(** The validator never throws: on every value it returns a boolean,
    because [toString] is only called on truthy values. *)
Theorem validator_total (a : value) : ∃ b, validator a = Ok b.
Proof. rewrite validator_eq. eauto. Qed.

(** A truthy value that is not a string is judged by the string that
    its [toString()] returns, so an object whose string form is 24
    hexadecimal digits (an [ObjectId]) is accepted. *)
Theorem validator_truthy (a : value) (s : string) :
  truthy a = true → toString a = Ok s →
  validator a = Ok (is_objectid_string s).
Proof. intros Ha Hs. unfold validator. by rewrite Ha, Hs; simpl; rewrite regex_test_objectid_regex. Qed.

Lemma validator_truthy_witness :
  validator (VObj 7 "5f8d0d55b54764421b7156c3") = Ok true
  ∧ validator (VNum 42) = Ok false.
Proof.
  split.
  - by rewrite (validator_truthy (VObj 7 "5f8d0d55b54764421b7156c3") "5f8d0d55b54764421b7156c3").
  - by rewrite (validator_truthy (VNum 42) "42").
Defined.

(** ** The normaliser *)

(** C8: [normaliseValue] never throws, and what it returns is [null] or a
    string in lower case. *)
Theorem normaliseValue_normal (a : value) :
  ∃ v, normaliseValue a = Ok v ∧ is_normal v = true.
Proof.
  rewrite normaliseValue_eq. eexists; split; [done|].
  destruct (truthy a); simpl; [apply toLowerCase_is_lower|done].
Qed.

(** Normalising a value in normal form that is not the empty string
    changes nothing. *)
Theorem normaliseValue_fixed (v : value) :
  is_normal v = true → v ≠ VStr "" → normaliseValue v = Ok v.
Proof.
  destruct v as [| | | |s|]; try done. simpl. intros Hs Hne.
  rewrite normaliseValue_VStr. destruct s; [done|]. simpl.
  by rewrite <-(toLowerCase_fixed _ Hs) at 2.
Qed.

Lemma normaliseValue_fixed_witness :
  normaliseValue (VStr "5f8d0d55b54764421b7156c3") = Ok (VStr "5f8d0d55b54764421b7156c3").
Proof. by apply (normaliseValue_fixed (VStr "5f8d0d55b54764421b7156c3")). Defined.

(** C37: normalisation is idempotent on every value whose string form is not
    empty: a second application returns what the first returned. *)
Theorem normaliseValue_idemp (a v : value) :
  (truthy a = true → string_of a ≠ EmptyString) →
  normaliseValue a = Ok v → normaliseValue v = Ok v.
Proof.
  rewrite normaliseValue_eq. intros Hne [= <-].
  destruct (truthy a) eqn:Ha; [|done].
  rewrite normaliseValue_VStr, toLowerCase_empty, toLowerCase_idemp.
  specialize (Hne eq_refl). by destruct (string_of a).
Qed.

Lemma normaliseValue_idemp_witness :
  normaliseValue (VStr "5F8D0D55B54764421B7156C3") = Ok (VStr "5f8d0d55b54764421b7156c3")
  ∧ normaliseValue (VStr "5f8d0d55b54764421b7156c3") = Ok (VStr "5f8d0d55b54764421b7156c3").
Proof.
  split; [done|].
  by apply (normaliseValue_idemp (VStr "5F8D0D55B54764421B7156C3")).
Defined.

(** Normalisation is not idempotent on a truthy value whose string form
    is empty, such as the empty array: the first application returns the
    empty string and the second returns [null]. *)
Theorem normaliseValue_not_idemp_empty_repr (addr : positive) :
  normaliseValue (VObj addr "") = Ok (VStr "")
  ∧ normaliseValue (VStr "") = Ok VNull.
Proof. done. Qed.


(** A truthy value that the validator accepts is normalised to a
    canonical identifier: 24 hexadecimal digits in lower case, which the
    validator accepts again. *)
Theorem validator_normaliseValue (a : value) :
  truthy a = true → validator a = Ok true →
  ∃ v, normaliseValue a = Ok v ∧ is_canonical_id v = true ∧ validator v = Ok true.
Proof.
  rewrite validator_eq, normaliseValue_eq. intros -> [= Hs]. simpl in Hs.
  eexists; split_and!; [done|by apply is_canonical_id_toLowerCase|].
  rewrite validator_eq, string_of_VStr, is_objectid_string_toLowerCase, Hs.
  by rewrite orb_true_r.
Qed.

Lemma validator_normaliseValue_witness :
  ∃ v, normaliseValue (VStr "5F8D0D55B54764421B7156C3") = Ok v
       ∧ is_canonical_id v = true ∧ validator v = Ok true.
Proof. by apply (validator_normaliseValue (VStr "5F8D0D55B54764421B7156C3")). Defined.

(** Two non-empty strings are normalised to the same value exactly when
    they are equal up to case. *)
Theorem normaliseValue_ci (s t : string) :
  s ≠ EmptyString → t ≠ EmptyString →
  normaliseValue (VStr s) = normaliseValue (VStr t) ↔ ci_eq s t.
Proof.
  intros Hs Ht. rewrite !normaliseValue_VStr.
  destruct s, t; try done. simpl. unfold ci_eq. simpl. split; congruence.
Qed.

Lemma normaliseValue_ci_witness :
  normaliseValue (VStr "5F8D0D55B54764421B7156C3")
  = normaliseValue (VStr "5f8d0d55b54764421b7156C3").
Proof.
  by apply (normaliseValue_ci "5F8D0D55B54764421B7156C3" "5f8d0d55b54764421b7156C3").
Defined.

(** The validator does not see case: strings equal up to case are
    accepted together or rejected together. *)
Theorem validator_ci (s t : string) :
  ci_eq s t → validator (VStr s) = validator (VStr t).
Proof.
  intros Hst. rewrite !validator_eq, !string_of_VStr. simpl.
  by rewrite <-(toLowerCase_empty s), <-(toLowerCase_empty t), Hst.
Qed.

Lemma validator_ci_witness :
  validator (VStr "5F8D0D55B54764421B7156C3") = validator (VStr "5f8d0d55b54764421b7156c3").
Proof.
  by apply (validator_ci "5F8D0D55B54764421B7156C3" "5f8d0d55b54764421b7156c3").
Defined.
