(* ===== verification/Framework.v ===== *)
(** * What the adapters ask of the framework

    The classes of [src/fb/field-fbId.js] extend base classes that are not in
    the repository's sources ([FirebaseFieldAdapter], [KnexFieldAdapter]) and
    are driven by a list adapter that registers and runs their hooks.  This
    file states what the adapters use of them: the hook registry
    ([addPreSaveHook], [addPostReadHook] and the two runs over the registered
    hooks), the query conditions that [getQueryConditions] returns, and, as a
    class, the inherited methods [equalityConditions] and [inConditions] with
    the laws the adapters rely on.  [StandardBase] is the instance that
    follows the conventions of the framework's own adapters; the theorems of
    the adapter files are proved for every instance. *)

From S2P Require Import Prelude JsString JsValue.

(** ** The hook registry *)

(** A hook receives the item (or whatever stands for it) and returns it. *)
Notation hook := (ref → js ref).

Record hooks : Type := Hooks {
  preSaveHooks : list hook;
  postReadHooks : list hook;
}.

Definition no_hooks : hooks := Hooks [] [].

(** [addPreSaveHook(hook)] and [addPostReadHook(hook)]: the hook is pushed
    after the ones already registered. *)
Definition addPreSaveHook (h : hook) (hs : hooks) : hooks :=
  Hooks (preSaveHooks hs ++ [h]) (postReadHooks hs).

Definition addPostReadHook (h : hook) (hs : hooks) : hooks :=
  Hooks (preSaveHooks hs) (postReadHooks hs ++ [h]).

(** The runs: every registered hook in order of registration, each on the
    result of the one before; a throw ends the run. *)
Definition onPreSave (hs : hooks) (r : ref) : js ref := rfold (preSaveHooks hs) r.
Definition onPostRead (hs : hooks) (r : ref) : js ref := rfold (postReadHooks hs) r.

(** ** Query conditions *)

(** The fragments of a filter that a builder produces: a comparison of the
    column or document path [dbPath] with one operand or with a list. *)
Inductive cond : Type :=
| CEq (dbPath : string) (v : value)
| CNe (dbPath : string) (v : value)
| CIn (dbPath : string) (vs : list value)
| CNotIn (dbPath : string) (vs : list value).

#[export] Instance cond_eq_dec : EqDecision cond.
Proof. solve_decision. Defined.

(** A builder takes the argument of the query: one value for the equality
    keys, an array for the membership keys. *)
Inductive builder : Type :=
| BOne (b : value → js cond)
| BMany (b : list value → js cond).

(** The object that [getQueryConditions] returns: builders by query key. *)
Notation conditions := (gmap string builder).

(** [{...a, ...b}]: the properties of [b] override those of [a]. *)
Definition spread {A} (a b : gmap string A) : gmap string A := b ∪ a.

(** Applying the builder of a key to its argument. *)
Definition build_one (cs : conditions) (key : string) (v : value) : option (js cond) :=
  match cs !! key with
  | Some (BOne b) => Some (b v)
  | _ => None
  end.

Definition build_many (cs : conditions) (key : string) (vs : list value) : option (js cond) :=
  match cs !! key with
  | Some (BMany b) => Some (b vs)
  | _ => None
  end.

(** Whether a stored record satisfies a condition.  The operands of the
    theorems are strings, on which the equality of the document store and of
    the relational store are the equality of values. *)
Definition cond_holds (c : cond) (row : item) : bool :=
  match c with
  | CEq d v => bool_decide (get_prop row d = v)
  | CNe d v => bool_decide (get_prop row d ≠ v)
  | CIn d vs => bool_decide (get_prop row d ∈ vs)
  | CNotIn d vs => bool_decide (get_prop row d ∉ vs)
  end.

(** ** The inherited query methods *)

(** [this.equalityConditions(dbPath, f)] and [this.inConditions(dbPath, f)]
    of the adapter whose field is at [path]; [f] converts the operands.  The
    laws fix the keys, and what the two positive builders return; the
    builders of the negated keys are only known to exist. *)
Class QueryBase : Type := {
  equalityConditions : string → string → (value → js value) → conditions;
  inConditions : string → string → (value → js value) → conditions;
  equalityConditions_dom path dbPath f :
    dom (equalityConditions path dbPath f) = {[path; path +:+ "_not"]};
  inConditions_dom path dbPath f :
    dom (inConditions path dbPath f) = {[path +:+ "_in"; path +:+ "_not_in"]};
  equalityConditions_eq path dbPath f v :
    build_one (equalityConditions path dbPath f) path v
    = Some (rmap (CEq dbPath) (f v));
  inConditions_in path dbPath f vs :
    VNull ∉ vs →
    build_many (inConditions path dbPath f) (path +:+ "_in") vs
    = Some (rmap (CIn dbPath) (rmapM f vs));
}.

(** ** The standard base *)

Definition standard_equalityConditions (path dbPath : string)
    (f : value → js value) : conditions :=
  {[ path := BOne (λ v, let* x := f v in Ok (CEq dbPath x));
     path +:+ "_not" := BOne (λ v, let* x := f v in Ok (CNe dbPath x)) ]}.

Definition standard_inConditions (path dbPath : string)
    (f : value → js value) : conditions :=
  {[ path +:+ "_in" := BMany (λ vs, let* xs := rmapM f vs in Ok (CIn dbPath xs));
     path +:+ "_not_in" := BMany (λ vs, let* xs := rmapM f vs in Ok (CNotIn dbPath xs)) ]}.

(** ** Lemmas *)

Section suffix_lemmas.
Implicit Types (p : string).

Lemma string_app_length p q : String.length (p +:+ q) = String.length p + String.length q.
Proof. induction p; simpl; [done|]. f_equal. apply IHp. Qed.

Lemma string_app_ne p q : q ≠ EmptyString → p ≠ p +:+ q.
Proof.
  intros Hq Heq. apply (f_equal String.length) in Heq.
  rewrite string_app_length in Heq. destruct q; [done|]. simpl in Heq. lia.
Qed.

Lemma string_app_inj_l p q1 q2 : p +:+ q1 = p +:+ q2 → q1 = q2.
Proof. apply String.app_inj. Qed.

Lemma key_not_ne p : p ≠ p +:+ "_not".
Proof. by apply string_app_ne. Qed.

Lemma key_in_ne p : p ≠ p +:+ "_in".
Proof. by apply string_app_ne. Qed.

Lemma key_not_in_ne p : p ≠ p +:+ "_not_in".
Proof. by apply string_app_ne. Qed.

Lemma key_in_not_in_ne p : p +:+ "_in" ≠ p +:+ "_not_in".
Proof. by intros ?%string_app_inj_l. Qed.

Lemma key_not_in_ne' p : p +:+ "_not" ≠ p +:+ "_in".
Proof. by intros ?%string_app_inj_l. Qed.

Lemma key_not_not_in_ne p : p +:+ "_not" ≠ p +:+ "_not_in".
Proof. by intros ?%string_app_inj_l. Qed.

End suffix_lemmas.

#[export] Hint Resolve key_not_ne key_in_ne key_not_in_ne key_in_not_in_ne
  key_not_in_ne' key_not_not_in_ne : js.

#[export, refine] Instance StandardBase : QueryBase := {
  equalityConditions := standard_equalityConditions;
  inConditions := standard_inConditions;
}.
Proof.
  - intros. unfold standard_equalityConditions. by rewrite dom_insert_L, dom_singleton_L.
  - intros. unfold standard_inConditions. by rewrite dom_insert_L, dom_singleton_L.
  - intros. unfold build_one, standard_equalityConditions. by rewrite lookup_insert_eq.
  - intros. unfold build_many, standard_inConditions. by rewrite lookup_insert_eq.
Defined.

Section hooks_lemmas.
Implicit Types (h : hook) (hs : hooks) (r : ref).

Lemma onPreSave_addPreSaveHook h hs r :
  onPreSave (addPreSaveHook h hs) r = let* r' := onPreSave hs r in h r'.
Proof.
  unfold onPreSave. simpl. rewrite rfold_app.
  apply rbind_ext. intros. apply rfold_singleton.
Qed.

Lemma onPostRead_addPostReadHook h hs r :
  onPostRead (addPostReadHook h hs) r = let* r' := onPostRead hs r in h r'.
Proof.
  unfold onPostRead. simpl. rewrite rfold_app.
  apply rbind_ext. intros. apply rfold_singleton.
Qed.

Lemma onPreSave_addPostReadHook h hs r :
  onPreSave (addPostReadHook h hs) r = onPreSave hs r.
Proof. done. Qed.

Lemma onPostRead_addPreSaveHook h hs r :
  onPostRead (addPreSaveHook h hs) r = onPostRead hs r.
Proof. done. Qed.

Lemma onPreSave_no_hooks r : onPreSave no_hooks r = Ok r.
Proof. done. Qed.

Lemma onPostRead_no_hooks r : onPostRead no_hooks r = Ok r.
Proof. done. Qed.

End hooks_lemmas.

#[export] Hint Rewrite onPreSave_addPreSaveHook onPostRead_addPostReadHook
  onPreSave_addPostReadHook onPostRead_addPreSaveHook
  onPreSave_no_hooks onPostRead_no_hooks : js.

Section spread_lemmas.
Context {A : Type}.
Implicit Types (a b : gmap string A) (k : string).

Lemma spread_lookup_r a b k x : b !! k = Some x → spread a b !! k = Some x.
Proof. intros. unfold spread. by apply lookup_union_Some_l. Qed.

Lemma spread_lookup_l a b k : b !! k = None → spread a b !! k = a !! k.
Proof. intros. unfold spread. by apply lookup_union_r. Qed.

Lemma spread_dom a b : dom (spread a b) = dom a ∪ dom b.
Proof. unfold spread. rewrite dom_union_L. set_solver. Qed.

End spread_lemmas.

(** What the adapters need of a base: the builders of the four keys of the
    spread of the two families. *)
Section query_base_lemmas.
Context `{!QueryBase}.
Implicit Types (path dbPath : string) (f : value → js value).

Lemma inConditions_no_eq_key path dbPath f :
  inConditions path dbPath f !! path = None.
Proof.
  apply not_elem_of_dom. rewrite inConditions_dom.
  pose proof (key_in_ne path). pose proof (key_not_in_ne path). set_solver.
Qed.

Lemma equalityConditions_no_in_key path dbPath f :
  equalityConditions path dbPath f !! (path +:+ "_in") = None.
Proof.
  apply not_elem_of_dom. rewrite equalityConditions_dom.
  pose proof (key_in_ne path). pose proof (key_not_in_ne' path). set_solver.
Qed.

Lemma spread_conditions_dom path dbPath f g :
  dom (spread (equalityConditions path dbPath f) (inConditions path dbPath g))
  = {[path; path +:+ "_not"; path +:+ "_in"; path +:+ "_not_in"]}.
Proof. rewrite spread_dom, equalityConditions_dom, inConditions_dom. set_solver. Qed.

Lemma spread_conditions_eq path dbPath f g v :
  build_one (spread (equalityConditions path dbPath f) (inConditions path dbPath g)) path v
  = Some (rmap (CEq dbPath) (f v)).
Proof.
  unfold build_one. rewrite spread_lookup_l by apply inConditions_no_eq_key.
  apply equalityConditions_eq.
Qed.

Lemma spread_conditions_in path dbPath f g vs :
  VNull ∉ vs →
  build_many (spread (equalityConditions path dbPath f) (inConditions path dbPath g))
    (path +:+ "_in") vs
  = Some (rmap (CIn dbPath) (rmapM g vs)).
Proof.
  intros Hvs. pose proof (inConditions_in path dbPath g vs Hvs) as Hin.
  unfold build_many in *.
  destruct (inConditions path dbPath g !! (path +:+ "_in")) as [b|] eqn:Hb; [|done].
  by rewrite (spread_lookup_r _ _ _ _ Hb).
Qed.

End query_base_lemmas.
