(* ===== verification/KnexAdapter.v ===== *)
(** * The relational adapter of the identifier field

    [KnexMongoIdInterface], [src/fb/field-fbId.js] lines 80 to 124: the
    constructor that derives [isUnique] and [isIndexed] from the
    configuration, [addToTableSchema], which declares the column, the two
    hooks that [setupHooks] registers, and [getQueryConditions].  The table
    builder of the query library is modelled by the columns it has been
    asked for.  The theorems give the branch taken by the pre-save hook on
    every value, the invariant it establishes on what is stored (the field is
    absent or a non-empty string in lower case), that reading back what was
    saved changes nothing, that a column is never both unique and indexed,
    and that a query finds a saved record by any spelling of its identifier
    that differs only by case. *)

From Stdlib Require Import Ascii String.
From S2P Require Import Prelude JsString JsValue Regex Normalise Framework.

(** ** The table builder *)

(** A column as the builder knows it once [addToTableSchema] returns:
    [table.string(name, length)] creates it, and [unique()], [index()],
    [notNullable()] and [defaultTo(v)] set one attribute each. *)
Record column : Type := Column {
  col_name : string;
  col_length : nat;
  col_unique : bool;
  col_index : bool;
  col_notNullable : bool;
  col_defaultTo : option value;
}.

#[export] Instance column_eq_dec : EqDecision column.
Proof. solve_decision. Defined.

(** The columns of a table, in the order of their declaration. *)
Notation table := (list column).

Definition table_string (name : string) (length : nat) : column :=
  Column name length false false false None.

Definition column_unique (c : column) : column :=
  Column (col_name c) (col_length c) true (col_index c) (col_notNullable c) (col_defaultTo c).

Definition column_index (c : column) : column :=
  Column (col_name c) (col_length c) (col_unique c) true (col_notNullable c) (col_defaultTo c).

Definition column_notNullable (c : column) : column :=
  Column (col_name c) (col_length c) (col_unique c) (col_index c) true (col_defaultTo c).

Definition column_defaultTo (v : value) (c : column) : column :=
  Column (col_name c) (col_length c) (col_unique c) (col_index c) (col_notNullable c) (Some v).

Module KnexMongoIdInterface.

(** ** The adapter *)

(** What [super(...arguments)] leaves on [this]: the path of the field, its
    configuration, and the two column options that the base class reads from
    the configuration. *)
Record base : Type := Base {
  base_path : string;
  base_config : item;
  base_isNotNullable : value;
  base_defaultTo : value;
}.

(** The adapter after its constructor. *)
Record t : Type := Adapter {
  path : string;
  config : item;
  isNotNullable : value;
  defaultTo : value;
  isUnique : bool;
  isIndexed : bool;
}.

(** [constructor() { super(...arguments);
      this.isUnique = !!this.config.isUnique;
      this.isIndexed = !!this.config.isIndexed && !this.config.isUnique; }] *)
Definition new (b : base) : t :=
  Adapter (base_path b) (base_config b) (base_isNotNullable b) (base_defaultTo b)
    (truthy (get_prop (base_config b) "isUnique"))
    (truthy (get_prop (base_config b) "isIndexed")
     && negb (truthy (get_prop (base_config b) "isUnique"))).

(** [addToTableSchema(table)]: the column is created in the table and then
    configured; the table afterwards holds it with its attributes. *)
Definition addToTableSchema (a : t) (tbl : table) : table :=
  let column := table_string (path a) 24 in
  let column :=
    if isUnique a then column_unique column
    else if isIndexed a then column_index column
    else column in
  let column := if truthy (isNotNullable a) then column_notNullable column else column in
  let column := if truthy (defaultTo a) then column_defaultTo (defaultTo a) column else column in
  tbl ++ [column].

(** The message of the [throw] of line 105. *)
Definition invalid_value (a : t) : exn :=
  Thrown (VStr ("Invalid value given for '" +:+ path a +:+ "'")).

(** The pre-save hook, lines 96 to 109. *)
Definition preSaveHook (a : t) (item : ref) : js ref :=
  let* v := ref_get item (path a) in
  let valType := typeof v in
  if truthy v && bool_decide (valType = "string") then
    let* n := normaliseValue v in
    ref_set item (path a) n
  else if negb (truthy v) || bool_decide (valType = "undefined") then
    ref_delete item (path a)
  else
    Throw (invalid_value a).

(** The post-read hook, lines 110 to 115. *)
Definition postReadHook (a : t) (item : ref) : js ref :=
  let* v := ref_get item (path a) in
  if truthy v then
    let* n := normaliseValue v in
    ref_set item (path a) n
  else Ok item.

(** [setupHooks({ addPreSaveHook, addPostReadHook })] *)
Definition setupHooks (a : t) (hs : hooks) : hooks :=
  addPostReadHook (postReadHook a) (addPreSaveHook (preSaveHook a) hs).

(** [getQueryConditions(dbPath)] *)
Definition getQueryConditions {QB : QueryBase} (a : t) (dbPath : string) : conditions :=
  spread (equalityConditions (path a) dbPath normaliseValue)
         (inConditions (path a) dbPath normaliseValue).

(** ** What the theorems speak of *)

(** What a saved record holds at the path of the field: nothing, or a
    non-empty string in lower case. *)
Definition stored_ok (p : string) (o : item) : bool :=
  match o !! p with
  | None => true
  | Some (VStr s) => negb (string_is_empty s) && is_lower_string s
  | Some _ => false
  end.

(** The record that the pre-save hook leaves for a record [o]: the field in
    lower case when it is a non-empty string, no field when it is falsy. *)
Definition saved (p : string) (o : item) : item :=
  match get_prop o p with
  | VStr s => if string_is_empty s then delete p o else <[p := VStr (toLowerCase s)]> o
  | _ => delete p o
  end.

(** Whether the pre-save hook lets a value of the field through. *)
Definition savable (v : value) : bool :=
  negb (truthy v) || bool_decide (typeof v = "string").

(** A table in which no column is both unique and indexed. *)
Definition table_ok (tbl : table) : Prop :=
  Forall (λ c, col_unique c && col_index c = false) tbl.

(** ** Shared lemmas *)

Section hook_lemmas.
Context (a : t).
Implicit Types (o : item) (r : ref) (s : string) (v : value).

(** The second test of the pre-save hook adds nothing to its first
    disjunct: [undefined] is falsy. *)
Lemma knex_second_test_eq v :
  negb (truthy v) || bool_decide (typeof v = "undefined") = negb (truthy v).
Proof. by destruct v as [| |[]| | |]; try done; simpl; rewrite orb_false_r. Qed.

Lemma knex_saved_falsy o : truthy (get_prop o (path a)) = false → saved (path a) o = delete (path a) o.
Proof. unfold saved. destruct (get_prop o (path a)) as [| | | |[]|]; by try done. Qed.

Lemma knex_saved_string o s :
  get_prop o (path a) = VStr s → s ≠ EmptyString →
  saved (path a) o = <[path a := VStr (toLowerCase s)]> o.
Proof. unfold saved. intros -> Hs. by destruct s. Qed.

(** The pre-save hook on an object: it saves or throws, by the value of the
    field. *)
Lemma knex_preSaveHook_eq r o :
  ref_item r = Some o →
  preSaveHook a r
  = if savable (get_prop o (path a)) then Ok (ref_map (saved (path a)) r)
    else Throw (invalid_value a).
Proof.
  intros Hr. unfold preSaveHook, savable.
  rewrite (ref_get_item _ _ _ Hr). simpl. rewrite knex_second_test_eq.
  destruct (truthy (get_prop o (path a))) eqn:Ht; simpl.
  - case_bool_decide as Hty; [|done].
    destruct (truthy_string _ Hty Ht) as (s & Hs & Hne).
    rewrite Hs, normaliseValue_VStr. destruct s; [done|]. simpl.
    rewrite (ref_set_item _ _ _ _ Hr). f_equal.
    apply (ref_map_ext _ _ _ _ Hr). by rewrite (knex_saved_string _ _ Hs).
  - rewrite (ref_delete_item _ _ _ Hr). f_equal.
    apply (ref_map_ext _ _ _ _ Hr). by rewrite knex_saved_falsy.
Qed.

Lemma knex_preSaveHook_nullish r : ref_item r = None → is_ok (preSaveHook a r) = false.
Proof. by destruct r. Qed.

Lemma knex_preSaveHook_Ok_inv r r' :
  preSaveHook a r = Ok r' →
  ∃ o, ref_item r = Some o ∧ savable (get_prop o (path a)) = true
       ∧ r' = ref_map (saved (path a)) r.
Proof.
  destruct (ref_item r) as [o|] eqn:Hr.
  - rewrite (knex_preSaveHook_eq _ _ Hr). case_match; [|done]. intros [= <-]. eauto.
  - intros Hok. apply knex_preSaveHook_nullish in Hr. by rewrite Hok in Hr.
Qed.

Lemma knex_stored_ok_saved o : stored_ok (path a) (saved (path a) o) = true.
Proof.
  unfold stored_ok, saved.
  destruct (get_prop o (path a)) as [| | | |s|]; rewrite ?lookup_delete_eq; try done.
  destruct (string_is_empty s) eqn:Hs; [by rewrite lookup_delete_eq|].
  by rewrite lookup_insert_eq, toLowerCase_empty, Hs, toLowerCase_is_lower.
Qed.

(** A record that satisfies the invariant is saved as it is. *)
Lemma knex_saved_stored_ok o : stored_ok (path a) o = true → saved (path a) o = o.
Proof.
  unfold stored_ok, saved, get_prop.
  destruct (o !! path a) as [[| | | |s|]|] eqn:Ho; simpl; try done.
  - intros [Hs Hl]%andb_prop. destruct (string_is_empty s); [done|].
    rewrite toLowerCase_fixed by done. by apply insert_id.
  - intros _. by apply delete_id.
Qed.

Lemma knex_stored_ok_savable o : stored_ok (path a) o = true → savable (get_prop o (path a)) = true.
Proof.
  unfold stored_ok, savable, get_prop.
  destruct (o !! path a) as [[| | | |s|]|]; simpl; try done.
  intros _. by rewrite orb_true_r.
Qed.

Lemma knex_saved_other o k : k ≠ path a → saved (path a) o !! k = o !! k.
Proof.
  intros Hk. unfold saved.
  destruct (get_prop o (path a)) as [| | | |s|]; rewrite ?lookup_delete_ne by done; try done.
  destruct (string_is_empty s); by rewrite ?lookup_delete_ne, ?lookup_insert_ne by done.
Qed.

(** What is stored for a non-empty string is its lower case. *)
Lemma knex_saved_get_string o s :
  get_prop o (path a) = VStr s → s ≠ EmptyString →
  get_prop (saved (path a) o) (path a) = VStr (toLowerCase s).
Proof. intros Hs Hne. by rewrite (knex_saved_string _ _ Hs Hne), get_prop_insert_eq. Qed.

(** The post-read hook on an object. *)
Lemma knex_postReadHook_eq r o :
  ref_item r = Some o →
  postReadHook a r
  = Ok (if truthy (get_prop o (path a))
        then ref_map (insert (path a) (VStr (toLowerCase (string_of (get_prop o (path a)))))) r
        else r).
Proof.
  intros Hr. unfold postReadHook. rewrite (ref_get_item _ _ _ Hr). simpl.
  rewrite normaliseValue_eq. destruct (truthy (get_prop o (path a))); [|done].
  simpl. by rewrite (ref_set_item _ _ _ _ Hr).
Qed.

Lemma knex_postReadHook_stored_ok r o :
  ref_item r = Some o → stored_ok (path a) o = true → postReadHook a r = Ok r.
Proof.
  intros Hr. rewrite (knex_postReadHook_eq _ _ Hr). unfold stored_ok, get_prop.
  destruct (o !! path a) as [[| | | |s|]|] eqn:Ho; simpl; try done.
  intros [-> Hl]%andb_prop. simpl. rewrite string_of_VStr, toLowerCase_fixed by done.
  f_equal. apply (ref_map_id _ _ _ Hr). by apply insert_id.
Qed.

End hook_lemmas.

#[export] Hint Resolve knex_stored_ok_saved knex_saved_stored_ok knex_stored_ok_savable : js.

(** ** The constructor and the column *)

(** C10: the constructor never leaves an adapter both unique and indexed:
    whatever the configuration holds, [isIndexed] is false when [isUnique]
    is true. *)
Theorem knex_new_not_unique_and_indexed (b : base) :
  isUnique (new b) && isIndexed (new b) = false.
Proof. simpl. by destruct (truthy (get_prop (base_config b) "isUnique")), (truthy _). Qed.

(** [addToTableSchema] appends one column to the table: a string column
    of length 24 named by the path of the field, unique when the adapter is
    unique, indexed when it is indexed and not unique, not nullable and with
    a default when these options are truthy. *)
Theorem knex_addToTableSchema_column (a : t) (tbl : table) :
  addToTableSchema a tbl
  = tbl ++ [Column (path a) 24 (isUnique a) (negb (isUnique a) && isIndexed a)
              (truthy (isNotNullable a))
              (if truthy (defaultTo a) then Some (defaultTo a) else None)].
Proof.
  unfold addToTableSchema.
  by destruct (isUnique a), (isIndexed a), (truthy (isNotNullable a)), (truthy (defaultTo a)).
Qed.

(** C4: no column is ever both unique and indexed: [addToTableSchema]
    preserves that invariant of the table for every adapter, even one whose
    two flags are both set. *)
Theorem knex_addToTableSchema_table_ok (a : t) (tbl : table) :
  table_ok tbl → table_ok (addToTableSchema a tbl).
Proof.
  intros Htbl. unfold addToTableSchema. apply Forall_app; split; [done|].
  apply Forall_singleton.
  by destruct (isUnique a), (isIndexed a), (truthy (isNotNullable a)), (truthy (defaultTo a)).
Qed.

Lemma knex_addToTableSchema_table_ok_witness :
  table_ok (addToTableSchema (Adapter "fbId" ∅ (VBool true) VUndefined true true) []).
Proof. apply (knex_addToTableSchema_table_ok _ []). constructor. Defined.

(** ** The pre-save hook *)

(** When the field holds a non-empty string, the pre-save hook replaces
    it by its lower case and changes nothing else. *)
Theorem knex_preSaveHook_string (a : t) (r : ref) (o : item) (s : string) :
  ref_item r = Some o → get_prop o (path a) = VStr s → s ≠ EmptyString →
  preSaveHook a r = Ok (ref_map (insert (path a) (VStr (toLowerCase s))) r).
Proof.
  intros Hr Hs Hne. rewrite (knex_preSaveHook_eq _ _ _ Hr), Hs. unfold savable. simpl.
  rewrite orb_true_r. f_equal. apply (ref_map_ext _ _ _ _ Hr). by apply knex_saved_string.
Qed.

Lemma knex_preSaveHook_string_witness :
  preSaveHook (new (Base "fbId" ∅ VUndefined VUndefined))
    (RItem {["fbId" := VStr "5F8D0D55B54764421B7156C3"; "name" := VStr "Ada"]})
  = Ok (RItem {["fbId" := VStr "5f8d0d55b54764421b7156c3"; "name" := VStr "Ada"]}).
Proof.
  set (o := {["fbId" := VStr "5F8D0D55B54764421B7156C3"; "name" := VStr "Ada"]} : item).
  set (a := new (Base "fbId" ∅ VUndefined VUndefined)).
  rewrite (knex_preSaveHook_string a (RItem o) o "5F8D0D55B54764421B7156C3" eq_refl eq_refl); [|done].
  by vm_compute.
Defined.

(** C40: when the field is absent or holds a falsy value ([undefined],
    [null], [false], [0] or the empty string), the pre-save hook deletes the
    field and does not throw. *)
Theorem knex_preSaveHook_falsy (a : t) (r : ref) (o : item) :
  ref_item r = Some o → truthy (get_prop o (path a)) = false →
  preSaveHook a r = Ok (ref_map (delete (path a)) r).
Proof.
  intros Hr Hv. rewrite (knex_preSaveHook_eq _ _ _ Hr). unfold savable. rewrite Hv. simpl.
  f_equal. apply (ref_map_ext _ _ _ _ Hr). by apply knex_saved_falsy.
Qed.

Lemma knex_preSaveHook_falsy_witness :
  preSaveHook (new (Base "fbId" ∅ VUndefined VUndefined))
    (RItem {["fbId" := VNull; "name" := VStr "Ada"]})
  = Ok (RItem {["name" := VStr "Ada"]}).
Proof.
  set (o := {["fbId" := VNull; "name" := VStr "Ada"]} : item).
  set (a := new (Base "fbId" ∅ VUndefined VUndefined)).
  rewrite (knex_preSaveHook_falsy a (RItem o) o eq_refl eq_refl).
  by vm_compute.
Defined.

(** C9: when the field holds a truthy value that is not a string (a number,
    [true], an object), the pre-save hook throws the string
    [Invalid value given for '<path>']. *)
Theorem knex_preSaveHook_invalid (a : t) (r : ref) (o : item) :
  ref_item r = Some o →
  truthy (get_prop o (path a)) = true → typeof (get_prop o (path a)) ≠ "string" →
  preSaveHook a r
  = Throw (Thrown (VStr ("Invalid value given for '" +:+ path a +:+ "'"))).
Proof.
  intros Hr Hv Hty. rewrite (knex_preSaveHook_eq _ _ _ Hr). unfold savable.
  by rewrite Hv, bool_decide_eq_false_2.
Qed.

Lemma knex_preSaveHook_invalid_witness :
  preSaveHook (new (Base "fbId" ∅ VUndefined VUndefined)) (RItem {["fbId" := VNum 7]})
  = Throw (Thrown (VStr "Invalid value given for 'fbId'")).
Proof.
  by apply (knex_preSaveHook_invalid (new (Base "fbId" ∅ VUndefined VUndefined))
              (RItem {["fbId" := VNum 7]}) {["fbId" := VNum 7]} eq_refl).
Defined.

(** C2: whatever the pre-save hook returns satisfies the invariant of stored
    records: the field is absent, or it is a non-empty string in lower
    case. *)
Theorem knex_preSaveHook_stored_ok (a : t) (r r' : ref) :
  preSaveHook a r = Ok r' →
  ∃ o', ref_item r' = Some o' ∧ stored_ok (path a) o' = true.
Proof.
  intros (o & Hr & _ & ->)%knex_preSaveHook_Ok_inv.
  exists (saved (path a) o). rewrite ref_item_map, Hr. split; [done|].
  apply knex_stored_ok_saved.
Qed.

Lemma knex_preSaveHook_stored_ok_witness :
  ∃ o', ref_item (RItem {["fbId" := VStr "5f8d0d55b54764421b7156c3"]}) = Some o'
        ∧ stored_ok "fbId" o' = true.
Proof.
  apply (knex_preSaveHook_stored_ok (new (Base "fbId" ∅ VUndefined VUndefined))
           (RItem {["fbId" := VStr "5F8D0D55B54764421B7156C3"]})).
  by vm_compute.
Defined.

(** The pre-save hook touches no field but its own: every other
    property of the record is kept with its value. *)
Theorem knex_preSaveHook_frame (a : t) (r r' : ref) (o o' : item) (k : string) :
  preSaveHook a r = Ok r' → ref_item r = Some o → ref_item r' = Some o' →
  k ≠ path a → o' !! k = o !! k.
Proof.
  intros (o0 & Hr & _ & ->)%knex_preSaveHook_Ok_inv Hr'. rewrite ref_item_map, Hr.
  intros [= <-] Hk. simplify_eq. by apply knex_saved_other.
Qed.

Lemma knex_preSaveHook_frame_witness :
  ({["fbId" := VStr "5f8d0d55b54764421b7156c3"; "name" := VStr "Ada"]} : item) !! "name"
  = ({["fbId" := VStr "5F8D0D55B54764421B7156C3"; "name" := VStr "Ada"]} : item) !! "name".
Proof.
  apply (knex_preSaveHook_frame (new (Base "fbId" ∅ VUndefined VUndefined))
           (RItem {["fbId" := VStr "5F8D0D55B54764421B7156C3"; "name" := VStr "Ada"]})
           (RItem {["fbId" := VStr "5f8d0d55b54764421b7156c3"; "name" := VStr "Ada"]}));
    [by vm_compute|done|done|done].
Defined.

(** Saving twice is saving once: the pre-save hook returns its own
    result unchanged. *)
Theorem knex_preSaveHook_idemp (a : t) (r r' : ref) :
  preSaveHook a r = Ok r' → preSaveHook a r' = Ok r'.
Proof.
  intros (o & Hr & _ & ->)%knex_preSaveHook_Ok_inv.
  assert (Hr' : ref_item (ref_map (saved (path a)) r) = Some (saved (path a) o))
    by (by rewrite ref_item_map, Hr).
  rewrite (knex_preSaveHook_eq _ _ _ Hr'), knex_stored_ok_savable by apply knex_stored_ok_saved.
  f_equal. apply (ref_map_id _ _ _ Hr'), knex_saved_stored_ok, knex_stored_ok_saved.
Qed.

Lemma knex_preSaveHook_idemp_witness :
  preSaveHook (new (Base "fbId" ∅ VUndefined VUndefined))
    (RItem {["fbId" := VStr "5f8d0d55b54764421b7156c3"]})
  = Ok (RItem {["fbId" := VStr "5f8d0d55b54764421b7156c3"]}).
Proof.
  apply (knex_preSaveHook_idemp _ (RItem {["fbId" := VStr "5F8D0D55B54764421B7156C3"]})).
  by vm_compute.
Defined.

(** ** The post-read hook *)

(** Reading back what was saved changes nothing: the post-read hook is
    the identity on every result of the pre-save hook. *)
Theorem knex_postReadHook_preSaveHook (a : t) (r r' : ref) :
  preSaveHook a r = Ok r' → postReadHook a r' = Ok r'.
Proof.
  intros (o & Hr & _ & ->)%knex_preSaveHook_Ok_inv.
  apply (knex_postReadHook_stored_ok _ _ (saved (path a) o)); [|apply knex_stored_ok_saved].
  by rewrite ref_item_map, Hr.
Qed.

Lemma knex_postReadHook_preSaveHook_witness :
  postReadHook (new (Base "fbId" ∅ VUndefined VUndefined))
    (RItem {["fbId" := VStr "5f8d0d55b54764421b7156c3"]})
  = Ok (RItem {["fbId" := VStr "5f8d0d55b54764421b7156c3"]}).
Proof.
  apply (knex_postReadHook_preSaveHook _ (RItem {["fbId" := VStr "5F8D0D55B54764421B7156C3"]})).
  by vm_compute.
Defined.

(** The post-read hook never throws on an object, and throws a
    [TypeError] on [undefined] and [null], whose property it reads. *)
Theorem knex_postReadHook_ok (a : t) (r : ref) :
  is_ok (postReadHook a r) = ref_truthy r.
Proof.
  destruct (ref_item r) as [o|] eqn:Hr.
  - rewrite (knex_postReadHook_eq _ _ _ Hr). simpl. symmetry. apply ref_truthy_item. eauto.
  - by destruct r.
Qed.

(** After the post-read hook the field is falsy as it was, or it is a
    string in lower case: a stored identifier in upper case is read in lower
    case. *)
Theorem knex_postReadHook_lower (a : t) (r r' : ref) (o' : item) :
  postReadHook a r = Ok r' → ref_item r' = Some o' →
  truthy (get_prop o' (path a)) = true →
  ∃ s, get_prop o' (path a) = VStr s ∧ is_lower_string s = true.
Proof.
  destruct (ref_item r) as [o|] eqn:Hr; [|by destruct r].
  rewrite (knex_postReadHook_eq _ _ _ Hr). intros [= <-].
  destruct (truthy (get_prop o (path a))) eqn:Hv.
  - rewrite ref_item_map, Hr. intros [= <-] _. rewrite get_prop_insert_eq.
    eexists; split; [done|]. apply toLowerCase_is_lower.
  - rewrite Hr. intros [= <-]. by rewrite Hv.
Qed.

Lemma knex_postReadHook_lower_witness :
  ∃ s, get_prop ({["fbId" := VStr "5f8d0d55b54764421b7156c3"]} : item) "fbId" = VStr s
       ∧ is_lower_string s = true.
Proof.
  apply (knex_postReadHook_lower (new (Base "fbId" ∅ VUndefined VUndefined))
           (RItem {["fbId" := VStr "5F8D0D55B54764421B7156C3"]})
           (RItem {["fbId" := VStr "5f8d0d55b54764421b7156c3"]})); [by vm_compute|done|done].
Defined.

(** ** Registration of the hooks *)

(** [setupHooks] registers the two hooks after those already
    registered: a run of the pre-save hooks ends with the pre-save hook of
    the adapter, and a run of the post-read hooks with its post-read
    hook. *)
Theorem knex_setupHooks_runs (a : t) (hs : hooks) (r : ref) :
  onPreSave (setupHooks a hs) r = (let* r' := onPreSave hs r in preSaveHook a r')
  ∧ onPostRead (setupHooks a hs) r = (let* r' := onPostRead hs r in postReadHook a r').
Proof.
  unfold setupHooks. split.
  - by rewrite onPreSave_addPostReadHook, onPreSave_addPreSaveHook.
  - by rewrite onPostRead_addPostReadHook, onPostRead_addPreSaveHook.
Qed.

(** ** Queries *)

Section queries.
Context {QB : QueryBase}.

Lemma knex_VNull_not_in_strings (ts : list string) : VNull ∉ VStr <$> ts.
Proof. by intros (t & ? & _)%list_elem_of_fmap. Qed.

Lemma knex_normaliseValue_strings (ts : list string) :
  Forall (λ t, t ≠ EmptyString) ts →
  rmapM normaliseValue (VStr <$> ts) = Ok ((λ t, VStr (toLowerCase t)) <$> ts).
Proof.
  intros Hts. rewrite (rmapM_Forall _ (λ v, VStr (toLowerCase (string_of v)))).
  - by rewrite <-list_fmap_compose.
  - apply Forall_fmap. eapply Forall_impl; [exact Hts|]. intros t Ht. simpl.
    rewrite normaliseValue_VStr. by destruct t.
Qed.

Lemma knex_in_lower_iff (s : string) (ts : list string) :
  VStr (toLowerCase s) ∈ (λ t, VStr (toLowerCase t)) <$> ts ↔ Exists (ci_eq s) ts.
Proof.
  rewrite list_elem_of_fmap, Exists_exists. unfold ci_eq.
  split; intros (t & Ht1 & Ht2); exists t; split; congruence || done.
Qed.

(** [getQueryConditions] returns builders for exactly four keys: the
    path of the field and the path followed by [_not], [_in] and
    [_not_in]. *)
Theorem knex_getQueryConditions_keys (a : t) (dbPath : string) :
  dom (getQueryConditions a dbPath)
  = {[path a; path a +:+ "_not"; path a +:+ "_in"; path a +:+ "_not_in"]}.
Proof. apply spread_conditions_dom. Qed.

(** The equality condition that the adapter builds for a non-empty string:
    the column is compared with the lower case of the string. *)
Lemma knex_build_eq (a : t) (dbPath t : string) :
  t ≠ EmptyString →
  build_one (getQueryConditions a dbPath) (path a) (VStr t)
  = Some (Ok (CEq dbPath (VStr (toLowerCase t)))).
Proof.
  intros Ht. unfold getQueryConditions. rewrite spread_conditions_eq, normaliseValue_VStr.
  by destruct t.
Qed.

(** C5: a record saved with a non-empty string [s] as its identifier is
    found by the equality condition built from a non-empty string [t]
    exactly when [s] and [t] are equal up to case. *)
Theorem knex_query_finds_saved (a : t) (r r' : ref) (o o' : item) (s t : string) :
  ref_item r = Some o → get_prop o (path a) = VStr s →
  s ≠ EmptyString → t ≠ EmptyString →
  preSaveHook a r = Ok r' → ref_item r' = Some o' →
  ∃ c, build_one (getQueryConditions a (path a)) (path a) (VStr t) = Some (Ok c)
       ∧ cond_holds c o' = bool_decide (ci_eq s t).
Proof.
  intros Hr Hs Hs0 Ht0 (o0 & Hr0 & _ & ->)%knex_preSaveHook_Ok_inv.
  rewrite ref_item_map, Hr. intros [= <-]. simplify_eq.
  unfold getQueryConditions. rewrite spread_conditions_eq, normaliseValue_VStr.
  destruct t; [done|]. simpl. eexists; split; [done|]. simpl.
  rewrite (knex_saved_get_string _ _ _ Hs Hs0). apply bool_decide_ext.
  unfold ci_eq. simpl. split; congruence.
Qed.

(** The membership condition built from a list of non-empty strings
    holds of a record saved with identifier [s] exactly when one of the
    strings equals [s] up to case. *)
Theorem knex_query_in_finds_saved (a : t) (r r' : ref) (o o' : item) (s : string)
    (ts : list string) :
  ref_item r = Some o → get_prop o (path a) = VStr s → s ≠ EmptyString →
  Forall (λ t, t ≠ EmptyString) ts →
  preSaveHook a r = Ok r' → ref_item r' = Some o' →
  ∃ c, build_many (getQueryConditions a (path a)) (path a +:+ "_in") (VStr <$> ts)
       = Some (Ok c)
       ∧ cond_holds c o' = bool_decide (Exists (ci_eq s) ts).
Proof.
  intros Hr Hs Hs0 Hts (o0 & Hr0 & _ & ->)%knex_preSaveHook_Ok_inv.
  rewrite ref_item_map, Hr. intros [= <-]. simplify_eq.
  unfold getQueryConditions. rewrite spread_conditions_in by apply knex_VNull_not_in_strings.
  rewrite (knex_normaliseValue_strings _ Hts). eexists; split; [done|]. simpl.
  rewrite (knex_saved_get_string _ _ _ Hs Hs0). apply bool_decide_ext, knex_in_lower_iff.
Qed.

End queries.

Lemma knex_query_in_finds_saved_witness :
  ∃ c, build_many (getQueryConditions (QB := StandardBase)
                     (new (Base "fbId" ∅ VUndefined VUndefined)) "fbId")
         "fbId_in" [VStr "AB"; VStr "5F8D0D55b54764421b7156c3"] = Some (Ok c)
       ∧ cond_holds c {["fbId" := VStr "5f8d0d55b54764421b7156c3"]}
         = bool_decide (Exists (ci_eq "5F8D0D55B54764421B7156C3")
                          ["AB"; "5F8D0D55b54764421b7156c3"]).
Proof.
  apply (knex_query_in_finds_saved (QB := StandardBase)
           (new (Base "fbId" ∅ VUndefined VUndefined))
           (RItem {["fbId" := VStr "5F8D0D55B54764421B7156C3"]})
           (RItem {["fbId" := VStr "5f8d0d55b54764421b7156c3"]})
           {["fbId" := VStr "5F8D0D55B54764421B7156C3"]} _
           "5F8D0D55B54764421B7156C3" ["AB"; "5F8D0D55b54764421b7156c3"]);
    [done|done|done|by repeat constructor|by vm_compute|done].
Defined.

Lemma knex_query_finds_saved_witness :
  ∃ c, build_one (getQueryConditions (QB := StandardBase)
                    (new (Base "fbId" ∅ VUndefined VUndefined)) "fbId")
         "fbId" (VStr "5F8D0D55b54764421b7156c3") = Some (Ok c)
       ∧ cond_holds c {["fbId" := VStr "5f8d0d55b54764421b7156c3"]}
         = bool_decide (ci_eq "5F8D0D55B54764421B7156C3" "5F8D0D55b54764421b7156c3").
Proof.
  apply (knex_query_finds_saved (QB := StandardBase) (new (Base "fbId" ∅ VUndefined VUndefined))
           (RItem {["fbId" := VStr "5F8D0D55B54764421B7156C3"]})
           (RItem {["fbId" := VStr "5f8d0d55b54764421b7156c3"]})
           {["fbId" := VStr "5F8D0D55B54764421B7156C3"]});
    [done|done|done|done|by vm_compute|done].
Defined.

End KnexMongoIdInterface.
