(* ===== verification/Bounds.v ===== *)
(** * Lengths and ranges

    [src/fb/field-fbId.js] names the length of an identifier twice: the
    count [{24}] of the regular expression of line 25 and the length of the
    column that line 88 declares, [table.string(this.path, 24)].  The
    pre-save hook of lines 96 to 109 stands between the two: it stores any
    non-empty string, whatever its length.  This file relates the three.
    It also bounds the string form of a number, which is what the validator
    tests when it is handed one: the decimal form of a safe integer is
    shorter than an identifier, so no number but zero is valid. *)

From Stdlib Require Import Ascii String ZArith Lia.
From stdpp Require Import pretty.
From S2P Require Import Prelude JsString JsValue Regex Normalise Framework KnexAdapter.

(** ** Numbers *)

(** [Number.MAX_SAFE_INTEGER]: up to it every integer is a number of the
    language, and its string form is its decimal form. *)
Definition MAX_SAFE_INTEGER : Z := 2 ^ 53 - 1.

(** [Number.isSafeInteger(n)] on an integer. *)
Definition isSafeInteger (n : Z) : bool := (Z.abs n <=? MAX_SAFE_INTEGER)%Z.

(** ** Columns *)

(** Whether a value fits a column of strings: a string no longer than the
    length that the column was declared with; an absent value has no
    length. *)
Definition fits (c : column) (v : value) : bool :=
  match v with
  | VStr s => String.length s <=? col_length c
  | _ => true
  end.

(** Whether a record fits a table: every column holds a value that fits
    it. *)
Definition row_fits (tbl : table) (o : item) : bool :=
  forallb (λ c, fits c (get_prop o (col_name c))) tbl.

(** ** Lemmas *)

Section decimal.
Implicit Types (x : N) (n : Z) (s : string) (k : nat).

(** Printing a number below [10 ^ k] in front of [s] adds at most [k]
    characters. *)
Lemma pretty_N_go_length k x s :
  (x < 10 ^ N.of_nat k)%N → String.length (pretty_N_go x s) ≤ k + String.length s.
Proof.
  revert x s. induction k as [|k IH]; intros x s Hx.
  - assert (x = 0%N) as -> by (simpl in Hx; lia). by rewrite pretty_N_go_0.
  - destruct (decide (x = 0%N)) as [->|Hne]; [rewrite pretty_N_go_0; lia|].
    rewrite pretty_N_go_step by lia.
    rewrite Nat2N.inj_succ, N.pow_succ_r' in Hx.
    etrans; [apply IH; apply N.Div0.div_lt_upper_bound; lia|]. simpl. lia.
Qed.

Lemma pretty_N_length k x :
  (x < 10 ^ N.of_nat k)%N → String.length (pretty x) ≤ k `max` 1.
Proof.
  intros Hx. unfold pretty, pretty_N. case_decide; [simpl; lia|].
  etrans; [by apply pretty_N_go_length|]. simpl. lia.
Qed.

(** The sign adds one character. *)
Lemma pretty_Z_length k n :
  (Z.abs n < 10 ^ Z.of_nat k)%Z → String.length (pretty n) ≤ S (k `max` 1).
Proof.
  intros Hn.
  assert (∀ p : positive, (Z.pos p < 10 ^ Z.of_nat k)%Z →
                          String.length (pretty (N.pos p)) ≤ k `max` 1) as Hpos.
  { intros p Hp. apply pretty_N_length.
    apply N2Z.inj_lt. rewrite N2Z.inj_pow, nat_N_Z. exact Hp. }
  destruct n as [|p|p]; simpl in Hn.
  - simpl. lia.
  - etrans; [by apply Hpos|]. lia.
  - change (pretty (Z.neg p)) with ("-" +:+ pretty (N.pos p)).
    cbn [String.app String.length]. apply le_n_S. by apply Hpos.
Qed.

(** A safe integer has at most 16 digits. *)
Lemma isSafeInteger_digits n : isSafeInteger n = true → (Z.abs n < 10 ^ Z.of_nat 16)%Z.
Proof. unfold isSafeInteger, MAX_SAFE_INTEGER. intros ?%Z.leb_le. simpl. lia. Qed.

End decimal.

Section columns.
Import KnexMongoIdInterface.
Context (a : KnexMongoIdInterface.t).
Implicit Types (o : item) (r : ref) (s : string) (v : value) (c : column).

(** A value that the validator accepts and the pre-save hook lets through
    is falsy or a string of 24 characters. *)
Lemma validator_savable v :
  validator v = Ok true → savable v = true →
  truthy v = false ∨ ∃ s, v = VStr s ∧ String.length s = 24.
Proof.
  rewrite validator_eq. intros [= Hv] Hs. destruct (truthy v) eqn:Ht; [right|by left].
  unfold savable in Hs. rewrite Ht in Hs. simpl in *.
  apply bool_decide_eq_true, typeof_string_iff in Hs as [s ->].
  eauto using is_objectid_string_length.
Qed.

(** The field of the record that the hook saves. *)
Lemma knex_saved_field o :
  get_prop (saved (path a) o) (path a)
  = match get_prop o (path a) with
    | VStr s => if string_is_empty s then VUndefined else VStr (toLowerCase s)
    | _ => VUndefined
    end.
Proof.
  unfold saved.
  destruct (get_prop o (path a)) as [| | | |s|]; try apply get_prop_delete_eq.
  destruct (string_is_empty s); [apply get_prop_delete_eq|apply get_prop_insert_eq].
Qed.

End columns.

(** ** Theorems *)

(** No number is a valid identifier, zero apart: the validator accepts a
    safe integer exactly when it is [0], which is falsy. *)
Theorem validator_number (n : Z) :
  isSafeInteger n = true → validator (VNum n) = Ok (bool_decide (n = 0%Z)).
Proof.
  intros Hn%isSafeInteger_digits%pretty_Z_length. rewrite validator_eq. f_equal.
  destruct (decide (n = 0%Z)) as [->|Hne]; [done|].
  rewrite bool_decide_eq_false_2 by done.
  assert (truthy (VNum n) = true) as -> by (simpl; apply negb_true_iff, Z.eqb_neq; done).
  simpl. unfold is_objectid_string, string_of. simpl.
  apply andb_false_iff. left. apply Nat.eqb_neq. lia.
Qed.

Lemma validator_number_witness :
  validator (VNum 9007199254740991) = Ok false
  ∧ validator (VNum (-9007199254740991)) = Ok false
  ∧ validator (VNum 0) = Ok true.
Proof.
  split; [|split].
  - exact (validator_number 9007199254740991 eq_refl).
  - exact (validator_number (-9007199254740991) eq_refl).
  - exact (validator_number 0 eq_refl).
Defined.

(** The string form of a safe integer has at most 17 characters: 16 digits
    and a sign. *)
Theorem toString_number_length (n : Z) :
  isSafeInteger n = true → ∃ s, toString (VNum n) = Ok s ∧ String.length s ≤ 17.
Proof.
  intros Hn%isSafeInteger_digits%pretty_Z_length. eexists. split; [done|]. lia.
Qed.

Lemma toString_number_length_witness :
  ∃ s, toString (VNum (-9007199254740991)) = Ok s ∧ String.length s ≤ 17.
Proof. exact (toString_number_length (-9007199254740991) eq_refl). Defined.

Section column_theorems.
Import KnexMongoIdInterface.

(** C23: A record whose identifier the validator accepts fits, once the
    pre-save hook has returned it, the column that [addToTableSchema]
    declares for the field: the count of the regular expression and the
    length of the column agree. *)
Theorem knex_validated_fits_column (a : KnexMongoIdInterface.t) (r r' : ref) (o : item) :
  ref_item r = Some o →
  validator (get_prop o (path a)) = Ok true →
  preSaveHook a r = Ok r' →
  ∃ o', ref_item r' = Some o' ∧ row_fits (addToTableSchema a []) o' = true.
Proof.
  intros Hr Hv Hsave. rewrite (knex_preSaveHook_eq a r o Hr) in Hsave.
  destruct (savable _) eqn:Hs; [|done]. injection Hsave as <-.
  exists (saved (path a) o). split; [by rewrite ref_item_map, Hr|].
  rewrite knex_addToTableSchema_column. unfold row_fits, fits. simpl.
  rewrite andb_true_r, knex_saved_field.
  destruct (validator_savable _ Hv Hs) as [Hf|(s & -> & Hlen')].
  - destruct (get_prop o (path a)) as [| | | |[]|]; by try done.
  - destruct s; [done|]. simpl string_is_empty. cbv iota.
    by rewrite toLowerCase_length, Hlen'.
Qed.

(** C24: The pre-save hook does not look at the length: a string of any length
    is stored in lower case with the length it has, so that a string of
    more than 24 characters is handed to the store for a column of 24. *)
Theorem knex_preSaveHook_keeps_length (a : KnexMongoIdInterface.t) (o : item) (s : string) :
  get_prop o (path a) = VStr s → s ≠ EmptyString →
  ∃ o' s', preSaveHook a (RItem o) = Ok (RItem o')
           ∧ get_prop o' (path a) = VStr s'
           ∧ String.length s' = String.length s
           ∧ row_fits (addToTableSchema a []) o' = (String.length s <=? 24).
Proof.
  intros Hs Hne. rewrite (knex_preSaveHook_eq a (RItem o) o eq_refl).
  unfold savable. rewrite Hs. cbn [typeof]. rewrite bool_decide_eq_true_2, orb_true_r by done.
  exists (saved (path a) o), (toLowerCase s).
  rewrite knex_addToTableSchema_column, toLowerCase_length.
  assert (get_prop (saved (path a) o) (path a) = VStr (toLowerCase s)) as Hfield.
  { rewrite knex_saved_field, Hs. by destruct s. }
  split_and!; [done..|].
  unfold row_fits, fits. simpl. by rewrite andb_true_r, Hfield, toLowerCase_length.
Qed.

End column_theorems.

Lemma knex_validated_fits_column_witness :
  ∃ o', ref_item (RItem {["fbId" := VStr "5f8d0d55b54764421b7156c3"]}) = Some o'
        ∧ row_fits (KnexMongoIdInterface.addToTableSchema
                      (KnexMongoIdInterface.new (KnexMongoIdInterface.Base "fbId" ∅ VUndefined VUndefined)) [])
                   o' = true.
Proof.
  exact (knex_validated_fits_column
           (KnexMongoIdInterface.new (KnexMongoIdInterface.Base "fbId" ∅ VUndefined VUndefined))
           (RItem {["fbId" := VStr "5F8D0D55B54764421B7156C3"]})
           (RItem {["fbId" := VStr "5f8d0d55b54764421b7156c3"]})
           {["fbId" := VStr "5F8D0D55B54764421B7156C3"]}
           eq_refl eq_refl eq_refl).
Defined.

Lemma knex_preSaveHook_keeps_length_witness :
  ∃ o' s',
    KnexMongoIdInterface.preSaveHook
      (KnexMongoIdInterface.new (KnexMongoIdInterface.Base "fbId" ∅ VUndefined VUndefined))
      (RItem {["fbId" := VStr "5F8D0D55B54764421B7156C3AB"]}) = Ok (RItem o')
    ∧ get_prop o' "fbId" = VStr s'
    ∧ String.length s' = 26
    ∧ row_fits (KnexMongoIdInterface.addToTableSchema
                  (KnexMongoIdInterface.new (KnexMongoIdInterface.Base "fbId" ∅ VUndefined VUndefined)) [])
               o' = false.
Proof.
  exact (knex_preSaveHook_keeps_length
           (KnexMongoIdInterface.new (KnexMongoIdInterface.Base "fbId" ∅ VUndefined VUndefined))
           {["fbId" := VStr "5F8D0D55B54764421B7156C3AB"]}
           "5F8D0D55B54764421B7156C3AB" eq_refl ltac:(done)).
Defined.
