(* ===== verification/MongoAdapter.v ===== *)
(** * The document-store adapter of the identifier field

    [FbMongoIdInterface], [src/fb/field-fbId.js] lines 28 to 78:
    [addToMongooseSchema], which declares the path of the field unless the
    field is the primary key, the two hooks that [setupHooks] registers for a
    primary key and that rename [id] to [_id] before a save and [_id] to
    [id] after a read, and [getQueryConditions].  The schema of the store is
    modelled by the options it holds for each path.  The methods inherited
    from the base class that is not among the sources ([buildValidator],
    [mergeSchemaOptions]) are the fields of the class [SchemaBase] with the
    laws the theorems use.  The theorems give the outcome of each hook on
    each shape of its argument, the round trip of a record through the two
    hooks, and what the schema and the hook registry hold afterwards. *)

From Stdlib Require Import Ascii String.
From S2P Require Import Prelude JsString JsValue Regex Normalise Framework.

(** ** The schema of the store *)

(** The options of a schema path as [addToMongooseSchema] builds them:
    [{ type: String, validate: { validator, message } }], and the options
    that the base class merges in. *)
Record schema_options : Type := SchemaOptions {
  so_type : string;
  so_validator : value → js bool;
  so_message : string;
  so_merged : item;
}.

(** A schema: options by path.  [schema.add({ [key]: options })] sets the
    options of [key]. *)
Notation schema := (gmap string schema_options).

Definition schema_add (key : string) (options : schema_options) (s : schema) : schema :=
  <[key := options]> s.

(** ** The inherited schema methods *)

(** [this.buildValidator(validator)] wraps a validator, and
    [this.mergeSchemaOptions(schemaOptions, this.config)] merges the
    configuration into the options.  The laws: the built validator accepts
    an absent value when the wrapped validator returns on it, and follows the
    wrapped one on the other values; merging keeps
    the type, the validator and the message when the configuration does not
    name store options of its own. *)
Class SchemaBase : Type := {
  buildValidator : (value → js bool) → value → js bool;
  mergeSchemaOptions : schema_options → item → schema_options;
  buildValidator_absent v a :
    a = VUndefined ∨ a = VNull → is_ok (v a) = true → buildValidator v a = Ok true;
  buildValidator_present v a :
    a ≠ VUndefined → a ≠ VNull → buildValidator v a = v a;
  mergeSchemaOptions_keeps so cfg :
    cfg !! "mongooseOptions" = None →
    so_type (mergeSchemaOptions so cfg) = so_type so
    ∧ so_validator (mergeSchemaOptions so cfg) = so_validator so
    ∧ so_message (mergeSchemaOptions so cfg) = so_message so;
}.

(** The base that follows the conventions of the framework's own
    document-store adapter. *)
Definition standard_buildValidator (v : value → js bool) (a : value) : js bool :=
  let* ok := v a in
  Ok (ok || bool_decide (typeof a = "undefined") || bool_decide (a = VNull)).

Definition standard_mergeSchemaOptions (so : schema_options) (cfg : item) : schema_options :=
  SchemaOptions (so_type so) (so_validator so) (so_message so)
    (match cfg !! "mongooseOptions" with
     | Some v => <["mongooseOptions" := v]> (so_merged so)
     | None => so_merged so
     end).

#[export, refine] Instance StandardSchemaBase : SchemaBase := {
  buildValidator := standard_buildValidator;
  mergeSchemaOptions := standard_mergeSchemaOptions;
}.
Proof.
  - intros v a Ha Hv. unfold standard_buildValidator.
    apply is_ok_true in Hv as [b ->]. simpl. destruct Ha as [-> | ->]; simpl.
    + by rewrite orb_true_r.
    + by rewrite orb_true_r.
  - intros v a Hu Hn. unfold standard_buildValidator.
    destruct (v a) as [b|e]; [|done]. simpl.
    rewrite !bool_decide_eq_false_2, !orb_false_r; [done|done|].
    by intros ->%typeof_undefined_iff.
  - done.
Defined.

Module FbMongoIdInterface.

(** ** The adapter *)

(** [this.field]. *)
Record field_info : Type := Field {
  isPrimaryKey : bool;
}.

(** What the methods read of [this]: the field, its path, its
    configuration, and [this.listAdapter.parentAdapter.mongoose.Types.ObjectId],
    the conversion of the store to its identifier type. *)
Record t : Type := Adapter {
  field : field_info;
  path : string;
  config : item;
  ObjectId : value → js value;
}.

(** [addToMongooseSchema(schema, mongoose)], lines 29 to 46. *)
Definition addToMongooseSchema {SB : SchemaBase} (a : t) (s : schema) : schema :=
  if isPrimaryKey (field a) then s
  else
    let schemaOptions :=
      SchemaOptions "String" (buildValidator validator)
        "{VALUE} is not a valid Mongo ObjectId" ∅ in
    schema_add (if isPrimaryKey (field a) then "_id" else path a)
      (mergeSchemaOptions schemaOptions (config a)) s.

(** The pre-save hook, lines 51 to 57. *)
Definition preSaveHook (item : ref) : js ref :=
  let* id := ref_get item "id" in
  if truthy id then
    let* item := ref_set item "_id" id in
    ref_delete item "id"
  else Ok item.

(** [itemOrModel && itemOrModel.toObject ? itemOrModel.toObject() : itemOrModel],
    line 61.  A document of the store has the method; a plain record has it
    only as a property that happens to be named [toObject], which is no
    function. *)
Definition toObject_or_self (itemOrModel : ref) : js ref :=
  match itemOrModel with
  | RUndefined | RNull => Ok itemOrModel
  | RModel o => Ok (RItem o)
  | RItem o =>
      if truthy (get_prop o "toObject")
      then Throw (TypeError "itemOrModel.toObject is not a function")
      else Ok itemOrModel
  end.

(** The post-read hook, lines 58 to 68. *)
Definition postReadHook (itemOrModel : ref) : js ref :=
  let* item := toObject_or_self itemOrModel in
  if ref_truthy item then
    let* _id := ref_get item "_id" in
    if truthy _id then
      let* s := toString _id in
      let* item := ref_set item "id" (VStr s) in
      ref_delete item "_id"
    else Ok item
  else Ok item.

(** [setupHooks({ addPreSaveHook, addPostReadHook })], lines 48 to 69. *)
Definition setupHooks (a : t) (hs : hooks) : hooks :=
  if negb (isPrimaryKey (field a)) then hs
  else addPostReadHook postReadHook (addPreSaveHook preSaveHook hs).

(** [getQueryConditions(dbPath)], lines 71 to 77. *)
Definition getQueryConditions {QB : QueryBase} (a : t) (dbPath : string) : conditions :=
  spread
    (equalityConditions (path a) (if isPrimaryKey (field a) then "_id" else dbPath) (ObjectId a))
    (inConditions (path a) (if isPrimaryKey (field a) then "_id" else dbPath) (ObjectId a)).

(** ** What the theorems speak of *)

(** The record as the pre-save hook leaves it: [id] moved to [_id] when it
    is truthy. *)
Definition to_store (o : item) : item :=
  if truthy (get_prop o "id")
  then delete "id" (<["_id" := get_prop o "id"]> o)
  else o.

(** The record as the post-read hook leaves it: [_id] moved to [id], as a
    string, when it is truthy. *)
Definition from_store (o : item) : item :=
  if truthy (get_prop o "_id")
  then delete "_id" (<["id" := VStr (string_of (get_prop o "_id"))]> o)
  else o.

(** The shapes of argument that the post-read hook is written for:
    [undefined], [null], a document, and a plain record without a
    [toObject] property. *)
Definition expected_shape (r : ref) : bool :=
  match r with
  | RItem o => negb (truthy (get_prop o "toObject"))
  | _ => true
  end.

(** ** Shared lemmas *)

Section hook_lemmas.
Implicit Types (o : item) (r : ref) (s : string).

Lemma mongo_preSaveHook_eq r o :
  ref_item r = Some o → preSaveHook r = Ok (ref_map to_store r).
Proof.
  intros Hr. unfold preSaveHook, to_store. rewrite (ref_get_item _ _ _ Hr). simpl.
  destruct r; simplify_eq/=; by destruct (truthy (get_prop o "id")).
Qed.

Lemma mongo_preSaveHook_nullish r : ref_item r = None → is_ok (preSaveHook r) = false.
Proof. by destruct r. Qed.

Lemma mongo_postReadHook_item o :
  truthy (get_prop o "toObject") = false →
  postReadHook (RItem o) = Ok (RItem (from_store o)).
Proof.
  intros Hto. unfold postReadHook, from_store. simpl. rewrite Hto. simpl.
  destruct (truthy (get_prop o "_id")) eqn:Hid; [|done].
  by rewrite (toString_string_of _ Hid).
Qed.

Lemma mongo_postReadHook_model o : postReadHook (RModel o) = Ok (RItem (from_store o)).
Proof.
  unfold postReadHook, from_store. simpl.
  destruct (truthy (get_prop o "_id")) eqn:Hid; [|done].
  by rewrite (toString_string_of _ Hid).
Qed.

Lemma mongo_to_store_get_toObject o :
  get_prop (to_store o) "toObject" = get_prop o "toObject".
Proof.
  unfold to_store. destruct (truthy (get_prop o "id")); [|done].
  by rewrite get_prop_delete_ne, get_prop_insert_ne.
Qed.

(** Storing then reading a record whose [id] is a non-empty string and
    which has no [_id] gives the record back. *)
Lemma mongo_from_store_to_store o s :
  get_prop o "id" = VStr s → s ≠ EmptyString → o !! "_id" = None →
  from_store (to_store o) = o.
Proof.
  intros Hid Hs Hno. unfold to_store. rewrite Hid. simpl.
  destruct s; [done|]. simpl. unfold from_store.
  rewrite get_prop_delete_ne, get_prop_insert_eq by done. simpl.
  rewrite string_of_VStr. apply map_eq. intros k.
  destruct (decide (k = "_id")) as [->|]; [by rewrite lookup_delete_eq|].
  rewrite lookup_delete_ne by done.
  destruct (decide (k = "id")) as [->|].
  - rewrite lookup_insert_eq. symmetry. rewrite <-Hid. apply get_prop_truthy_Some.
    by rewrite Hid.
  - by rewrite lookup_insert_ne, lookup_delete_ne, lookup_insert_ne.
Qed.

(** Reading then storing a record whose [_id] is a non-empty string and
    which has no [id] gives the record back. *)
Lemma mongo_to_store_from_store o s :
  get_prop o "_id" = VStr s → s ≠ EmptyString → o !! "id" = None →
  to_store (from_store o) = o.
Proof.
  intros Hid Hs Hno. unfold from_store. rewrite Hid. simpl.
  destruct s; [done|]. simpl. unfold to_store.
  rewrite get_prop_delete_ne, get_prop_insert_eq by done. simpl.
  rewrite string_of_VStr. apply map_eq. intros k.
  destruct (decide (k = "id")) as [->|]; [by rewrite lookup_delete_eq|].
  rewrite lookup_delete_ne by done.
  destruct (decide (k = "_id")) as [->|].
  - rewrite lookup_insert_eq. symmetry. rewrite <-Hid. apply get_prop_truthy_Some.
    by rewrite Hid.
  - by rewrite lookup_insert_ne, lookup_delete_ne, lookup_insert_ne.
Qed.

Lemma mongo_from_store_no__id o : truthy (get_prop (from_store o) "_id") = false.
Proof.
  unfold from_store. destruct (truthy (get_prop o "_id")) eqn:Hid; [|done].
  by rewrite get_prop_delete_eq.
Qed.

Lemma mongo_from_store_other o k : k ≠ "id" → k ≠ "_id" → from_store o !! k = o !! k.
Proof.
  intros. unfold from_store. destruct (truthy (get_prop o "_id")); [|done].
  by rewrite lookup_delete_ne, lookup_insert_ne.
Qed.

Lemma mongo_to_store_other o k : k ≠ "id" → k ≠ "_id" → to_store o !! k = o !! k.
Proof.
  intros. unfold to_store. destruct (truthy (get_prop o "id")); [|done].
  by rewrite lookup_delete_ne, lookup_insert_ne.
Qed.

End hook_lemmas.

(** ** The schema *)

Section schema.
Context {SB : SchemaBase}.

(** A primary-key field is never added to the schema: the store
    supplies [_id] itself, and [addToMongooseSchema] returns the schema as
    it was. *)
Theorem mongo_addToMongooseSchema_primaryKey (a : t) (s : schema) :
  isPrimaryKey (field a) = true → addToMongooseSchema a s = s.
Proof. unfold addToMongooseSchema. by intros ->. Qed.

(** A field that is not the primary key is declared at its own path,
    never at [_id]: the schema afterwards has the paths it had and the path
    of the field. *)
Theorem mongo_addToMongooseSchema_path (a : t) (s : schema) :
  isPrimaryKey (field a) = false →
  dom (addToMongooseSchema a s) = {[path a]} ∪ dom s.
Proof.
  unfold addToMongooseSchema, schema_add. intros ->. by rewrite dom_insert_L.
Qed.

(** The validator that the schema holds for the field accepts an absent
    value and every string of 24 hexadecimal digits, and rejects every other
    non-empty string, whenever the configuration names no store options of
    its own. *)
Theorem mongo_addToMongooseSchema_validator (a : t) (s : schema) (x : string) :
  isPrimaryKey (field a) = false → config a !! "mongooseOptions" = None →
  x ≠ EmptyString →
  ∃ so, addToMongooseSchema a s !! path a = Some so
        ∧ so_type so = "String"
        ∧ so_message so = "{VALUE} is not a valid Mongo ObjectId"
        ∧ so_validator so VUndefined = Ok true
        ∧ so_validator so VNull = Ok true
        ∧ so_validator so (VStr x) = Ok (is_objectid_string x).
Proof.
  intros Hpk Hcfg Hx. unfold addToMongooseSchema, schema_add. rewrite Hpk.
  eexists. rewrite lookup_insert_eq. split; [done|].
  destruct (mergeSchemaOptions_keeps
    (SchemaOptions "String" (buildValidator validator)
       "{VALUE} is not a valid Mongo ObjectId" ∅) (config a) Hcfg) as (-> & -> & ->).
  simpl. rewrite !buildValidator_absent, buildValidator_present by auto.
  rewrite validator_eq, string_of_VStr. simpl. by destruct x.
Qed.


End schema.

Lemma mongo_addToMongooseSchema_validator_witness :
  ∃ so, addToMongooseSchema (SB := StandardSchemaBase) (Adapter (Field false) "fbId" ∅ Ok) ∅
          !! "fbId" = Some so
        ∧ so_type so = "String"
        ∧ so_message so = "{VALUE} is not a valid Mongo ObjectId"
        ∧ so_validator so VUndefined = Ok true
        ∧ so_validator so VNull = Ok true
        ∧ so_validator so (VStr "xyz") = Ok false.
Proof.
  by apply (mongo_addToMongooseSchema_validator (SB := StandardSchemaBase)
              (Adapter (Field false) "fbId" ∅ Ok) ∅ "xyz").
Defined.

Lemma mongo_addToMongooseSchema_primaryKey_witness :
  addToMongooseSchema (SB := StandardSchemaBase) (Adapter (Field true) "id" ∅ Ok) ∅ = ∅.
Proof.
  by apply (mongo_addToMongooseSchema_primaryKey (SB := StandardSchemaBase)
              (Adapter (Field true) "id" ∅ Ok) ∅).
Defined.

Lemma mongo_addToMongooseSchema_path_witness :
  dom (addToMongooseSchema (SB := StandardSchemaBase) (Adapter (Field false) "fbId" ∅ Ok) ∅)
  = {["fbId"]} ∪ dom (∅ : schema).
Proof.
  by apply (mongo_addToMongooseSchema_path (SB := StandardSchemaBase)
              (Adapter (Field false) "fbId" ∅ Ok) ∅).
Defined.

(** ** The pre-save hook *)

(** When [id] is truthy the pre-save hook stores it under [_id] and
    deletes [id]; when [id] is falsy or absent it returns the record as it
    is.  It throws on nothing but [undefined] and [null]. *)
Theorem mongo_preSaveHook_renames (r : ref) (o : item) :
  ref_item r = Some o →
  preSaveHook r
  = Ok (ref_map (λ o, if truthy (get_prop o "id")
                      then delete "id" (<["_id" := get_prop o "id"]> o)
                      else o) r).
Proof. apply mongo_preSaveHook_eq. Qed.

Lemma mongo_preSaveHook_renames_witness :
  preSaveHook (RItem {["id" := VStr "5f8d0d55b54764421b7156c3"; "name" := VStr "Ada"]})
  = Ok (RItem {["_id" := VStr "5f8d0d55b54764421b7156c3"; "name" := VStr "Ada"]}).
Proof.
  set (o := {["id" := VStr "5f8d0d55b54764421b7156c3"; "name" := VStr "Ada"]} : item).
  rewrite (mongo_preSaveHook_renames (RItem o) o eq_refl). by vm_compute.
Defined.

(** ** The post-read hook *)

(** The post-read hook returns without throwing on each of the shapes
    it is written for: [undefined], [null], a document of the store, and a
    plain record. *)
Theorem mongo_postReadHook_total (r : ref) :
  expected_shape r = true → is_ok (postReadHook r) = true.
Proof.
  destruct r as [| |o|o]; try done; simpl.
  - intros Hto%negb_true_iff. by rewrite mongo_postReadHook_item.
  - intros _. by rewrite mongo_postReadHook_model.
Qed.

Lemma mongo_postReadHook_total_witness :
  is_ok (postReadHook RNull) = true
  ∧ is_ok (postReadHook (RModel {["_id" := VObj 1 "5f8d0d55b54764421b7156c3"]})) = true.
Proof.
  split.
  - by apply (mongo_postReadHook_total RNull).
  - by apply (mongo_postReadHook_total (RModel {["_id" := VObj 1 "5f8d0d55b54764421b7156c3"]})).
Defined.

(** On a document or a plain record whose [_id] is truthy the post-read
    hook returns a plain record in which [id] is the string form of [_id]
    and [_id] is gone; the other properties are kept. *)
Theorem mongo_postReadHook_renames (r : ref) (o : item) :
  ref_item r = Some o → expected_shape r = true →
  truthy (get_prop o "_id") = true →
  ∃ o', postReadHook r = Ok (RItem o')
        ∧ toString (get_prop o "_id") = Ok (string_of (get_prop o "_id"))
        ∧ o' !! "id" = Some (VStr (string_of (get_prop o "_id")))
        ∧ o' !! "_id" = None
        ∧ ∀ k, k ≠ "id" → k ≠ "_id" → o' !! k = o !! k.
Proof.
  intros Hr Hshape Hid. exists (from_store o). split_and!.
  - destruct r; simplify_eq/=; [|apply mongo_postReadHook_model].
    by apply mongo_postReadHook_item, negb_true_iff.
  - by apply toString_string_of.
  - unfold from_store. by rewrite Hid, lookup_delete_ne, lookup_insert_eq.
  - unfold from_store. by rewrite Hid, lookup_delete_eq.
  - apply mongo_from_store_other.
Qed.

Lemma mongo_postReadHook_renames_witness :
  ∃ o', postReadHook (RModel {["_id" := VObj 1 "5f8d0d55b54764421b7156c3"]}) = Ok (RItem o')
        ∧ o' !! "id" = Some (VStr "5f8d0d55b54764421b7156c3").
Proof.
  set (o := {["_id" := VObj 1 "5f8d0d55b54764421b7156c3"]} : item).
  destruct (mongo_postReadHook_renames (RModel o) o eq_refl eq_refl eq_refl)
    as (o' & H1 & _ & H2 & _).
  by exists o'.
Defined.

(** A plain record that has a truthy property named [toObject] makes
    the post-read hook throw a [TypeError]: the hook calls the property. *)
Theorem mongo_postReadHook_toObject_property (o : item) :
  truthy (get_prop o "toObject") = true →
  postReadHook (RItem o) = Throw (TypeError "itemOrModel.toObject is not a function").
Proof. intros Hto. unfold postReadHook. simpl. by rewrite Hto. Qed.

Lemma mongo_postReadHook_toObject_property_witness :
  postReadHook (RItem {["toObject" := VBool true]})
  = Throw (TypeError "itemOrModel.toObject is not a function").
Proof. by apply (mongo_postReadHook_toObject_property {["toObject" := VBool true]}). Defined.

(** ** Round trips *)

(** C3: writing then reading gives the record back: for a plain record
    whose [id] is a non-empty string and which has no [_id] and no
    [toObject] property, the post-read hook applied to the result of the
    pre-save hook returns the record itself. *)
Theorem mongo_postReadHook_preSaveHook (o : item) (s : string) :
  get_prop o "id" = VStr s → s ≠ EmptyString →
  o !! "_id" = None → truthy (get_prop o "toObject") = false →
  (let* stored := preSaveHook (RItem o) in postReadHook stored) = Ok (RItem o).
Proof.
  intros Hid Hs Hno Hto. rewrite (mongo_preSaveHook_eq (RItem o) o eq_refl). simpl.
  rewrite mongo_postReadHook_item by (by rewrite mongo_to_store_get_toObject).
  by rewrite (mongo_from_store_to_store o s).
Qed.

Lemma mongo_postReadHook_preSaveHook_witness :
  (let* stored := preSaveHook (RItem {["id" := VStr "5f8d0d55b54764421b7156c3"]}) in
   postReadHook stored)
  = Ok (RItem {["id" := VStr "5f8d0d55b54764421b7156c3"]}).
Proof.
  by apply (mongo_postReadHook_preSaveHook {["id" := VStr "5f8d0d55b54764421b7156c3"]}
              "5f8d0d55b54764421b7156c3").
Defined.

(** Reading then writing gives the stored record back: for a plain
    record whose [_id] is a non-empty string and which has no [id] and no
    [toObject] property, the pre-save hook applied to the result of the
    post-read hook returns the record itself. *)
Theorem mongo_preSaveHook_postReadHook (o : item) (s : string) :
  get_prop o "_id" = VStr s → s ≠ EmptyString →
  o !! "id" = None → truthy (get_prop o "toObject") = false →
  (let* read := postReadHook (RItem o) in preSaveHook read) = Ok (RItem o).
Proof.
  intros Hid Hs Hno Hto. rewrite mongo_postReadHook_item by done. simpl.
  rewrite (mongo_preSaveHook_eq (RItem (from_store o)) (from_store o) eq_refl). simpl.
  by rewrite (mongo_to_store_from_store o s).
Qed.

Lemma mongo_preSaveHook_postReadHook_witness :
  (let* read := postReadHook (RItem {["_id" := VStr "5f8d0d55b54764421b7156c3"]}) in
   preSaveHook read)
  = Ok (RItem {["_id" := VStr "5f8d0d55b54764421b7156c3"]}).
Proof.
  by apply (mongo_preSaveHook_postReadHook {["_id" := VStr "5f8d0d55b54764421b7156c3"]}
              "5f8d0d55b54764421b7156c3").
Defined.

(** The round trip is not the identity on every record: an [id] that
    is a number comes back as a string, and a record that already has an
    [_id] loses it. *)
Theorem mongo_postReadHook_preSaveHook_changes :
  (let* stored := preSaveHook (RItem {["id" := VNum 7]}) in postReadHook stored)
  = Ok (RItem {["id" := VStr "7"]})
  ∧ (let* stored := preSaveHook (RItem {["id" := VStr "a"; "_id" := VStr "b"]}) in
     postReadHook stored)
    = Ok (RItem {["id" := VStr "a"]}).
Proof. split; by vm_compute. Qed.

(** ** Registration of the hooks *)

(** [setupHooks] registers nothing for a field that is not the primary
    key, and for a primary key it registers the two hooks after those
    already registered. *)
Theorem mongo_setupHooks_registers (a : t) (hs : hooks) :
  setupHooks a hs
  = if isPrimaryKey (field a)
    then Hooks (preSaveHooks hs ++ [preSaveHook]) (postReadHooks hs ++ [postReadHook])
    else hs.
Proof. unfold setupHooks. by destruct (isPrimaryKey (field a)). Qed.

(** Through the registry of a list whose only hooks are those of a
    primary-key identifier field, a record saved and then read is the
    record itself (under the conditions of the round trip). *)
Theorem mongo_registry_round_trip (a : t) (o : item) (s : string) :
  isPrimaryKey (field a) = true →
  get_prop o "id" = VStr s → s ≠ EmptyString →
  o !! "_id" = None → truthy (get_prop o "toObject") = false →
  (let* stored := onPreSave (setupHooks a no_hooks) (RItem o) in
   onPostRead (setupHooks a no_hooks) stored) = Ok (RItem o).
Proof.
  intros Hpk Hid Hs Hno Hto. unfold setupHooks. rewrite Hpk. simpl.
  autorewrite with js. simpl.
  rewrite (mongo_preSaveHook_eq (RItem o) o eq_refl). simpl.
  autorewrite with js. simpl.
  rewrite mongo_postReadHook_item by (by rewrite mongo_to_store_get_toObject).
  by rewrite (mongo_from_store_to_store o s).
Qed.

Lemma mongo_registry_round_trip_witness :
  (let* stored := onPreSave (setupHooks (Adapter (Field true) "id" ∅ Ok) no_hooks)
                    (RItem {["id" := VStr "5f8d0d55b54764421b7156c3"]}) in
   onPostRead (setupHooks (Adapter (Field true) "id" ∅ Ok) no_hooks) stored)
  = Ok (RItem {["id" := VStr "5f8d0d55b54764421b7156c3"]}).
Proof.
  by apply (mongo_registry_round_trip (Adapter (Field true) "id" ∅ Ok)
              {["id" := VStr "5f8d0d55b54764421b7156c3"]} "5f8d0d55b54764421b7156c3").
Defined.

(** ** Queries *)

Section queries.
Context {QB : QueryBase}.

(** The conditions of a primary key compare the [_id] of the store,
    whatever path the caller passes, and those of another field compare the
    path passed; the operand is converted by the [ObjectId] of the store. *)
Theorem mongo_getQueryConditions_eq (a : t) (dbPath : string) (v : value) :
  build_one (getQueryConditions a dbPath) (path a) v
  = Some (rmap (CEq (if isPrimaryKey (field a) then "_id" else dbPath)) (ObjectId a v)).
Proof. unfold getQueryConditions. apply spread_conditions_eq. Qed.

End queries.

End FbMongoIdInterface.
