(* ===== verification/Access.v ===== *)
(** * Access control of the User list

    [src/index.js]: the three access functions of lines 22 to 34
    ([userIsAdmin], [userOwnsItem], [userIsAdminOrOwner]), the declaration of
    the [User] list of lines 36 to 79 with the access functions written
    inside it (for the fields [email] and [password] and for reading the
    list), the authentication strategy and the applications.  An access
    function receives the authenticated item and, for a field, the existing
    item; it returns a value or a filter, or throws.  The theorems give the
    answer of each function for an administrator, for the owner, for another
    user and for a request without authentication, relate the answers to
    the policy that the comments of the source state, and say which records
    the filter of a read lets through. *)

From Stdlib Require Import Ascii String.
From S2P Require Import Prelude JsString JsValue.

(** ** What an access function receives and returns *)

(** The argument of an access function: [authentication.item], which is
    [undefined] when the request is not authenticated, and [existingItem],
    which is [undefined] when there is no record yet. *)
Record access_args : Type := AccessArgs {
  authentication_item : ref;
  existingItem : ref;
}.

(** What an access function returns: a value (a boolean, or whatever value
    [||] let through) or an object literal that filters the records. *)
Inductive access : Type :=
| AValue (v : value)
| AWhere (w : item).

#[export] Instance access_eq_dec : EqDecision access.
Proof. solve_decision. Defined.

(** ** The access functions of lines 22 to 34 *)

(** [const userIsAdmin = ({ authentication: { item: user } }) =>
      Boolean(user && user.isAdmin);] *)
Definition userIsAdmin (args : access_args) : js bool :=
  let user := authentication_item args in
  if ref_truthy user then
    let* isAdmin := ref_get user "isAdmin" in
    Ok (truthy isAdmin)
  else Ok false.

(** [const userOwnsItem = ({ authentication: { item: user } }) => {
      if (!user) { return false; }
      return { id: user.id }; };] *)
Definition userOwnsItem (args : access_args) : js access :=
  let user := authentication_item args in
  if negb (ref_truthy user) then Ok (AValue (VBool false))
  else
    let* id := ref_get user "id" in
    Ok (AWhere {["id" := id]}).

(** [const userIsAdminOrOwner = auth => {
      const isAdmin = access.userIsAdmin(auth);
      const isOwner = access.userOwnsItem(auth);
      return isAdmin ? isAdmin : isOwner; };] *)
Definition userIsAdminOrOwner (auth : access_args) : js access :=
  let* isAdmin := userIsAdmin auth in
  let* isOwner := userOwnsItem auth in
  Ok (if isAdmin then AValue (VBool isAdmin) else isOwner).

(** ** The access functions written in the list *)

(** [authentication.item.isAdmin || existingItem.id === authentication.item.id],
    lines 49 to 52 (the field [email]) and 60 to 63 (updating [password]). *)
Definition admin_or_same_id (args : access_args) : js value :=
  let* isAdmin := ref_get (authentication_item args) "isAdmin" in
  if truthy isAdmin then Ok isAdmin
  else
    let* existing_id := ref_get (existingItem args) "id" in
    let* user_id := ref_get (authentication_item args) "id" in
    Ok (VBool (strict_eq existing_id user_id)).

Definition email_access (args : access_args) : js value := admin_or_same_id args.

(** [read: ({ authentication }) => authentication.item.isAdmin], line 58. *)
Definition password_read (args : access_args) : js value :=
  ref_get (authentication_item args) "isAdmin".

Definition password_update (args : access_args) : js value := admin_or_same_id args.

(** The read access of the list, lines 69 to 77. *)
Definition User_read (args : access_args) : js access :=
  let item := authentication_item args in
  let* isAdmin := ref_get item "isAdmin" in
  if truthy isAdmin then Ok (AWhere ∅)
  else Ok (AWhere {["state_not" := VStr "deactivated"]}).

(** ** The declaration of the list *)

Inductive field_type : Type :=
| Text
| Checkbox
| Password
| Select (options : list string).

(** The [access] of a field: absent, one function for every operation, or
    a function for some of [read] and [update]. *)
Inductive field_access : Type :=
| NoAccess
| AccessAll (f : access_args → js value)
| AccessPer (read update : option (access_args → js value)).

Record field_config : Type := FieldConfig {
  fc_type : field_type;
  fc_defaultValue : option value;
  fc_access : field_access;
}.

Record list_config : Type := ListConfig {
  lc_fields : list (string * field_config);
  lc_read : option (access_args → js access);
}.

(** [keystone.createList('User', { fields: ..., access: ... })]. *)
Definition User : list_config :=
  ListConfig
    [ ("name", FieldConfig Text None NoAccess);
      ("address", FieldConfig Text None NoAccess);
      ("state", FieldConfig (Select ["active"; "deactivated"]) (Some (VStr "active")) NoAccess);
      ("isAdmin", FieldConfig Checkbox (Some (VBool false)) NoAccess);
      ("email", FieldConfig Text None (AccessAll email_access));
      ("password", FieldConfig Password None
                     (AccessPer (Some password_read) (Some password_update))) ]
    (Some User_read).

(** The lists that [createList] has declared. *)
Definition lists : gmap string list_config := {["User" := User]}.

(** [const PROJECT_NAME = "jubilee-dev";] and the options of
    [new Keystone({ name: PROJECT_NAME, ... })]. *)
Definition PROJECT_NAME : string := "jubilee-dev".

Record keystone_config : Type := KeystoneConfig {
  kc_name : string;
  kc_adapter : string;
  kc_onConnect : string;
}.

Definition keystone : keystone_config :=
  KeystoneConfig PROJECT_NAME "FirebaseAdapter" "initialiseData".

(** [keystone.createAuthStrategy({ type: PasswordAuthStrategy, list: 'User' })]. *)
Record auth_strategy : Type := AuthStrategy {
  as_type : string;
  as_list : string;
}.

Definition authStrategy : auth_strategy := AuthStrategy "PasswordAuthStrategy" "User".

(** The applications of [module.exports]. *)
Inductive app : Type :=
| GraphQLApp
| AdminUIApp (enableDefaultRoute : bool) (strategy : auth_strategy).

Definition apps : list app := [GraphQLApp; AdminUIApp true authStrategy].

(** The access function that governs an operation on a field. *)
Inductive operation : Type := OpCreate | OpRead | OpUpdate.

Definition field_access_for (op : operation) (fa : field_access)
    : option (access_args → js value) :=
  match fa, op with
  | NoAccess, _ => None
  | AccessAll f, _ => Some f
  | AccessPer read _, OpRead => read
  | AccessPer _ update, OpUpdate => update
  | AccessPer _ _, OpCreate => None
  end.

Definition lookup_field (name : string) (l : list_config) : option field_config :=
  (list_to_map (lc_fields l) : gmap string field_config) !! name.

(** ** The policy that the comments state *)

(** Who asks: nobody, or a user with an identifier who is or is not an
    administrator. *)
Inductive principal : Type :=
| Anonymous
| Known (id : value) (admin : bool).

Definition principal_of (user : ref) : principal :=
  match ref_item user with
  | None => Anonymous
  | Some o => Known (get_prop o "id") (truthy (get_prop o "isAdmin"))
  end.

(** "Only authenticated users can read/update their own email, not any other
    user's.  Admins can read/update anyone's email."  The same for updating
    a password. *)
Definition may_touch (p : principal) (owner_id : value) : bool :=
  match p with
  | Anonymous => false
  | Known id admin => admin || strict_eq owner_id id
  end.

(** "Only admins can see if a password is set." *)
Definition may_see_password (p : principal) : bool :=
  match p with
  | Anonymous => false
  | Known _ admin => admin
  end.

(** "Only admins can read deactivated user accounts." *)
Definition may_read_record (p : principal) (record : item) : bool :=
  match p with
  | Anonymous => false
  | Known _ admin => admin || bool_decide (get_prop record "state" ≠ VStr "deactivated")
  end.

(** ** Filters *)

(** The field that a key of the form [<field>_not] negates. *)
Definition negated_field (key : string) : option string :=
  let n := String.length key in
  if (4 <=? n)%nat && bool_decide (String.substring (n - 4) 4 key = "_not")
  then Some (String.substring 0 (n - 4) key)
  else None.

(** Whether a record passes one clause of a filter: a key that ends in
    [_not] asks for a difference, another key for an equality. *)
Definition clause_holds (record : item) (key : string) (v : value) : bool :=
  match negated_field key with
  | Some f => bool_decide (get_prop record f ≠ v)
  | None => bool_decide (get_prop record key = v)
  end.

(** Whether a record passes a filter: it passes every clause. *)
Definition where_holds (w : item) (record : item) : bool :=
  bool_decide (map_Forall (λ k v, clause_holds record k v = true) w).

(** Whether a record passes an answer: a truthy value lets every record
    through, a falsy one none, a filter those that pass it. *)
Definition access_allows (a : access) (record : item) : bool :=
  match a with
  | AValue v => truthy v
  | AWhere w => where_holds w record
  end.

(** ** Shared lemmas *)

Section access_lemmas.
Implicit Types (args : access_args) (user existing : ref) (o e record : item) (v : value).

Lemma userIsAdmin_eq args :
  userIsAdmin args = Ok (may_see_password (principal_of (authentication_item args))).
Proof. unfold userIsAdmin, principal_of. by destruct (authentication_item args). Qed.

Lemma userOwnsItem_eq args :
  userOwnsItem args
  = Ok (match ref_item (authentication_item args) with
        | None => AValue (VBool false)
        | Some o => AWhere {["id" := get_prop o "id"]}
        end).
Proof. unfold userOwnsItem. by destruct (authentication_item args). Qed.

Lemma admin_or_same_id_known args o e :
  ref_item (authentication_item args) = Some o → ref_item (existingItem args) = Some e →
  admin_or_same_id args
  = Ok (js_or (get_prop o "isAdmin") (VBool (strict_eq (get_prop e "id") (get_prop o "id")))).
Proof.
  intros Ho He. unfold admin_or_same_id, js_or.
  rewrite !(ref_get_item _ _ _ Ho), (ref_get_item _ _ _ He). simpl.
  by destruct (truthy (get_prop o "isAdmin")).
Qed.

Lemma admin_or_same_id_admin args o :
  ref_item (authentication_item args) = Some o → truthy (get_prop o "isAdmin") = true →
  admin_or_same_id args = Ok (get_prop o "isAdmin").
Proof.
  intros Ho Ha. unfold admin_or_same_id. rewrite (ref_get_item _ _ _ Ho). simpl.
  by rewrite Ha.
Qed.

Lemma admin_or_same_id_anonymous args :
  ref_item (authentication_item args) = None → is_ok (admin_or_same_id args) = false.
Proof. unfold admin_or_same_id. by destruct (authentication_item args). Qed.

Lemma admin_or_same_id_no_existing args o :
  ref_item (authentication_item args) = Some o → truthy (get_prop o "isAdmin") = false →
  ref_item (existingItem args) = None → is_ok (admin_or_same_id args) = false.
Proof.
  intros Ho Ha He. unfold admin_or_same_id. rewrite (ref_get_item _ _ _ Ho). simpl.
  rewrite Ha. by destruct (existingItem args).
Qed.

(** The read access of the list for an authenticated user: no filter for
    an administrator, the filter on [state] for another user. *)
Lemma User_read_known args o :
  ref_item (authentication_item args) = Some o →
  User_read args
  = Ok (AWhere (if truthy (get_prop o "isAdmin") then ∅
                else {["state_not" := VStr "deactivated"]})).
Proof.
  intros Ho. unfold User_read. rewrite (ref_get_item _ _ _ Ho). simpl.
  by destruct (truthy (get_prop o "isAdmin")).
Qed.

Lemma where_holds_empty record : where_holds ∅ record = true.
Proof. apply bool_decide_eq_true_2, map_Forall_empty. Qed.

Lemma where_holds_singleton k v record :
  where_holds {[k := v]} record = clause_holds record k v.
Proof.
  unfold where_holds. apply eq_true_iff_eq.
  by rewrite bool_decide_eq_true, map_Forall_singleton.
Qed.

End access_lemmas.

#[export] Hint Rewrite where_holds_empty where_holds_singleton : js.

(** ** The functions of lines 22 to 34 *)

(** [userIsAdmin] never throws; it answers [true] exactly for an
    authenticated user whose [isAdmin] is truthy, and [false] for a request
    without authentication. *)
Theorem userIsAdmin_policy (args : access_args) :
  userIsAdmin args = Ok (may_see_password (principal_of (authentication_item args))).
Proof. apply userIsAdmin_eq. Qed.

(** [userOwnsItem] never throws; without authentication it answers
    [false], and for an authenticated user it answers a filter that lets
    through exactly the records whose [id] is the [id] of the user. *)
Theorem userOwnsItem_filter (args : access_args) (record : item) :
  ∃ a, userOwnsItem args = Ok a
       ∧ access_allows a record
         = match ref_item (authentication_item args) with
           | None => false
           | Some o => bool_decide (get_prop record "id" = get_prop o "id")
           end.
Proof.
  rewrite userOwnsItem_eq. eexists; split; [done|].
  destruct (ref_item (authentication_item args)); [|done].
  simpl. by rewrite where_holds_singleton.
Qed.

(** [userIsAdminOrOwner] never throws; it lets an administrator through
    to every record, another authenticated user to the records whose [id]
    is the user's, and a request without authentication to none. *)
Theorem userIsAdminOrOwner_allows (auth : access_args) (record : item) :
  ∃ a, userIsAdminOrOwner auth = Ok a
       ∧ access_allows a record
         = match ref_item (authentication_item auth) with
           | None => false
           | Some o => truthy (get_prop o "isAdmin")
                       || bool_decide (get_prop record "id" = get_prop o "id")
           end.
Proof.
  unfold userIsAdminOrOwner. rewrite userIsAdmin_eq, userOwnsItem_eq. simpl.
  eexists; split; [done|]. unfold principal_of.
  destruct (ref_item (authentication_item auth)) as [o|]; [|done]. simpl.
  destruct (truthy (get_prop o "isAdmin")); [done|].
  simpl. by rewrite where_holds_singleton.
Qed.

(** ** The fields [email] and [password] *)

(** C7: for an authenticated user and an existing record, the access
    function of [email] (and of updating [password]) returns without
    throwing, and its answer is truthy exactly when the policy of the
    comments allows: the user is an administrator, or the [id] of the record
    is the user's. *)
Theorem email_access_policy (args : access_args) (o e : item) :
  ref_item (authentication_item args) = Some o → ref_item (existingItem args) = Some e →
  ∃ v, email_access args = Ok v ∧ password_update args = Ok v
       ∧ truthy v = may_touch (principal_of (authentication_item args)) (get_prop e "id").
Proof.
  intros Ho He. unfold email_access, password_update.
  rewrite (admin_or_same_id_known _ _ _ Ho He). eexists; split_and!; [done..|].
  unfold principal_of. by rewrite Ho, js_or_truthy.
Qed.

Lemma email_access_policy_witness :
  ∃ v, email_access (AccessArgs (RItem {["id" := VStr "a1"]}) (RItem {["id" := VStr "a1"]})) = Ok v
       ∧ password_update (AccessArgs (RItem {["id" := VStr "a1"]}) (RItem {["id" := VStr "a1"]})) = Ok v
       ∧ truthy v = true.
Proof.
  destruct (email_access_policy
              (AccessArgs (RItem {["id" := VStr "a1"]}) (RItem {["id" := VStr "a1"]}))
              {["id" := VStr "a1"]} {["id" := VStr "a1"]} eq_refl eq_refl)
    as (v & H1 & H2 & H3).
  exists v. split_and!; [done..|]. rewrite H3. by vm_compute.
Defined.

(** C36: without authentication the access function of [email] throws a
    [TypeError] instead of refusing: it reads [isAdmin] of [undefined]. *)
Theorem email_access_anonymous (args : access_args) :
  authentication_item args = RUndefined →
  email_access args = Throw (no_property "undefined" "isAdmin").
Proof. unfold email_access, admin_or_same_id. by intros ->. Qed.

Lemma email_access_anonymous_witness :
  email_access (AccessArgs RUndefined (RItem {["id" := VStr "a1"]}))
  = Throw (no_property "undefined" "isAdmin").
Proof. by apply (email_access_anonymous (AccessArgs RUndefined (RItem {["id" := VStr "a1"]}))). Defined.

(** The access function of [email] governs creation too, where there
    is no existing item, and there it throws a [TypeError] for every
    authenticated user who is not an administrator. *)
Theorem email_access_create (args : access_args) (o : item) :
  ref_item (authentication_item args) = Some o → truthy (get_prop o "isAdmin") = false →
  existingItem args = RUndefined →
  (fc_access <$> lookup_field "email" User) = Some (AccessAll email_access)
  ∧ field_access_for OpCreate (AccessAll email_access) = Some email_access
  ∧ email_access args = Throw (no_property "undefined" "id").
Proof.
  intros Ho Ha He. split_and!; [done..|].
  unfold email_access, admin_or_same_id. rewrite (ref_get_item _ _ _ Ho). simpl.
  by rewrite Ha, He.
Qed.

Lemma email_access_create_witness :
  email_access (AccessArgs (RItem {["id" := VStr "a1"]}) RUndefined)
  = Throw (no_property "undefined" "id").
Proof.
  by apply (email_access_create (AccessArgs (RItem {["id" := VStr "a1"]}) RUndefined)
              {["id" := VStr "a1"]}).
Defined.

(** Whether a password is set is shown to administrators only: for an
    authenticated user the read access of [password] is truthy exactly for
    an administrator, and without authentication it throws a
    [TypeError]. *)
Theorem password_read_policy (args : access_args) :
  match ref_item (authentication_item args) with
  | Some o =>
      ∃ v, password_read args = Ok v
           ∧ truthy v = may_see_password (principal_of (authentication_item args))
  | None => is_ok (password_read args) = false
  end.
Proof.
  unfold password_read, principal_of.
  destruct (authentication_item args) as [| |o|o]; simpl; eauto.
Qed.

(** ** Reading the list *)

(** C6: for an authenticated user the read access of the list returns a
    filter that lets through exactly the records that the policy allows:
    every record for an administrator, the records whose [state] is not
    [deactivated] for another user. *)
Theorem User_read_policy (args : access_args) (o record : item) :
  ref_item (authentication_item args) = Some o →
  ∃ w, User_read args = Ok (AWhere w)
       ∧ where_holds w record
         = may_read_record (principal_of (authentication_item args)) record.
Proof.
  intros Ho. unfold User_read, principal_of. rewrite (ref_get_item _ _ _ Ho), Ho. simpl.
  destruct (truthy (get_prop o "isAdmin")); eexists; (split; [done|]).
  - apply where_holds_empty.
  - by rewrite where_holds_singleton.
Qed.

Lemma User_read_policy_witness :
  ∃ w, User_read (AccessArgs (RItem {["id" := VStr "a1"]}) RUndefined) = Ok (AWhere w)
       ∧ where_holds w {["state" := VStr "deactivated"]} = false.
Proof.
  destruct (User_read_policy (AccessArgs (RItem {["id" := VStr "a1"]}) RUndefined)
              {["id" := VStr "a1"]} {["state" := VStr "deactivated"]} eq_refl)
    as (w & H1 & H2).
  exists w. split; [done|]. rewrite H2. by vm_compute.
Defined.

(** Without authentication the read access of the list throws a
    [TypeError]: it reads [isAdmin] of [undefined]. *)
Theorem User_read_anonymous (args : access_args) :
  authentication_item args = RUndefined →
  User_read args = Throw (no_property "undefined" "isAdmin").
Proof. unfold User_read. by intros ->. Qed.

Lemma User_read_anonymous_witness :
  User_read (AccessArgs RUndefined RUndefined) = Throw (no_property "undefined" "isAdmin").
Proof. by apply (User_read_anonymous (AccessArgs RUndefined RUndefined)). Defined.

(** ** The declaration *)

(** The declaration of the list gives [email] one access function for
    creating, reading and updating, gives [password] a function for reading
    and one for updating and none for creating, and leaves the other fields
    without access functions. *)
Theorem User_field_access :
  (fc_access <$> lookup_field "email" User) = Some (AccessAll email_access)
  ∧ (fc_access <$> lookup_field "password" User)
    = Some (AccessPer (Some password_read) (Some password_update))
  ∧ field_access_for OpCreate (AccessPer (Some password_read) (Some password_update)) = None
  ∧ Forall (λ name, (fc_access <$> lookup_field name User) = Some NoAccess)
      ["name"; "address"; "state"; "isAdmin"].
Proof. split_and!; [done..|]. by repeat constructor. Qed.

(** The admin application is exported with the authentication strategy,
    the strategy names a list that is declared, and the list has the two
    fields that a password strategy identifies a user by: [email], a text,
    and [password], a password. *)
Theorem authStrategy_list_declared :
  AdminUIApp true authStrategy ∈ apps
  ∧ ∃ l, lists !! as_list authStrategy = Some l
         ∧ (fc_type <$> lookup_field "email" l) = Some Text
         ∧ (fc_type <$> lookup_field "password" l) = Some Password.
Proof. split; [set_solver|by exists User]. Qed.
