(* ===== verification/Dispatch.v ===== *)
(** * Calls through the object [access]

    [src/index.js], lines 22 to 34.  The body of [userIsAdminOrOwner] does
    not name the two other functions: it reads the properties
    [userIsAdmin] and [userOwnsItem] of the object [access] when it is
    called, and calls what it finds there.  The object is declared after
    the function, at line 34, and holds the function itself as its third
    property.  A call is therefore modelled against the state of the binding
    [access]: not yet initialised, or an object whose properties are
    functions.  Calls nest, so the evaluation takes fuel, one unit for each
    frame.  The theorems show that with the object of line 34 two frames
    are enough for every call and that the result is the function of
    [Access]; that fuel only matters until a call returns; and for which
    objects a call returns at all. *)

From Stdlib Require Import Ascii String Lia.
From S2P Require Import Prelude JsString JsValue Access.

(** ** Functions as values *)

(** The three arrow functions of lines 22, 23 and 29. *)
Inductive closure : Type :=
| FUserIsAdmin
| FUserOwnsItem
| FUserIsAdminOrOwner.

#[export] Instance closure_eq_dec : EqDecision closure.
Proof. solve_decision. Defined.

(** An object whose properties are functions. *)
Notation methods := (gmap string closure).

(** [const access = { userIsAdmin, userOwnsItem, userIsAdminOrOwner };] *)
Definition access_object : methods :=
  {[ "userIsAdmin" := FUserIsAdmin;
     "userOwnsItem" := FUserOwnsItem;
     "userIsAdminOrOwner" := FUserIsAdminOrOwner ]}.

(** The binding [access]: a [const] is in scope from the start of the
    module and cannot be read before its declaration has been evaluated. *)
Inductive binding : Type :=
| Uninitialised
| Bound (obj : methods).

(** ** Calls *)

(** [x ? ... : ...] on what an access function returned: an object literal
    is truthy. *)
Definition answer_truthy (a : access) : bool :=
  match a with
  | AValue v => truthy v
  | AWhere _ => true
  end.

(** The [TypeError] of calling a property that holds no function. *)
Definition not_a_function (k : string) : exn :=
  TypeError ("access." +:+ k +:+ " is not a function").

(** The [ReferenceError] of reading [access] before line 34. *)
Definition before_initialization : exn := ReferenceError "access".

(** [call fuel env f auth] is the call [f(auth)] when the binding [access]
    is [env], with [fuel] frames left; [None] when the frames run out.
    In [FUserIsAdminOrOwner] the two [const] declarations are evaluated in
    order, each a read of [access] and of one of its properties and then a
    call. *)
Fixpoint call (fuel : nat) (env : binding) (f : closure) (auth : access_args)
    : option (js access) :=
  match fuel with
  | 0 => None
  | S fuel =>
      let method (k : string) : option (js access) :=
        match env with
        | Uninitialised => Some (Throw before_initialization)
        | Bound obj =>
            match obj !! k with
            | Some g => call fuel env g auth
            | None => Some (Throw (not_a_function k))
            end
        end in
      match f with
      | FUserIsAdmin => Some (rmap (λ b, AValue (VBool b)) (userIsAdmin auth))
      | FUserOwnsItem => Some (userOwnsItem auth)
      | FUserIsAdminOrOwner =>
          match method "userIsAdmin" with
          | None => None
          | Some (Throw e) => Some (Throw e)
          | Some (Ok isAdmin) =>
              match method "userOwnsItem" with
              | None => None
              | Some (Throw e) => Some (Throw e)
              | Some (Ok isOwner) =>
                  Some (Ok (if answer_truthy isAdmin then isAdmin else isOwner))
              end
          end
      end
  end.

(** ** What the theorems speak of *)

(** The function of [Access] that a function value stands for. *)
Definition direct (f : closure) (auth : access_args) : js access :=
  match f with
  | FUserIsAdmin => rmap (λ b, AValue (VBool b)) (userIsAdmin auth)
  | FUserOwnsItem => userOwnsItem auth
  | FUserIsAdminOrOwner => userIsAdminOrOwner auth
  end.

(** An object through which [userIsAdminOrOwner] does not reach itself:
    the property [userIsAdmin] does not hold the function and, when that
    property holds a function at all, so that the second call is reached,
    neither does the property [userOwnsItem]. *)
Definition well_founded_object (obj : methods) : bool :=
  match obj !! "userIsAdmin" with
  | Some FUserIsAdminOrOwner => false
  | Some _ => bool_decide (obj !! "userOwnsItem" ≠ Some FUserIsAdminOrOwner)
  | None => true
  end.

(** ** Lemmas *)

Section call_lemmas.
Implicit Types (fuel : nat) (env : binding) (obj : methods) (f : closure)
  (auth : access_args) (r : js access).

(** The two functions that call nothing return in one frame. *)
Lemma call_leaf fuel env f auth :
  f ≠ FUserIsAdminOrOwner → call (S fuel) env f auth = Some (direct f auth).
Proof. by destruct f. Qed.

(** A property of an object read and called, as [call] does it. *)
Lemma call_unfold fuel obj auth :
  call (S fuel) (Bound obj) FUserIsAdminOrOwner auth
  = match from_option (λ g, call fuel (Bound obj) g auth)
            (Some (Throw (not_a_function "userIsAdmin"))) (obj !! "userIsAdmin") with
    | None => None
    | Some (Throw e) => Some (Throw e)
    | Some (Ok isAdmin) =>
        match from_option (λ g, call fuel (Bound obj) g auth)
                (Some (Throw (not_a_function "userOwnsItem"))) (obj !! "userOwnsItem") with
        | None => None
        | Some (Throw e) => Some (Throw e)
        | Some (Ok isOwner) => Some (Ok (if answer_truthy isAdmin then isAdmin else isOwner))
        end
    end.
Proof.
  simpl. by destruct (obj !! "userIsAdmin"), (obj !! "userOwnsItem").
Qed.

(** More fuel does not change a result. *)
Lemma call_mono_S fuel env f auth r :
  call fuel env f auth = Some r → call (S fuel) env f auth = Some r.
Proof.
  revert f r. induction fuel as [|fuel IH]; intros f r; [done|].
  destruct f; [done..|]. destruct env as [|obj]; [done|].
  rewrite !call_unfold.
  destruct (obj !! "userIsAdmin") as [g|]; cbn [from_option]; [|done].
  destruct (call fuel _ g auth) as [r1|] eqn:H1; [|done]. rewrite (IH _ _ H1).
  destruct r1 as [isAdmin|e]; [|done].
  destruct (obj !! "userOwnsItem") as [h|]; cbn [from_option]; [|done].
  destruct (call fuel _ h auth) as [r2|] eqn:H2; [|done]. by rewrite (IH _ _ H2).
Qed.

Lemma call_mono fuel fuel' env f auth r :
  fuel ≤ fuel' → call fuel env f auth = Some r → call fuel' env f auth = Some r.
Proof. induction 1; [done|]. intros. by apply call_mono_S, IHle. Qed.

(** The two functions that call nothing never throw. *)
Lemma direct_leaf_Ok f auth : f ≠ FUserIsAdminOrOwner → is_ok (direct f auth) = true.
Proof.
  destruct f; [| |done]; intros _; simpl.
  - by rewrite userIsAdmin_eq.
  - by rewrite userOwnsItem_eq.
Qed.

(** Through an object that is not well founded the call never returns:
    every frame opens another. *)
Lemma call_diverges fuel obj auth :
  well_founded_object obj = false → call fuel (Bound obj) FUserIsAdminOrOwner auth = None.
Proof.
  unfold well_founded_object. intros Hobj.
  induction fuel as [|fuel IH]; [done|]. rewrite call_unfold.
  destruct (obj !! "userIsAdmin") as [g|]; [|done]. cbn [from_option].
  destruct (decide (g = FUserIsAdminOrOwner)) as [->|Hg]; [by rewrite IH|].
  destruct fuel as [|fuel]; [done|]. rewrite (call_leaf _ _ g) by done.
  pose proof (direct_leaf_Ok g auth Hg) as Hok.
  destruct (direct g auth) as [isAdmin|e]; [|done].
  assert (obj !! "userOwnsItem" = Some FUserIsAdminOrOwner) as ->.
  { destruct g; try done; by apply bool_decide_eq_false, dec_stable in Hobj. }
  cbn [from_option]. by rewrite IH.
Qed.

(** Through a well-founded object the call returns within two frames. *)
Lemma call_returns obj f auth :
  well_founded_object obj = true → is_Some (call 2 (Bound obj) f auth).
Proof.
  unfold well_founded_object. intros Hobj. destruct f; [done..|]. rewrite call_unfold.
  destruct (obj !! "userIsAdmin") as [g|]; [|done]. cbn [from_option].
  destruct (decide (g = FUserIsAdminOrOwner)) as [->|Hg]; [done|].
  rewrite (call_leaf _ _ g) by done. destruct (direct g auth) as [isAdmin|e]; [|done].
  assert (obj !! "userOwnsItem" ≠ Some FUserIsAdminOrOwner) as Hh.
  { destruct g; try done; by apply bool_decide_eq_true in Hobj. }
  destruct (obj !! "userOwnsItem") as [h|]; [|done]. cbn [from_option].
  rewrite (call_leaf _ _ h) by congruence. by destruct (direct h auth).
Qed.

End call_lemmas.

(** ** Theorems *)

(** With the object of line 34 every call returns within two frames, and
    what it returns is what the function of [Access] returns: reading the
    two functions through the object is the same as naming them. *)
Theorem call_access_object (fuel : nat) (f : closure) (auth : access_args) :
  2 ≤ fuel → call fuel (Bound access_object) f auth = Some (direct f auth).
Proof.
  intros Hfuel. apply (call_mono 2); [done|].
  destruct f; [done..|]. rewrite call_unfold.
  change (access_object !! "userIsAdmin") with (Some FUserIsAdmin).
  change (access_object !! "userOwnsItem") with (Some FUserOwnsItem).
  simpl. unfold userIsAdminOrOwner.
  destruct (userIsAdmin auth) as [[]|e]; simpl; [..|done]; by destruct (userOwnsItem auth).
Qed.

Lemma call_access_object_witness :
  call 2 (Bound access_object) FUserIsAdminOrOwner
       (AccessArgs (RItem {["id" := VStr "u1"; "isAdmin" := VBool false]}) RUndefined)
  = Some (Ok (AWhere {["id" := VStr "u1"]})).
Proof.
  exact (call_access_object 2 FUserIsAdminOrOwner
           (AccessArgs (RItem {["id" := VStr "u1"; "isAdmin" := VBool false]}) RUndefined)
           (le_n 2)).
Defined.

(** C22: A call of [userIsAdminOrOwner] returns exactly when the function
    does not reach itself through the object: through a well-founded object
    two frames are enough, whatever the object holds otherwise, and through
    any other object no fuel is. *)
Theorem call_terminates (obj : methods) (auth : access_args) :
  well_founded_object obj = true
  ↔ ∃ r, ∀ fuel, 2 ≤ fuel → call fuel (Bound obj) FUserIsAdminOrOwner auth = Some r.
Proof.
  split.
  - intros [r Hr]%(call_returns obj FUserIsAdminOrOwner auth).
    exists r. intros fuel Hfuel. by apply (call_mono 2).
  - intros [r Hr]. destruct (well_founded_object obj) eqn:Hobj; [done|].
    specialize (Hr 2 (le_n 2)). by rewrite call_diverges in Hr.
Qed.

(** The function closes over the object and not over the two functions:
    once the property [userIsAdmin] of [access] holds
    [userIsAdminOrOwner], a call of it never returns, whatever the fuel. *)
Theorem call_rebound_diverges (fuel : nat) (auth : access_args) :
  call fuel (Bound (<["userIsAdmin" := FUserIsAdminOrOwner]> access_object))
       FUserIsAdminOrOwner auth = None.
Proof. by apply call_diverges. Qed.

(** Before line 34 has been evaluated a call of [userIsAdminOrOwner]
    throws a [ReferenceError], and the two other functions return as they
    do afterwards. *)
Theorem call_before_initialization (fuel : nat) (f : closure) (auth : access_args) :
  call (S fuel) Uninitialised f auth
  = Some (if decide (f = FUserIsAdminOrOwner) then Throw before_initialization
          else direct f auth).
Proof. by destruct f. Qed.

(** A property that is missing from the object makes the call throw a
    [TypeError] and not return [undefined]. *)
Theorem call_missing_method (fuel : nat) (auth : access_args) :
  call (S (S fuel)) (Bound (delete "userIsAdmin" access_object)) FUserIsAdminOrOwner auth
  = Some (Throw (not_a_function "userIsAdmin")).
Proof. by rewrite call_unfold. Qed.
