(* ===== verification/FieldType.v ===== *)
(** * The field type and the evaluation of the two modules

    [src/fb/field-fbId.js], lines 1 to 23 and 126 to 151: the class
    [FbIdImplementation], which contributes the fragments of the GraphQL
    schema, and the descriptor [FirebaseId] with its views, its adapters and
    its defaults for a primary key.  The methods that the class inherits
    ([equalityInputFields], [inInputFields]) are the fields of the class
    [InputBase].  A module is evaluated statement by statement: a statement
    reads some identifiers when it is evaluated, and binds some; reading an
    identifier that nothing has bound throws a [ReferenceError].  The
    theorems give the fragments, show that the query fields declared are the
    keys for which the adapters build conditions, and establish what happens
    when each of the two modules of the repository is loaded. *)

From Stdlib Require Import Ascii String.
From S2P Require Import Prelude JsString JsValue Normalise Framework KnexAdapter.

(** ** Evaluation of a module *)

(** A top-level statement, by what it binds and what it reads when it is
    evaluated.  The body of a function is read when the function is called,
    not when it is defined. *)
Inductive stmt : Type :=
| SImport (names : list string) (source : string)
| SRequire (names : list string) (source : string)
| SClass (name : string) (extends : option string)
| SConst (name : string) (reads : list string)
| SExpr (reads : list string).

(** The identifiers bound so far. *)
Notation scope := (gset string).

(** The first identifier of a list that the scope does not bind. *)
Definition first_unbound (s : scope) (names : list string) : option string :=
  head (filter (λ n, n ∉ s) names).

Definition check_bound (s : scope) (names : list string) : js unit :=
  match first_unbound s names with
  | Some n => Throw (ReferenceError n)
  | None => Ok tt
  end.

Definition eval_stmt (s : scope) (st : stmt) : js scope :=
  match st with
  | SImport names _ => Ok (list_to_set names ∪ s)
  | SRequire names _ =>
      check_bound s ["require"];;;
      Ok (list_to_set names ∪ s)
  | SClass name extends =>
      check_bound s (option_list extends);;;
      Ok ({[name]} ∪ s)
  | SConst name reads =>
      check_bound s reads;;;
      Ok ({[name]} ∪ s)
  | SExpr reads =>
      check_bound s reads;;;
      Ok s
  end.

(** The statements in order; the first throw ends the evaluation. *)
Fixpoint eval_module (s : scope) (sts : list stmt) : js scope :=
  match sts with
  | [] => Ok s
  | st :: sts => let* s' := eval_stmt s st in eval_module s' sts
  end.

(** What a statement reads when it is evaluated, and what it binds. *)
Definition reads_of (st : stmt) : list string :=
  match st with
  | SImport _ _ => []
  | SRequire _ _ => ["require"]
  | SClass _ extends => option_list extends
  | SConst _ reads => reads
  | SExpr reads => reads
  end.

Definition binds_of (st : stmt) : scope :=
  match st with
  | SImport names _ | SRequire names _ => list_to_set names
  | SClass name _ | SConst name _ => {[name]}
  | SExpr _ => ∅
  end.

(** The free identifiers of a module: what its statements read that no
    earlier statement of the module has bound, given the identifiers
    [bound] before the first statement. *)
Fixpoint free_reads (bound : scope) (sts : list stmt) : list string :=
  match sts with
  | [] => []
  | st :: sts =>
      filter (λ n, n ∉ bound) (reads_of st) ++ free_reads (binds_of st ∪ bound) sts
  end.

(** Everything that the statements of a module bind. *)
Definition bound_names (sts : list stmt) : scope := ⋃ (binds_of <$> sts).

(** The identifiers that the runtime binds before any module: the
    constructors that the sources name. *)
Definition globals : scope := {["Boolean"; "String"]}.

(** The identifiers that the wrapper of a CommonJS module binds. *)
Definition commonjs : scope := {["require"; "module"; "exports"]} ∪ globals.

(** The top-level statements of [src/fb/field-fbId.js]. *)
Definition field_fbId_module : list stmt :=
  [ SImport ["Text"] "@keystonejs/fields";
    SImport ["importView"] "@keystonejs/build-field-types";
    SImport ["KnexFieldAdapter"] "@keystonejs/adapter-knex";
    SImport ["FirebaseFieldAdapter"] "./adapter-fb";
    SClass "FbIdImplementation" (Some "Implementation");
    SConst "validator" [];
    SConst "normaliseValue" [];
    SClass "FbMongoIdInterface" (Some "FirebaseFieldAdapter");
    SClass "KnexMongoIdInterface" (Some "KnexFieldAdapter");
    SConst "FirebaseId" ["FbIdImplementation"; "importView"; "Text"; "importView"; "FbId"] ].

(** The identifiers that the body of [primaryKeyDefaults.mongoose.getConfig]
    reads when it is called, line 148. *)
Definition mongoose_getConfig_reads : list string := ["MongoId"].

(** The top-level statements of [src/index.js]. *)
Definition index_module : list stmt :=
  [ SRequire ["Keystone"] "@keystonejs/keystone";
    SRequire ["PasswordAuthStrategy"] "@keystonejs/auth-password";
    SRequire ["Text"; "Checkbox"; "Password"; "Select"] "@keystonejs/fields";
    SRequire ["GraphQLApp"] "@keystonejs/app-graphql";
    SRequire ["AdminUIApp"] "@keystonejs/app-admin-ui";
    SRequire ["initialiseData"] "./initial-data";
    SRequire ["Adapter"] "@keystonejs/adapter-mongoose";
    SRequire ["FirebaseAdapter"] "./fb/adapter-fb";
    SConst "PROJECT_NAME" [];
    SConst "keystone" ["Keystone"; "PROJECT_NAME"; "FirebaseAdapter"; "initialiseData"];
    SConst "userIsAdmin" [];
    SConst "userOwnsItem" [];
    SConst "userIsAdminOrOwner" [];
    SConst "access" ["userIsAdmin"; "userOwnsItem"; "userIsAdminOrOwner"];
    SExpr ["keystone"; "Text"; "Text"; "Select"; "Checkbox"; "Text"; "Password"];
    SConst "authStrategy" ["keystone"; "PasswordAuthStrategy"];
    SExpr ["module"; "keystone"; "GraphQLApp"; "AdminUIApp"; "authStrategy"] ].

(** The identifiers that the bodies of the functions of [src/index.js] read
    when they are called: [Boolean] in [userIsAdmin], [access] in
    [userIsAdminOrOwner]. *)
Definition index_call_reads : list string := ["Boolean"; "access"].

(** ** The inherited input fields *)

(** The name that a field declaration [name: type] declares: what stands
    before the colon. *)
Fixpoint input_field_name (decl : string) : string :=
  match decl with
  | EmptyString => EmptyString
  | String c rest => if Ascii.eqb c ":" then EmptyString else String c (input_field_name rest)
  end.

(** A name holds no colon. *)
Definition is_name (s : string) : bool :=
  string_forallb (λ c, negb (Ascii.eqb c ":")) s.

(** [this.equalityInputFields(type)] and [this.inInputFields(type)] of the
    implementation whose field is at [path].  The law: the fields declared
    are named by the four query keys. *)
Class InputBase : Type := {
  equalityInputFields : string → string → list string;
  inInputFields : string → string → list string;
  equalityInputFields_names path ty :
    is_name path = true →
    input_field_name <$> equalityInputFields path ty = [path; path +:+ "_not"];
  inInputFields_names path ty :
    is_name path = true →
    input_field_name <$> inInputFields path ty = [path +:+ "_in"; path +:+ "_not_in"];
}.

(** The base that follows the conventions of the framework's own
    implementations. *)
Definition standard_equalityInputFields (path ty : string) : list string :=
  [path +:+ ": " +:+ ty; path +:+ "_not: " +:+ ty].

Definition standard_inInputFields (path ty : string) : list string :=
  [path +:+ "_in: [" +:+ ty +:+ "]"; path +:+ "_not_in: [" +:+ ty +:+ "]"].

Module FbIdImplementation.

(** What the methods read of [this]. *)
Record t : Type := Implementation {
  path : string;
}.

(** [gqlOutputFields() { return [`${this.path}: ID`]; }] *)
Definition gqlOutputFields (i : t) : list string := [path i +:+ ": ID"].

(** [gqlOutputFieldResolvers() { return { [`${this.path}`]: item => item[this.path] }; }] *)
Definition gqlOutputFieldResolvers (i : t) : gmap string (ref → js value) :=
  {[ path i := λ item, ref_get item (path i) ]}.

(** [gqlQueryInputFields() {
      return [...this.equalityInputFields('ID'), ...this.inInputFields('ID')]; }] *)
Definition gqlQueryInputFields {IB : InputBase} (i : t) : list string :=
  equalityInputFields (path i) "ID" ++ inInputFields (path i) "ID".

(** [get gqlUpdateInputFields() { return [`${this.path}: ID`]; }] *)
Definition gqlUpdateInputFields (i : t) : list string := [path i +:+ ": ID"].

(** [get gqlCreateInputFields() { return [`${this.path}: ID`]; }] *)
Definition gqlCreateInputFields (i : t) : list string := [path i +:+ ": ID"].

End FbIdImplementation.

(** ** The descriptor *)

(** A view is known by the path it is imported from, or by the field type
    whose view it reuses. *)
Inductive view : Type :=
| ImportView (path : string)
| ViewOf (fieldType viewName : string).

(** The message of the [throw] of lines 142 to 144. *)
Definition knex_getConfig_message : string :=
  "The Uuid field type doesn't provide a default primary key field configuration for knex. "
  +:+ "You'll need to supply your own 'id' field for each list or use a different field type for your "
  +:+ "ids (eg '@keystonejs/fields-auto-increment').".

(** [primaryKeyDefaults.knex.getConfig()], lines 141 to 145. *)
Definition knex_getConfig : js item := Throw (Thrown (VStr knex_getConfig_message)).

(** [primaryKeyDefaults.mongoose.getConfig()], line 148, called in a scope:
    the body reads [MongoId]. *)
Definition mongoose_getConfig (s : scope) : js (gmap string string) :=
  check_bound s mongoose_getConfig_reads;;;
  Ok {["type" := "MongoId"]}.

Record field_type_descriptor : Type := Descriptor {
  ft_type : string;
  ft_implementation : string;
  ft_views : gmap string view;
  ft_adapters : gmap string string;
  ft_primaryKeyDefaults : gset string;
}.

(** [export const FirebaseId = { ... }], lines 126 to 151.  The adapters
    are known by the identifiers that name them. *)
Definition FirebaseId : field_type_descriptor :=
  Descriptor "MongoId" "FbIdImplementation"
    {[ "Controller" := ImportView "./views/Controller";
       "Field" := ViewOf "Text" "Field";
       "Filter" := ImportView "./views/Filter" ]}
    {[ "admin" := "FbId" ]}
    {[ "knex"; "mongoose" ]}.

(** The class declarations of the module, by name. *)
Definition declared_classes : gset string :=
  {["FbIdImplementation"; "FbMongoIdInterface"; "KnexMongoIdInterface"]}.

(** ** Lemmas on names *)

Lemma input_field_name_app (name rest : string) :
  is_name name = true → input_field_name (name +:+ ":" +:+ rest) = name.
Proof.
  induction name as [|c name IH]; [done|]. rewrite string_app_cons. simpl.
  intros [Hc Hn]%andb_prop. apply negb_true_iff in Hc. rewrite Hc. f_equal. by apply IH.
Qed.

Lemma is_name_app (p q : string) : is_name (p +:+ q) = is_name p && is_name q.
Proof.
  unfold is_name. induction p as [|c p IH]; [done|].
  rewrite string_app_cons. simpl. by rewrite IH, andb_assoc.
Qed.

Lemma input_field_name_suffixed (name suffix rest : string) :
  is_name name = true → is_name suffix = true →
  input_field_name (name +:+ suffix +:+ ":" +:+ rest) = name +:+ suffix.
Proof.
  intros Hn Hs. rewrite <-string_app_assoc. apply input_field_name_app.
  by rewrite is_name_app, Hn, Hs.
Qed.

#[export, refine] Instance StandardInputBase : InputBase := {
  equalityInputFields := standard_equalityInputFields;
  inInputFields := standard_inInputFields;
}.
Proof.
  - intros path ty Hp. unfold standard_equalityInputFields. cbn [fmap list_fmap].
    change (path +:+ ": " +:+ ty) with (path +:+ ":" +:+ (" " +:+ ty)).
    change (path +:+ "_not: " +:+ ty) with (path +:+ "_not" +:+ ":" +:+ (" " +:+ ty)).
    by rewrite input_field_name_app, input_field_name_suffixed.
  - intros path ty Hp. unfold standard_inInputFields. cbn [fmap list_fmap].
    change (path +:+ "_in: [" +:+ ty +:+ "]")
      with (path +:+ "_in" +:+ ":" +:+ (" [" +:+ ty +:+ "]")).
    change (path +:+ "_not_in: [" +:+ ty +:+ "]")
      with (path +:+ "_not_in" +:+ ":" +:+ (" [" +:+ ty +:+ "]")).
    by rewrite !input_field_name_suffixed.
Defined.

(** ** Lemmas on the evaluation of modules *)

Section eval_lemmas.
Implicit Types (s b : scope) (names : list string) (st : stmt) (sts : list stmt).

Lemma check_bound_ok s names :
  is_ok (check_bound s names) = true ↔ Forall (λ n, n ∈ s) names.
Proof.
  unfold check_bound, first_unbound. induction names as [|n names IH]; [done|].
  rewrite filter_cons. destruct (decide (n ∉ s)) as [Hn|Hn]; simpl.
  - split; [done|]. by intros [? _]%Forall_cons.
  - rewrite IH, Forall_cons. apply dec_stable in Hn. naive_solver.
Qed.

Lemma check_bound_Ok s names : Forall (λ n, n ∈ s) names → check_bound s names = Ok tt.
Proof. intros H%check_bound_ok. by destruct (check_bound s names) as [[]|]. Qed.

Lemma check_bound_Throw s names e :
  check_bound s names = Throw e → ∃ n, e = ReferenceError n ∧ n ∈ names ∧ n ∉ s.
Proof.
  unfold check_bound, first_unbound.
  destruct (filter _ names) as [|n l] eqn:Hf; [done|]. simpl. intros [= <-].
  exists n. split; [done|].
  assert (Hn : n ∈ filter (λ n, n ∉ s) names) by (rewrite Hf; by left).
  apply list_elem_of_filter in Hn. tauto.
Qed.

Lemma eval_stmt_eq s st :
  eval_stmt s st = (check_bound s (reads_of st);;; Ok (binds_of st ∪ s)).
Proof. destruct st; simpl; try done. by rewrite union_empty_l_L. Qed.

Lemma eval_stmt_ok s st :
  is_ok (eval_stmt s st) = true ↔ Forall (λ n, n ∈ s) (reads_of st).
Proof.
  rewrite eval_stmt_eq, <-check_bound_ok. by destruct (check_bound s (reads_of st)).
Qed.

(** What a successful evaluation leaves bound. *)
Lemma eval_module_Ok s sts s' :
  eval_module s sts = Ok s' → s' = bound_names sts ∪ s.
Proof.
  revert s. induction sts as [|st sts IH]; intros s; simpl.
  - intros [= <-]. unfold bound_names. simpl. by rewrite union_empty_l_L.
  - rewrite eval_stmt_eq. destruct (check_bound s (reads_of st)); [|done]. simpl.
    intros ->%IH. unfold bound_names. simpl. set_solver.
Qed.

Lemma check_bound_union_ok b s names :
  is_ok (check_bound (b ∪ s) names) = true
  ↔ Forall (λ n, n ∈ s) (filter (λ n, n ∉ b) names).
Proof.
  rewrite check_bound_ok, Forall_filter_iff. apply Forall_proper; [|done].
  intros n. destruct (decide (n ∈ b)); set_solver.
Qed.

(** A module loads exactly when the scope binds its free identifiers. *)
Lemma eval_module_ok b s sts :
  is_ok (eval_module (b ∪ s) sts) = true ↔ Forall (λ n, n ∈ s) (free_reads b sts).
Proof.
  revert b. induction sts as [|st sts IH]; intros b; simpl; [done|].
  rewrite eval_stmt_eq, Forall_app, <-check_bound_union_ok, <-IH, is_ok_rbind.
  destruct (check_bound (b ∪ s) (reads_of st)) as [[]|e]; simpl.
  - rewrite (assoc_L (∪)). tauto.
  - split; [done|]. by intros [? _].
Qed.

Lemma eval_module_ok_iff s sts :
  is_ok (eval_module s sts) = true ↔ Forall (λ n, n ∈ s) (free_reads ∅ sts).
Proof. by rewrite <-eval_module_ok, union_empty_l_L. Qed.

(** What the evaluation returns when the free identifiers are bound. *)
Lemma eval_module_loads s sts :
  Forall (λ n, n ∈ s) (free_reads ∅ sts) → eval_module s sts = Ok (bound_names sts ∪ s).
Proof.
  intros Hfree%eval_module_ok_iff.
  destruct (eval_module s sts) as [s'|e] eqn:He; [|done]. f_equal. by apply eval_module_Ok.
Qed.

End eval_lemmas.

(** ** Loading the modules *)

(** A module loads exactly when the scope it is evaluated in binds its
    free identifiers: the evaluation of the statements returns if and only if
    every identifier that a statement reads before the module has bound it
    is bound from outside. *)
Theorem eval_module_free_reads (s : scope) (sts : list stmt) :
  is_ok (eval_module s sts) = true ↔ Forall (λ n, n ∈ s) (free_reads ∅ sts).
Proof. apply eval_module_ok_iff. Qed.

(** C39: the module [field-fbId.js] has two free identifiers,
    [Implementation] and [FbId], which it neither imports nor declares:
    loading it succeeds only in a scope that binds both. *)
Theorem field_fbId_module_free (s : scope) :
  free_reads ∅ field_fbId_module = ["Implementation"; "FbId"]
  ∧ (is_ok (eval_module s field_fbId_module) = true
     ↔ "Implementation" ∈ s ∧ "FbId" ∈ s).
Proof.
  assert (Hfree : free_reads ∅ field_fbId_module = ["Implementation"; "FbId"])
    by (by vm_compute).
  split; [done|]. rewrite eval_module_ok_iff, Hfree, !Forall_cons, Forall_nil. tauto.
Qed.

(** Loading [field-fbId.js] throws a [ReferenceError] at the
    declaration of [FbIdImplementation], whose superclass [Implementation]
    is not bound; with [Implementation] bound it throws at the descriptor,
    which reads [FbId]. *)
Theorem field_fbId_module_throws :
  eval_module globals field_fbId_module = Throw (ReferenceError "Implementation")
  ∧ eval_module ({["Implementation"]} ∪ globals) field_fbId_module
    = Throw (ReferenceError "FbId").
Proof. split; by vm_compute. Qed.

(** In the scope that a load of [field-fbId.js] leaves, the default
    primary-key configuration for the document store cannot be obtained:
    unless the scope bound [MongoId] from outside, [getConfig] throws a
    [ReferenceError]. *)
Theorem mongoose_getConfig_throws (s s' : scope) :
  eval_module s field_fbId_module = Ok s' → "MongoId" ∉ s →
  mongoose_getConfig s' = Throw (ReferenceError "MongoId").
Proof.
  intros ->%eval_module_Ok Hs. unfold mongoose_getConfig, check_bound, first_unbound.
  unfold mongoose_getConfig_reads. rewrite filter_cons_True; [done|].
  assert (Hb : "MongoId" ∉ bound_names field_fbId_module) by by_compute.
  set_solver.
Qed.

Lemma mongoose_getConfig_throws_witness :
  mongoose_getConfig
    (bound_names field_fbId_module ∪ ({["Implementation"; "FbId"]} ∪ globals))
  = Throw (ReferenceError "MongoId").
Proof.
  apply (mongoose_getConfig_throws ({["Implementation"; "FbId"]} ∪ globals)).
  - apply eval_module_loads. repeat constructor; by_compute.
  - by_compute.
Defined.

(** The default primary-key configuration for the relational store is
    refused with a thrown message, and the message names the field type
    [Uuid] although the descriptor declares the type [MongoId]. *)
Theorem knex_getConfig_throws :
  knex_getConfig = Throw (Thrown (VStr knex_getConfig_message))
  ∧ String.substring 0 19 knex_getConfig_message = "The Uuid field type"
  ∧ ft_type FirebaseId = "MongoId".
Proof. by vm_compute. Qed.

(** The descriptor registers one adapter, under the key [admin], by an
    identifier that the module does not bind; neither of the two adapter
    classes that the module declares is registered. *)
Theorem FirebaseId_adapters :
  ft_adapters FirebaseId = {["admin" := "FbId"]}
  ∧ ("FbId" ∉ bound_names field_fbId_module)
  ∧ map_Forall (λ _ cls, cls ∉ declared_classes) (ft_adapters FirebaseId)
  ∧ declared_classes ⊆ bound_names field_fbId_module.
Proof.
  split_and!; [done|by_compute| |by_compute].
  apply map_Forall_singleton. by_compute.
Qed.

(** The module [index.js] loads in the scope of a CommonJS module, and
    the scope it leaves binds what the bodies of its functions read when
    they are called. *)
Theorem index_module_loads :
  ∃ s', eval_module commonjs index_module = Ok s'
        ∧ Forall (λ n, n ∈ s') index_call_reads.
Proof.
  eexists. split; [apply eval_module_loads; by_compute|].
  repeat constructor; by_compute.
Qed.

(** ** The fragments of the schema *)

Section fragments.
Context {IB : InputBase} {QB : QueryBase}.
Import FbIdImplementation.

(** The output field, the create input and the update input of the
    field are the same single declaration, named by the path of the field
    and of type [ID]. *)
Theorem gql_fields_declare_path (i : t) :
  is_name (path i) = true →
  gqlOutputFields i = [path i +:+ ": ID"]
  ∧ gqlCreateInputFields i = gqlOutputFields i
  ∧ gqlUpdateInputFields i = gqlOutputFields i
  ∧ input_field_name <$> gqlOutputFields i = [path i].
Proof.
  intros Hp. split_and!; [done..|]. unfold gqlOutputFields. cbn [fmap list_fmap].
  change (path i +:+ ": ID") with (path i +:+ ":" +:+ " ID").
  by rewrite input_field_name_app.
Qed.

(** The query input fields that the implementation declares are named
    by exactly the keys for which the relational adapter of the same path
    builds conditions. *)
Theorem gqlQueryInputFields_keys (i : t) (a : KnexMongoIdInterface.t) (dbPath : string) :
  is_name (path i) = true → KnexMongoIdInterface.path a = path i →
  list_to_set (input_field_name <$> gqlQueryInputFields i)
  = dom (KnexMongoIdInterface.getQueryConditions a dbPath).
Proof.
  intros Hp Ha. unfold gqlQueryInputFields, KnexMongoIdInterface.getQueryConditions.
  rewrite spread_conditions_dom, Ha, fmap_app.
  rewrite equalityInputFields_names, inInputFields_names by done.
  simpl. set_solver.
Qed.

(** The resolver of the output field reads the property of the item at
    the path of the field, and throws a [TypeError] when there is no
    item. *)
Theorem gqlOutputFieldResolvers_reads (i : t) (item : ref) :
  ∃ f, gqlOutputFieldResolvers i !! path i = Some f
       ∧ f item = match ref_item item with
                  | Some o => Ok (get_prop o (path i))
                  | None => ref_get item (path i)
                  end
       ∧ is_ok (f item) = ref_truthy item.
Proof.
  unfold gqlOutputFieldResolvers. rewrite lookup_singleton_eq.
  eexists; split_and!; [done|..]; by destruct item.
Qed.

End fragments.

Lemma gql_fields_declare_path_witness :
  input_field_name <$> FbIdImplementation.gqlOutputFields (FbIdImplementation.Implementation "fbId")
  = ["fbId"].
Proof.
  by apply (gql_fields_declare_path (FbIdImplementation.Implementation "fbId")).
Defined.

Lemma gqlQueryInputFields_keys_witness :
  list_to_set (input_field_name
                 <$> FbIdImplementation.gqlQueryInputFields (IB := StandardInputBase)
                       (FbIdImplementation.Implementation "fbId"))
  = dom (KnexMongoIdInterface.getQueryConditions (QB := StandardBase)
           (KnexMongoIdInterface.new (KnexMongoIdInterface.Base "fbId" ∅ VUndefined VUndefined))
           "fbId").
Proof.
  by apply (gqlQueryInputFields_keys (IB := StandardInputBase) (QB := StandardBase)
              (FbIdImplementation.Implementation "fbId")).
Defined.
