(* ===== verification/Usage.v ===== *)
(** * Which declarations a module uses

    A declaration at the top level of a module matters when something
    reads it: an expression statement, an export, or the declaration or
    the body of something that matters itself.  [src/index.js] declares the
    three access functions of lines 22 to 33 and the object [access] of
    line 34, which read one another; whether anything else reads them is a
    question of reachability over the reads.  This file has the reads of
    the bodies of the two modules, the set of used names as the closure of
    the roots under the reads, computed by iteration with fuel, and the
    theorems that the iteration reaches the least closed set within as
    many rounds as there are names, and what that set is for each of the
    two modules. *)

From Stdlib Require Import Ascii String Lia.
From S2P Require Import Prelude JsString JsValue Normalise Framework KnexAdapter FieldType.

(** ** Closure under reads *)

(** What each name reads. *)
Notation reads := (gmap string (list string)).

(** The names that the names of [L] read. *)
Definition successors (G : reads) (L : gset string) : gset string :=
  ⋃ ((λ n, list_to_set (default [] (G !! n))) <$> elements L).

(** Rounds of adding what the set reads, until a round adds nothing or the
    fuel is spent. *)
Fixpoint close (fuel : nat) (G : reads) (L : gset string) : gset string :=
  match fuel with
  | 0 => L
  | S fuel =>
      if decide (successors G L ⊆ L) then L
      else close fuel G (L ∪ successors G L)
  end.

(** Every name that reads or is read. *)
Definition universe (G : reads) : gset string :=
  dom G ∪ ⋃ (list_to_set <$> (map_to_list G).*2).

(** ** The reads of the two modules *)

(** What the functions and methods that a declaration holds read when they
    are called. *)
Notation body_reads := (gmap string (list string)).

(** [src/index.js]: [Boolean] in [userIsAdmin] (line 22) and [access] in
    [userIsAdminOrOwner] (lines 30 and 31); the functions written inside
    [createList] read their parameters only. *)
Definition index_body_reads : body_reads :=
  {[ "userIsAdmin" := ["Boolean"];
     "userIsAdminOrOwner" := ["access"; "access"] ]}.

(** [src/fb/field-fbId.js]: [String] and [validator] in
    [addToMongooseSchema] (lines 34 and 36), [normaliseValue] in the hooks
    and the conditions of the relational adapter (lines 100, 112, 120 and
    121), [MongoId] in [getConfig] (line 148). *)
Definition field_fbId_body_reads : body_reads :=
  {[ "FbMongoIdInterface" := ["String"; "validator"];
     "KnexMongoIdInterface" :=
       ["normaliseValue"; "normaliseValue"; "normaliseValue"; "normaliseValue"];
     "FirebaseId" := ["MongoId"] ]}.

(** The names that [src/fb/field-fbId.js] exports (lines 7, 28, 80 and
    126); [src/index.js] exports by the assignment to [module.exports],
    which is an expression statement. *)
Definition field_fbId_exports : list string :=
  ["FbIdImplementation"; "FbMongoIdInterface"; "KnexMongoIdInterface"; "FirebaseId"].

Definition index_exports : list string := [].

(** The names that a statement binds, in order. *)
Definition names_of (st : stmt) : list string :=
  match st with
  | SImport names _ | SRequire names _ => names
  | SClass name _ | SConst name _ => [name]
  | SExpr _ => []
  end.

(** What each name of a module reads: what the statement that binds it
    reads when it is evaluated, and what its bodies read when called. *)
Definition reads_in (sts : list stmt) (B : body_reads) : reads :=
  list_to_map
    (st ← sts; (λ n, (n, reads_of st ++ default [] (B !! n))) <$> names_of st).

(** The roots: what the expression statements read, and the exports. *)
Definition roots (sts : list stmt) (exports : list string) : gset string :=
  list_to_set exports
  ∪ ⋃ ((λ st, match st with SExpr rs => list_to_set rs | _ => ∅ end) <$> sts).

(** The names that a module uses. *)
Definition used (sts : list stmt) (B : body_reads) (exports : list string) : gset string :=
  let G := reads_in sts B in
  close (S (size (universe G))) G (roots sts exports).

(** The names that a module binds and does not use. *)
Definition unused (sts : list stmt) (B : body_reads) (exports : list string) : gset string :=
  bound_names sts ∖ used sts B exports.

(** ** What the theorems speak of *)

(** A set that holds what its names read. *)
Definition closed (G : reads) (L : gset string) : Prop := successors G L ⊆ L.

(** ** Lemmas *)

Section closure.
Context (G : reads).
Implicit Types (L M : gset string) (n m : string) (fuel : nat).

Lemma elem_of_successors m L :
  m ∈ successors G L ↔ ∃ n ms, n ∈ L ∧ G !! n = Some ms ∧ m ∈ ms.
Proof.
  unfold successors. rewrite elem_of_union_list. split.
  - intros (X & (n & -> & Hn%elem_of_elements)%list_elem_of_fmap & Hm).
    destruct (G !! n) as [ms|] eqn:Hms; simpl in Hm; [|set_solver].
    exists n, ms. by rewrite elem_of_list_to_set in Hm.
  - intros (n & ms & Hn & Hms & Hm). exists (list_to_set ms). split.
    + apply list_elem_of_fmap. exists n. rewrite Hms. by rewrite elem_of_elements.
    + by apply elem_of_list_to_set.
Qed.

Lemma successors_mono L M : L ⊆ M → successors G L ⊆ successors G M.
Proof. intros HLM m. rewrite !elem_of_successors. set_solver. Qed.

Lemma successors_universe L : successors G L ⊆ universe G.
Proof.
  intros m (n & ms & _ & Hms & Hm)%elem_of_successors.
  apply elem_of_union_r, elem_of_union_list. exists (list_to_set ms). split.
  - apply list_elem_of_fmap. exists ms. split; [done|].
    apply list_elem_of_fmap. exists (n, ms). split; [done|]. by apply elem_of_map_to_list.
  - by apply elem_of_list_to_set.
Qed.

(** The iteration only adds. *)
Lemma close_extensive fuel L : L ⊆ close fuel G L.
Proof.
  revert L. induction fuel as [|fuel IH]; intros L; simpl; [done|].
  case_decide; [done|]. etrans; [|apply IH]. set_solver.
Qed.

(** The iteration stays below every closed set above its start. *)
Lemma close_least fuel L M : L ⊆ M → closed G M → close fuel G L ⊆ M.
Proof.
  revert L. induction fuel as [|fuel IH]; intros L HLM HM; simpl; [done|].
  case_decide; [done|]. apply IH; [|done].
  pose proof (successors_mono L M HLM). unfold closed in HM. set_solver.
Qed.

(** A round that adds something leaves fewer names outside. *)
Lemma round_decreases L :
  ¬ successors G L ⊆ L →
  size (universe G ∖ (L ∪ successors G L)) < size (universe G ∖ L).
Proof.
  intros Hnot. apply subset_size.
  pose proof (successors_universe L) as Hu.
  assert (∃ m, m ∈ successors G L ∧ m ∉ L) as (m & Hm & HmL).
  { destruct (set_choose_or_empty (successors G L ∖ L)) as [[m Hm]|Hempty]; [set_solver|].
    destruct Hnot. intros x Hx. destruct (decide (x ∈ L)); [done|]. set_solver. }
  split; [set_solver|]. intros Hsub. specialize (Hsub m). set_solver.
Qed.

(** With more fuel than there are names outside the start, the iteration
    ends because a round adds nothing. *)
Lemma close_closed fuel L : size (universe G ∖ L) < fuel → closed G (close fuel G L).
Proof.
  revert L. induction fuel as [|fuel IH]; intros L Hfuel; [lia|]. simpl.
  case_decide as Hc; [done|]. apply IH.
  pose proof (round_decreases L Hc). lia.
Qed.

Lemma close_enough L : closed G (close (S (size (universe G))) G L).
Proof.
  apply close_closed.
  assert (size (universe G ∖ L) ≤ size (universe G)); [|lia].
  apply subseteq_size. set_solver.
Qed.

(** Once a round adds nothing, fuel is not used. *)
Lemma close_stable fuel L : closed G L → close fuel G L = L.
Proof. intros HL. destruct fuel; simpl; [done|]. by rewrite decide_True. Qed.

End closure.

(** ** Theorems *)

(** The iteration terminates with the least closed set: with one unit of
    fuel more than there are names, [close] returns a set that holds its
    start, that is closed under the reads, that lies in every closed set
    above the start, and that no further fuel changes. *)
Theorem close_least_fixpoint (G : reads) (L : gset string) (fuel : nat) :
  let R := close (S (size (universe G))) G L in
  L ⊆ R ∧ closed G R ∧ (∀ M, L ⊆ M → closed G M → R ⊆ M) ∧ close fuel G R = R.
Proof.
  split_and!.
  - apply close_extensive.
  - apply close_enough.
  - intros M. apply close_least.
  - apply close_stable, close_enough.
Qed.

(** Fuel below the number of rounds needed gives less: on a chain of
    three reads one round reaches one link only. *)
Theorem close_needs_fuel :
  let G : reads := {[ "a" := ["b"]; "b" := ["c"] ]} in
  close 1 G {["a"]} = {["a"; "b"]} ∧ ¬ closed G (close 1 G {["a"]})
  ∧ close 3 G {["a"]} = {["a"; "b"; "c"]}.
Proof.
  split_and!; [by_compute| |by_compute].
  intros Hc. assert ("c" ∈ close 1 {[ "a" := ["b"]; "b" := ["c"] ]} {["a"]}) as Hin.
  { apply Hc, elem_of_successors. exists "b", ["c"]. split_and!; [by_compute|done|set_solver]. }
  revert Hin. by_compute.
Qed.


(** Every declaration of [src/fb/field-fbId.js] is used by what the module
    exports. *)
Theorem field_fbId_module_unused :
  unused field_fbId_module field_fbId_body_reads field_fbId_exports = ∅.
Proof. by_compute. Qed.

(** Through the descriptor [FirebaseId] alone, which is what a list that
    names the field type is given, neither adapter is reached, and with
    them neither [validator] nor [normaliseValue]. *)
Theorem field_fbId_descriptor_unused :
  unused field_fbId_module field_fbId_body_reads ["FirebaseId"]
  = {["KnexFieldAdapter"; "FirebaseFieldAdapter"; "validator"; "normaliseValue";
      "FbMongoIdInterface"; "KnexMongoIdInterface"]}.
Proof. by_compute. Qed.

(** A name that a module does not use is read by no root and by no used
    name. *)
Theorem unused_not_read (sts : list stmt) (B : body_reads) (exports : list string)
    (n m : string) (ms : list string) :
  m ∈ unused sts B exports → reads_in sts B !! n = Some ms → m ∈ ms →
  n ∉ used sts B exports ∧ m ∉ roots sts exports.
Proof.
  unfold unused, used. intros [_ Hm]%elem_of_difference Hn Hms.
  destruct (close_least_fixpoint (reads_in sts B) (roots sts exports) 0)
    as (Hroots & Hclosed & _). split; [|set_solver].
  intros Hused. apply Hm, Hclosed, elem_of_successors. by exists n, ms.
Qed.

Lemma unused_not_read_witness :
  "access" ∉ used index_module index_body_reads index_exports
  ∧ "userIsAdmin" ∉ roots index_module index_exports.
Proof.
  apply (unused_not_read index_module index_body_reads index_exports
           "access" "userIsAdmin" ["userIsAdmin"; "userOwnsItem"; "userIsAdminOrOwner"]).
  - by_compute.
  - by_compute.
  - set_solver.
Defined.
