(* ===== verification/Heap.v ===== *)
(** * Objects in a store

    The hooks of [src/fb/field-fbId.js] do not build a new record: they
    assign to properties of the object they receive, delete properties of it
    and return it, so that whoever holds the object sees the change.  This
    file has the store that such code runs in: objects by location, each a
    plain object or a document of the store, pointers to them, and
    computations that read and write the store and may throw.  A computation
    that throws leaves the store as it was at the time of the throw.  The
    last part relates a store and a pointer to the reference by value of
    [JsValue], which is what the hooks are specified on. *)

From Stdlib Require Import Ascii String.
From S2P Require Import Prelude JsString JsValue.

(** ** Objects, pointers and the store *)

(** A plain object, or a document of the store, which has the method
    [toObject] besides its fields. *)
Inductive kind : Type :=
| Plain
| Document.

#[export] Instance kind_eq_dec : EqDecision kind.
Proof. solve_decision. Defined.

Record object : Type := Object {
  kind_of : kind;
  fields : item;
}.

#[export] Instance object_eq_dec : EqDecision object.
Proof. solve_decision. Defined.

Notation loc := positive.
Notation heap := (gmap loc object).

(** What a hook receives: [undefined], [null], or an object. *)
Inductive pointer : Type :=
| PUndefined
| PNull
| PLoc (l : loc).

#[export] Instance pointer_eq_dec : EqDecision pointer.
Proof. solve_decision. Defined.

(** The fields of the object at a location.  A location outside the store
    reads as an object without fields; the theorems speak of allocated
    locations. *)
Definition fields_at (h : heap) (l : loc) : item :=
  from_option fields ∅ (h !! l).

Definition set_fields (f : item → item) (o : object) : object :=
  Object (kind_of o) (f (fields o)).

(** A pointer that the store can follow. *)
Definition allocated (h : heap) (p : pointer) : bool :=
  match p with
  | PLoc l => bool_decide (is_Some (h !! l))
  | _ => true
  end.

(** ** Computations on the store *)

(** A computation takes the store and gives its result, or what it threw,
    with the store it leaves. *)
Notation hjs A := (heap → js A * heap).

Definition hret {A} (a : A) : hjs A := λ h, (Ok a, h).

Definition hthrow {A} (e : exn) : hjs A := λ h, (Throw e, h).

Definition hbind {A B} (m : hjs A) (k : A → hjs B) : hjs B :=
  λ h, match m h with
       | (Ok a, h') => k a h'
       | (Throw e, h') => (Throw e, h')
       end.

(** A computation that does not touch the store. *)
Definition hlift {A} (m : js A) : hjs A := λ h, (m, h).

Notation "'let!' x ':=' m 'in' k" := (hbind m (λ x, k))
  (at level 10, x name, m at level 100, k at level 200,
   format "'[' 'let!'  x  ':='  m  'in'  '/' k ']'") : js_scope.

Notation "m ';;!' k" := (hbind m (λ _, k))
  (at level 100, k at level 200, right associativity) : js_scope.

(** [p[k]]. *)
Definition hget (p : pointer) (k : string) : hjs value :=
  λ h, match p with
       | PUndefined => (Throw (no_property "undefined" k), h)
       | PNull => (Throw (no_property "null" k), h)
       | PLoc l => (Ok (get_prop (fields_at h l) k), h)
       end.

(** [p[k] = v]: the object at the location changes, for every holder of the
    pointer. *)
Definition hset (p : pointer) (k : string) (v : value) : hjs unit :=
  λ h, match p with
       | PUndefined => (Throw (no_set_property "undefined" k), h)
       | PNull => (Throw (no_set_property "null" k), h)
       | PLoc l => (Ok tt, alter (set_fields (insert k v)) l h)
       end.

(** [delete p[k]]. *)
Definition hdelete (p : pointer) (k : string) : hjs unit :=
  λ h, match p with
       | PUndefined => (Throw (no_delete_property "undefined"), h)
       | PNull => (Throw (no_delete_property "null"), h)
       | PLoc l => (Ok tt, alter (set_fields (delete k)) l h)
       end.

(** A new object, at a location that the store does not use. *)
Definition halloc (o : object) : hjs pointer :=
  λ h, let l := fresh (dom h) in (Ok (PLoc l), <[l := o]> h).

(** Whether the pointer is truthy: an object is. *)
Definition pointer_truthy (p : pointer) : bool :=
  match p with
  | PLoc _ => true
  | _ => false
  end.

(** Whether the pointer leads to a document of the store. *)
Definition is_document (h : heap) (p : pointer) : bool :=
  match p with
  | PLoc l =>
      match h !! l with
      | Some (Object Document _) => true
      | _ => false
      end
  | _ => false
  end.

(** ** Pointers and references by value *)

(** The reference by value that a pointer stands for in a store. *)
Definition ref_of (h : heap) (p : pointer) : ref :=
  match p with
  | PUndefined => RUndefined
  | PNull => RNull
  | PLoc l =>
      match h !! l with
      | Some (Object Document o) => RModel o
      | Some (Object Plain o) => RItem o
      | None => RItem ∅
      end
  end.

(** The store after the object behind [p] has taken the fields of [r]. *)
Definition write_back (h : heap) (p : pointer) (r : ref) : heap :=
  match p, ref_item r with
  | PLoc l, Some o => alter (set_fields (λ _, o)) l h
  | _, _ => h
  end.

(** What it is for a function on references by value to be carried out in
    place: the object behind the pointer takes the fields of the result, the
    pointer itself is returned, and a throw leaves the store as it was. *)
Definition in_place (f : ref → js ref) (p : pointer) : hjs pointer :=
  λ h, match f (ref_of h p) with
       | Ok r' => (Ok p, write_back h p r')
       | Throw e => (Throw e, h)
       end.

(** A function on references that keeps the kind of what it is given:
    [undefined] stays [undefined], a document stays a document. *)
Definition keeps_shape (f : ref → js ref) : Prop :=
  ∀ r r', f r = Ok r' → ∃ g, r' = ref_map g r.

(** ** Lemmas *)

Section monad_laws.
Context {A B C : Type}.
Implicit Types (m : hjs A) (k : A → hjs B) (g : B → hjs C) (h : heap).

Lemma hbind_hret_l a k h : hbind (hret a) k h = k a h.
Proof. done. Qed.

Lemma hbind_hret_r m h : hbind m hret h = m h.
Proof. unfold hbind, hret. by destruct (m h) as [[?|?] ?]. Qed.

Lemma hbind_assoc m k g h :
  hbind (hbind m k) g h = hbind m (λ a, hbind (k a) g) h.
Proof. unfold hbind. by destruct (m h) as [[?|?] ?]. Qed.

Lemma hbind_hthrow e k h : hbind (hthrow e) k h = (Throw e, h).
Proof. done. Qed.

Lemma hbind_hlift (j : js A) k h :
  hbind (hlift j) k h = match j with Ok a => k a h | Throw e => (Throw e, h) end.
Proof. unfold hbind, hlift. by destruct j. Qed.

End monad_laws.

Section store_lemmas.
Implicit Types (h : heap) (p : pointer) (l : loc) (o : item) (r : ref) (k : string)
  (v : value).

Lemma fields_at_lookup h l ob : h !! l = Some ob → fields_at h l = fields ob.
Proof. unfold fields_at. by intros ->. Qed.

Lemma fields_at_alter h l f :
  fields_at (alter (set_fields f) l h) l = match h !! l with
                                           | Some _ => f (fields_at h l)
                                           | None => ∅
                                           end.
Proof. unfold fields_at. rewrite lookup_alter_eq. by destruct (h !! l). Qed.

Lemma fields_at_alter_ne h l l' f :
  l ≠ l' → fields_at (alter (set_fields f) l h) l' = fields_at h l'.
Proof. intros. unfold fields_at. by rewrite lookup_alter_ne. Qed.

Lemma allocated_PLoc h l : allocated h (PLoc l) = true ↔ is_Some (h !! l).
Proof. simpl. by rewrite bool_decide_eq_true. Qed.

Lemma allocated_alter h p l f : allocated (alter f l h) p = allocated h p.
Proof.
  destruct p as [| |l']; [done..|]. simpl. apply bool_decide_ext.
  destruct (decide (l = l')) as [->|].
  - rewrite lookup_alter_eq. by rewrite fmap_is_Some.
  - by rewrite lookup_alter_ne.
Qed.

Lemma halloc_fresh h ob : ∃ l, halloc ob h = (Ok (PLoc l), <[l := ob]> h) ∧ h !! l = None.
Proof.
  exists (fresh (dom h)). split; [done|].
  apply not_elem_of_dom, is_fresh.
Qed.

(** The reference that a pointer stands for has the fields of the
    object. *)
Lemma ref_of_item h l : ref_item (ref_of h (PLoc l)) = Some (fields_at h l).
Proof. unfold fields_at. simpl. by destruct (h !! l) as [[[] ?]|]. Qed.

Lemma ref_of_item_lookup h l ob : h !! l = Some ob → ref_item (ref_of h (PLoc l)) = Some (fields ob).
Proof. intros Hl. by rewrite ref_of_item, (fields_at_lookup _ _ _ Hl). Qed.

Lemma ref_of_truthy h p : ref_truthy (ref_of h p) = pointer_truthy p.
Proof. destruct p as [| |l]; [done..|]. simpl. by destruct (h !! l) as [[[] ?]|]. Qed.

Lemma ref_get_ref_of h p k : hget p k h = (ref_get (ref_of h p) k, h).
Proof.
  destruct p as [| |l]; [done..|]. unfold hget, fields_at. simpl.
  by destruct (h !! l) as [[[] ?]|].
Qed.

Lemma ref_of_write_back h p r g :
  allocated h p = true → r = ref_map g (ref_of h p) → ref_of (write_back h p r) p = r.
Proof.
  intros Hp ->. destruct p as [| |l]; [done..|].
  apply allocated_PLoc in Hp as [[[] o] Ho]; unfold write_back; simpl;
    rewrite Ho; simpl; by rewrite lookup_alter_eq, Ho.
Qed.

(** Writing back what the pointer stands for changes nothing. *)
Lemma write_back_ref_of h p : write_back h p (ref_of h p) = h.
Proof.
  destruct p as [| |l]; [done..|]. unfold write_back. rewrite ref_of_item.
  apply map_eq. intros l'. destruct (decide (l = l')) as [<-|].
  - rewrite lookup_alter_eq. unfold fields_at. by destruct (h !! l) as [[]|].
  - by rewrite lookup_alter_ne.
Qed.

(** Writing back to an allocated object sets its fields. *)
Lemma write_back_insert h l ob r o :
  h !! l = Some ob → ref_item r = Some o →
  write_back h (PLoc l) r = <[l := Object (kind_of ob) o]> h.
Proof.
  intros Hl Hr. unfold write_back. rewrite Hr.
  apply map_eq. intros l'. destruct (decide (l = l')) as [<-|].
  - by rewrite lookup_alter_eq, lookup_insert_eq, Hl.
  - by rewrite lookup_alter_ne, lookup_insert_ne.
Qed.

Lemma ref_of_lookup h l ob :
  h !! l = Some ob →
  ref_of h (PLoc l) = match kind_of ob with
                      | Plain => RItem (fields ob)
                      | Document => RModel (fields ob)
                      end.
Proof. simpl. intros ->. by destruct ob as [[] ?]. Qed.

Lemma write_back_other h l r l' : l ≠ l' → write_back h (PLoc l) r !! l' = h !! l'.
Proof.
  intros. unfold write_back. destruct (ref_item r); [|done]. by rewrite lookup_alter_ne.
Qed.

Lemma write_back_dom h p r : dom (write_back h p r) = dom h.
Proof.
  unfold write_back. destruct p as [| |l]; [done..|].
  destruct (ref_item r); [|done]. by rewrite dom_alter_L.
Qed.

Lemma write_back_allocated h p r q : allocated (write_back h p r) q = allocated h q.
Proof.
  unfold write_back. destruct p as [| |l]; [done..|].
  destruct (ref_item r); [|done]. apply allocated_alter.
Qed.

(** Writing a property through a pointer is the write on the reference it
    stands for, carried out in place. *)
Lemma hset_in_place h p k v :
  allocated h p = true →
  hset p k v h
  = match ref_set (ref_of h p) k v with
    | Ok r' => (Ok tt, write_back h p r')
    | Throw e => (Throw e, h)
    end.
Proof.
  destruct p as [| |l]; [done..|]. intros [[[] o] Ho]%allocated_PLoc; simpl;
    rewrite Ho; simpl; f_equal; apply map_eq; intros l';
    (destruct (decide (l = l')) as [<-|];
       [by rewrite !lookup_alter_eq, Ho|by rewrite !lookup_alter_ne]).
Qed.

Lemma hdelete_in_place h p k :
  allocated h p = true →
  hdelete p k h
  = match ref_delete (ref_of h p) k with
    | Ok r' => (Ok tt, write_back h p r')
    | Throw e => (Throw e, h)
    end.
Proof.
  destruct p as [| |l]; [done..|]. intros [[[] o] Ho]%allocated_PLoc; simpl;
    rewrite Ho; simpl; f_equal; apply map_eq; intros l';
    (destruct (decide (l = l')) as [<-|];
       [by rewrite !lookup_alter_eq, Ho|by rewrite !lookup_alter_ne]).
Qed.

(** Two writes through the same pointer leave what the second wrote. *)
Lemma write_back_write_back h p r1 r2 :
  ref_truthy r1 = ref_truthy r2 →
  write_back (write_back h p r1) p r2 = write_back h p r2.
Proof.
  unfold write_back. destruct p as [| |l]; [done..|].
  destruct r1, r2; simpl; try done; intros _; apply map_eq; intros l';
    (destruct (decide (l = l')) as [<-|];
       [rewrite !lookup_alter_eq; by destruct (h !! l)|by rewrite !lookup_alter_ne]).
Qed.

End store_lemmas.

(** ** Functions carried out in place *)

Section in_place_lemmas.
Implicit Types (f g : ref → js ref) (h : heap) (p : pointer).

(** A function carried out in place returns the pointer it was given. *)
Lemma in_place_returns f p h q h' : in_place f p h = (Ok q, h') → q = p.
Proof. unfold in_place. destruct (f (ref_of h p)); by intros [= <- _]. Qed.

(** A throw leaves the store as it was. *)
Lemma in_place_throw f p h e h' : in_place f p h = (Throw e, h') → h' = h.
Proof. unfold in_place. destruct (f (ref_of h p)); by intros [= _ <-]. Qed.

(** Only the object behind the pointer changes. *)
Lemma in_place_frame f l h x h' l' :
  in_place f (PLoc l) h = (x, h') → l ≠ l' → h' !! l' = h !! l'.
Proof.
  unfold in_place. destruct (f (ref_of h (PLoc l))); intros [= _ <-] Hl; [|done].
  by apply write_back_other.
Qed.

(** Afterwards the pointer stands for what the function returned. *)
Lemma in_place_ref_of f p h q h' r' :
  keeps_shape f → allocated h p = true →
  in_place f p h = (Ok q, h') → f (ref_of h p) = Ok r' → ref_of h' q = r'.
Proof.
  intros Hf Hp. unfold in_place. intros Hrun Hr'. rewrite Hr' in Hrun.
  injection Hrun as <- <-. destruct (Hf _ _ Hr') as [g ->].
  by apply (ref_of_write_back _ _ _ g).
Qed.

(** Running two functions in place, one after the other: when both return,
    the object has the fields that the second returned; when the second
    throws, the object keeps what the first wrote. *)
Lemma in_place_then f g p h :
  keeps_shape f → keeps_shape g → allocated h p = true →
  hbind (in_place f p) (in_place g) h
  = match f (ref_of h p) with
    | Throw e => (Throw e, h)
    | Ok r1 =>
        match g r1 with
        | Ok r2 => (Ok p, write_back h p r2)
        | Throw e => (Throw e, write_back h p r1)
        end
    end.
Proof.
  intros Hf Hg Hp. unfold hbind, in_place.
  destruct (f (ref_of h p)) as [r1|e] eqn:H1; simpl; [|done].
  destruct (Hf _ _ H1) as [k ->].
  rewrite (ref_of_write_back _ _ _ k) by done.
  destruct (g (ref_map k (ref_of h p))) as [r2|e] eqn:H2; simpl; [|done].
  f_equal. apply write_back_write_back.
  destruct (Hg _ _ H2) as [k' ->]. by destruct (ref_of h p).
Qed.

(** The two outcomes of a function carried out in place on an allocated
    object. *)
Lemma in_place_Ok f l h ob (k : item → item) :
  h !! l = Some ob → f (ref_of h (PLoc l)) = Ok (ref_map k (ref_of h (PLoc l))) →
  in_place f (PLoc l) h = (Ok (PLoc l), <[l := set_fields k ob]> h).
Proof.
  intros Hl Hf. unfold in_place. rewrite Hf. f_equal.
  apply (write_back_insert _ _ ob); [done|].
  by rewrite ref_item_map, (ref_of_item_lookup _ _ _ Hl).
Qed.

Lemma in_place_Throw f p h e : f (ref_of h p) = Throw e → in_place f p h = (Throw e, h).
Proof. intros Hf. unfold in_place. by rewrite Hf. Qed.

Lemma keeps_shape_Ok : keeps_shape Ok.
Proof. intros r r' [= <-]. exists id. by destruct r. Qed.

Lemma keeps_shape_rbind f g :
  keeps_shape f → keeps_shape g → keeps_shape (λ r, let* r' := f r in g r').
Proof.
  intros Hf Hg r r' (r1 & H1 & H2)%rbind_Ok_inv.
  destruct (Hf _ _ H1) as [k ->], (Hg _ _ H2) as [k' ->].
  exists (k' ∘ k). by destruct r.
Qed.

Lemma keeps_shape_rfold (fs : list (ref → js ref)) :
  Forall keeps_shape fs → keeps_shape (rfold fs).
Proof.
  induction 1 as [|f fs Hf _ IH]; [apply keeps_shape_Ok|].
  by apply (keeps_shape_rbind f (rfold fs)).
Qed.

Lemma keeps_shape_truthy f r r' : keeps_shape f → f r = Ok r' → ref_truthy r' = ref_truthy r.
Proof. intros Hf Hr. destruct (Hf _ _ Hr) as [k ->]. by destruct r. Qed.

End in_place_lemmas.
