(* ===== verification/InPlace.v ===== *)
(** * The hooks as they run: in place

    The four hooks of [src/fb/field-fbId.js] written against the store of
    [Heap]: each statement of a hook is one read or one write of the object
    that the hook received.  The theorems show that every hook but one is the
    function of the adapter files carried out in place: it returns the
    pointer it was given, the object behind it takes the fields that the
    function computes, no other object changes, and a throw leaves the store
    as it was.  The exception is the post-read hook of the document store
    when it is given a document: [toObject()] makes a new plain object, the
    hook changes and returns that one, and the document stays as it was.  A
    run of several hooks is not atomic: when a later hook throws, what the
    earlier hooks wrote stays written. *)

From Stdlib Require Import Ascii String.
From S2P Require Import Prelude JsString JsValue Regex Normalise Framework.
From S2P Require Import KnexAdapter MongoAdapter Heap.

(** ** The relational adapter *)

Module KnexInPlace.

Import KnexMongoIdInterface.

(** The pre-save hook, lines 96 to 109: [item[this.path] = ...],
    [delete item[this.path]], [return item]. *)
Definition preSaveHook (a : t) (item : pointer) : hjs pointer :=
  let! v := hget item (path a) in
  let valType := typeof v in
  if truthy v && bool_decide (valType = "string") then
    let! n := hlift (normaliseValue v) in
    hset item (path a) n;;!
    hret item
  else if negb (truthy v) || bool_decide (valType = "undefined") then
    hdelete item (path a);;!
    hret item
  else
    hthrow (invalid_value a).

(** The post-read hook, lines 110 to 115. *)
Definition postReadHook (a : t) (item : pointer) : hjs pointer :=
  let! v := hget item (path a) in
  if truthy v then
    let! n := hlift (normaliseValue v) in
    hset item (path a) n;;!
    hret item
  else hret item.

End KnexInPlace.

(** ** The document-store adapter *)

Module MongoInPlace.

Import FbMongoIdInterface.

(** The pre-save hook, lines 51 to 57: [item._id = item.id],
    [delete item.id], [return item]. *)
Definition preSaveHook (item : pointer) : hjs pointer :=
  let! id := hget item "id" in
  if truthy id then
    hset item "_id" id;;!
    hdelete item "id";;!
    hret item
  else hret item.

(** [itemOrModel && itemOrModel.toObject ? itemOrModel.toObject() : itemOrModel],
    line 61.  The [toObject] of a document returns a new plain object with
    the fields of the document. *)
Definition toObject_or_self (itemOrModel : pointer) : hjs pointer :=
  λ h, match itemOrModel with
       | PUndefined | PNull => (Ok itemOrModel, h)
       | PLoc l =>
           match h !! l with
           | Some (Object Document o) => halloc (Object Plain o) h
           | _ =>
               if truthy (get_prop (fields_at h l) "toObject")
               then (Throw (TypeError "itemOrModel.toObject is not a function"), h)
               else (Ok itemOrModel, h)
           end
       end.

(** The post-read hook, lines 58 to 68. *)
Definition postReadHook (itemOrModel : pointer) : hjs pointer :=
  let! item := toObject_or_self itemOrModel in
  if pointer_truthy item then
    let! _id := hget item "_id" in
    if truthy _id then
      let! s := hlift (toString _id) in
      hset item "id" (VStr s);;!
      hdelete item "_id";;!
      hret item
    else hret item
  else hret item.

End MongoInPlace.

(** ** Runs of hooks *)

(** The hooks of a list, run in order on the pointer that each returns. *)
Fixpoint run_hooks (hs : list (pointer → hjs pointer)) (p : pointer) : hjs pointer :=
  match hs with
  | [] => hret p
  | f :: fs => let! q := f p in run_hooks fs q
  end.

(** ** Steps in place *)

Section steps.
Implicit Types (h : heap) (p : pointer) (k : string) (v : value).

(** A read through a pointer, followed by the rest of the hook. *)
Lemma hbind_hget {A} p k (F : value → hjs A) h :
  hbind (hget p k) F h
  = match ref_get (ref_of h p) k with
    | Ok v => F v h
    | Throw e => (Throw e, h)
    end.
Proof. unfold hbind. rewrite ref_get_ref_of. by destruct (ref_get _ _). Qed.

Lemma keeps_shape_ref_set k v : keeps_shape (λ r, ref_set r k v).
Proof. intros r r' Hr. exists (insert k v). destruct r; by simplify_eq/=. Qed.

Lemma keeps_shape_ref_delete k : keeps_shape (λ r, ref_delete r k).
Proof. intros r r' Hr. exists (delete k). destruct r; by simplify_eq/=. Qed.

(** [item[k] = v; return item]. *)
Lemma hset_hret p k v h :
  allocated h p = true →
  (hset p k v;;! hret p) h = in_place (λ r, ref_set r k v) p h.
Proof.
  intros Hp. unfold hbind, in_place. rewrite hset_in_place by done.
  by destruct (ref_set _ _ _).
Qed.

(** [delete item[k]; return item]. *)
Lemma hdelete_hret p k h :
  allocated h p = true →
  (hdelete p k;;! hret p) h = in_place (λ r, ref_delete r k) p h.
Proof.
  intros Hp. unfold hbind, in_place. rewrite hdelete_in_place by done.
  by destruct (ref_delete _ _).
Qed.

(** [item[k] = v; delete item[k']; return item]. *)
Lemma hset_hdelete_hret p k v k' h :
  allocated h p = true →
  (hset p k v;;! hdelete p k';;! hret p) h
  = in_place (λ r, let* r' := ref_set r k v in ref_delete r' k') p h.
Proof.
  intros Hp.
  transitivity (hbind (in_place (λ r, ref_set r k v) p) (in_place (λ r, ref_delete r k')) h).
  - unfold hbind at 1 3. rewrite hset_in_place by done. unfold in_place at 1.
    destruct (ref_set (ref_of h p) k v) as [r1|e] eqn:H1; [|done].
    apply hdelete_hret. by rewrite write_back_allocated.
  - rewrite in_place_then by auto using keeps_shape_ref_set, keeps_shape_ref_delete.
    unfold in_place. destruct (ref_set (ref_of h p) k v) as [r1|e] eqn:H1; [|done]. simpl.
    destruct (ref_delete r1 k') eqn:H2; [done|]. destruct (ref_of h p); by simplify_eq/=.
Qed.

End steps.

(** ** The hooks are the functions of the adapters, in place *)

(** The start of a proof that [hook] is [pure] in place: both begin with the
    same read, which throws on both sides or gives the value [v]. *)
Ltac read_in_place hook pure :=
  intros Hp; unfold hook; rewrite hbind_hget; unfold in_place at 1, pure;
  destruct (ref_get (ref_of _ _) _) as [v|e]; [|done]; simpl.

Section shapes.

Lemma knex_preSaveHook_keeps_shape a : keeps_shape (KnexMongoIdInterface.preSaveHook a).
Proof.
  intros r r' (o & _ & _ & ->)%KnexMongoIdInterface.knex_preSaveHook_Ok_inv. eauto.
Qed.

Lemma knex_postReadHook_keeps_shape a : keeps_shape (KnexMongoIdInterface.postReadHook a).
Proof.
  intros r r' Hr. destruct (ref_item r) as [o|] eqn:Ho.
  - rewrite (KnexMongoIdInterface.knex_postReadHook_eq _ _ _ Ho) in Hr.
    injection Hr as <-. case_match; [eauto|]. exists id. by destruct r.
  - by destruct r.
Qed.

Lemma mongo_preSaveHook_keeps_shape : keeps_shape FbMongoIdInterface.preSaveHook.
Proof.
  intros r r' Hr. destruct (ref_item r) as [o|] eqn:Ho.
  - rewrite (FbMongoIdInterface.mongo_preSaveHook_eq _ _ Ho) in Hr. injection Hr as <-. eauto.
  - by destruct r.
Qed.

End shapes.

Lemma knex_preSaveHook_in_place_eq (a : KnexMongoIdInterface.t) (p : pointer) (h : heap) :
  allocated h p = true →
  KnexInPlace.preSaveHook a p h = in_place (KnexMongoIdInterface.preSaveHook a) p h.
Proof.
  read_in_place KnexInPlace.preSaveHook KnexMongoIdInterface.preSaveHook.
  destruct (truthy v && _).
  - rewrite hbind_hlift. destruct (normaliseValue v) as [n|e]; [|done].
    by rewrite hset_hret.
  - destruct (negb _ || _); [by rewrite hdelete_hret|done].
Qed.

(** The pre-save hook of the relational adapter is the function
    [KnexMongoIdInterface.preSaveHook] carried out in place: the hook
    returns the pointer it received, the object behind it has the fields
    that the function computes, and when the hook throws the store is as it
    was. *)
Theorem knex_preSaveHook_in_place (a : KnexMongoIdInterface.t) (p : pointer) (h : heap) :
  allocated h p = true →
  KnexInPlace.preSaveHook a p h = in_place (KnexMongoIdInterface.preSaveHook a) p h.
Proof. apply knex_preSaveHook_in_place_eq. Qed.

Lemma knex_preSaveHook_in_place_witness :
  KnexInPlace.preSaveHook (KnexMongoIdInterface.new (KnexMongoIdInterface.Base "fbId" ∅ VUndefined VUndefined))
    (PLoc 1) {[1%positive := Object Plain {["fbId" := VStr "5F8D0D55B54764421B7156C3"]}]}
  = (Ok (PLoc 1), {[1%positive := Object Plain {["fbId" := VStr "5f8d0d55b54764421b7156c3"]}]}).
Proof.
  rewrite knex_preSaveHook_in_place by done. by vm_compute.
Defined.

(** The post-read hook of the relational adapter is the function
    [KnexMongoIdInterface.postReadHook] carried out in place. *)
Theorem knex_postReadHook_in_place (a : KnexMongoIdInterface.t) (p : pointer) (h : heap) :
  allocated h p = true →
  KnexInPlace.postReadHook a p h = in_place (KnexMongoIdInterface.postReadHook a) p h.
Proof.
  read_in_place KnexInPlace.postReadHook KnexMongoIdInterface.postReadHook.
  destruct (truthy v).
  - rewrite hbind_hlift. destruct (normaliseValue v) as [n|e]; [|done].
    by rewrite hset_hret.
  - by rewrite write_back_ref_of.
Qed.

Lemma knex_postReadHook_in_place_witness :
  KnexInPlace.postReadHook (KnexMongoIdInterface.new (KnexMongoIdInterface.Base "fbId" ∅ VUndefined VUndefined))
    (PLoc 1) {[1%positive := Object Plain {["fbId" := VStr "5F8D0D55B54764421B7156C3"]}]}
  = (Ok (PLoc 1), {[1%positive := Object Plain {["fbId" := VStr "5f8d0d55b54764421b7156c3"]}]}).
Proof.
  rewrite knex_postReadHook_in_place by done. by vm_compute.
Defined.

(** The pre-save hook of the document-store adapter is the function
    [FbMongoIdInterface.preSaveHook] carried out in place: the two writes
    [item._id = item.id] and [delete item.id] change the object that the
    caller holds. *)
Theorem mongo_preSaveHook_in_place (p : pointer) (h : heap) :
  allocated h p = true →
  MongoInPlace.preSaveHook p h = in_place FbMongoIdInterface.preSaveHook p h.
Proof.
  read_in_place MongoInPlace.preSaveHook FbMongoIdInterface.preSaveHook.
  destruct (truthy v).
  - by rewrite hset_hdelete_hret.
  - by rewrite write_back_ref_of.
Qed.

Lemma mongo_preSaveHook_in_place_witness :
  MongoInPlace.preSaveHook (PLoc 1)
    {[1%positive := Object Plain {["id" := VStr "5f8d0d55b54764421b7156c3"]}]}
  = (Ok (PLoc 1), {[1%positive := Object Plain {["_id" := VStr "5f8d0d55b54764421b7156c3"]}]}).
Proof.
  rewrite mongo_preSaveHook_in_place by done. by vm_compute.
Defined.

(** What [toObject_or_self] does to something that is no document: nothing
    to the store, and the pointer itself is what goes on. *)
Lemma mongo_toObject_or_self_plain (p : pointer) (h : heap) :
  is_document h p = false →
  MongoInPlace.toObject_or_self p h
  = (rmap (λ _, p) (FbMongoIdInterface.toObject_or_self (ref_of h p)), h)
    ∧ ∀ r, FbMongoIdInterface.toObject_or_self (ref_of h p) = Ok r → r = ref_of h p.
Proof.
  destruct p as [| |l]; [by split; [|intros ? [= <-]]..|].
  unfold MongoInPlace.toObject_or_self, fields_at. simpl.
  destruct (h !! l) as [[[] o]|]; [|done|]; intros _; simpl.
  - destruct (truthy (get_prop o "toObject")); by split; [|intros ? [= <-]].
  - rewrite get_prop_empty. by split; [|intros ? [= <-]].
Qed.

(** The rest of the post-read hook, after line 61, on the object that
    [item] names. *)
Lemma mongo_rename_in_place (p : pointer) (h : heap) :
  allocated h p = true →
  (if pointer_truthy p then
     let! _id := hget p "_id" in
     if truthy _id then
       let! s := hlift (toString _id) in
       hset p "id" (VStr s);;! hdelete p "_id";;! hret p
     else hret p
   else hret p) h
  = in_place (λ item,
      if ref_truthy item then
        let* _id := ref_get item "_id" in
        if truthy _id then
          let* s := toString _id in
          let* item := ref_set item "id" (VStr s) in
          ref_delete item "_id"
        else Ok item
      else Ok item) p h.
Proof.
  intros Hp. unfold in_place at 1. rewrite ref_of_truthy.
  destruct (pointer_truthy p); [|by rewrite write_back_ref_of].
  rewrite hbind_hget. destruct (ref_get (ref_of h p) _) as [v|e]; [|done]. simpl.
  destruct (truthy v); [|by rewrite write_back_ref_of].
  rewrite hbind_hlift. destruct (toString v) as [s|e]; [|done]. simpl.
  by rewrite hset_hdelete_hret.
Qed.

(** On what is no document (a plain object, [undefined], [null]) the
    post-read hook of the document-store adapter is the function
    [FbMongoIdInterface.postReadHook] carried out in place. *)
Theorem mongo_postReadHook_in_place (p : pointer) (h : heap) :
  allocated h p = true → is_document h p = false →
  MongoInPlace.postReadHook p h = in_place FbMongoIdInterface.postReadHook p h.
Proof.
  intros Hp Hd. destruct (mongo_toObject_or_self_plain p h Hd) as [Hto Hself].
  unfold MongoInPlace.postReadHook, hbind. rewrite Hto.
  unfold in_place at 1, FbMongoIdInterface.postReadHook.
  destruct (FbMongoIdInterface.toObject_or_self (ref_of h p)) as [r|e] eqn:Hr; [|done].
  simpl. rewrite (Hself r eq_refl). by rewrite mongo_rename_in_place.
Qed.

Lemma mongo_postReadHook_in_place_witness :
  MongoInPlace.postReadHook (PLoc 1)
    {[1%positive := Object Plain {["_id" := VObj 9 "5f8d0d55b54764421b7156c3"]}]}
  = (Ok (PLoc 1), {[1%positive := Object Plain {["id" := VStr "5f8d0d55b54764421b7156c3"]}]}).
Proof.
  rewrite mongo_postReadHook_in_place by done. by vm_compute.
Defined.

Lemma mongo_postReadHook_document_eq (l : loc) (o : item) (h : heap) :
  h !! l = Some (Object Document o) →
  ∃ l', h !! l' = None
        ∧ MongoInPlace.postReadHook (PLoc l) h
          = (Ok (PLoc l'), <[l' := Object Plain (FbMongoIdInterface.from_store o)]> h).
Proof.
  intros Hl. destruct (halloc_fresh h (Object Plain o)) as (l' & Halloc & Hl').
  exists l'. split; [done|].
  unfold MongoInPlace.postReadHook, hbind at 1. simpl. rewrite Hl, Halloc.
  rewrite mongo_rename_in_place by (apply allocated_PLoc; by rewrite lookup_insert_eq).
  unfold in_place. rewrite (ref_of_lookup _ _ _ (lookup_insert_eq _ _ _)). simpl.
  unfold FbMongoIdInterface.from_store.
  destruct (truthy (get_prop o "_id")) eqn:Hid; simpl.
  - rewrite (toString_string_of _ Hid). simpl. by rewrite alter_insert_eq.
  - by rewrite alter_insert_eq.
Qed.

(** C31: Given a document, the post-read hook of the document-store adapter
    does not work in place: it returns a new plain object, which has [id]
    for [_id], and the document is as it was, with its [_id]. *)
Theorem mongo_postReadHook_document (l : loc) (o : item) (h : heap) :
  h !! l = Some (Object Document o) →
  ∃ l', h !! l' = None
        ∧ MongoInPlace.postReadHook (PLoc l) h
          = (Ok (PLoc l'), <[l' := Object Plain (FbMongoIdInterface.from_store o)]> h).
Proof. apply mongo_postReadHook_document_eq. Qed.

Lemma mongo_postReadHook_document_witness :
  ∃ l', ({[1%positive := Object Document {["_id" := VObj 9 "5f8d0d55b54764421b7156c3"]}]} : heap)
          !! l' = None
        ∧ MongoInPlace.postReadHook (PLoc 1)
            {[1%positive := Object Document {["_id" := VObj 9 "5f8d0d55b54764421b7156c3"]}]}
          = (Ok (PLoc l'),
             <[l' := Object Plain
                       (FbMongoIdInterface.from_store {["_id" := VObj 9 "5f8d0d55b54764421b7156c3"]})]>
               ({[1%positive := Object Document {["_id" := VObj 9 "5f8d0d55b54764421b7156c3"]}]} : heap)).
Proof.
  apply (mongo_postReadHook_document 1 {["_id" := VObj 9 "5f8d0d55b54764421b7156c3"]}).
  by vm_compute.
Defined.

(** ** What the caller sees *)

(** The object that the caller passed to the pre-save hook of the
    document-store adapter is changed under the caller: when [id] was truthy,
    the object afterwards has no [id], it has the value under [_id], and
    no other object of the store has changed. *)
Theorem mongo_preSaveHook_caller (l : loc) (ob : object) (h : heap) :
  h !! l = Some ob → truthy (get_prop (fields ob) "id") = true →
  ∃ h', MongoInPlace.preSaveHook (PLoc l) h = (Ok (PLoc l), h')
        ∧ fields_at h' l !! "id" = None
        ∧ get_prop (fields_at h' l) "_id" = get_prop (fields ob) "id"
        ∧ ∀ l', l ≠ l' → h' !! l' = h !! l'.
Proof.
  intros Hl Hid. rewrite mongo_preSaveHook_in_place by (apply allocated_PLoc; eauto).
  unfold in_place. pose proof (ref_of_item h l) as Hr. rewrite (fields_at_lookup _ _ _ Hl) in Hr.
  rewrite (FbMongoIdInterface.mongo_preSaveHook_eq _ _ Hr).
  eexists; split; [done|].
  rewrite (write_back_insert _ _ ob _ (FbMongoIdInterface.to_store (fields ob)) Hl)
    by (by rewrite ref_item_map, Hr).
  rewrite (fields_at_lookup _ _ _ (lookup_insert_eq _ _ _)). simpl.
  unfold FbMongoIdInterface.to_store. rewrite Hid. split_and!.
  - by rewrite lookup_delete_eq.
  - by rewrite get_prop_delete_ne, get_prop_insert_eq.
  - intros l' Hne. by rewrite lookup_insert_ne.
Qed.

Lemma mongo_preSaveHook_caller_witness :
  ∃ h', MongoInPlace.preSaveHook (PLoc 1)
          {[1%positive := Object Plain {["id" := VStr "5f8d0d55b54764421b7156c3"]}]}
        = (Ok (PLoc 1), h')
        ∧ fields_at h' 1 !! "id" = None
        ∧ get_prop (fields_at h' 1) "_id" = VStr "5f8d0d55b54764421b7156c3"
        ∧ ∀ l', 1%positive ≠ l' →
            h' !! l'
            = ({[1%positive := Object Plain {["id" := VStr "5f8d0d55b54764421b7156c3"]}]} : heap)
                !! l'.
Proof.
  destruct (mongo_preSaveHook_caller 1
              (Object Plain {["id" := VStr "5f8d0d55b54764421b7156c3"]})
              {[1%positive := Object Plain {["id" := VStr "5f8d0d55b54764421b7156c3"]}]})
    as (h' & H1 & H2 & H3 & H4); [by vm_compute..|].
  exists h'. by rewrite H3.
Defined.

(** ** Runs of hooks *)

(** A run of hooks that work in place and all return is the run of the
    functions, carried out in place. *)
Theorem run_hooks_in_place (fs : list (ref → js ref)) (p : pointer) (h : heap) :
  Forall keeps_shape fs → allocated h p = true →
  is_ok (rfold fs (ref_of h p)) = true →
  run_hooks (in_place <$> fs) p h = in_place (rfold fs) p h.
Proof.
  intros Hfs. revert h. induction Hfs as [|f fs Hf Hfs IH]; intros h Hp Hok.
  - unfold in_place. simpl. by rewrite write_back_ref_of.
  - simpl in *. unfold hbind, in_place at 1 3.
    destruct (f (ref_of h p)) as [r1|e] eqn:H1; [|done]. simpl in *.
    destruct (Hf _ _ H1) as [k Hk].
    rewrite IH; rewrite ?write_back_allocated, ?(ref_of_write_back _ _ _ k); try done.
    unfold in_place. rewrite (ref_of_write_back _ _ _ k) by done.
    destruct (rfold fs r1) as [r2|e] eqn:H2; [|done].
    f_equal. apply write_back_write_back.
    symmetry. by apply (keeps_shape_truthy (rfold fs)); [apply keeps_shape_rfold|].
Qed.

(** A run is not atomic: when the first hook returns and the second
    throws, the object keeps what the first hook wrote. *)
Theorem run_hooks_not_atomic (f g : ref → js ref) (p : pointer) (h : heap) (r1 : ref)
    (e : exn) :
  keeps_shape f → keeps_shape g → allocated h p = true →
  f (ref_of h p) = Ok r1 → g r1 = Throw e →
  run_hooks [in_place f; in_place g] p h = (Throw e, write_back h p r1).
Proof.
  intros Hf Hg Hp H1 H2.
  transitivity (hbind (in_place f p) (in_place g) h).
  - unfold run_hooks, hbind. destruct (in_place f p h) as [[q|?] h1]; [|done].
    destruct (in_place g q h1) as [[?|?] ?]; done.
  - by rewrite in_place_then, H1, H2.
Qed.

(** C32: A list with two identifier fields: when the first field holds a
    non-empty string and the second a truthy value that is no string, the
    run of the two pre-save hooks throws for the second field, and the
    object of the caller is left with the first field in lower case. *)
Theorem knex_save_not_atomic (a b : KnexMongoIdInterface.t) (l : loc) (ob : object)
    (h : heap) (s : string) :
  h !! l = Some ob →
  KnexMongoIdInterface.path a ≠ KnexMongoIdInterface.path b →
  get_prop (fields ob) (KnexMongoIdInterface.path a) = VStr s → s ≠ EmptyString →
  truthy (get_prop (fields ob) (KnexMongoIdInterface.path b)) = true →
  typeof (get_prop (fields ob) (KnexMongoIdInterface.path b)) ≠ "string" →
  run_hooks [KnexInPlace.preSaveHook a; KnexInPlace.preSaveHook b] (PLoc l) h
  = (Throw (KnexMongoIdInterface.invalid_value b),
     <[l := Object (kind_of ob)
              (<[KnexMongoIdInterface.path a := VStr (toLowerCase s)]> (fields ob))]> h).
Proof.
  intros Hl Hab Hs Hne Hb Hty. cbn [run_hooks]. unfold hbind at 1.
  rewrite knex_preSaveHook_in_place_eq by (apply allocated_PLoc; eauto).
  rewrite (in_place_Ok _ _ _ ob (KnexMongoIdInterface.saved (KnexMongoIdInterface.path a)) Hl).
  2:{ rewrite (KnexMongoIdInterface.knex_preSaveHook_eq _ _ _ (ref_of_item_lookup _ _ _ Hl)), Hs.
      unfold KnexMongoIdInterface.savable. simpl. by rewrite orb_true_r. }
  unfold set_fields. rewrite (KnexMongoIdInterface.knex_saved_string _ _ _ Hs Hne).
  set (ob1 := Object _ _). unfold hbind.
  rewrite knex_preSaveHook_in_place_eq by (apply allocated_PLoc; by rewrite lookup_insert_eq).
  rewrite (in_place_Throw _ _ _ (KnexMongoIdInterface.invalid_value b)); [done|].
  rewrite (KnexMongoIdInterface.knex_preSaveHook_eq _ _ ob1.(fields)
             (ref_of_item_lookup _ _ _ (lookup_insert_eq _ _ _))).
  unfold ob1, KnexMongoIdInterface.savable. simpl. rewrite get_prop_insert_ne by done.
  by rewrite Hb, bool_decide_eq_false_2.
Qed.

Lemma knex_save_not_atomic_witness :
  run_hooks
    [KnexInPlace.preSaveHook (KnexMongoIdInterface.new (KnexMongoIdInterface.Base "fbId" ∅ VUndefined VUndefined));
     KnexInPlace.preSaveHook (KnexMongoIdInterface.new (KnexMongoIdInterface.Base "ownerId" ∅ VUndefined VUndefined))]
    (PLoc 1)
    {[1%positive := Object Plain {["fbId" := VStr "5F8D0D55B54764421B7156C3"; "ownerId" := VNum 7]}]}
  = (Throw (Thrown (VStr "Invalid value given for 'ownerId'")),
     {[1%positive := Object Plain {["fbId" := VStr "5f8d0d55b54764421b7156c3"; "ownerId" := VNum 7]}]}).
Proof.
  rewrite (knex_save_not_atomic _ _ 1
             (Object Plain {["fbId" := VStr "5F8D0D55B54764421B7156C3"; "ownerId" := VNum 7]})
             _ "5F8D0D55B54764421B7156C3"); try done; by vm_compute.
Defined.
