(* ===== verification/Ownership.v ===== *)
(** * The ownership test on records as the store returns them

    The access functions of [src/index.js] decide ownership by
    [existingItem.id === authentication.item.id].  Both records come from
    the store, through the post-read hooks of the list.  This file puts the
    two sources together: the arguments of an access function are built by
    reading the two records through a hook registry, and the theorems say
    what the test answers after the hooks of a primary-key identifier field
    of [src/fb/field-fbId.js], what it answers when no hook has run, and
    what it answers on identifiers that are still objects of the store. *)

From Stdlib Require Import Ascii String.
From S2P Require Import Prelude JsString JsValue Regex Normalise Framework.
From S2P Require Import MongoAdapter Access.

(** The arguments of an access function: the authenticated record and the
    existing record, each as the run of the post-read hooks returns it. *)
Definition access_args_of (hs : hooks) (user existing : ref) : js access_args :=
  let* u := onPostRead hs user in
  let* e := onPostRead hs existing in
  Ok (AccessArgs u e).

(** The access of [email] for two records of the store. *)
Definition email_access_of (hs : hooks) (user existing : ref) : js value :=
  let* args := access_args_of hs user existing in
  email_access args.

(** ** Lemmas *)

Section ownership_lemmas.
Import FbMongoIdInterface.
Implicit Types (a : FbMongoIdInterface.t) (u e o : item) (user existing : ref) (k : string)
  (v : value).

Lemma onPostRead_primary_key a r :
  isPrimaryKey (field a) = true →
  onPostRead (setupHooks a no_hooks) r = postReadHook r.
Proof.
  intros Hpk. unfold setupHooks. rewrite Hpk. simpl.
  unfold onPostRead. simpl. by rewrite rbind_Ok_r.
Qed.

(** A row read through the hooks of a primary key: the record of
    [from_store], unless the row has a property named [toObject]. *)
Lemma onPostRead_primary_key_row a o :
  isPrimaryKey (field a) = true →
  onPostRead (setupHooks a no_hooks) (RItem o)
  = if truthy (get_prop o "toObject")
    then Throw (TypeError "itemOrModel.toObject is not a function")
    else Ok (RItem (from_store o)).
Proof.
  intros Hpk. rewrite onPostRead_primary_key by done.
  destruct (truthy (get_prop o "toObject")) eqn:Hto.
  - unfold postReadHook. simpl. by rewrite Hto.
  - by apply mongo_postReadHook_item.
Qed.

Lemma onPostRead_other_field a r :
  isPrimaryKey (field a) = false → onPostRead (setupHooks a no_hooks) r = Ok r.
Proof. intros Hpk. unfold setupHooks. by rewrite Hpk. Qed.

(** The post-read hook on a record of one of the shapes it is written for:
    a plain record with the fields of [from_store]. *)
Lemma postReadHook_expected r o :
  ref_item r = Some o → expected_shape r = true →
  postReadHook r = Ok (RItem (from_store o)).
Proof.
  destruct r as [| |o'|o']; simpl; intros [= ->] Hs; try done.
  - apply mongo_postReadHook_item. by apply negb_true_iff.
  - apply mongo_postReadHook_model.
Qed.

Lemma from_store_id o :
  truthy (get_prop o "_id") = true →
  get_prop (from_store o) "id" = VStr (string_of (get_prop o "_id")).
Proof.
  intros Hid. unfold from_store. rewrite Hid.
  by rewrite get_prop_delete_ne, get_prop_insert_eq.
Qed.

(** Writing a field that is not the identifier commutes with reading. *)
Lemma from_store_insert_other o k v :
  k ≠ "id" → k ≠ "_id" → from_store (<[k := v]> o) = <[k := v]> (from_store o).
Proof.
  intros Hid H_id. unfold from_store. rewrite get_prop_insert_ne by done.
  destruct (truthy _); [|done].
  by rewrite (insert_insert_ne _ "id" k), (delete_insert_ne _ "_id" k).
Qed.

Lemma from_store_isAdmin o : get_prop (from_store o) "isAdmin" = get_prop o "isAdmin".
Proof. unfold get_prop. by rewrite mongo_from_store_other. Qed.

End ownership_lemmas.

(** ** The test after the hooks of a primary key *)

Section ownership.
Import FbMongoIdInterface.

(** After the post-read hook of a primary-key identifier field, the
    ownership test compares strings: a user who is no administrator is let
    through to a record exactly when the identifier of the record and the
    identifier of the user have the same string form. *)
Theorem owner_test_after_read (a : FbMongoIdInterface.t) (user existing : ref) (u e : item) :
  isPrimaryKey (field a) = true →
  ref_item user = Some u → expected_shape user = true →
  ref_item existing = Some e → expected_shape existing = true →
  truthy (get_prop u "_id") = true → truthy (get_prop e "_id") = true →
  truthy (get_prop u "isAdmin") = false →
  email_access_of (setupHooks a no_hooks) user existing
  = Ok (VBool (bool_decide (string_of (get_prop e "_id") = string_of (get_prop u "_id")))).
Proof.
  intros Hpk Hu Hsu He Hse Hidu Hide Hadm.
  unfold email_access_of, access_args_of. rewrite !onPostRead_primary_key by done.
  rewrite (postReadHook_expected _ _ Hu Hsu), (postReadHook_expected _ _ He Hse). simpl.
  unfold email_access.
  rewrite (admin_or_same_id_known _ (from_store u) (from_store e)) by done.
  unfold js_or. by rewrite from_store_isAdmin, Hadm, !from_store_id.
Qed.

Lemma owner_test_after_read_witness :
  email_access_of (setupHooks (Adapter (Field true) "id" ∅ Ok) no_hooks)
    (RModel {["_id" := VObj 1 "5f8d0d55b54764421b7156c3"]})
    (RModel {["_id" := VObj 2 "5f8d0d55b54764421b7156c3"; "email" := VStr "ada@example.org"]})
  = Ok (VBool true).
Proof.
  rewrite (owner_test_after_read _ _ _ {["_id" := VObj 1 "5f8d0d55b54764421b7156c3"]}
             {["_id" := VObj 2 "5f8d0d55b54764421b7156c3"; "email" := VStr "ada@example.org"]});
    by vm_compute.
Defined.

(** C33: When no hook has run (a field that is not the primary key registers
    none) and the records carry no [id], the test compares [undefined] with
    [undefined]: every authenticated user is let through to every
    record. *)
Theorem owner_test_without_id (a : FbMongoIdInterface.t) (user existing : ref) (u e : item) :
  isPrimaryKey (field a) = false →
  ref_item user = Some u → ref_item existing = Some e →
  u !! "id" = None → e !! "id" = None →
  truthy (get_prop u "isAdmin") = false →
  email_access_of (setupHooks a no_hooks) user existing = Ok (VBool true).
Proof.
  intros Hpk Hu He Hidu Hide Hadm.
  unfold email_access_of, access_args_of. rewrite !onPostRead_other_field by done. simpl.
  unfold email_access. rewrite (admin_or_same_id_known _ u e) by done.
  unfold js_or. by rewrite Hadm, !get_prop_None.
Qed.

Lemma owner_test_without_id_witness :
  email_access_of (setupHooks (Adapter (Field false) "fbId" ∅ Ok) no_hooks)
    (RItem {["_id" := VObj 1 "5f8d0d55b54764421b7156c3"]})
    (RItem {["_id" := VObj 2 "0123456789abcdef01234567"; "email" := VStr "ada@example.org"]})
  = Ok (VBool true).
Proof.
  by apply (owner_test_without_id _ _ _ {["_id" := VObj 1 "5f8d0d55b54764421b7156c3"]}
              {["_id" := VObj 2 "0123456789abcdef01234567"; "email" := VStr "ada@example.org"]}).
Defined.

(** On identifiers that are still objects of the store the test compares
    identities: two reads of one record give two objects, and the owner is
    refused. *)
Theorem owner_test_on_objects (u e : item) (x y : positive) (s : string) :
  get_prop u "id" = VObj x s → get_prop e "id" = VObj y s → x ≠ y →
  truthy (get_prop u "isAdmin") = false →
  email_access_of no_hooks (RItem u) (RItem e) = Ok (VBool false).
Proof.
  intros Hu He Hxy Hadm. unfold email_access_of, access_args_of, email_access. simpl.
  rewrite (admin_or_same_id_known _ u e) by done.
  unfold js_or. rewrite Hadm, Hu, He. simpl. by rewrite bool_decide_eq_false_2 by congruence.
Qed.

Lemma owner_test_on_objects_witness :
  email_access_of no_hooks
    (RItem {["id" := VObj 1 "5f8d0d55b54764421b7156c3"]})
    (RItem {["id" := VObj 2 "5f8d0d55b54764421b7156c3"]})
  = Ok (VBool false).
Proof.
  by apply (owner_test_on_objects {["id" := VObj 1 "5f8d0d55b54764421b7156c3"]}
              {["id" := VObj 2 "5f8d0d55b54764421b7156c3"]} 1 2 "5f8d0d55b54764421b7156c3").
Defined.

End ownership.
