(* ===== verification/ListAdapter.v ===== *)
(** * A list over a table

    The hooks of an adapter are run by the list adapter of the framework,
    which is not among the sources: a record is passed through the pre-save
    hooks, stored, and what is stored is passed through the post-read hooks;
    the records that a query finds are passed through the post-read hooks
    each.  This file has that driver over a table of rows, as operations
    that return the table they leave, and the states that a table can reach
    by them.  The theorems are about a list whose identifier field is the
    relational adapter of [src/fb/field-fbId.js]: every row of every
    reachable table satisfies the invariant that the pre-save hook
    establishes, so reading never throws and never changes a row, and a
    record is found by its identifier whatever the case of the query. *)

From Stdlib Require Import Ascii String.
From S2P Require Import Prelude JsString JsValue Regex Normalise Framework KnexAdapter.

(** ** The table and the operations *)

(** The rows of the table, in the order of their insertion. *)
Notation rows := (list item).

(** An operation returns or throws, and leaves a table. *)
Notation table_op A := (rows → js A * rows).

(** The row that is stored for the data given: what the pre-save hooks
    return. *)
Definition row_of (hs : hooks) (data : item) : js item :=
  let* saved := onPreSave hs (RItem data) in
  match ref_item saved with
  | Some row => Ok row
  | None => Throw (TypeError "Cannot convert undefined or null to object")
  end.

(** [create(data)]: the pre-save hooks, the insertion, the post-read
    hooks.  When a pre-save hook throws nothing is stored; when a post-read
    hook throws the row is stored all the same. *)
Definition create (hs : hooks) (data : item) : table_op ref :=
  λ tbl, match row_of hs data with
         | Ok row => (onPostRead hs (RItem row), tbl ++ [row])
         | Throw e => (Throw e, tbl)
         end.

(** [update(i, data)]: the pre-save hooks, then the properties that they
    return replace those of row [i].  Without such a row nothing changes and
    nothing is read back. *)
Definition update (hs : hooks) (i : nat) (data : item) : table_op ref :=
  λ tbl, match tbl !! i, row_of hs data with
         | Some old, Ok row =>
             (onPostRead hs (RItem (row ∪ old)), <[i := row ∪ old]> tbl)
         | Some _, Throw e => (Throw e, tbl)
         | None, _ => (onPostRead hs RNull, tbl)
         end.

(** [delete(i)]. *)
Definition remove (i : nat) : table_op unit :=
  λ tbl, (Ok tt, delete i tbl).

(** [find(condition)]: the rows that satisfy the condition, each through the
    post-read hooks. *)
Definition find (hs : hooks) (c : cond) : table_op (list ref) :=
  λ tbl, (rmapM (λ row, onPostRead hs (RItem row))
            (filter (λ row, cond_holds c row = true) tbl), tbl).

(** [findOne(condition)]: the first such row, or [null], through the
    post-read hooks. *)
Definition findOne (hs : hooks) (c : cond) : table_op ref :=
  λ tbl, (onPostRead hs (from_option RItem RNull
                           (head (filter (λ row, cond_holds c row = true) tbl))), tbl).

(** ** The states of a table *)

(** One step: an operation that writes, whatever it returned. *)
Inductive step (hs : hooks) : rows → rows → Prop :=
| step_create data tbl : step hs tbl (create hs data tbl).2
| step_update i data tbl : step hs tbl (update hs i data tbl).2
| step_remove i tbl : step hs tbl (remove i tbl).2.

(** The tables that a list reaches from the empty table. *)
Definition reachable (hs : hooks) (tbl : rows) : Prop := rtc (step hs) [] tbl.

(** ** What a request needs of a list adapter

    The hooks that read a row, the two operations that write one, and the
    relation of which every operation is a step: whatever is proved of the
    tables that the steps reach holds of the tables that requests reach. *)
Record writer : Type := Writer {
  w_hooks : hooks;
  w_create : item → table_op ref;
  w_update : nat → item → table_op ref;
  w_step : rows → rows → Prop;
  w_create_step data tbl : w_step tbl (w_create data tbl).2;
  w_update_step i data tbl : w_step tbl (w_update i data tbl).2;
  w_remove_step i tbl : w_step tbl (remove i tbl).2;
}.

(** The list adapter of this file. *)
Definition list_adapter (hs : hooks) : writer :=
  Writer hs (create hs) (update hs) (step hs) (step_create hs) (step_update hs) (step_remove hs).

(** The operations of a writer that is given reduce to what it was built
    from. *)
Ltac writer_simpl := cbn [w_hooks w_create w_update w_step list_adapter].

(** A list whose identifier field is adapter [a], registered after the
    hooks [others] of the other fields. *)
Definition hooks_of (a : KnexMongoIdInterface.t) (others : hooks) : hooks :=
  KnexMongoIdInterface.setupHooks a others.

(** The invariant of the table: every row satisfies [stored_ok] at the path
    of the field. *)
Definition table_stored_ok (a : KnexMongoIdInterface.t) (tbl : rows) : Prop :=
  Forall (λ row, KnexMongoIdInterface.stored_ok (KnexMongoIdInterface.path a) row = true) tbl.

(** ** Lemmas *)

Section list_lemmas.
Import KnexMongoIdInterface.
Context (a : KnexMongoIdInterface.t).
Implicit Types (others : hooks) (data row old : item) (tbl : rows).

Lemma onPreSave_hooks_of others r :
  onPreSave (hooks_of a others) r = let* r' := onPreSave others r in preSaveHook a r'.
Proof. unfold hooks_of, setupHooks. by rewrite onPreSave_addPostReadHook, onPreSave_addPreSaveHook. Qed.

Lemma onPostRead_hooks_of others r :
  onPostRead (hooks_of a others) r = let* r' := onPostRead others r in postReadHook a r'.
Proof. unfold hooks_of, setupHooks. by rewrite onPostRead_addPostReadHook. Qed.

(** The row that is stored for data that the hook of the field lets
    through, when the list has no other hooks. *)
Lemma row_of_savable data :
  savable (get_prop data (path a)) = true →
  row_of (hooks_of a no_hooks) data = Ok (saved (path a) data).
Proof.
  intros Hs. unfold row_of. rewrite onPreSave_hooks_of. simpl.
  by rewrite (knex_preSaveHook_eq a (RItem data) data eq_refl), Hs.
Qed.

Lemma row_of_not_savable data :
  savable (get_prop data (path a)) = false →
  row_of (hooks_of a no_hooks) data = Throw (invalid_value a).
Proof.
  intros Hs. unfold row_of. rewrite onPreSave_hooks_of. simpl.
  by rewrite (knex_preSaveHook_eq a (RItem data) data eq_refl), Hs.
Qed.

(** What is stored satisfies the invariant: the hook of the field runs
    last. *)
Lemma row_of_stored_ok others data row :
  row_of (hooks_of a others) data = Ok row → stored_ok (path a) row = true.
Proof.
  unfold row_of. rewrite onPreSave_hooks_of.
  intros (saved & (r' & _ & (o & Ho & _ & ->)%knex_preSaveHook_Ok_inv)%rbind_Ok_inv & Hrow)%rbind_Ok_inv.
  rewrite ref_item_map, Ho in Hrow. injection Hrow as <-. apply knex_stored_ok_saved.
Qed.

(** Replacing the properties of a row by those of a row that satisfies the
    invariant: the field comes from the new row, or stays what it was. *)
Lemma stored_ok_union row old :
  stored_ok (path a) row = true → stored_ok (path a) old = true →
  stored_ok (path a) (row ∪ old) = true.
Proof.
  unfold stored_ok. rewrite lookup_union.
  by destruct (row !! path a) as [v|], (old !! path a) as [w|].
Qed.

Lemma step_table_stored_ok others tbl tbl' :
  step (hooks_of a others) tbl tbl' → table_stored_ok a tbl → table_stored_ok a tbl'.
Proof.
  unfold table_stored_ok. intros [data ?|i data ?|i ?] Htbl; simpl.
  - unfold create. destruct (row_of _ data) as [row|e] eqn:Hrow; simpl; [|done].
    apply Forall_app; split; [done|]. apply Forall_singleton. by eapply row_of_stored_ok.
  - unfold update. destruct (_ !! i) as [old|] eqn:Hold; [|done].
    destruct (row_of _ data) as [row|e] eqn:Hrow; simpl; [|done].
    apply Forall_insert; [done|]. apply stored_ok_union; [by eapply row_of_stored_ok|].
    by eapply (Forall_lookup_1 _ _ _ _ Htbl).
  - by apply Forall_delete.
Qed.

(** A property of the empty table that every step preserves holds of
    every reachable table. *)
Lemma reachable_invariant (hs : hooks) (P : rows → Prop) tbl :
  P [] → (∀ t t', step hs t t' → P t → P t') → reachable hs tbl → P tbl.
Proof.
  intros H0 Hstep. unfold reachable. apply rtc_ind_r; [done|].
  intros y z _ Hyz Hy. by apply (Hstep y z).
Qed.

(** On a row that satisfies the invariant the post-read hook of the field
    returns the row. *)
Lemma onPostRead_stored_ok row :
  stored_ok (path a) row = true → onPostRead (hooks_of a no_hooks) (RItem row) = Ok (RItem row).
Proof.
  intros Hrow. rewrite onPostRead_hooks_of. simpl.
  by apply (knex_postReadHook_stored_ok a (RItem row) row).
Qed.

(** Reading from a table that satisfies the invariant returns the rows as
    they are stored. *)
Lemma find_rows c tbl :
  reachable (hooks_of a no_hooks) tbl →
  find (hooks_of a no_hooks) c tbl
  = (Ok (RItem <$> filter (λ row, cond_holds c row = true) tbl), tbl).
Proof.
  intros Htbl. apply (reachable_invariant _ (table_stored_ok a)) in Htbl;
    [|constructor|intros t t'; apply step_table_stored_ok].
  unfold find. f_equal. apply rmapM_Forall, Forall_filter_iff.
  apply (Forall_impl _ _ _ Htbl). intros row Hrow _. by apply onPostRead_stored_ok.
Qed.

End list_lemmas.

(** ** The invariant of reachable tables *)

(** In every table that the list reaches, every row satisfies the
    invariant of stored records: the identifier field is absent, or it is a
    non-empty string in lower case.  The other hooks of the list do not
    matter, as long as the hook of the field is registered after them. *)
Theorem reachable_stored_ok (a : KnexMongoIdInterface.t) (others : hooks) (tbl : rows) :
  reachable (hooks_of a others) tbl → table_stored_ok a tbl.
Proof.
  apply reachable_invariant; [constructor|]. intros t t'. apply step_table_stored_ok.
Qed.

Lemma reachable_stored_ok_witness :
  table_stored_ok (KnexMongoIdInterface.new (KnexMongoIdInterface.Base "fbId" ∅ VUndefined VUndefined))
    (create (hooks_of (KnexMongoIdInterface.new (KnexMongoIdInterface.Base "fbId" ∅ VUndefined VUndefined))
               no_hooks)
       {["fbId" := VStr "5F8D0D55B54764421B7156C3"]} []).2.
Proof.
  apply (reachable_stored_ok _ no_hooks). eapply rtc_l; [apply step_create|apply rtc_refl].
Defined.

(** Reading from a reachable table never throws and returns the rows as
    they are stored: a query returns exactly the rows that satisfy its
    condition. *)
Theorem find_reachable (a : KnexMongoIdInterface.t) (c : cond) (tbl : rows) :
  reachable (hooks_of a no_hooks) tbl →
  (find (hooks_of a no_hooks) c tbl).1
  = Ok (RItem <$> filter (λ row, cond_holds c row = true) tbl)
  ∧ (find (hooks_of a no_hooks) c tbl).2 = tbl.
Proof. intros Htbl. by rewrite find_rows. Qed.

Lemma find_reachable_witness :
  (find (hooks_of (KnexMongoIdInterface.new (KnexMongoIdInterface.Base "fbId" ∅ VUndefined VUndefined)) no_hooks)
     (CEq "fbId" (VStr "5f8d0d55b54764421b7156c3"))
     (create (hooks_of (KnexMongoIdInterface.new (KnexMongoIdInterface.Base "fbId" ∅ VUndefined VUndefined))
                no_hooks)
        {["fbId" := VStr "5F8D0D55B54764421B7156C3"]} []).2).1
  = Ok [RItem {["fbId" := VStr "5f8d0d55b54764421b7156c3"]}].
Proof.
  destruct (find_reachable
              (KnexMongoIdInterface.new (KnexMongoIdInterface.Base "fbId" ∅ VUndefined VUndefined))
              (CEq "fbId" (VStr "5f8d0d55b54764421b7156c3"))
              (create (hooks_of (KnexMongoIdInterface.new (KnexMongoIdInterface.Base "fbId" ∅ VUndefined VUndefined))
                         no_hooks)
                 {["fbId" := VStr "5F8D0D55B54764421B7156C3"]} []).2) as [H1 _].
  - eapply rtc_l; [apply step_create|apply rtc_refl].
  - rewrite H1. by vm_compute.
Defined.

(** ** Saving and finding *)

Section queries.
Context {QB : QueryBase}.
Import KnexMongoIdInterface.

(** A record created with a non-empty string as its identifier is found,
    in the table that the creation leaves, by the equality query for every
    spelling of the identifier that differs only by case; the query returns
    the record as the creation returned it. *)
Theorem create_then_find (a : KnexMongoIdInterface.t) (data : item) (s t : string) (tbl : rows) :
  reachable (hooks_of a no_hooks) tbl →
  get_prop data (path a) = VStr s → s ≠ EmptyString → t ≠ EmptyString → ci_eq s t →
  ∃ c read found,
    build_one (getQueryConditions a (path a)) (path a) (VStr t) = Some (Ok c)
    ∧ (create (hooks_of a no_hooks) data tbl).1 = Ok read
    ∧ (find (hooks_of a no_hooks) c (create (hooks_of a no_hooks) data tbl).2).1 = Ok found
    ∧ read ∈ found.
Proof.
  intros Htbl Hs Hne Ht Hst. exists (CEq (path a) (VStr (toLowerCase t))).
  assert (row_of (hooks_of a no_hooks) data = Ok (saved (path a) data)) as Hrow.
  { apply row_of_savable. unfold savable. rewrite Hs. simpl. by rewrite orb_true_r. }
  assert (reachable (hooks_of a no_hooks) (create (hooks_of a no_hooks) data tbl).2) as Hreach
    by (eapply rtc_r; [done|constructor]).
  rewrite (find_rows a _ _ Hreach). unfold create. rewrite Hrow. simpl.
  rewrite (onPostRead_stored_ok a) by apply knex_stored_ok_saved.
  eexists _, _. split_and!; [by apply knex_build_eq|done..|].
  apply list_elem_of_fmap. exists (saved (path a) data). split; [done|].
  apply list_elem_of_filter. split; [|set_solver].
  simpl. rewrite (knex_saved_get_string _ _ _ Hs Hne). apply bool_decide_eq_true.
  by rewrite Hst.
Qed.

End queries.

Lemma create_then_find_witness :
  ∃ c read found,
    build_one (KnexMongoIdInterface.getQueryConditions
                 (KnexMongoIdInterface.new (KnexMongoIdInterface.Base "fbId" ∅ VUndefined VUndefined)) "fbId")
      "fbId" (VStr "5F8D0D55b54764421b7156c3") = Some (Ok c)
    ∧ (create (hooks_of (KnexMongoIdInterface.new (KnexMongoIdInterface.Base "fbId" ∅ VUndefined VUndefined)) no_hooks)
         {["fbId" := VStr "5f8d0d55B54764421B7156C3"]} []).1 = Ok read
    ∧ (find (hooks_of (KnexMongoIdInterface.new (KnexMongoIdInterface.Base "fbId" ∅ VUndefined VUndefined)) no_hooks) c
         (create (hooks_of (KnexMongoIdInterface.new (KnexMongoIdInterface.Base "fbId" ∅ VUndefined VUndefined)) no_hooks)
            {["fbId" := VStr "5f8d0d55B54764421B7156C3"]} []).2).1 = Ok found
    ∧ read ∈ found.
Proof.
  destruct (create_then_find (QB := StandardBase)
              (KnexMongoIdInterface.new (KnexMongoIdInterface.Base "fbId" ∅ VUndefined VUndefined))
              {["fbId" := VStr "5f8d0d55B54764421B7156C3"]}
              "5f8d0d55B54764421B7156C3" "5F8D0D55b54764421b7156c3" [])
    as (c & read & found & H1 & H2 & H3 & H4); [apply rtc_refl|done..|].
  exists c, read, found. split_and!; [exact H1|exact H2|exact H3|exact H4].
Defined.

(** ** What the table shows of the hooks *)

(** C34: A query for one record that finds none hands [null] to the post-read
    hooks, and the post-read hook of the field reads a property of it: the
    query throws a [TypeError] instead of answering that there is no such
    record. *)
Theorem findOne_missing (a : KnexMongoIdInterface.t) (c : cond) (tbl : rows) :
  filter (λ row, cond_holds c row = true) tbl = [] →
  findOne (hooks_of a no_hooks) c tbl
  = (Throw (no_property "null" (KnexMongoIdInterface.path a)), tbl).
Proof. intros Hnone. unfold findOne. by rewrite Hnone. Qed.

Lemma findOne_missing_witness :
  findOne (hooks_of (KnexMongoIdInterface.new (KnexMongoIdInterface.Base "fbId" ∅ VUndefined VUndefined)) no_hooks)
    (CEq "fbId" (VStr "5f8d0d55b54764421b7156c3")) []
  = (Throw (no_property "null" "fbId"), []).
Proof.
  exact (findOne_missing
           (KnexMongoIdInterface.new (KnexMongoIdInterface.Base "fbId" ∅ VUndefined VUndefined))
           (CEq "fbId" (VStr "5f8d0d55b54764421b7156c3")) [] eq_refl).
Defined.

(** An update cannot clear the identifier: when the data hold a falsy
    value for the field ([null], say), the pre-save hook deletes the field
    from the data, and the row keeps the identifier it had. *)
Theorem update_falsy_keeps (a : KnexMongoIdInterface.t) (i : nat) (data old : item) (tbl : rows) :
  tbl !! i = Some old →
  truthy (get_prop data (KnexMongoIdInterface.path a)) = false →
  ∃ row, (update (hooks_of a no_hooks) i data tbl).2 !! i = Some row
         ∧ row !! KnexMongoIdInterface.path a = old !! KnexMongoIdInterface.path a.
Proof.
  intros Hold Hv. unfold update. rewrite Hold.
  rewrite row_of_savable by (unfold KnexMongoIdInterface.savable; by rewrite Hv).
  rewrite KnexMongoIdInterface.knex_saved_falsy by done.
  simpl. eexists. split.
  - apply list_lookup_insert_eq. by eapply lookup_lt_Some.
  - by rewrite lookup_union_r by apply lookup_delete_eq.
Qed.

Lemma update_falsy_keeps_witness :
  ∃ row, (update (hooks_of (KnexMongoIdInterface.new (KnexMongoIdInterface.Base "fbId" ∅ VUndefined VUndefined)) no_hooks)
            0 {["fbId" := VNull]} [{["fbId" := VStr "5f8d0d55b54764421b7156c3"]}]).2 !! 0%nat = Some row
         ∧ row !! "fbId" = ({["fbId" := VStr "5f8d0d55b54764421b7156c3"]} : item) !! "fbId".
Proof.
  exact (update_falsy_keeps
           (KnexMongoIdInterface.new (KnexMongoIdInterface.Base "fbId" ∅ VUndefined VUndefined))
           0 {["fbId" := VNull]} {["fbId" := VStr "5f8d0d55b54764421b7156c3"]}
           [{["fbId" := VStr "5f8d0d55b54764421b7156c3"]}] eq_refl eq_refl).
Defined.
