(* ===== verification/Request.v ===== *)
(** * A query for the records of a list, end to end

    The parts of the two sources meet when the framework answers a query
    for the records of the list [User]: the read access of the list
    ([src/index.js], lines 69 to 77) gives the filter, the rows that pass
    it go through the post-read hooks of the identifier field
    ([src/fb/field-fbId.js], lines 58 to 68), the identifier of each record
    is read by the resolver of the field type (line 12), and every other
    field is shown or refused by the access function that the list declares
    for it ([src/index.js], lines 49 to 52 and 58).  The framework that
    drives these steps is not among the sources; this file has the steps as
    a machine, one transition for the access of the list and one for each
    row, and the same query as a function.  The theorems show that every
    run of the machine ends, in the answer that the function computes; that
    for an authenticated user the answer is what the policy of the comments
    allows; that a request without authentication fails instead of being
    refused; and that no answer shows a password. *)

From Stdlib Require Import Ascii String Lia.
From S2P Require Import Prelude JsString JsValue Normalise Framework KnexAdapter.
From S2P Require Import MongoAdapter Access FieldType ListAdapter.

(** ** Fields of a response *)

(** What a response holds for one field of one record: a value, a refusal,
    or an error. *)
Inductive field_result : Type :=
| FValue (v : value)
| FDenied
| FError (e : exn).

#[export] Instance field_result_eq_dec : EqDecision field_result.
Proof. solve_decision. Defined.

Definition of_result (r : js value) : field_result :=
  match r with
  | Ok v => FValue v
  | Throw e => FError e
  end.

(** What a field of a type shows of the value that is stored: a password
    is never shown, only whether one is set. *)
Definition output_of (ty : field_type) (v : value) : value :=
  match ty with
  | Password => VBool (truthy v)
  | _ => v
  end.

(** A field that the list declares, read for [user] on the record [item]:
    the access function for reading, when there is one, decides whether the
    field is shown. *)
Definition read_field (cfg : field_config) (name : string) (user item : ref) : field_result :=
  let shown := of_result (rmap (output_of (fc_type cfg)) (ref_get item name)) in
  match field_access_for OpRead (fc_access cfg) with
  | None => shown
  | Some f =>
      match f (AccessArgs user item) with
      | Ok v => if truthy v then shown else FDenied
      | Throw e => FError e
      end
  end.

(** The message of a query for a field that the list does not have. *)
Definition no_such_field (name : string) : exn :=
  Thrown (VStr ("Cannot query field '" +:+ name +:+ "'")).

(** One field of one record: by the resolver of the identifier field when
    it has one for the name, by the declaration of the list otherwise. *)
Definition resolve (i : FbIdImplementation.t) (l : list_config) (user item : ref)
    (name : string) : field_result :=
  match FbIdImplementation.gqlOutputFieldResolvers i !! name with
  | Some resolver => of_result (resolver item)
  | None =>
      match lookup_field name l with
      | Some cfg => read_field cfg name user item
      | None => FError (no_such_field name)
      end
  end.

(** A record of a response: the fields that the query selects, in order. *)
Notation record_view := (list (string * field_result)).

(** ** The machine *)

(** The states of a request: received, reading the rows that passed the
    filter, answered, failed. *)
Inductive phase : Type :=
| Received
| Reading (todo : rows) (done : list record_view)
| Answered (views : list record_view)
| Failed (e : exn).

#[export] Instance phase_eq_dec : EqDecision phase.
Proof. solve_decision. Defined.

Definition outcome (r : js (list record_view)) : phase :=
  match r with
  | Ok views => Answered views
  | Throw e => Failed e
  end.

Section request.
Context (hs : hooks) (i : FbIdImplementation.t) (l : list_config).
Context (user : ref) (names : list string) (tbl : rows).

(** The read access of the list for the request; a list without one lets
    every record through. *)
Definition list_access : js access :=
  match lc_read l with
  | Some f => f (AccessArgs user RUndefined)
  | None => Ok (AValue (VBool true))
  end.

(** The rows that pass the answer of the read access. *)
Definition passing (a : access) : rows := filter (λ row, access_allows a row = true) tbl.

(** The record of the response for an item that the hooks returned. *)
Definition view_of (item : ref) : record_view := (λ n, (n, resolve i l user item n)) <$> names.

(** One transition: the access of the list, then one row at a time through
    the post-read hooks, then the answer. *)
Inductive rstep : phase → phase → Prop :=
| rstep_access a :
    list_access = Ok a → rstep Received (Reading (passing a) [])
| rstep_access_throws e :
    list_access = Throw e → rstep Received (Failed e)
| rstep_read row todo done item :
    onPostRead hs (RItem row) = Ok item →
    rstep (Reading (row :: todo) done) (Reading todo (done ++ [view_of item]))
| rstep_read_throws row todo done e :
    onPostRead hs (RItem row) = Throw e →
    rstep (Reading (row :: todo) done) (Failed e)
| rstep_answer done :
    rstep (Reading [] done) (Answered done).

(** The transition as a function; [None] in the two final states. *)
Definition next (s : phase) : option phase :=
  match s with
  | Received =>
      Some (match list_access with
            | Ok a => Reading (passing a) []
            | Throw e => Failed e
            end)
  | Reading [] done => Some (Answered done)
  | Reading (row :: todo) done =>
      Some (match onPostRead hs (RItem row) with
            | Ok item => Reading todo (done ++ [view_of item])
            | Throw e => Failed e
            end)
  | Answered _ | Failed _ => None
  end.

(** At most [fuel] transitions. *)
Fixpoint run (fuel : nat) (s : phase) : phase :=
  match fuel with
  | 0 => s
  | S fuel => from_option (run fuel) s (next s)
  end.

(** The query as a function. *)
Definition query : js (list record_view) :=
  let* a := list_access in
  let* items := rmapM (λ row, onPostRead hs (RItem row)) (passing a) in
  Ok (view_of <$> items).

(** The transitions that a state is away from a final state, at most. *)
Definition measure (s : phase) : nat :=
  match s with
  | Received => S (S (length tbl))
  | Reading todo _ => S (length todo)
  | Answered _ | Failed _ => 0
  end.

End request.

(** ** What the theorems speak of *)

(** The fields that a query for the users may select: the identifier and
    the fields that the list declares. *)
Definition queryable : list string := "id" :: (lc_fields User).*1.

(** Whether the policy of the comments lets a principal read a field of a
    record. *)
Definition may_read_field (p : principal) (name : string) (o : item) : bool :=
  if decide (name = "email") then may_touch p (get_prop o "id")
  else if decide (name = "password") then may_see_password p
  else true.

(** What a field shows of a record. *)
Definition shown (name : string) (o : item) : value :=
  if decide (name = "password") then VBool (truthy (get_prop o "password"))
  else get_prop o name.

(** The record of the response that the policy prescribes. *)
Definition policy_view (p : principal) (names : list string) (o : item) : record_view :=
  (λ n, (n, if may_read_field p n o then FValue (shown n o) else FDenied)) <$> names.

(** ** Lemmas on the machine *)

Section machine.
Context (hs : hooks) (i : FbIdImplementation.t) (l : list_config).
Context (user : ref) (names : list string) (tbl : rows).
Notation Step := (rstep hs i l user names tbl).
Notation Next := (next hs i l user names tbl).
Notation Run := (run hs i l user names tbl).
Notation Query := (query hs i l user names tbl).
Notation ListAccess := (list_access l user).
Notation Passing := (passing tbl).
Notation ViewOf := (view_of i l user names).
Notation Measure := (measure tbl).

Lemma rstep_next s s' : Step s s' ↔ Next s = Some s'.
Proof.
  split.
  - intros [a Ha|e He|row todo done item Hr|row todo done e Hr|done]; simpl;
      by rewrite ?Ha, ?He, ?Hr.
  - destruct s as [|[|row todo] done| |]; simpl; intros [= <-]; try constructor.
    + destruct ListAccess eqn:Ha; by constructor.
    + destruct (onPostRead hs (RItem row)) eqn:Hr; by constructor.
Qed.

Lemma rstep_deterministic : deterministic Step.
Proof. intros s s1 s2. rewrite !rstep_next. congruence. Qed.

Lemma rstep_measure s s' : Step s s' → Measure s' < Measure s.
Proof.
  intros [a Ha|e He|row todo done item Hr|row todo done e Hr|done]; simpl; try lia.
  pose proof (length_filter (λ row, access_allows a row = true) tbl). unfold Passing. lia.
Qed.

Lemma next_None_nf s : Next s = None → nf Step s.
Proof. intros Hs [s' Hs'%rstep_next]. congruence. Qed.

Lemma nf_outcome r : nf Step (outcome r).
Proof. apply next_None_nf. by destruct r. Qed.

Lemma run_final fuel s : Next s = None → Run fuel s = s.
Proof. intros Hs. destruct fuel; simpl; [done|]. by rewrite Hs. Qed.

Lemma run_rtc fuel s : rtc Step s (Run fuel s).
Proof.
  revert s. induction fuel as [|fuel IH]; intros s; simpl; [done|].
  destruct (Next s) as [s'|] eqn:Hs; simpl; [|done].
  eapply rtc_l; [by apply rstep_next|apply IH].
Qed.

(** Reading the rows that are left is the map of the hooks over them. *)
Lemma run_reading fuel todo done :
  length todo < fuel →
  Run fuel (Reading todo done)
  = outcome (rmap (λ items, done ++ (ViewOf <$> items))
               (rmapM (λ row, onPostRead hs (RItem row)) todo)).
Proof.
  revert fuel done. induction todo as [|row todo IH]; intros [|fuel] done Hfuel;
    simpl in Hfuel; try lia; simpl.
  - rewrite run_final by done. by rewrite app_nil_r.
  - destruct (onPostRead hs (RItem row)) as [item|e]; simpl; [|by apply run_final].
    rewrite IH by lia.
    destruct (rmapM _ todo) as [items|e]; simpl; [|done]. by rewrite <-app_assoc.
Qed.

(** The machine computes the query. *)
Lemma run_query fuel : S (length tbl) < fuel → Run fuel Received = outcome Query.
Proof.
  destruct fuel as [|fuel]; [lia|]. intros Hfuel. simpl. unfold Query.
  destruct ListAccess as [a|e]; simpl; [|by apply run_final].
  rewrite run_reading.
  - by destruct (rmapM _ (Passing a)).
  - pose proof (length_filter (λ row, access_allows a row = true) tbl). unfold Passing. lia.
Qed.

End machine.

(** ** Lemmas on the fields of the list *)

Section field_lemmas.
Import FbIdImplementation.
Context (i : FbIdImplementation.t) (Hpath : path i = "id").
Implicit Types (u o : item) (n : string).

Lemma resolve_id l user o : resolve i l user (RItem o) "id" = FValue (get_prop o "id").
Proof.
  unfold resolve, gqlOutputFieldResolvers. by rewrite Hpath, lookup_singleton_eq.
Qed.

Lemma resolve_declared l user item n :
  n ≠ "id" →
  resolve i l user item n
  = match lookup_field n l with
    | Some cfg => read_field cfg n user item
    | None => FError (no_such_field n)
    end.
Proof.
  intros Hn. unfold resolve, gqlOutputFieldResolvers.
  by rewrite Hpath, lookup_singleton_ne.
Qed.

(** A field without access function is shown. *)
Lemma read_field_open ty d n user o :
  ty ≠ Password →
  read_field (FieldConfig ty d NoAccess) n user (RItem o) = FValue (get_prop o n).
Proof. by destruct ty. Qed.

Lemma read_field_email u o :
  read_field (FieldConfig Text None (AccessAll email_access)) "email" (RItem u) (RItem o)
  = if may_touch (principal_of (RItem u)) (get_prop o "id")
    then FValue (get_prop o "email") else FDenied.
Proof.
  unfold read_field, email_access. simpl.
  rewrite (admin_or_same_id_known _ u o) by done. by rewrite js_or_truthy.
Qed.

Lemma read_field_password u o :
  read_field (FieldConfig Password None (AccessPer (Some password_read) (Some password_update)))
    "password" (RItem u) (RItem o)
  = if may_see_password (principal_of (RItem u))
    then FValue (VBool (truthy (get_prop o "password"))) else FDenied.
Proof. done. Qed.

(** Each field that may be selected is resolved as the policy
    prescribes. *)
Lemma resolve_User u o n :
  n ∈ queryable →
  resolve i User (RItem u) (RItem o) n
  = if may_read_field (principal_of (RItem u)) n o then FValue (shown n o) else FDenied.
Proof.
  unfold queryable. simpl. rewrite !elem_of_cons, elem_of_nil.
  intros [->|[->|[->|[->|[->|[->|[->|[]]]]]]]]; [apply resolve_id|..];
    rewrite resolve_declared by done.
  - by apply read_field_open.
  - by apply read_field_open.
  - by apply read_field_open.
  - by apply read_field_open.
  - apply read_field_email.
  - apply read_field_password.
Qed.

(** The filter of the read access lets through what the policy allows. *)
Lemma User_read_allows u row :
  access_allows
    (AWhere (if truthy (get_prop u "isAdmin") then ∅
             else {["state_not" := VStr "deactivated"]})) row
  = may_read_record (principal_of (RItem u)) row.
Proof.
  simpl. destruct (truthy (get_prop u "isAdmin")); simpl.
  - apply where_holds_empty.
  - by rewrite where_holds_singleton.
Qed.

End field_lemmas.

(** ** Theorems *)



(** The machine and the function agree: with two units of fuel more than
    the table has rows, the run from the received request is the outcome of
    the query. *)
Theorem run_computes_query (hs : hooks) (i : FbIdImplementation.t) (l : list_config)
    (user : ref) (names : list string) (tbl : rows) (fuel : nat) :
  S (length tbl) < fuel →
  run hs i l user names tbl fuel Received = outcome (query hs i l user names tbl).
Proof. apply run_query. Qed.

Lemma run_computes_query_witness :
  run no_hooks (FbIdImplementation.Implementation "id") User RUndefined ["id"] [] 2 Received
  = outcome (query no_hooks (FbIdImplementation.Implementation "id") User RUndefined ["id"] []).
Proof.
  exact (run_computes_query no_hooks (FbIdImplementation.Implementation "id") User
           RUndefined ["id"] [] 2 (le_n 2)).
Defined.

Section policy.
Import FbMongoIdInterface.

(** C11: For an authenticated user, a query for the users over a table whose
    identifier field is the primary key answers what the policy of the
    comments prescribes: the records that the user may read, each as the
    post-read hook returns it, with the identifier as a string, and with
    every selected field shown exactly when the user may read it. *)
Theorem query_policy (a : FbMongoIdInterface.t) (i : FbIdImplementation.t) (u : item)
    (names : list string) (tbl : rows) :
  isPrimaryKey (field a) = true →
  FbIdImplementation.path i = "id" →
  Forall (λ n, n ∈ queryable) names →
  Forall (λ row, truthy (get_prop row "toObject") = false) tbl →
  query (setupHooks a no_hooks) i User (RItem u) names tbl
  = Ok ((λ row, policy_view (principal_of (RItem u)) names (from_store row))
          <$> filter (λ row, may_read_record (principal_of (RItem u)) row = true) tbl).
Proof.
  intros Hpk Hpath Hnames Htbl. unfold query, list_access, passing.
  change (lc_read User) with (Some User_read). cbv beta iota.
  rewrite (User_read_known _ u), rbind_Ok_l by done.
  rewrite (list_filter_iff _ (λ row, may_read_record (principal_of (RItem u)) row = true))
    by (intros row; by rewrite User_read_allows).
  rewrite (rmapM_Forall _ (λ row, RItem (from_store row))).
  - simpl. rewrite <-list_fmap_compose. f_equal. apply list_fmap_ext. intros _ row _. simpl.
    unfold view_of, policy_view. apply Forall_fmap_ext_1.
    eapply Forall_impl; [exact Hnames|]. intros n Hn. simpl. f_equal. by apply resolve_User.
  - apply Forall_filter_iff. eapply Forall_impl; [exact Htbl|]. intros row Hrow _.
    unfold setupHooks. rewrite Hpk. simpl. unfold onPostRead. simpl.
    rewrite rbind_Ok_r. by apply mongo_postReadHook_item.
Qed.

(** A request without authentication is not refused: the read access of
    the list throws a [TypeError], which is the outcome of the query
    whatever the table holds. *)
Theorem query_anonymous (hs : hooks) (i : FbIdImplementation.t) (names : list string)
    (tbl : rows) :
  query hs i User RUndefined names tbl = Throw (no_property "undefined" "isAdmin").
Proof. done. Qed.

(** No answer shows a password: whoever asks and whatever the table and
    the hooks, a field [password] of a record of the response holds a
    boolean, a refusal or an error. *)
Theorem query_hides_password (hs : hooks) (i : FbIdImplementation.t) (user : ref)
    (names : list string) (tbl : rows) (views : list record_view) (rv : record_view)
    (r : field_result) :
  FbIdImplementation.path i = "id" →
  query hs i User user names tbl = Ok views →
  rv ∈ views → ("password", r) ∈ rv →
  ∀ v, r = FValue v → ∃ b, v = VBool b.
Proof.
  intros Hpath (a & _ & (items & _ & [= <-])%rbind_Ok_inv)%rbind_Ok_inv.
  intros (item & -> & _)%list_elem_of_fmap (n & [= <- ->] & _)%list_elem_of_fmap v.
  rewrite (resolve_declared i Hpath) by done.
  change (lookup_field "password" User)
    with (Some (FieldConfig Password None (AccessPer (Some password_read) (Some password_update)))).
  unfold read_field. simpl.
  destruct (password_read _) as [w|e]; [|done]. destruct (truthy w); [|done].
  destruct (ref_get item "password"); simpl; [|done]. intros [= <-]. by eexists.
Qed.

End policy.

Lemma query_policy_witness :
  query (FbMongoIdInterface.setupHooks
           (FbMongoIdInterface.Adapter (FbMongoIdInterface.Field true) "id" ∅ Ok) no_hooks)
        (FbIdImplementation.Implementation "id") User
        (RItem {["id" := VStr "u1"; "isAdmin" := VBool false]})
        ["id"; "email"; "password"]
        [ {["_id" := VStr "u1"; "email" := VStr "ada@example.org"; "state" := VStr "active"]};
          {["_id" := VStr "u2"; "email" := VStr "bob@example.org"; "state" := VStr "active"]};
          {["_id" := VStr "u3"; "email" := VStr "eve@example.org"; "state" := VStr "deactivated"]} ]
  = Ok [ [("id", FValue (VStr "u1")); ("email", FValue (VStr "ada@example.org"));
          ("password", FDenied)];
         [("id", FValue (VStr "u2")); ("email", FDenied); ("password", FDenied)] ].
Proof.
  rewrite (query_policy
             (FbMongoIdInterface.Adapter (FbMongoIdInterface.Field true) "id" ∅ Ok)
             (FbIdImplementation.Implementation "id") _ _ _ eq_refl eq_refl).
  - by vm_compute.
  - repeat constructor; by_compute.
  - by repeat constructor.
Defined.

Lemma query_hides_password_witness :
  ∃ b, VBool true = VBool b.
Proof.
  refine (query_hides_password
           (FbMongoIdInterface.setupHooks
              (FbMongoIdInterface.Adapter (FbMongoIdInterface.Field true) "id" ∅ Ok) no_hooks)
           (FbIdImplementation.Implementation "id")
           (RItem {["id" := VStr "u0"; "isAdmin" := VBool true]})
           ["password"]
           [ {["_id" := VStr "u1"; "password" := VStr "$2a$10$hash"]} ]
           [ [("password", FValue (VBool true))] ]
           [("password", FValue (VBool true))]
           (FValue (VBool true)) eq_refl _ _ _ (VBool true) eq_refl).
  - by vm_compute.
  - set_solver.
  - set_solver.
Defined.
