(* ===== verification/Store.v ===== *)
(** * The table with the constraints of its columns

    [src/fb/field-fbId.js], lines 87 to 93, declares the column of the
    identifier with a length, and with a unique constraint, a not-null
    constraint and a default when the adapter is configured so.  The
    relational store enforces what was declared when a row is written: it
    fills an absent column with its default, and refuses a row that holds
    a null in a not-null column, a string longer than its column, or a
    value that another row holds in a unique column.  The store is not among
    the sources; this file has these rules over the table of [ListAdapter],
    and the operations of the list adapter on top of them.  The theorems are
    about a list whose identifier field is the relational adapter: the
    constraints hold of every table that is reached; with a unique column no
    two rows hold identifiers that are equal up to case, because the
    pre-save hook has made them lower case; and a row that takes the default
    of the column holds it as it was configured, not in lower case, since
    the default is filled in after the hook has run. *)

From Stdlib Require Import Ascii String Lia.
From S2P Require Import Prelude JsString JsValue Regex Normalise Framework KnexAdapter.
From S2P Require Import Bounds ListAdapter.

(** ** Constraints *)

Inductive constraint : Type :=
| NotNull
| Length
| Unique.

#[export] Instance constraint_eq_dec : EqDecision constraint.
Proof. solve_decision. Defined.

(** What the store holds as a null: [null], and [undefined], which is an
    absent column. *)
Definition nullish (v : value) : bool :=
  match v with
  | VUndefined | VNull => true
  | _ => false
  end.

(** The values that the rows hold in a column, nulls apart. *)
Definition column_values (c : column) (tbl : rows) : list value :=
  filter (λ v, nullish v = false) ((λ row, get_prop row (col_name c)) <$> tbl).

(** The constraint of a column that a row violates, given the other rows:
    a null is not compared for uniqueness. *)
Definition violated (c : column) (others : rows) (row : item) : option constraint :=
  let v := get_prop row (col_name c) in
  if col_notNullable c && nullish v then Some NotNull
  else if negb (fits c v) then Some Length
  else if col_unique c && bool_decide (v ∈ column_values c others) then Some Unique
  else None.

Definition constraint_error (c : column) (k : constraint) : exn :=
  Thrown (VStr (match k with
                | NotNull => "null value in column '"
                | Length => "value too long for column '"
                | Unique => "duplicate value in column '"
                end +:+ col_name c +:+ "'")).

(** The columns are checked in the order of their declaration. *)
Fixpoint check (cols : table) (others : rows) (row : item) : js unit :=
  match cols with
  | [] => Ok tt
  | c :: cols =>
      match violated c others row with
      | Some k => Throw (constraint_error c k)
      | None => check cols others row
      end
  end.

(** A column that the row leaves out takes its default. *)
Definition apply_default (c : column) (row : item) : item :=
  match col_defaultTo c with
  | Some d =>
      if bool_decide (get_prop row (col_name c) = VUndefined)
      then <[col_name c := d]> row else row
  | None => row
  end.

Definition apply_defaults (cols : table) (row : item) : item :=
  foldr apply_default row cols.

(** ** Writing rows *)

(** The insertion of a row: defaults, then the constraints against the
    rows of the table. *)
Definition insert_row (cols : table) (row : item) : table_op item :=
  λ tbl, let row' := apply_defaults cols row in
         match check cols tbl row' with
         | Ok _ => (Ok row', tbl ++ [row'])
         | Throw e => (Throw e, tbl)
         end.

(** The replacement of row [i]: the constraints against the other rows. *)
Definition replace_row (cols : table) (i : nat) (row : item) : table_op item :=
  λ tbl, match check cols (delete i tbl) row with
         | Ok _ => (Ok row, <[i := row]> tbl)
         | Throw e => (Throw e, tbl)
         end.

(** [create] and [update] of [ListAdapter] on top of the store: what the
    pre-save hooks return is written, and what was written is read back
    through the post-read hooks. *)
Definition checked_create (cols : table) (hs : hooks) (data : item) : table_op ref :=
  λ tbl, match row_of hs data with
         | Ok row =>
             match insert_row cols row tbl with
             | (Ok stored, tbl') => (onPostRead hs (RItem stored), tbl')
             | (Throw e, tbl') => (Throw e, tbl')
             end
         | Throw e => (Throw e, tbl)
         end.

Definition checked_update (cols : table) (hs : hooks) (i : nat) (data : item) : table_op ref :=
  λ tbl, match tbl !! i, row_of hs data with
         | Some old, Ok row =>
             match replace_row cols i (row ∪ old) tbl with
             | (Ok stored, tbl') => (onPostRead hs (RItem stored), tbl')
             | (Throw e, tbl') => (Throw e, tbl')
             end
         | Some _, Throw e => (Throw e, tbl)
         | None, _ => (onPostRead hs RNull, tbl)
         end.

(** One writing operation, whatever it returned. *)
Inductive checked_step (cols : table) (hs : hooks) : rows → rows → Prop :=
| checked_step_create data tbl :
    checked_step cols hs tbl (checked_create cols hs data tbl).2
| checked_step_update i data tbl :
    checked_step cols hs tbl (checked_update cols hs i data tbl).2
| checked_step_remove i tbl :
    checked_step cols hs tbl (remove i tbl).2.

Definition checked_reachable (cols : table) (hs : hooks) (tbl : rows) : Prop :=
  rtc (checked_step cols hs) [] tbl.

(** The list adapter on the relational store, as requests use it. *)
Definition checked_adapter (cols : table) (hs : hooks) : writer :=
  Writer hs (checked_create cols hs) (checked_update cols hs) (checked_step cols hs)
    (checked_step_create cols hs) (checked_step_update cols hs) (checked_step_remove cols hs).

(** ** What the theorems speak of *)

(** A row that satisfies the constraints that concern it alone. *)
Definition row_valid (cols : table) (row : item) : Prop :=
  Forall (λ c, (col_notNullable c = true → nullish (get_prop row (col_name c)) = false)
               ∧ fits c (get_prop row (col_name c)) = true) cols.

(** A table that satisfies the constraints of its columns. *)
Definition table_valid (cols : table) (tbl : rows) : Prop :=
  Forall (row_valid cols) tbl
  ∧ Forall (λ c, col_unique c = true → NoDup (column_values c tbl)) cols.

(** No two rows hold strings in column [p] that are equal up to case. *)
Definition distinct_up_to_case (p : string) (tbl : rows) : Prop :=
  ∀ i j ri rj s t,
    tbl !! i = Some ri → tbl !! j = Some rj →
    get_prop ri p = VStr s → get_prop rj p = VStr t → ci_eq s t → i = j.

(** The default of the adapter is none, or an identifier in the form that
    the pre-save hook stores. *)
Definition default_normal (a : KnexMongoIdInterface.t) : bool :=
  negb (truthy (KnexMongoIdInterface.defaultTo a))
  || match KnexMongoIdInterface.defaultTo a with
     | VStr d => is_lower_string d
     | _ => false
     end.

(** The column of the identifier as [addToTableSchema] declares it. *)
Definition id_column (a : KnexMongoIdInterface.t) : column :=
  Column (KnexMongoIdInterface.path a) 24 (KnexMongoIdInterface.isUnique a)
    (negb (KnexMongoIdInterface.isUnique a) && KnexMongoIdInterface.isIndexed a)
    (truthy (KnexMongoIdInterface.isNotNullable a))
    (if truthy (KnexMongoIdInterface.defaultTo a)
     then Some (KnexMongoIdInterface.defaultTo a) else None).

(** ** Lemmas on the constraints *)

Section constraint_lemmas.
Implicit Types (c : column) (cols : table) (tbl others : rows) (row : item) (v : value).

Lemma column_values_app c tbl1 tbl2 :
  column_values c (tbl1 ++ tbl2) = column_values c tbl1 ++ column_values c tbl2.
Proof. unfold column_values. by rewrite fmap_app, filter_app. Qed.

Lemma column_values_singleton c row :
  column_values c [row]
  = if nullish (get_prop row (col_name c)) then [] else [get_prop row (col_name c)].
Proof.
  unfold column_values. simpl. rewrite filter_cons, filter_nil.
  destruct (nullish _); by rewrite ?decide_True, ?decide_False by done.
Qed.

Lemma column_values_cons c row tbl :
  column_values c (row :: tbl) = column_values c [row] ++ column_values c tbl.
Proof. apply (column_values_app c [row]). Qed.

(** The values of a column when a row is put between two parts of a table:
    the new value is added unless it is a null. *)
Lemma NoDup_column_values_middle c tbl1 tbl2 row :
  NoDup (column_values c (tbl1 ++ tbl2)) →
  get_prop row (col_name c) ∉ column_values c (tbl1 ++ tbl2) →
  NoDup (column_values c (tbl1 ++ row :: tbl2)).
Proof.
  rewrite !column_values_app, (column_values_cons c row), column_values_singleton.
  destruct (nullish _); [done|]. intros Hnd Hv.
  by apply (NoDup_Permutation_proper _ _ (Permutation_middle _ _ _)), NoDup_cons.
Qed.

(** What a row that passes the check satisfies. *)
Lemma check_Ok cols others row :
  check cols others row = Ok tt ↔ Forall (λ c, violated c others row = None) cols.
Proof.
  induction cols as [|c cols IH]; simpl; [by split; [constructor|]|].
  rewrite Forall_cons, <-IH. destruct (violated c others row); naive_solver.
Qed.

Lemma violated_None c others row :
  violated c others row = None ↔
  (col_notNullable c = true → nullish (get_prop row (col_name c)) = false)
  ∧ fits c (get_prop row (col_name c)) = true
  ∧ (col_unique c = true → get_prop row (col_name c) ∉ column_values c others).
Proof.
  unfold violated. destruct (col_notNullable c), (nullish _), (fits c _), (col_unique c);
    simpl; try case_bool_decide; naive_solver.
Qed.

Lemma check_row_valid cols others row : check cols others row = Ok tt → row_valid cols row.
Proof.
  intros Hcheck%check_Ok. eapply Forall_impl; [exact Hcheck|].
  intros c Hc%violated_None. tauto.
Qed.

(** A table stays valid when a row that passes the check against the
    other rows is put in. *)
Lemma table_valid_middle cols tbl1 tbl2 row :
  table_valid cols (tbl1 ++ tbl2) → check cols (tbl1 ++ tbl2) row = Ok tt →
  table_valid cols (tbl1 ++ row :: tbl2).
Proof.
  intros [Hrows Huniq] Hcheck. split.
  - apply Forall_app in Hrows as [H1 H2]. apply Forall_app. split; [done|].
    apply Forall_cons. split; [by eapply check_row_valid|done].
  - apply check_Ok in Hcheck. rewrite Forall_forall in Huniq, Hcheck.
    apply Forall_forall. intros c Hc Hu.
    apply NoDup_column_values_middle; [by apply Huniq|].
    specialize (Hcheck c Hc). apply violated_None in Hcheck. tauto.
Qed.

(** A table stays valid when a row is taken out. *)
Lemma table_valid_remove cols tbl1 tbl2 row :
  table_valid cols (tbl1 ++ row :: tbl2) → table_valid cols (tbl1 ++ tbl2).
Proof.
  intros [Hrows Huniq]. split.
  - apply Forall_app in Hrows as [H1 [_ H2]%Forall_cons]. by apply Forall_app.
  - eapply Forall_impl; [exact Huniq|]. intros c Hc Hu. specialize (Hc Hu). revert Hc.
    rewrite !column_values_app, (column_values_cons c row), column_values_singleton.
    destruct (nullish _); [done|]. intros Hnd.
    apply (NoDup_Permutation_proper _ _ (Permutation_middle _ _ _)) in Hnd.
    by apply NoDup_cons in Hnd as [_ ?].
Qed.

Lemma table_valid_delete cols i tbl : table_valid cols tbl → table_valid cols (delete i tbl).
Proof.
  intros Htbl. destruct (tbl !! i) as [row|] eqn:Hi.
  - rewrite delete_take_drop. apply (table_valid_remove _ _ _ row).
    by rewrite take_drop_middle.
  - rewrite delete_take_drop, take_ge, drop_ge, app_nil_r; [done|..]; apply lookup_ge_None in Hi; lia.
Qed.

Lemma insert_row_valid cols row tbl :
  table_valid cols tbl → table_valid cols (insert_row cols row tbl).2.
Proof.
  intros Htbl. unfold insert_row.
  destruct (check cols tbl (apply_defaults cols row)) as [[]|e] eqn:Hcheck; [|done]. simpl.
  rewrite <-(app_nil_r tbl) in Htbl, Hcheck.
  apply (table_valid_middle cols tbl [] _ Htbl Hcheck).
Qed.

Lemma replace_row_valid cols i row tbl :
  table_valid cols tbl → table_valid cols (replace_row cols i row tbl).2.
Proof.
  intros Htbl. unfold replace_row.
  destruct (check cols (delete i tbl) row) as [[]|e] eqn:Hcheck; [|done]. simpl.
  destruct (decide (i < length tbl)) as [Hi|Hi];
    [|by rewrite list_insert_ge by lia].
  rewrite insert_take_drop by done. rewrite delete_take_drop in Hcheck.
  apply table_valid_middle; [|done].
  rewrite <-delete_take_drop. by apply table_valid_delete.
Qed.

Lemma checked_step_valid cols hs tbl tbl' :
  checked_step cols hs tbl tbl' → table_valid cols tbl → table_valid cols tbl'.
Proof.
  intros [data t|i data t|i t] Ht.
  - unfold checked_create. destruct (row_of hs data) as [row|e]; [|done].
    pose proof (insert_row_valid cols row t Ht).
    by destruct (insert_row cols row t) as [[stored|e] t'].
  - unfold checked_update. destruct (t !! i) as [old|]; [|done].
    destruct (row_of hs data) as [row|e]; [|done].
    pose proof (replace_row_valid cols i (row ∪ old) t Ht).
    by destruct (replace_row cols i (row ∪ old) t) as [[stored|e] t'].
  - simpl. by apply table_valid_delete.
Qed.

(** A property of the empty table that every step preserves holds of
    every reachable table. *)
Lemma checked_reachable_invariant cols hs (P : rows → Prop) tbl :
  P [] → (∀ t t', checked_step cols hs t t' → P t → P t') →
  checked_reachable cols hs tbl → P tbl.
Proof.
  intros H0 Hstep. unfold checked_reachable. apply rtc_ind_r; [done|].
  intros y z _ Hyz Hy. by apply (Hstep y z).
Qed.

Lemma checked_reachable_valid cols hs tbl :
  checked_reachable cols hs tbl → table_valid cols tbl.
Proof.
  apply checked_reachable_invariant.
  - split; [constructor|]. apply Forall_forall. intros c _ _. constructor.
  - apply checked_step_valid.
Qed.

End constraint_lemmas.

(** ** Lemmas on the table of the adapter *)

Section adapter_store.
Import KnexMongoIdInterface.
Context (a : KnexMongoIdInterface.t).
Implicit Types (data row old : item) (tbl : rows) (others : hooks) (s t d : string).
Notation cols := (addToTableSchema a []).
Notation p := (path a).

Lemma knex_columns : cols = [id_column a].
Proof. by rewrite knex_addToTableSchema_column. Qed.

Lemma knex_apply_defaults row :
  apply_defaults cols row
  = if truthy (defaultTo a) && bool_decide (get_prop row p = VUndefined)
    then <[p := defaultTo a]> row else row.
Proof.
  rewrite knex_columns. unfold apply_defaults, apply_default, id_column. simpl.
  by destruct (truthy (defaultTo a)).
Qed.

(** The check of the one column of the table. *)
Lemma knex_check tbl row :
  check cols tbl row
  = match violated (id_column a) tbl row with
    | Some k => Throw (constraint_error (id_column a) k)
    | None => Ok tt
    end.
Proof. by rewrite knex_columns. Qed.

(** A default in normal form keeps the invariant of stored rows. *)
Lemma stored_ok_apply_defaults row :
  default_normal a = true → stored_ok p row = true →
  stored_ok p (apply_defaults cols row) = true.
Proof.
  intros Hd Hrow. rewrite knex_apply_defaults.
  destruct (truthy (defaultTo a)) eqn:Ht; [|done]. case_bool_decide; [|done]. simpl.
  unfold default_normal in Hd. rewrite Ht in Hd. unfold stored_ok.
  rewrite lookup_insert_eq. destruct (defaultTo a) as [| | | |d|]; try done.
  simpl in *. by rewrite Ht.
Qed.

Lemma checked_step_stored_ok others tbl tbl' :
  default_normal a = true →
  checked_step cols (hooks_of a others) tbl tbl' →
  table_stored_ok a tbl → table_stored_ok a tbl'.
Proof.
  unfold table_stored_ok. intros Hd [data t|i data t|i t] Ht; simpl.
  - unfold checked_create, insert_row.
    destruct (row_of _ data) as [row|e] eqn:Hrow; [|done].
    destruct (check _ _ _); [|done]. simpl. apply Forall_app. split; [done|].
    apply Forall_singleton, stored_ok_apply_defaults; [done|]. by eapply row_of_stored_ok.
  - unfold checked_update, replace_row. destruct (t !! i) as [old|] eqn:Hold; [|done].
    destruct (row_of _ data) as [row|e] eqn:Hrow; [|done].
    destruct (check _ _ _); [|done]. simpl. apply Forall_insert; [done|].
    apply stored_ok_union; [by eapply row_of_stored_ok|].
    by eapply (Forall_lookup_1 _ _ _ _ Ht).
  - by apply Forall_delete.
Qed.

Lemma checked_reachable_stored_ok others tbl :
  default_normal a = true →
  checked_reachable cols (hooks_of a others) tbl → table_stored_ok a tbl.
Proof.
  intros Hd. apply checked_reachable_invariant; [constructor|].
  intros t t'. by apply checked_step_stored_ok.
Qed.

(** Two rows that hold the same value in a column without duplicates are
    one row. *)
Lemma NoDup_column_values_inj c tbl i j ri rj :
  NoDup (column_values c tbl) →
  tbl !! i = Some ri → tbl !! j = Some rj →
  nullish (get_prop ri (col_name c)) = false →
  get_prop ri (col_name c) = get_prop rj (col_name c) → i = j.
Proof.
  revert i j. induction tbl as [|r tbl IH]; intros i j Hnd Hi Hj Hn Heq; [done|].
  rewrite column_values_cons, column_values_singleton in Hnd.
  assert (∀ k rk, tbl !! k = Some rk → nullish (get_prop rk (col_name c)) = false →
                  get_prop rk (col_name c) ∈ column_values c tbl) as Hin.
  { intros k rk Hk Hk'. apply list_elem_of_filter. split; [done|].
    apply list_elem_of_fmap. exists rk. split; [done|]. by eapply list_elem_of_lookup_2. }
  destruct i as [|i], j as [|j]; simpl in Hi, Hj.
  - done.
  - injection Hi as ->. rewrite Hn in Hnd. apply NoDup_cons in Hnd as [Hnot _].
    destruct Hnot. rewrite Heq. apply (Hin j rj Hj). by rewrite <-Heq.
  - injection Hj as ->. rewrite <-Heq, Hn in Hnd. apply NoDup_cons in Hnd as [Hnot _].
    destruct Hnot. by apply (Hin i ri Hi).
  - f_equal. apply (IH i j); try done. revert Hnd.
    destruct (nullish (get_prop r (col_name c))); [done|]. by intros [_ ?]%NoDup_cons.
Qed.

(** In a table that satisfies the constraints of a unique column and the
    invariant of what the pre-save hook stores, the identifiers are
    distinct up to case: the constraint compares what is stored, and what
    is stored is in lower case. *)
Lemma valid_stored_distinct tbl :
  isUnique a = true → table_valid cols tbl → table_stored_ok a tbl →
  distinct_up_to_case p tbl.
Proof.
  intros Hu [_ Huniq] Hok i j ri rj s t Hi Hj Hs Ht Hst. rewrite knex_columns in Huniq.
  rewrite Forall_singleton in Huniq. specialize (Huniq Hu).
  assert (∀ k rk u, tbl !! k = Some rk → get_prop rk p = VStr u →
                    is_lower_string u = true) as Hlower.
  { intros k rk u Hk Hu'. pose proof (Forall_lookup_1 _ _ _ _ Hok Hk) as Hrk.
    unfold stored_ok in Hrk. unfold get_prop in Hu'.
    destruct (rk !! p) as [v|]; simplify_eq/=. by apply andb_prop in Hrk as [_ ?]. }
  apply (NoDup_column_values_inj (id_column a) tbl i j ri rj Huniq Hi Hj); simpl.
  - by rewrite Hs.
  - rewrite Hs, Ht. f_equal. apply ci_eq_lower; eauto.
Qed.

End adapter_store.

(** ** Theorems *)

Section store_theorems.
Import KnexMongoIdInterface.
Implicit Types (a : KnexMongoIdInterface.t) (data row : item) (tbl : rows) (others : hooks)
  (s t d : string).

(** C13: In every table that a list with the relational adapter reaches, the
    constraints of the column hold: no row is too long for the column or
    null where the column is not nullable, and a unique column holds no
    value twice.  When the default of the column is in normal form, every
    row also satisfies the invariant of what the pre-save hook stores. *)
Theorem checked_reachable_invariants a others tbl :
  checked_reachable (addToTableSchema a []) (hooks_of a others) tbl →
  table_valid (addToTableSchema a []) tbl
  ∧ (default_normal a = true → table_stored_ok a tbl).
Proof.
  intros Htbl. split; [by eapply checked_reachable_valid|].
  intros Hd. by eapply checked_reachable_stored_ok.
Qed.

(** C12: With a unique column no two rows of a reachable table hold
    identifiers that are equal up to case: the pre-save hook stores lower
    case, so the constraint of the store, which compares what is stored,
    compares up to case. *)
Theorem unique_up_to_case a others tbl (i j : nat) (ri rj : item) s t :
  isUnique a = true → default_normal a = true →
  checked_reachable (addToTableSchema a []) (hooks_of a others) tbl →
  tbl !! i = Some ri → tbl !! j = Some rj →
  get_prop ri (path a) = VStr s → get_prop rj (path a) = VStr t →
  ci_eq s t → i = j.
Proof.
  intros Hu Hd Htbl. eapply valid_stored_distinct; [done| |].
  - by eapply checked_reachable_valid.
  - by eapply checked_reachable_stored_ok.
Qed.

(** A second record whose identifier differs from a stored one by case
    only is refused by a unique column, and the table stays as it was. *)
Theorem checked_create_duplicate a data row tbl t :
  isUnique a = true → row ∈ tbl →
  get_prop row (path a) = VStr (toLowerCase t) →
  get_prop data (path a) = VStr t → t ≠ EmptyString → String.length t ≤ 24 →
  checked_create (addToTableSchema a []) (hooks_of a no_hooks) data tbl
  = (Throw (constraint_error (id_column a) Unique), tbl).
Proof.
  intros Hu Hrow Hrt Ht Hne Hlen. unfold checked_create, insert_row.
  rewrite row_of_savable by (unfold savable; rewrite Ht; simpl; by rewrite orb_true_r).
  assert (get_prop (saved (path a) data) (path a) = VStr (toLowerCase t)) as Hsaved
    by (by apply knex_saved_get_string).
  rewrite knex_apply_defaults, Hsaved, bool_decide_eq_false_2, andb_false_r by done.
  rewrite knex_check. unfold violated. simpl. rewrite Hsaved, Hu. simpl.
  rewrite andb_false_r, toLowerCase_length.
  rewrite (proj2 (Nat.leb_le _ _) Hlen). simpl.
  rewrite bool_decide_eq_true_2; [done|].
  apply list_elem_of_filter. split; [done|]. apply list_elem_of_fmap. by exists row.
Qed.

(** The length of the column is enforced by the store alone: the pre-save
    hook hands over a string of more than 24 characters, and the row is
    refused. *)
Theorem checked_create_too_long a data tbl s :
  get_prop data (path a) = VStr s → 24 < String.length s →
  checked_create (addToTableSchema a []) (hooks_of a no_hooks) data tbl
  = (Throw (constraint_error (id_column a) Length), tbl).
Proof.
  intros Hs Hlen. unfold checked_create, insert_row.
  assert (s ≠ EmptyString) as Hne by (intros ->; simpl in Hlen; lia).
  rewrite row_of_savable by (unfold savable; rewrite Hs; simpl; by rewrite orb_true_r).
  assert (get_prop (saved (path a) data) (path a) = VStr (toLowerCase s)) as Hsaved
    by (by apply knex_saved_get_string).
  rewrite knex_apply_defaults, Hsaved, bool_decide_eq_false_2, andb_false_r by done.
  rewrite knex_check. unfold violated. simpl. rewrite Hsaved. simpl.
  rewrite andb_false_r, toLowerCase_length.
  by rewrite (proj2 (Nat.leb_gt _ _) Hlen).
Qed.

(** C27: The default of the column is filled in after the pre-save hook has
    run: a record that leaves the identifier out is stored with the default
    as it was configured, and is read back with the default in lower case.
    When the default is not in lower case, the stored row does not satisfy
    the equality condition for the identifier that the record was read
    with. *)
Theorem default_bypasses_hook a data tbl d :
  defaultTo a = VStr d → d ≠ EmptyString → String.length d ≤ 24 →
  truthy (get_prop data (path a)) = false →
  Forall (λ row, get_prop row (path a) ≠ VStr d) tbl →
  checked_create (addToTableSchema a []) (hooks_of a no_hooks) data tbl
  = (Ok (RItem (<[path a := VStr (toLowerCase d)]> (delete (path a) data))),
     tbl ++ [<[path a := VStr d]> (delete (path a) data)])
  ∧ cond_holds (CEq (path a) (VStr (toLowerCase d)))
      (<[path a := VStr d]> (delete (path a) data))
    = is_lower_string d.
Proof.
  intros Hd Hne Hlen Hv Htbl. split.
  - unfold checked_create, insert_row.
    rewrite row_of_savable by (unfold savable; by rewrite Hv).
    rewrite knex_saved_falsy by done.
    rewrite knex_apply_defaults, Hd, get_prop_delete_eq, bool_decide_eq_true_2 by done.
    assert (truthy (VStr d) = true) as Htd by (by destruct d). rewrite Htd. cbn [andb].
    rewrite knex_check. unfold violated. simpl. rewrite get_prop_insert_eq. simpl.
    rewrite andb_false_r, (proj2 (Nat.leb_le _ _) Hlen). simpl.
    rewrite (bool_decide_eq_false_2 (_ ∈ _)), andb_false_r.
    + rewrite onPostRead_hooks_of. simpl.
      rewrite (knex_postReadHook_eq a (RItem _) _ eq_refl), get_prop_insert_eq.
      rewrite Htd. simpl. by rewrite insert_insert_eq.
    + intros [_ Hin]%list_elem_of_filter.
      apply list_elem_of_fmap in Hin as (row & Hrow & Hin).
      rewrite Forall_forall in Htbl. by destruct (Htbl row Hin).
  - simpl. rewrite get_prop_insert_eq. apply eq_true_iff_eq.
    rewrite bool_decide_eq_true, <-toLowerCase_fixed_iff.
    split; [by intros [= Heq]|by intros ->].
Qed.

End store_theorems.

Lemma checked_reachable_invariants_witness :
  table_valid
    (KnexMongoIdInterface.addToTableSchema
       (KnexMongoIdInterface.new
          (KnexMongoIdInterface.Base "fbId" {["isUnique" := VBool true]} VUndefined VUndefined)) [])
    (checked_create
       (KnexMongoIdInterface.addToTableSchema
          (KnexMongoIdInterface.new
             (KnexMongoIdInterface.Base "fbId" {["isUnique" := VBool true]} VUndefined VUndefined)) [])
       (hooks_of (KnexMongoIdInterface.new
                    (KnexMongoIdInterface.Base "fbId" {["isUnique" := VBool true]} VUndefined VUndefined))
                 no_hooks)
       {["fbId" := VStr "5F8D0D55B54764421B7156C3"]} []).2.
Proof.
  apply (checked_reachable_invariants _ no_hooks).
  eapply rtc_l; [apply checked_step_create|apply rtc_refl].
Defined.

Lemma unique_up_to_case_witness :
  checked_reachable
    (KnexMongoIdInterface.addToTableSchema
       (KnexMongoIdInterface.new
          (KnexMongoIdInterface.Base "fbId" {["isUnique" := VBool true]} VUndefined VUndefined)) [])
    (hooks_of (KnexMongoIdInterface.new
                 (KnexMongoIdInterface.Base "fbId" {["isUnique" := VBool true]} VUndefined VUndefined))
              no_hooks)
    [{["fbId" := VStr "5f8d0d55b54764421b7156c3"]}]
  ∧ 0%nat = 0%nat.
Proof.
  assert (checked_reachable
            (KnexMongoIdInterface.addToTableSchema
               (KnexMongoIdInterface.new
                  (KnexMongoIdInterface.Base "fbId" {["isUnique" := VBool true]} VUndefined VUndefined)) [])
            (hooks_of (KnexMongoIdInterface.new
                         (KnexMongoIdInterface.Base "fbId" {["isUnique" := VBool true]} VUndefined
                            VUndefined))
                      no_hooks)
            [{["fbId" := VStr "5f8d0d55b54764421b7156c3"]}]) as Hreach.
  { eapply rtc_l; [|apply rtc_refl].
    exact (checked_step_create _ _ {["fbId" := VStr "5F8D0D55B54764421B7156C3"]} []). }
  split; [exact Hreach|].
  exact (unique_up_to_case
           (KnexMongoIdInterface.new
              (KnexMongoIdInterface.Base "fbId" {["isUnique" := VBool true]} VUndefined VUndefined))
           no_hooks _ 0 0 _ _ "5f8d0d55b54764421b7156c3" "5f8d0d55b54764421b7156c3"
           eq_refl eq_refl Hreach eq_refl eq_refl eq_refl eq_refl eq_refl).
Defined.

Lemma checked_create_duplicate_witness :
  checked_create
    (KnexMongoIdInterface.addToTableSchema
       (KnexMongoIdInterface.new
          (KnexMongoIdInterface.Base "fbId" {["isUnique" := VBool true]} VUndefined VUndefined)) [])
    (hooks_of (KnexMongoIdInterface.new
                 (KnexMongoIdInterface.Base "fbId" {["isUnique" := VBool true]} VUndefined VUndefined))
              no_hooks)
    {["fbId" := VStr "5F8D0D55B54764421B7156C3"]}
    [{["fbId" := VStr "5f8d0d55b54764421b7156c3"]}]
  = (Throw (Thrown (VStr "duplicate value in column 'fbId'")),
     [{["fbId" := VStr "5f8d0d55b54764421b7156c3"]}]).
Proof.
  apply (checked_create_duplicate
           (KnexMongoIdInterface.new
              (KnexMongoIdInterface.Base "fbId" {["isUnique" := VBool true]} VUndefined VUndefined))
           _ {["fbId" := VStr "5f8d0d55b54764421b7156c3"]} _ "5F8D0D55B54764421B7156C3");
    [done|set_solver|done|done|done|simpl; lia].
Defined.

Lemma checked_create_too_long_witness :
  checked_create
    (KnexMongoIdInterface.addToTableSchema
       (KnexMongoIdInterface.new (KnexMongoIdInterface.Base "fbId" ∅ VUndefined VUndefined)) [])
    (hooks_of (KnexMongoIdInterface.new (KnexMongoIdInterface.Base "fbId" ∅ VUndefined VUndefined))
              no_hooks)
    {["fbId" := VStr "5F8D0D55B54764421B7156C3AB"]} []
  = (Throw (Thrown (VStr "value too long for column 'fbId'")), []).
Proof.
  apply (checked_create_too_long
           (KnexMongoIdInterface.new (KnexMongoIdInterface.Base "fbId" ∅ VUndefined VUndefined))
           _ _ "5F8D0D55B54764421B7156C3AB"); [done|simpl; lia].
Defined.

Lemma default_bypasses_hook_witness :
  checked_create
    (KnexMongoIdInterface.addToTableSchema
       (KnexMongoIdInterface.new
          (KnexMongoIdInterface.Base "fbId" ∅ VUndefined (VStr "5F8D0D55B54764421B7156C3"))) [])
    (hooks_of (KnexMongoIdInterface.new
                 (KnexMongoIdInterface.Base "fbId" ∅ VUndefined (VStr "5F8D0D55B54764421B7156C3")))
              no_hooks)
    {["name" := VStr "Ada"]} []
  = (Ok (RItem {["fbId" := VStr "5f8d0d55b54764421b7156c3"; "name" := VStr "Ada"]}),
     [{["fbId" := VStr "5F8D0D55B54764421B7156C3"; "name" := VStr "Ada"]}])
  ∧ cond_holds (CEq "fbId" (VStr "5f8d0d55b54764421b7156c3"))
      {["fbId" := VStr "5F8D0D55B54764421B7156C3"; "name" := VStr "Ada"]} = false.
Proof.
  destruct (default_bypasses_hook
              (KnexMongoIdInterface.new
                 (KnexMongoIdInterface.Base "fbId" ∅ VUndefined (VStr "5F8D0D55B54764421B7156C3")))
              {["name" := VStr "Ada"]} [] "5F8D0D55B54764421B7156C3")
    as [H1 H2]; [done|done|simpl; lia|done|constructor|].
  split; [rewrite H1; by vm_compute|]. by vm_compute.
Defined.
