(* ===== verification/Documents.v ===== *)
(** * Documents with validation

    [src/fb/field-fbId.js], lines 29 to 46, hands the validator of line 25
    to the schema of the document store, with the message
    ['{VALUE} is not a valid Mongo ObjectId'], for a field that is not the
    primary key; lines 48 to 69 register hooks for a primary key only.  The
    store runs the validators of a schema when a document is saved.  The
    store is not among the sources; this file has the validation of a
    document against a schema, the message of a failure, and the save of a
    document through the pre-save hooks, the validation and the post-read
    hooks.  The theorems show which documents a list with the identifier
    field saves and which it refuses, that the document store keeps an
    identifier as it was given, in upper case if so, unlike the relational
    adapter, and that the identifier of a primary key is not validated at
    all. *)

From Stdlib Require Import Ascii String Lia.
From S2P Require Import Prelude JsString JsValue Regex Normalise Framework MongoAdapter.
From S2P Require Import KnexAdapter ListAdapter.

(** ** Messages *)

(** Replacing every occurrence of [needle] in a template; [skip] counts
    the characters of an occurrence that are still to be passed over. *)
Fixpoint template_go (needle replacement : string) (skip : nat) (s : string) : string :=
  match s with
  | EmptyString => EmptyString
  | String c s' =>
      match skip with
      | S k => template_go needle replacement k s'
      | 0 =>
          if String.prefix needle s
          then replacement +:+ template_go needle replacement (String.length needle - 1) s'
          else String c (template_go needle replacement 0 s')
      end
  end.

(** The message of a validator for a value: [{VALUE}] is replaced by the
    value as a string. *)
Definition render (message : string) (v : value) : string :=
  template_go "{VALUE}" (string_of v) 0 message.

Definition validation_error (path message : string) (v : value) : exn :=
  Thrown (VStr ("Validation failed: " +:+ path +:+ ": " +:+ render message v)).

(** ** Validation *)

(** The validator of one path; validators are not run on [undefined]. *)
Definition validate_path (doc : item) (entry : string * schema_options) : js unit :=
  let v := get_prop doc entry.1 in
  if bool_decide (v = VUndefined) then Ok tt
  else
    let* ok := so_validator entry.2 v in
    if ok then Ok tt else Throw (validation_error entry.1 (so_message entry.2) v).

(** The validators of every path of the schema. *)
Definition validate (s : schema) (doc : item) : js unit :=
  foldr (λ entry rest, validate_path doc entry;;; rest) (Ok tt) (map_to_list s).

(** ** Saving *)

(** The save of a document: the pre-save hooks, the validation, the
    insertion; what was inserted is returned as a document of the store
    through the post-read hooks. *)
Definition save (s : schema) (hs : hooks) (data : item) : table_op ref :=
  λ tbl, match row_of hs data with
         | Ok doc =>
             match validate s doc with
             | Ok _ => (onPostRead hs (RModel doc), tbl ++ [doc])
             | Throw e => (Throw e, tbl)
             end
         | Throw e => (Throw e, tbl)
         end.

(** ** What the theorems speak of *)

(** What the schema of the field lets through: an absent value, [null],
    and what the validator of line 25 accepts. *)
Definition nullish_or_valid (v : value) : bool :=
  match v with
  | VUndefined | VNull => true
  | _ => negb (truthy v) || is_objectid_string (string_of v)
  end.

(** The conversion of the store to its identifier type gives the 24
    hexadecimal digits of an identifier in lower case. *)
Definition canonical_ObjectId (f : value → js value) : Prop :=
  ∀ x, is_objectid_string x = true → f (VStr x) = Ok (VStr (toLowerCase x)).

(** ** Lemmas *)

Section document_lemmas.
Context {SB : SchemaBase}.
Import FbMongoIdInterface.
Implicit Types (a : FbMongoIdInterface.t) (doc data : item) (v : value) (x : string).

(** The message of the identifier field for a value. *)
Lemma render_message v :
  render "{VALUE} is not a valid Mongo ObjectId" v
  = string_of v +:+ " is not a valid Mongo ObjectId".
Proof. done. Qed.

(** The schema that a list with one identifier field declares. *)
Lemma mongo_schema_of_field a :
  isPrimaryKey (field a) = false → config a !! "mongooseOptions" = None →
  ∃ so, addToMongooseSchema a ∅ = {[path a := so]}
        ∧ so_validator so = buildValidator validator
        ∧ so_message so = "{VALUE} is not a valid Mongo ObjectId".
Proof.
  intros Hpk Hcfg. unfold addToMongooseSchema, schema_add. rewrite Hpk.
  destruct (mergeSchemaOptions_keeps
    (SchemaOptions "String" (buildValidator validator)
       "{VALUE} is not a valid Mongo ObjectId" ∅) (config a) Hcfg) as (_ & Hv & Hm).
  eexists. by rewrite insert_empty.
Qed.

Lemma validate_singleton p so doc : validate {[p := so]} doc = validate_path doc (p, so).
Proof.
  unfold validate. rewrite map_to_list_singleton. simpl.
  by destruct (validate_path doc (p, so)) as [[]|].
Qed.

(** The validation of a document by the schema of the field: a document
    passes when the field is absent or [null] or what the validator
    accepts. *)
Lemma validate_field a doc :
  isPrimaryKey (field a) = false → config a !! "mongooseOptions" = None →
  validate (addToMongooseSchema a ∅) doc
  = let v := get_prop doc (path a) in
    if nullish_or_valid v then Ok tt
    else Throw (validation_error (path a) "{VALUE} is not a valid Mongo ObjectId" v).
Proof.
  intros Hpk Hcfg. destruct (mongo_schema_of_field a Hpk Hcfg) as (so & -> & Hv & Hm).
  rewrite validate_singleton. unfold validate_path, nullish_or_valid. simpl. rewrite Hv, Hm.
  destruct (get_prop doc (path a)) as [| |b|n|x|addr repr] eqn:Hdoc; simpl; try done;
    rewrite ?buildValidator_absent, ?buildValidator_present, ?validator_eq by auto;
    simpl; try done; by destruct (_ || _).
Qed.

End document_lemmas.

(** ** Theorems *)

Section document_theorems.
Context {SB : SchemaBase} {QB : QueryBase}.
Import FbMongoIdInterface.
Implicit Types (a : FbMongoIdInterface.t) (doc data : item) (tbl : rows) (x : string).

(** C28: A list whose identifier field is not the primary key saves a document
    exactly when the field is absent, [null], or what the validator
    accepts; it stores it as it was given and returns it as a document; a
    refused document leaves the table as it was, and the failure carries the
    message of the field with the value in it. *)
Theorem save_validates a data tbl :
  isPrimaryKey (field a) = false → config a !! "mongooseOptions" = None →
  save (addToMongooseSchema a ∅) (setupHooks a no_hooks) data tbl
  = if nullish_or_valid (get_prop data (path a))
    then (Ok (RModel data), tbl ++ [data])
    else (Throw (Thrown (VStr ("Validation failed: " +:+ path a +:+ ": "
                               +:+ string_of (get_prop data (path a))
                               +:+ " is not a valid Mongo ObjectId"))), tbl).
Proof.
  intros Hpk Hcfg. unfold save, setupHooks. rewrite Hpk. simpl.
  rewrite (validate_field a data Hpk Hcfg). simpl.
  by destruct (nullish_or_valid _).
Qed.

(** C29: The document store keeps the case of an identifier: a valid
    identifier is stored as it was given, and the condition that
    [getQueryConditions] builds for it, whose operand the store converts to
    lower case, holds of the stored document only when the identifier was
    given in lower case. *)
Theorem save_keeps_case a data tbl x :
  isPrimaryKey (field a) = false → config a !! "mongooseOptions" = None →
  canonical_ObjectId (ObjectId a) →
  get_prop data (path a) = VStr x → is_objectid_string x = true →
  ∃ c, (save (addToMongooseSchema a ∅) (setupHooks a no_hooks) data tbl).2 = tbl ++ [data]
       ∧ build_one (getQueryConditions a (path a)) (path a) (VStr x) = Some (Ok c)
       ∧ cond_holds c data = is_lower_string x.
Proof.
  intros Hpk Hcfg Hid Hx Hvalid. exists (CEq (path a) (VStr (toLowerCase x))).
  split_and!.
  - assert (nullish_or_valid (VStr x) = true) as Hnv.
    { unfold nullish_or_valid. rewrite string_of_VStr, Hvalid. apply orb_true_r. }
    unfold save, setupHooks. rewrite Hpk. simpl.
    rewrite (validate_field a data Hpk Hcfg), Hx. cbv zeta. by rewrite Hnv.
  - unfold getQueryConditions. rewrite spread_conditions_eq, Hpk, (Hid x Hvalid). done.
  - simpl. rewrite Hx. apply eq_true_iff_eq.
    rewrite bool_decide_eq_true, <-toLowerCase_fixed_iff.
    split; [by intros [= Heq]|by intros ->].
Qed.

(** The identifier of a primary key is not validated: the schema holds no
    path for it, so whatever truthy value the data hold as [id] is stored
    as [_id], and read back as a string. *)
Theorem save_primary_key_unvalidated a data tbl :
  isPrimaryKey (field a) = true → truthy (get_prop data "id") = true →
  save (addToMongooseSchema a ∅) (setupHooks a no_hooks) data tbl
  = (Ok (RItem (from_store (to_store data))), tbl ++ [to_store data]).
Proof.
  intros Hpk Hid. unfold save, row_of, addToMongooseSchema, setupHooks. rewrite Hpk. simpl.
  unfold onPreSave, onPostRead. simpl.
  rewrite (mongo_preSaveHook_eq (RItem data) data eq_refl). simpl.
  by rewrite mongo_postReadHook_model.
Qed.

End document_theorems.

Lemma save_validates_witness :
  save (FbMongoIdInterface.addToMongooseSchema (SB := StandardSchemaBase)
          (FbMongoIdInterface.Adapter (FbMongoIdInterface.Field false) "fbId" ∅ Ok) ∅)
       (FbMongoIdInterface.setupHooks
          (FbMongoIdInterface.Adapter (FbMongoIdInterface.Field false) "fbId" ∅ Ok) no_hooks)
       {["fbId" := VStr "xyz"]} []
  = (Throw (Thrown (VStr "Validation failed: fbId: xyz is not a valid Mongo ObjectId")), []).
Proof.
  exact (save_validates (SB := StandardSchemaBase)
           (FbMongoIdInterface.Adapter (FbMongoIdInterface.Field false) "fbId" ∅ Ok)
           {["fbId" := VStr "xyz"]} [] eq_refl eq_refl).
Defined.

Lemma save_keeps_case_witness :
  ∃ c, (save (FbMongoIdInterface.addToMongooseSchema (SB := StandardSchemaBase)
                (FbMongoIdInterface.Adapter (FbMongoIdInterface.Field false) "fbId" ∅
                   normaliseValue) ∅)
             (FbMongoIdInterface.setupHooks
                (FbMongoIdInterface.Adapter (FbMongoIdInterface.Field false) "fbId" ∅
                   normaliseValue) no_hooks)
             {["fbId" := VStr "5F8D0D55B54764421B7156C3"]} []).2
       = [] ++ [{["fbId" := VStr "5F8D0D55B54764421B7156C3"]}]
       ∧ build_one (FbMongoIdInterface.getQueryConditions (QB := StandardBase)
                      (FbMongoIdInterface.Adapter (FbMongoIdInterface.Field false) "fbId" ∅
                         normaliseValue) "fbId")
           "fbId" (VStr "5F8D0D55B54764421B7156C3") = Some (Ok c)
       ∧ cond_holds c {["fbId" := VStr "5F8D0D55B54764421B7156C3"]}
         = is_lower_string "5F8D0D55B54764421B7156C3".
Proof.
  apply (save_keeps_case (SB := StandardSchemaBase) (QB := StandardBase)
           (FbMongoIdInterface.Adapter (FbMongoIdInterface.Field false) "fbId" ∅
              normaliseValue)
           {["fbId" := VStr "5F8D0D55B54764421B7156C3"]} [] "5F8D0D55B54764421B7156C3");
    try done.
  intros x Hx. rewrite normaliseValue_VStr. by rewrite (is_objectid_string_nonempty x Hx).
Defined.

Lemma save_primary_key_unvalidated_witness :
  save (FbMongoIdInterface.addToMongooseSchema (SB := StandardSchemaBase)
          (FbMongoIdInterface.Adapter (FbMongoIdInterface.Field true) "id" ∅ Ok) ∅)
       (FbMongoIdInterface.setupHooks
          (FbMongoIdInterface.Adapter (FbMongoIdInterface.Field true) "id" ∅ Ok) no_hooks)
       {["id" := VStr "not an identifier"]} []
  = (Ok (RItem {["id" := VStr "not an identifier"]}),
     [{["_id" := VStr "not an identifier"]}]).
Proof.
  assert (truthy (get_prop ({["id" := VStr "not an identifier"]} : item) "id") = true) as Hid
    by (by vm_compute).
  rewrite (save_primary_key_unvalidated (SB := StandardSchemaBase)
             (FbMongoIdInterface.Adapter (FbMongoIdInterface.Field true) "id" ∅ Ok)
             {["id" := VStr "not an identifier"]} [] eq_refl Hid).
  by vm_compute.
Defined.
