(* ===== verification/Confidentiality.v ===== *)
(** * What a query lets a user learn

    The read access of the list ([src/index.js], lines 69 to 77) and the
    access functions of [email] and [password] (lines 49 to 52 and 58)
    decide what an answer shows.  What they are meant to hide is stated
    here without reference to a query: for a principal, a table is as good
    as its view, in which the records that the principal may not read are
    left out, and the fields that the principal may not read are erased.
    Two tables with the same view are equivalent for the principal; the
    theorems show that the query of [Request] does not tell them apart, so
    that no selection of fields lets a user learn a password, the [email]
    of another user or anything of a deactivated record. *)

From Stdlib Require Import Ascii String Lia.
From S2P Require Import Prelude JsString JsValue Normalise Framework KnexAdapter.
From S2P Require Import MongoAdapter Access FieldType Ownership ListAdapter Request.

(** ** Views *)

(** A row that the post-read hook reads: it has no property named
    [toObject]. *)
Definition plain (row : item) : bool := negb (truthy (get_prop row "toObject")).

(** What a principal may learn of a row: the record as it is read, without
    the [email] unless the principal may touch the record, and with the
    [password] erased, or replaced by whether one is set for a principal
    who may see that. *)
Definition redact (p : principal) (row : item) : item :=
  let o := FbMongoIdInterface.from_store row in
  let o := if may_touch p (get_prop o "id") then o else delete "email" o in
  if may_see_password p
  then <["password" := VBool (truthy (get_prop o "password"))]> o
  else delete "password" o.

(** The view of a table for a principal. *)
Definition low_view (p : principal) (tbl : rows) : rows :=
  redact p <$> filter (λ row, may_read_record p row = true) tbl.

(** Two tables that a principal may not tell apart. *)
Definition low_equiv (p : principal) : relation rows :=
  λ t1 t2, low_view p t1 = low_view p t2.

(** The fields that are shown of a record of the view. *)
Definition reveal (p : principal) (names : list string) (r : item) : record_view :=
  (λ n, (n, if may_read_field p n r then FValue (get_prop r n) else FDenied)) <$> names.

(** The answer to a query, from the view alone. *)
Definition answer_from (p : principal) (names : list string) (view : rows)
    : js (list record_view) :=
  if forallb plain view then Ok (reveal p names <$> view)
  else Throw (TypeError "itemOrModel.toObject is not a function").

(** ** Lemmas *)

#[export] Instance low_equiv_equivalence p : Equivalence (low_equiv p).
Proof.
  unfold low_equiv. split; [by intros ?|by intros ??|]. intros t1 t2 t3 H12 H23.
  by rewrite H12.
Qed.

Section redact_lemmas.
Import FbMongoIdInterface.
Implicit Types (p : principal) (row o : item) (n : string) (tbl : rows).

Lemma redact_other p row n :
  n ≠ "email" → n ≠ "password" → get_prop (redact p row) n = get_prop (from_store row) n.
Proof.
  intros He Hp. unfold redact.
  destruct (may_see_password p), (may_touch p _); by autorewrite with js.
Qed.

Lemma plain_redact p row : plain (redact p row) = plain row.
Proof.
  unfold plain. rewrite redact_other by done. unfold get_prop.
  by rewrite mongo_from_store_other.
Qed.

Lemma may_read_field_redact p n row :
  may_read_field p n (redact p row) = may_read_field p n (from_store row).
Proof. unfold may_read_field. by rewrite redact_other. Qed.

(** A field that the principal may read is in the view as it is shown. *)
Lemma redact_shown p n row :
  may_read_field p n (from_store row) = true →
  get_prop (redact p row) n = shown n (from_store row).
Proof.
  unfold may_read_field, shown, redact.
  destruct (decide (n = "email")) as [->|]; [|destruct (decide (n = "password")) as [->|]].
  - intros ->. rewrite decide_False by done. destruct (may_see_password p); by autorewrite with js.
  - intros ->. destruct (may_touch p _); by autorewrite with js.
  - intros _. destruct (may_see_password p), (may_touch p _); by autorewrite with js.
Qed.

(** The fields that are shown of the view are those that the policy
    prescribes for the record. *)
Lemma reveal_redact p names row :
  reveal p names (redact p row) = policy_view p names (from_store row).
Proof.
  unfold reveal, policy_view. apply list_fmap_ext. intros _ n _.
  rewrite may_read_field_redact.
  destruct (may_read_field p n (from_store row)) eqn:Hn; [|done]. by rewrite redact_shown.
Qed.

(** A change of password that the view does not show: any change for a
    principal who may not see whether a password is set, and a change from
    one password that is set to another for everyone. *)
Lemma redact_password p row v :
  may_see_password p = false ∨ truthy v = truthy (get_prop row "password") →
  redact p (<["password" := v]> row) = redact p row.
Proof.
  intros Hv. unfold redact. rewrite from_store_insert_other, get_prop_insert_ne by done.
  assert (get_prop (from_store row) "password" = get_prop row "password") as Hpw
    by (unfold get_prop; by rewrite mongo_from_store_other).
  destruct (may_touch p _);
    rewrite ?(delete_insert_ne _ "email" "password"), ?get_prop_insert_eq,
      ?get_prop_delete_ne, ?Hpw by done;
    (destruct (may_see_password p); [|by rewrite delete_insert_eq]);
    destruct Hv as [Hv|Hv]; try done; by rewrite insert_insert_eq, Hv.
Qed.

(** A change of the [email] of a record that the principal may not
    touch. *)
Lemma redact_email p row v :
  may_touch p (get_prop (from_store row) "id") = false →
  redact p (<["email" := v]> row) = redact p row.
Proof.
  intros Hno. unfold redact. rewrite from_store_insert_other, get_prop_insert_ne, Hno by done.
  by rewrite delete_insert_eq.
Qed.

(** Replacing a row by one with the same view. *)
Lemma low_equiv_insert p tbl i row row' :
  tbl !! i = Some row → may_read_record p row' = may_read_record p row →
  redact p row' = redact p row → low_equiv p (<[i := row']> tbl) tbl.
Proof.
  intros Hi Hread Hredact. unfold low_equiv, low_view.
  apply (fmap_filter_insert _ _ _ _ row); [done|by rewrite Hread|done].
Qed.

(** Adding a row that the principal may not read. *)
Lemma low_equiv_snoc p tbl row : may_read_record p row = false → low_equiv p (tbl ++ [row]) tbl.
Proof.
  intros Hread. unfold low_equiv, low_view. rewrite filter_app, filter_cons_False.
  - by rewrite filter_nil, app_nil_r.
  - by rewrite Hread.
Qed.

End redact_lemmas.

(** ** The query and the view *)

Section noninterference.
Import FbMongoIdInterface.
Context (a : FbMongoIdInterface.t) (Hpk : isPrimaryKey (field a) = true).
Context (i : FbIdImplementation.t) (Hpath : FbIdImplementation.path i = "id").
Context (u : item) (names : list string) (Hnames : Forall (λ n, n ∈ queryable) names).

Notation Hs := (setupHooks a no_hooks).
Notation P := (principal_of (RItem u)).

(** The query is a function of the view of the table. *)
Lemma query_factors tbl :
  query Hs i User (RItem u) names tbl = answer_from P names (low_view P tbl).
Proof.
  unfold query, list_access, passing, answer_from, low_view.
  change (lc_read User) with (Some User_read). cbv beta iota.
  rewrite (User_read_known _ u), rbind_Ok_l by done.
  rewrite (list_filter_iff _ (λ row, may_read_record P row = true))
    by (intros row; by rewrite User_read_allows).
  rewrite (rmapM_guard _ plain (λ row, RItem (from_store row))
             (TypeError "itemOrModel.toObject is not a function"))
    by (intros row; rewrite onPostRead_primary_key_row by done; unfold plain;
        by destruct (truthy _)).
  rewrite (forallb_fmap_ext _ _ plain) by apply plain_redact.
  destruct (forallb plain _); [|done]. simpl. f_equal.
  rewrite <-!list_fmap_compose. apply list_fmap_ext. intros _ row _. simpl.
  rewrite reveal_redact. unfold view_of, policy_view. apply Forall_fmap_ext_1.
  eapply Forall_impl; [exact Hnames|]. intros n Hn. simpl. f_equal. by apply resolve_User.
Qed.

#[local] Instance query_low_proper :
  Proper (low_equiv P ==> eq) (query Hs i User (RItem u) names).
Proof. intros t1 t2 H12. rewrite !query_factors. unfold low_equiv in H12. by rewrite H12. Qed.

(** C14: A query does not tell apart two tables that have the same view for
    the user who asks: whatever fields the query selects, the two answers
    are equal, refusals and errors included. *)
Theorem query_noninterference (t1 t2 : rows) :
  low_equiv P t1 t2 →
  query Hs i User (RItem u) names t1 = query Hs i User (RItem u) names t2.
Proof. intros H12. by rewrite H12. Qed.

(** Nobody learns a password: for a user who is no administrator the answer
    is the same after any change of any password, and for an administrator
    it is the same after a change from one password that is set to
    another. *)
Theorem password_unobservable (tbl : rows) (j : nat) (row : item) (v : value) :
  truthy (get_prop u "isAdmin") = false ∨ truthy v = truthy (get_prop row "password") →
  tbl !! j = Some row →
  query Hs i User (RItem u) names (<[j := <["password" := v]> row]> tbl)
  = query Hs i User (RItem u) names tbl.
Proof.
  intros Hv Hj. assert (low_equiv P (<[j := <["password" := v]> row]> tbl) tbl) as ->; [|done].
  apply (low_equiv_insert _ _ _ row); [done| |by apply redact_password].
  simpl. by autorewrite with js.
Qed.

(** A user learns nothing of the [email] of a record of another user,
    unless the user is an administrator. *)
Theorem email_unobservable (tbl : rows) (j : nat) (row : item) (v : value) :
  may_touch P (get_prop (from_store row) "id") = false → tbl !! j = Some row →
  query Hs i User (RItem u) names (<[j := <["email" := v]> row]> tbl)
  = query Hs i User (RItem u) names tbl.
Proof.
  intros Hno Hj. assert (low_equiv P (<[j := <["email" := v]> row]> tbl) tbl) as ->; [|done].
  apply (low_equiv_insert _ _ _ row); [done| |by apply redact_email].
  simpl. by autorewrite with js.
Qed.

(** A user who is no administrator learns nothing of a deactivated
    record: the answer is the same whether the record is there or not. *)
Theorem deactivated_unobservable (tbl : rows) (row : item) :
  truthy (get_prop u "isAdmin") = false → get_prop row "state" = VStr "deactivated" →
  query Hs i User (RItem u) names (tbl ++ [row]) = query Hs i User (RItem u) names tbl.
Proof.
  intros Hu Hstate. assert (low_equiv P (tbl ++ [row]) tbl) as ->; [|done].
  apply low_equiv_snoc. simpl. by rewrite Hu, Hstate.
Qed.

End noninterference.

(** ** Witnesses

    Bob, who is no administrator, asks for the identifier, the [email] and
    the [password] of the users.  The second table has another password
    for Ada and a deactivated user more. *)

Lemma query_noninterference_witness :
  query (FbMongoIdInterface.setupHooks
           (FbMongoIdInterface.Adapter (FbMongoIdInterface.Field true) "id" ∅ Ok) no_hooks)
        (FbIdImplementation.Implementation "id") User
        (RItem {["id" := VStr "b0b"; "isAdmin" := VBool false]})
        ["id"; "email"; "password"]
        [ {["_id" := VStr "ada"; "email" := VStr "ada@example.org"; "password" := VStr "x"]} ]
  = query (FbMongoIdInterface.setupHooks
             (FbMongoIdInterface.Adapter (FbMongoIdInterface.Field true) "id" ∅ Ok) no_hooks)
          (FbIdImplementation.Implementation "id") User
          (RItem {["id" := VStr "b0b"; "isAdmin" := VBool false]})
          ["id"; "email"; "password"]
          [ {["_id" := VStr "ada"; "email" := VStr "ada@example.net"; "password" := VStr "y"]};
            {["_id" := VStr "eve"; "state" := VStr "deactivated"]} ].
Proof.
  apply (query_noninterference
           (FbMongoIdInterface.Adapter (FbMongoIdInterface.Field true) "id" ∅ Ok) eq_refl
           (FbIdImplementation.Implementation "id") eq_refl).
  - repeat constructor; by_compute.
  - unfold low_equiv. by_compute.
Defined.

Lemma password_unobservable_witness :
  query (FbMongoIdInterface.setupHooks
           (FbMongoIdInterface.Adapter (FbMongoIdInterface.Field true) "id" ∅ Ok) no_hooks)
        (FbIdImplementation.Implementation "id") User
        (RItem {["id" := VStr "adm"; "isAdmin" := VBool true]}) ["password"]
        (<[0 := <["password" := VStr "new"]> {["_id" := VStr "ada"; "password" := VStr "old"]}]>
           [ {["_id" := VStr "ada"; "password" := VStr "old"]} ])
  = query (FbMongoIdInterface.setupHooks
             (FbMongoIdInterface.Adapter (FbMongoIdInterface.Field true) "id" ∅ Ok) no_hooks)
          (FbIdImplementation.Implementation "id") User
          (RItem {["id" := VStr "adm"; "isAdmin" := VBool true]}) ["password"]
          [ {["_id" := VStr "ada"; "password" := VStr "old"]} ].
Proof.
  apply (password_unobservable
           (FbMongoIdInterface.Adapter (FbMongoIdInterface.Field true) "id" ∅ Ok) eq_refl
           (FbIdImplementation.Implementation "id") eq_refl).
  - repeat constructor; by_compute.
  - right. by_compute.
  - done.
Defined.

Lemma email_unobservable_witness :
  query (FbMongoIdInterface.setupHooks
           (FbMongoIdInterface.Adapter (FbMongoIdInterface.Field true) "id" ∅ Ok) no_hooks)
        (FbIdImplementation.Implementation "id") User
        (RItem {["id" := VStr "b0b"; "isAdmin" := VBool false]}) ["id"; "email"]
        (<[0 := <["email" := VStr "ada@example.net"]>
                  {["_id" := VStr "ada"; "email" := VStr "ada@example.org"]}]>
           [ {["_id" := VStr "ada"; "email" := VStr "ada@example.org"]} ])
  = query (FbMongoIdInterface.setupHooks
             (FbMongoIdInterface.Adapter (FbMongoIdInterface.Field true) "id" ∅ Ok) no_hooks)
          (FbIdImplementation.Implementation "id") User
          (RItem {["id" := VStr "b0b"; "isAdmin" := VBool false]}) ["id"; "email"]
          [ {["_id" := VStr "ada"; "email" := VStr "ada@example.org"]} ].
Proof.
  apply (email_unobservable
           (FbMongoIdInterface.Adapter (FbMongoIdInterface.Field true) "id" ∅ Ok) eq_refl
           (FbIdImplementation.Implementation "id") eq_refl).
  - repeat constructor; by_compute.
  - by_compute.
  - done.
Defined.

Lemma deactivated_unobservable_witness :
  query (FbMongoIdInterface.setupHooks
           (FbMongoIdInterface.Adapter (FbMongoIdInterface.Field true) "id" ∅ Ok) no_hooks)
        (FbIdImplementation.Implementation "id") User
        (RItem {["id" := VStr "b0b"; "isAdmin" := VBool false]}) ["id"; "state"]
        ([ {["_id" := VStr "ada"]} ] ++ [ {["_id" := VStr "eve"; "state" := VStr "deactivated"]} ])
  = query (FbMongoIdInterface.setupHooks
             (FbMongoIdInterface.Adapter (FbMongoIdInterface.Field true) "id" ∅ Ok) no_hooks)
          (FbIdImplementation.Implementation "id") User
          (RItem {["id" := VStr "b0b"; "isAdmin" := VBool false]}) ["id"; "state"]
          [ {["_id" := VStr "ada"]} ].
Proof.
  apply (deactivated_unobservable
           (FbMongoIdInterface.Adapter (FbMongoIdInterface.Field true) "id" ∅ Ok) eq_refl
           (FbIdImplementation.Implementation "id") eq_refl).
  - repeat constructor; by_compute.
  - by_compute.
  - by_compute.
Defined.
