(* ===== verification/InPlaceList.v ===== *)
(** * The list adapter on shared objects

    [ListAdapter] passes records by value.  The hooks of
    [src/fb/field-fbId.js] change the object that they are handed
    ([item[this.path] = ...], line 100; [delete item.id], line 54), so a
    caller who creates a record holds, after the call, an object that the
    hooks have changed.  This file has the operations of the list adapter
    over the store of [Heap]: the pre-save hooks run on the object of the
    caller, the store keeps a copy of its fields as a row and hands back a
    new object for every row that is read, and the post-read hooks run on
    that one.  The theorems show that the operations of [ListAdapter] are
    what these compute (the same table, and the results that the returned
    pointers stand for), for every list whose hooks work in place; that
    the tables which callers and operations reach are tables of
    [ListAdapter]; and what the caller finds in the object that was
    passed: the row as it was stored. *)

From Stdlib Require Import Ascii String.
From S2P Require Import Prelude JsString JsValue Regex Normalise Framework.
From S2P Require Import KnexAdapter MongoAdapter Heap InPlace ListAdapter.

(** ** The hooks of a list, as they run *)

Record hooks_in_place : Type := HooksInPlace {
  preSave_in_place : list (pointer → hjs pointer);
  postRead_in_place : list (pointer → hjs pointer);
}.

Definition no_hooks_in_place : hooks_in_place := HooksInPlace [] [].

(** The registry of functions by value, each carried out in place. *)
Definition in_place_hooks (hs : hooks) : hooks_in_place :=
  HooksInPlace (in_place <$> preSaveHooks hs) (in_place <$> postReadHooks hs).

(** [setupHooks] of the relational adapter, lines 95 to 116: the two hooks
    are registered after those of the other fields. *)
Definition knex_setupHooks_in_place (a : KnexMongoIdInterface.t) (hp : hooks_in_place)
    : hooks_in_place :=
  HooksInPlace (preSave_in_place hp ++ [KnexInPlace.preSaveHook a])
               (postRead_in_place hp ++ [KnexInPlace.postReadHook a]).

(** [setupHooks] of the document-store adapter, lines 48 to 69. *)
Definition mongo_setupHooks_in_place (a : FbMongoIdInterface.t) (hp : hooks_in_place)
    : hooks_in_place :=
  if negb (FbMongoIdInterface.isPrimaryKey (FbMongoIdInterface.field a)) then hp
  else HooksInPlace (preSave_in_place hp ++ [MongoInPlace.preSaveHook])
                    (postRead_in_place hp ++ [MongoInPlace.postReadHook]).

(** ** The operations *)

(** An operation returns or throws, and leaves a store and a table. *)
Notation world_op A := (heap → rows → js A * heap * rows).

(** What the store hands back for a row: a new object with the fields of
    the row, plain or a document, through the post-read hooks. *)
Definition read_back (hp : hooks_in_place) (k : kind) (row : item) : hjs pointer :=
  let! q := halloc (Object k row) in
  run_hooks (postRead_in_place hp) q.

(** [create(data)]: the pre-save hooks on the object of the caller, the
    insertion of its fields, the post-read hooks on what the store hands
    back. *)
Definition create_in_place (hp : hooks_in_place) (k : kind) (data : pointer)
    : world_op pointer :=
  λ h tbl,
    match run_hooks (preSave_in_place hp) data h with
    | (Ok saved, h1) =>
        match ref_item (ref_of h1 saved) with
        | Some row => (read_back hp k row h1, tbl ++ [row])
        | None => (Throw (TypeError "Cannot convert undefined or null to object"), h1, tbl)
        end
    | (Throw e, h1) => (Throw e, h1, tbl)
    end.

(** [update(i, data)]. *)
Definition update_in_place (hp : hooks_in_place) (k : kind) (i : nat) (data : pointer)
    : world_op pointer :=
  λ h tbl,
    match tbl !! i with
    | Some old =>
        match run_hooks (preSave_in_place hp) data h with
        | (Ok saved, h1) =>
            match ref_item (ref_of h1 saved) with
            | Some row => (read_back hp k (row ∪ old) h1, <[i := row ∪ old]> tbl)
            | None =>
                (Throw (TypeError "Cannot convert undefined or null to object"), h1, tbl)
            end
        | (Throw e, h1) => (Throw e, h1, tbl)
        end
    | None => (run_hooks (postRead_in_place hp) PNull h, tbl)
    end.

(** The rows that are read, each handed back as a new object, in the
    order of the table; the first hook that throws ends the reading. *)
Fixpoint read_all (hp : hooks_in_place) (k : kind) (rs : rows) : hjs (list pointer) :=
  match rs with
  | [] => hret []
  | row :: rs =>
      let! q := read_back hp k row in
      let! qs := read_all hp k rs in
      hret (q :: qs)
  end.

(** [find(condition)]: the table stays as it is. *)
Definition find_in_place (hp : hooks_in_place) (k : kind) (c : cond)
    : world_op (list pointer) :=
  λ h tbl, (read_all hp k (filter (λ row, cond_holds c row = true) tbl) h, tbl).

(** [findOne(condition)]: the first such row, or the post-read hooks on
    [null]. *)
Definition findOne_in_place (hp : hooks_in_place) (k : kind) (c : cond)
    : world_op pointer :=
  λ h tbl, (match head (filter (λ row, cond_holds c row = true) tbl) with
            | Some row => read_back hp k row h
            | None => run_hooks (postRead_in_place hp) PNull h
            end, tbl).

(** [delete(i)]: no object is touched. *)
Definition remove_in_place (i : nat) : world_op unit :=
  λ h tbl, (Ok tt, h, delete i tbl).

(** ** The states of a list on shared objects *)

(** What an operation leaves. *)
Definition left_by {A} (w : js A * heap * rows) : heap * rows := (w.1.2, w.2).

(** One step: a caller makes an object, or the list adapter carries out
    an operation on an object that a caller holds, whatever it returns. *)
Inductive world_step (hp : hooks_in_place) (k : kind) : heap * rows → heap * rows → Prop :=
| world_alloc data h tbl :
    world_step hp k (h, tbl) ((halloc (Object Plain data) h).2, tbl)
| world_create l data h tbl :
    h !! l = Some (Object Plain data) →
    world_step hp k (h, tbl) (left_by (create_in_place hp k (PLoc l) h tbl))
| world_update i l data h tbl :
    h !! l = Some (Object Plain data) →
    world_step hp k (h, tbl) (left_by (update_in_place hp k i (PLoc l) h tbl))
| world_find c h tbl :
    world_step hp k (h, tbl) (left_by (find_in_place hp k c h tbl))
| world_findOne c h tbl :
    world_step hp k (h, tbl) (left_by (findOne_in_place hp k c h tbl))
| world_remove i h tbl :
    world_step hp k (h, tbl) (left_by (remove_in_place i h tbl)).

(** The stores and tables that are reached from nothing. *)
Definition world_reachable (hp : hooks_in_place) (k : kind) (w : heap * rows) : Prop :=
  rtc (world_step hp k) (∅, []) w.

(** ** What the theorems speak of *)

(** A hook that carries out a function in place: on every allocated
    pointer it is the function in place, and the function keeps the shape
    of what it is given. *)
Definition carries_out (f : pointer → hjs pointer) (g : ref → js ref) : Prop :=
  keeps_shape g ∧ ∀ p h, allocated h p = true → f p h = in_place g p h.

(** A registry whose hooks carry out those of a registry by value. *)
Definition agrees (hp : hooks_in_place) (hs : hooks) : Prop :=
  Forall2 carries_out (preSave_in_place hp) (preSaveHooks hs)
  ∧ Forall2 carries_out (postRead_in_place hp) (postReadHooks hs).

(** What an operation on the store returns, by value: the result that the
    returned pointer stands for in the store that the operation leaves, and
    the table. *)
Definition by_value (w : js pointer * heap * rows) : js ref * rows :=
  (rmap (ref_of w.1.2) w.1.1, w.2).

(** The same for an operation that returns a list of pointers. *)
Definition all_by_value (w : js (list pointer) * heap * rows) : js (list ref) * rows :=
  (rmap (fmap (ref_of w.1.2)) w.1.1, w.2).

(** ** Lemmas on runs of hooks *)

Section runs.
Implicit Types (fs : list (pointer → hjs pointer)) (gs : list (ref → js ref))
  (p : pointer) (h : heap).

Lemma carries_out_keeps_shape fs gs : Forall2 carries_out fs gs → Forall keeps_shape gs.
Proof. induction 1 as [|f g fs gs [Hg _] _ IH]; by constructor. Qed.

(** Hooks that carry out functions run as the functions in place. *)
Lemma run_hooks_agree fs gs p h :
  Forall2 carries_out fs gs → allocated h p = true →
  run_hooks fs p h = run_hooks (in_place <$> gs) p h.
Proof.
  intros Hfg. revert h. induction Hfg as [|f g fs gs [_ Hf] _ IH]; intros h Hp; [done|].
  cbn [run_hooks fmap list_fmap]. unfold hbind. rewrite Hf by done.
  destruct (in_place g p h) as [[q|e] h1] eqn:Hg; [|done].
  rewrite (in_place_returns _ _ _ _ _ Hg). apply IH.
  unfold in_place in Hg. destruct (g (ref_of h p)); simplify_eq.
  by rewrite write_back_allocated.
Qed.

(** A run in place throws what the run by value throws. *)
Lemma run_hooks_Throw gs p h e :
  Forall keeps_shape gs → allocated h p = true →
  rfold gs (ref_of h p) = Throw e →
  ∃ h', run_hooks (in_place <$> gs) p h = (Throw e, h').
Proof.
  intros Hgs. revert h. induction Hgs as [|g gs Hg _ IH]; intros h Hp; [done|].
  cbn [rfold run_hooks fmap list_fmap]. unfold hbind, in_place at 1.
  destruct (g (ref_of h p)) as [r1|e1] eqn:H1; simpl; [|intros [= ->]; by eexists].
  destruct (Hg _ _ H1) as [k Hk]. intros Hrest. apply IH.
  - by rewrite write_back_allocated.
  - by rewrite (ref_of_write_back _ _ _ k).
Qed.

(** The two outcomes of a run in place. *)
Lemma run_hooks_cases gs p h :
  Forall keeps_shape gs → allocated h p = true →
  match rfold gs (ref_of h p) with
  | Ok r => run_hooks (in_place <$> gs) p h = (Ok p, write_back h p r)
  | Throw e => ∃ h', run_hooks (in_place <$> gs) p h = (Throw e, h')
  end.
Proof.
  intros Hgs Hp. destruct (rfold gs (ref_of h p)) as [r|e] eqn:Hr.
  - rewrite run_hooks_in_place by (by rewrite ?Hr). unfold in_place. by rewrite Hr.
  - by apply run_hooks_Throw.
Qed.

(** A run in place allocates nothing and frees nothing. *)
Lemma run_hooks_dom gs p h x h' :
  run_hooks (in_place <$> gs) p h = (x, h') → dom h' = dom h.
Proof.
  revert h. induction gs as [|g gs IH]; intros h; [by intros [= _ <-]|].
  cbn [run_hooks fmap list_fmap]. unfold hbind, in_place at 1.
  destruct (g (ref_of h p)); [|by intros [= _ <-]].
  intros Hrun%IH. by rewrite Hrun, write_back_dom.
Qed.

(** A function that keeps the shape returns a plain record for a plain
    record. *)
Lemma keeps_shape_item (g : ref → js ref) o r :
  keeps_shape g → g (RItem o) = Ok r → ∃ o', r = RItem o'.
Proof. intros Hg Hr. destruct (Hg _ _ Hr) as [k ->]. by eexists. Qed.

End runs.

(** ** Lemmas on the two halves of a write *)

Section halves.
Context (hp : hooks_in_place) (hs : hooks) (Hag : agrees hp hs).
Implicit Types (h : heap) (l : loc) (data row : item) (tbl : rows).

(** Only the object behind the pointer changes in a run in place. *)
Lemma run_hooks_frame (gs : list (ref → js ref)) l h x h' l' :
  run_hooks (in_place <$> gs) (PLoc l) h = (x, h') → l ≠ l' → h' !! l' = h !! l'.
Proof.
  revert h. induction gs as [|g gs IH]; intros h; [by intros [= _ <-]|].
  cbn [run_hooks fmap list_fmap]. unfold hbind.
  destruct (in_place g (PLoc l) h) as [[q|e] h1] eqn:Hg; intros Hrun Hne.
  - rewrite (in_place_returns _ _ _ _ _ Hg) in Hrun.
    rewrite (IH _ Hrun Hne). by eapply in_place_frame.
  - injection Hrun as _ <-. by eapply in_place_frame.
Qed.

(** The pre-save hooks on the object of the caller: the object takes the
    fields of the row that the list adapter stores. *)
Lemma save_cases l data h :
  h !! l = Some (Object Plain data) →
  match row_of hs data with
  | Ok row =>
      run_hooks (preSave_in_place hp) (PLoc l) h = (Ok (PLoc l), <[l := Object Plain row]> h)
  | Throw e => ∃ h', run_hooks (preSave_in_place hp) (PLoc l) h = (Throw e, h')
  end.
Proof.
  intros Hl. destruct Hag as [Hpre _].
  assert (allocated h (PLoc l) = true) as Hp by (apply allocated_PLoc; eauto).
  pose proof (carries_out_keeps_shape _ _ Hpre) as Hks.
  rewrite (run_hooks_agree _ _ _ _ Hpre Hp).
  pose proof (run_hooks_cases _ _ _ Hks Hp) as Hrun.
  rewrite (ref_of_lookup _ _ _ Hl) in Hrun. unfold row_of, onPreSave. cbn [kind_of fields] in Hrun.
  destruct (rfold (preSaveHooks hs) (RItem data)) as [r|e] eqn:Hr; [|done].
  destruct (keeps_shape_item _ _ _ (keeps_shape_rfold _ Hks) Hr) as [row ->]. simpl.
  by rewrite Hrun, (write_back_insert _ _ _ _ row Hl).
Qed.

(** What the store hands back: a new object, which stands for what the
    post-read hooks return by value; no other object changes. *)
Lemma read_back_spec row h :
  ∃ q h', h !! q = None ∧ is_Some (h' !! q)
    ∧ (∀ l', l' ≠ q → h' !! l' = h !! l')
    ∧ read_back hp Plain row h = (rmap (λ _, PLoc q) (onPostRead hs (RItem row)), h')
    ∧ rmap (λ _, ref_of h' (PLoc q)) (onPostRead hs (RItem row)) = onPostRead hs (RItem row).
Proof.
  destruct Hag as [_ Hpost]. pose proof (carries_out_keeps_shape _ _ Hpost) as Hks.
  destruct (halloc_fresh h (Object Plain row)) as (q & Halloc & Hq).
  set (h2 := <[q := Object Plain row]> h) in *.
  assert (h2 !! q = Some (Object Plain row)) as Hq2 by apply lookup_insert_eq.
  assert (allocated h2 (PLoc q) = true) as Hp by (apply allocated_PLoc; eauto).
  destruct (run_hooks (in_place <$> postReadHooks hs) (PLoc q) h2) as [x h'] eqn:Hrun.
  exists q, h'. unfold read_back, hbind, onPostRead. rewrite Halloc.
  rewrite (run_hooks_agree _ _ _ _ Hpost Hp), Hrun. split_and!; [done| | |..].
  - apply elem_of_dom. rewrite (run_hooks_dom _ _ _ _ _ Hrun). apply elem_of_dom. eauto.
  - intros l' Hne. rewrite (run_hooks_frame _ _ _ _ _ _ Hrun) by done.
    by apply lookup_insert_ne.
  - pose proof (run_hooks_cases _ _ _ Hks Hp) as Hc. rewrite (ref_of_lookup _ _ _ Hq2) in Hc.
    cbn [kind_of fields] in Hc. rewrite Hrun in Hc.
    destruct (rfold _ (RItem row)); [by injection Hc as -> ->|].
    destruct Hc as [h'' Hc]. by injection Hc as -> ->.
  - pose proof (run_hooks_cases _ _ _ Hks Hp) as Hc. rewrite (ref_of_lookup _ _ _ Hq2) in Hc.
    cbn [kind_of fields] in Hc. destruct (rfold _ (RItem row)) as [r|e] eqn:Hr; [|done].
    rewrite Hrun in Hc. injection Hc as _ ->. cbn [rmap rbind]. f_equal.
    destruct (keeps_shape_rfold _ Hks _ _ Hr) as [k Hk].
    rewrite Hk. simpl. by rewrite lookup_alter_eq, Hq2.
Qed.

Lemma read_back_by_value row h tbl :
  by_value (read_back hp Plain row h, tbl) = (onPostRead hs (RItem row), tbl).
Proof.
  destruct (read_back_spec row h) as (q & h' & _ & _ & _ & -> & Hr). unfold by_value. simpl.
  f_equal. rewrite <-Hr at 2. by destruct (onPostRead hs (RItem row)).
Qed.

(** A creation in place, by value. *)
Lemma create_in_place_eq l data h tbl :
  h !! l = Some (Object Plain data) →
  by_value (create_in_place hp Plain (PLoc l) h tbl) = create hs data tbl.
Proof.
  intros Hl. unfold create_in_place, create.
  pose proof (save_cases l data h Hl) as Hsave.
  destruct (row_of hs data) as [row|e].
  - rewrite Hsave, (ref_of_lookup _ _ _ (lookup_insert_eq _ _ _)). simpl.
    by apply read_back_by_value.
  - by destruct Hsave as [h' ->].
Qed.

(** The post-read hooks on [null]. *)
Lemma read_null_by_value h tbl :
  by_value (run_hooks (postRead_in_place hp) PNull h, tbl) = (onPostRead hs RNull, tbl).
Proof.
  destruct Hag as [_ Hpost]. pose proof (carries_out_keeps_shape _ _ Hpost) as Hks.
  rewrite (run_hooks_agree _ _ _ _ Hpost) by done. unfold by_value, onPostRead.
  pose proof (run_hooks_cases _ PNull h Hks eq_refl) as Hc. simpl in Hc.
  destruct (rfold (postReadHooks hs) RNull) as [r|e] eqn:Hr.
  - rewrite Hc. simpl. destruct (keeps_shape_rfold _ Hks _ _ Hr) as [k ->]. done.
  - by destruct Hc as [h' ->].
Qed.

(** Reading a list of rows: the objects that were there stay as they
    were, and the pointers stand, in the store that is left, for what the
    post-read hooks return by value. *)
Lemma read_all_spec (rs : rows) h :
  ∃ h', (∀ l', is_Some (h !! l') → h' !! l' = h !! l')
    ∧ match rmapM (λ row, onPostRead hs (RItem row)) rs with
      | Ok xs => ∃ qs, read_all hp Plain rs h = (Ok qs, h') ∧ ref_of h' <$> qs = xs
      | Throw e => read_all hp Plain rs h = (Throw e, h')
      end.
Proof.
  revert h. induction rs as [|row rs IH]; intros h; [exists h; split; [done|by exists []]|].
  destruct (read_back_spec row h) as (q & h1 & Hq & Hq1 & Hframe & Hread & Hval).
  assert (∀ l', is_Some (h !! l') → l' ≠ q) as Hne
    by (intros l' Hl' ->; rewrite Hq in Hl'; by destruct Hl').
  cbn [read_all rmapM]. unfold hbind. rewrite Hread.
  destruct (onPostRead hs (RItem row)) as [x|e]; cbn [rmap rbind];
    [|exists h1; split; [intros l' Hl'; apply Hframe; auto|done]].
  destruct (IH h1) as (h' & Hframe' & Hrest). exists h'. split.
  - intros l' Hl'. rewrite Hframe' by (rewrite Hframe; auto). apply Hframe; auto.
  - destruct (rmapM _ rs) as [xs|e]; cbn [rbind]; [|by rewrite Hrest].
    destruct Hrest as (qs & -> & Hqs). exists (PLoc q :: qs). split; [done|].
    cbn [fmap list_fmap]. fold (fmap (M:=list) (ref_of h')). rewrite Hqs. f_equal.
    injection Hval as <-. unfold ref_of. by rewrite (Hframe' q Hq1).
Qed.

End halves.

(** ** The registries agree *)

Section agreement.
Implicit Types (hp : hooks_in_place) (hs : hooks).

Lemma agrees_no_hooks : agrees no_hooks_in_place no_hooks.
Proof. by split; constructor. Qed.

Lemma carries_out_in_place (gs : list (ref → js ref)) :
  Forall keeps_shape gs → Forall2 carries_out (in_place <$> gs) gs.
Proof. induction 1; constructor; [by split|done]. Qed.

Lemma agrees_in_place_hooks hs :
  Forall keeps_shape (preSaveHooks hs) → Forall keeps_shape (postReadHooks hs) →
  agrees (in_place_hooks hs) hs.
Proof. intros Hpre Hpost. split; by apply carries_out_in_place. Qed.

(** The hooks of the relational adapter, registered in place, carry out
    the hooks that [setupHooks] registers by value. *)
Lemma agrees_knex (a : KnexMongoIdInterface.t) hp hs :
  agrees hp hs →
  agrees (knex_setupHooks_in_place a hp) (KnexMongoIdInterface.setupHooks a hs).
Proof.
  intros [Hpre Hpost]. split; simpl; (apply Forall2_app; [done|]); repeat constructor.
  - apply knex_preSaveHook_keeps_shape.
  - apply knex_preSaveHook_in_place_eq.
  - apply knex_postReadHook_keeps_shape.
  - apply knex_postReadHook_in_place.
Qed.

End agreement.

(** ** The operations by value are what the operations in place compute *)

Section refinement.
Context (hp : hooks_in_place) (hs : hooks) (Hag : agrees hp hs).
Implicit Types (h : heap) (l : loc) (data row : item) (tbl : rows) (i : nat).


(** The same for the update of a row. *)
Theorem update_in_place_refines l i data h tbl :
  h !! l = Some (Object Plain data) →
  by_value (update_in_place hp Plain i (PLoc l) h tbl) = update hs i data tbl.
Proof.
  intros Hl. unfold update_in_place, update. destruct (tbl !! i) as [old|].
  - pose proof (save_cases hp hs Hag l data h Hl) as Hsave.
    destruct (row_of hs data) as [row|e].
    + rewrite Hsave, (ref_of_lookup _ _ _ (lookup_insert_eq _ _ _)). simpl.
      by apply read_back_by_value.
    + by destruct Hsave as [h' ->].
  - by apply read_null_by_value.
Qed.

(** The same for the two queries: the pointers that [find] returns stand
    for what [find] of the list adapter returns, in the same order, and
    the first hook that throws is the one that throws by value. *)
Theorem find_in_place_refines (c : cond) h tbl :
  all_by_value (find_in_place hp Plain c h tbl) = find hs c tbl.
Proof.
  unfold find_in_place, find, all_by_value.
  destruct (read_all_spec hp hs Hag (filter (λ row, cond_holds c row = true) tbl) h)
    as (h' & _ & Hres).
  destruct (rmapM _ _) as [xs|e]; [|by rewrite Hres].
  destruct Hres as (qs & -> & <-). done.
Qed.

Theorem findOne_in_place_refines (c : cond) h tbl :
  by_value (findOne_in_place hp Plain c h tbl) = findOne hs c tbl.
Proof.
  unfold findOne_in_place, findOne.
  destruct (head _) as [row|]; [by apply read_back_by_value|by apply read_null_by_value].
Qed.

(** Every step of the list on shared objects leaves the table as it was
    or as one operation of the list adapter by value leaves it. *)
Lemma world_step_table h tbl h' tbl' :
  world_step hp Plain (h, tbl) (h', tbl') → tbl' = tbl ∨ step hs tbl tbl'.
Proof.
  inversion 1 as [| l data ? ? Hl | i l data ? ? Hl | | |]; subst; [by left|..].
  - right. change (create_in_place hp Plain (PLoc l) h tbl).2
      with (by_value (create_in_place hp Plain (PLoc l) h tbl)).2.
    rewrite (create_in_place_eq hp hs Hag l data) by done. apply step_create.
  - right. change (update_in_place hp Plain i (PLoc l) h tbl).2
      with (by_value (update_in_place hp Plain i (PLoc l) h tbl)).2.
    rewrite (update_in_place_refines l i data) by done. apply step_update.
  - by left.
  - by left.
  - right. apply step_remove.
Qed.

(** The tables of the list on shared objects are tables of the list
    adapter by value, so that its invariants hold of them. *)
Theorem world_reachable_table w : world_reachable hp Plain w → reachable hs w.2.
Proof.
  intros Hw.
  apply (rtc_ind_r (R:=world_step hp Plain) (λ w, reachable hs w.2) (∅, []));
    [apply rtc_refl| |exact Hw].
  intros [h1 t1] [h2 t2] _ Hstep IH. simpl in *.
  destruct (world_step_table _ _ _ _ Hstep) as [->|Hs]; [done|]. by eapply rtc_r.
Qed.

(** What the caller finds: after a creation that the pre-save hooks let
    through, the object that was passed holds the row as it was stored,
    what is returned is another object, new to the store, and no third
    object has changed. *)
Theorem create_in_place_caller l data row h tbl :
  h !! l = Some (Object Plain data) → row_of hs data = Ok row →
  ∃ q h', h !! q = None
    ∧ create_in_place hp Plain (PLoc l) h tbl
      = (rmap (λ _, PLoc q) (onPostRead hs (RItem row)), h', tbl ++ [row])
    ∧ h' !! l = Some (Object Plain row)
    ∧ ∀ l', l' ≠ l → l' ≠ q → h' !! l' = h !! l'.
Proof.
  intros Hl Hrow. unfold create_in_place.
  pose proof (save_cases hp hs Hag l data h Hl) as Hsave. rewrite Hrow in Hsave.
  rewrite Hsave, (ref_of_lookup _ _ _ (lookup_insert_eq _ _ _)). simpl.
  destruct (read_back_spec hp hs Hag row (<[l := Object Plain row]> h))
    as (q & h' & Hq & _ & Hframe & -> & _).
  assert (q ≠ l) as Hne by (intros ->; by rewrite lookup_insert_eq in Hq).
  exists q, h'. split_and!; [by rewrite lookup_insert_ne in Hq|done|..].
  - by rewrite Hframe, lookup_insert_eq.
  - intros l' Hl' Hq'. by rewrite Hframe, lookup_insert_ne.
Qed.

End refinement.

(** With the hooks of the relational adapter registered in place, every
    row of every table that the list on shared objects reaches satisfies
    the invariant of what the pre-save hook stores, whatever objects the
    callers made and passed. *)
Theorem world_reachable_stored_ok (a : KnexMongoIdInterface.t) (w : heap * rows) :
  world_reachable (knex_setupHooks_in_place a no_hooks_in_place) Plain w →
  table_stored_ok a w.2.
Proof.
  intros Hw%(world_reachable_table _ (hooks_of a no_hooks)); [|apply agrees_knex, agrees_no_hooks].
  revert Hw. apply reachable_invariant; [constructor|].
  intros t t'. apply step_table_stored_ok.
Qed.

(** ** A store that hands back documents *)

(** C26: With the document-store adapter for a primary key, and a store that
    hands back a document, a creation leaves three objects: the object of
    the caller, in which [id] has become [_id]; the document, which keeps
    [_id]; and the plain object that [toObject()] made, in which [_id] has
    become [id] again, and which is what the creation returns. *)
Theorem mongo_create_in_place_document (a : FbMongoIdInterface.t) (l : loc) (data : item)
    (h : heap) (tbl : rows) :
  FbMongoIdInterface.isPrimaryKey (FbMongoIdInterface.field a) = true →
  h !! l = Some (Object Plain data) →
  ∃ d q h',
    create_in_place (mongo_setupHooks_in_place a no_hooks_in_place) Document (PLoc l) h tbl
    = (Ok (PLoc q), h', tbl ++ [FbMongoIdInterface.to_store data])
    ∧ h' !! l = Some (Object Plain (FbMongoIdInterface.to_store data))
    ∧ h' !! d = Some (Object Document (FbMongoIdInterface.to_store data))
    ∧ h' !! q = Some (Object Plain
                        (FbMongoIdInterface.from_store (FbMongoIdInterface.to_store data)))
    ∧ l ≠ d ∧ l ≠ q ∧ d ≠ q.
Proof.
  intros Hpk Hl. set (row := FbMongoIdInterface.to_store data).
  set (h1 := <[l := Object Plain row]> h).
  assert (run_hooks [MongoInPlace.preSaveHook] (PLoc l) h = (Ok (PLoc l), h1)) as Hpre.
  { simpl. rewrite hbind_hret_r, mongo_preSaveHook_in_place by (apply allocated_PLoc; eauto).
    apply (in_place_Ok _ _ _ (Object Plain data) FbMongoIdInterface.to_store Hl).
    apply FbMongoIdInterface.mongo_preSaveHook_eq with data.
    by rewrite (ref_of_lookup _ _ _ Hl). }
  unfold create_in_place, mongo_setupHooks_in_place. rewrite Hpk.
  cbn [negb preSave_in_place postRead_in_place no_hooks_in_place app]. rewrite Hpre.
  rewrite (ref_of_lookup h1 l (Object Plain row)) by apply lookup_insert_eq.
  cbn [kind_of fields ref_item].
  destruct (halloc_fresh h1 (Object Document row)) as (d & Halloc & Hd).
  destruct (mongo_postReadHook_document_eq d row (<[d := Object Document row]> h1))
    as (q & Hq & Hpost); [apply lookup_insert_eq|].
  assert (l ≠ d) as Hld by (intros ->; unfold h1 in Hd; by rewrite lookup_insert_eq in Hd).
  assert (d ≠ q) as Hdq by (intros ->; by rewrite lookup_insert_eq in Hq).
  assert (l ≠ q) as Hlq.
  { intros ->. rewrite lookup_insert_ne in Hq by done. unfold h1 in Hq.
    by rewrite lookup_insert_eq in Hq. }
  exists d, q, (<[q := Object Plain (FbMongoIdInterface.from_store row)]>
                  (<[d := Object Document row]> h1)).
  unfold read_back, hbind. rewrite Halloc. cbn [postRead_in_place run_hooks].
  rewrite hbind_hret_r, Hpost. split_and!; try done.
  - rewrite !lookup_insert_ne by done. apply lookup_insert_eq.
  - rewrite lookup_insert_ne by done. apply lookup_insert_eq.
  - apply lookup_insert_eq.
Qed.

(** ** Witnesses *)


Lemma update_in_place_refines_witness :
  by_value
    (update_in_place
       (knex_setupHooks_in_place
          (KnexMongoIdInterface.new (KnexMongoIdInterface.Base "fbId" ∅ VUndefined VUndefined))
          no_hooks_in_place)
       Plain 0 (PLoc 1)
       {[1%positive := Object Plain {["fbId" := VNull; "name" := VStr "Ada"]}]}
       [ {["fbId" := VStr "5f8d0d55b54764421b7156c3"]} ])
  = update
      (KnexMongoIdInterface.setupHooks
         (KnexMongoIdInterface.new (KnexMongoIdInterface.Base "fbId" ∅ VUndefined VUndefined))
         no_hooks)
      0 {["fbId" := VNull; "name" := VStr "Ada"]}
      [ {["fbId" := VStr "5f8d0d55b54764421b7156c3"]} ].
Proof.
  apply (update_in_place_refines _ _ (agrees_knex _ _ _ agrees_no_hooks) 1).
  done.
Defined.

Lemma create_in_place_caller_witness :
  ∃ q h',
    ({[1%positive := Object Plain {["fbId" := VStr "5F8D0D55B54764421B7156C3"]}]} : heap) !! q
    = None
    ∧ create_in_place
        (knex_setupHooks_in_place
           (KnexMongoIdInterface.new (KnexMongoIdInterface.Base "fbId" ∅ VUndefined VUndefined))
           no_hooks_in_place)
        Plain (PLoc 1)
        {[1%positive := Object Plain {["fbId" := VStr "5F8D0D55B54764421B7156C3"]}]} []
      = (rmap (λ _, PLoc q)
           (onPostRead
              (KnexMongoIdInterface.setupHooks
                 (KnexMongoIdInterface.new
                    (KnexMongoIdInterface.Base "fbId" ∅ VUndefined VUndefined)) no_hooks)
              (RItem {["fbId" := VStr "5f8d0d55b54764421b7156c3"]})),
         h', [] ++ [ {["fbId" := VStr "5f8d0d55b54764421b7156c3"]} ])
    ∧ h' !! 1%positive = Some (Object Plain {["fbId" := VStr "5f8d0d55b54764421b7156c3"]})
    ∧ ∀ l', l' ≠ 1%positive → l' ≠ q →
        h' !! l'
        = ({[1%positive := Object Plain {["fbId" := VStr "5F8D0D55B54764421B7156C3"]}]} : heap)
            !! l'.
Proof.
  apply (create_in_place_caller _ _ (agrees_knex _ _ _ agrees_no_hooks) 1
           {["fbId" := VStr "5F8D0D55B54764421B7156C3"]}).
  - done.
  - by vm_compute.
Defined.

Lemma mongo_create_in_place_document_witness :
  ∃ d q h',
    create_in_place
      (mongo_setupHooks_in_place
         (FbMongoIdInterface.Adapter (FbMongoIdInterface.Field true) "id" ∅ Ok)
         no_hooks_in_place)
      Document (PLoc 1)
      {[1%positive := Object Plain {["id" := VStr "5f8d0d55b54764421b7156c3"]}]} []
    = (Ok (PLoc q), h',
       [] ++ [FbMongoIdInterface.to_store {["id" := VStr "5f8d0d55b54764421b7156c3"]}])
    ∧ h' !! 1%positive
      = Some (Object Plain
                (FbMongoIdInterface.to_store {["id" := VStr "5f8d0d55b54764421b7156c3"]}))
    ∧ h' !! d
      = Some (Object Document
                (FbMongoIdInterface.to_store {["id" := VStr "5f8d0d55b54764421b7156c3"]}))
    ∧ h' !! q
      = Some (Object Plain
                (FbMongoIdInterface.from_store
                   (FbMongoIdInterface.to_store {["id" := VStr "5f8d0d55b54764421b7156c3"]})))
    ∧ 1%positive ≠ d ∧ 1%positive ≠ q ∧ d ≠ q.
Proof.
  apply (mongo_create_in_place_document
           (FbMongoIdInterface.Adapter (FbMongoIdInterface.Field true) "id" ∅ Ok) 1
           {["id" := VStr "5f8d0d55b54764421b7156c3"]}); done.
Defined.

Lemma find_in_place_refines_witness :
  all_by_value
    (find_in_place
       (knex_setupHooks_in_place
          (KnexMongoIdInterface.new (KnexMongoIdInterface.Base "fbId" ∅ VUndefined VUndefined))
          no_hooks_in_place)
       Plain (CNe "name" (VStr "Bob")) ∅
       [ {["fbId" := VStr "5F8D0D55B54764421B7156C3"; "name" := VStr "Ada"]};
         {["fbId" := VStr "5F8D0D55B54764421B7156C4"; "name" := VStr "Eve"]} ])
  = find
      (KnexMongoIdInterface.setupHooks
         (KnexMongoIdInterface.new (KnexMongoIdInterface.Base "fbId" ∅ VUndefined VUndefined))
         no_hooks)
      (CNe "name" (VStr "Bob"))
      [ {["fbId" := VStr "5F8D0D55B54764421B7156C3"; "name" := VStr "Ada"]};
        {["fbId" := VStr "5F8D0D55B54764421B7156C4"; "name" := VStr "Eve"]} ].
Proof. apply (find_in_place_refines _ _ (agrees_knex _ _ _ agrees_no_hooks)). Defined.

Lemma world_reachable_stored_ok_witness :
  table_stored_ok
    (KnexMongoIdInterface.new (KnexMongoIdInterface.Base "fbId" ∅ VUndefined VUndefined))
    (left_by
       (create_in_place
          (knex_setupHooks_in_place
             (KnexMongoIdInterface.new (KnexMongoIdInterface.Base "fbId" ∅ VUndefined VUndefined))
             no_hooks_in_place)
          Plain (PLoc 1)
          {[1%positive := Object Plain {["fbId" := VStr "5F8D0D55B54764421B7156C3"]}]} [])).2.
Proof.
  apply (world_reachable_stored_ok _ (_, _)).
  eapply rtc_l; [apply (world_alloc _ _ {["fbId" := VStr "5F8D0D55B54764421B7156C3"]})|].
  eapply rtc_l; [|apply rtc_refl].
  by apply (world_create _ _ 1 {["fbId" := VStr "5F8D0D55B54764421B7156C3"]}).
Defined.
