(* ===== verification/Mutation.v ===== *)
(** * Mutations of a list, end to end

    A mutation of the list [User] meets the declarations of [src/index.js]
    that no query reads: the access of [email] and the [update] access of
    [password] (lines 49 to 52 and 60 to 63), which are asked with the
    record that exists, and the default values of [state] and [isAdmin]
    (lines 43 and 45), which fill in what the data of a creation leave out.
    The list declares an access for reading only (lines 67 to 78), and the
    fields [name], [address], [state] and [isAdmin] declare none.  The
    framework that serves a mutation is not among the sources; this file
    has its steps over a list adapter that is given as a [writer] of
    [ListAdapter]: the record that exists is read through the post-read
    hooks, the access function of every field that the data name is asked,
    the defaults are resolved, and the list adapter writes.  The
    authenticated item of a request is the row of the session as the
    post-read hooks return it at the time of the request.
    The theorems show that one mutation changes [email] and [password] of a
    record only for an administrator or the owner; that [isAdmin] can be
    set by anyone, so that two mutations in a row change the [email] of
    another user; what a creation stores; and that every sequence of
    mutations is a sequence of operations of the list adapter. *)

From Stdlib Require Import Ascii String Lia.
From S2P Require Import Prelude JsString JsValue Normalise Framework KnexAdapter.
From S2P Require Import MongoAdapter Access Ownership ListAdapter.

(** ** Requests *)

(** A mutation: the creation of a record, the update of the record at a
    row, the deletion of the record at a row. *)
Inductive mutation : Type :=
| MCreate (data : item)
| MUpdate (i : nat) (data : item)
| MDelete (i : nat).

#[export] Instance mutation_eq_dec : EqDecision mutation.
Proof. solve_decision. Defined.

(** What a refused mutation throws. *)
Definition access_denied : exn :=
  Thrown (VStr "You do not have access to this resource").

(** ** The steps of a mutation *)

(** Whether a field is restricted for the request: the access function
    that the field declares for the operation is asked when the data name
    the field, and a falsy answer restricts the field. *)
Definition restricted (op : operation) (user existing : ref) (data : item)
    (f : string * field_config) : js bool :=
  if bool_decide (f.1 ∈ dom data) then
    match field_access_for op (fc_access f.2) with
    | None => Ok false
    | Some g =>
        let* v := g (AccessArgs user existing) in
        Ok (negb (truthy v))
    end
  else Ok false.

(** The fields of the list are asked in the order of their declaration;
    the mutation is refused when one of them is restricted. *)
Definition checkFieldAccess (op : operation) (l : list_config) (user existing : ref)
    (data : item) : js unit :=
  let* rs := rmapM (restricted op user existing data) (lc_fields l) in
  if existsb id rs then Throw access_denied else Ok tt.

(** The default of a field for the data of a creation: the value that the
    field declares, when the data hold nothing for the field. *)
Definition default_of (originalInput : item) (f : string * field_config)
    : option (string * value) :=
  if bool_decide (get_prop originalInput f.1 = VUndefined)
  then (λ d, (f.1, d)) <$> fc_defaultValue f.2
  else None.

(** [{ ...defaults, ...originalInput }]. *)
Definition resolveDefaults (l : list_config) (originalInput : item) : item :=
  spread (list_to_map (omap (default_of originalInput) (lc_fields l))) originalInput.

(** The record that a mutation is about, as the post-read hooks return
    it; a mutation of a record that is not there is refused. *)
Definition getAccessControlledItem (hs : hooks) (i : nat) (tbl : rows) : js ref :=
  match tbl !! i with
  | Some row => onPostRead hs (RItem row)
  | None => Throw access_denied
  end.

(** ** The mutations *)

Section mutations.
Context (w : writer) (l : list_config).

(** The creation of a record: there is no existing record; the access of
    the fields is asked for the data as they were given, before the
    defaults. *)
Definition createMutation (user : ref) (data : item) : table_op ref :=
  λ tbl, match checkFieldAccess OpCreate l user RUndefined data with
         | Ok _ => w_create w (resolveDefaults l data) tbl
         | Throw e => (Throw e, tbl)
         end.

Definition updateMutation (user : ref) (i : nat) (data : item) : table_op ref :=
  λ tbl, match getAccessControlledItem (w_hooks w) i tbl with
         | Ok existing =>
             match checkFieldAccess OpUpdate l user existing data with
             | Ok _ => w_update w i data tbl
             | Throw e => (Throw e, tbl)
             end
         | Throw e => (Throw e, tbl)
         end.

(** The deletion returns the record that it deleted. *)
Definition deleteMutation (user : ref) (i : nat) : table_op ref :=
  λ tbl, match getAccessControlledItem (w_hooks w) i tbl with
         | Ok existing => (Ok existing, (remove i tbl).2)
         | Throw e => (Throw e, tbl)
         end.

(** The authenticated item of a request: nothing without a session, the
    row of the session through the post-read hooks otherwise. *)
Definition authenticated (session : option nat) (tbl : rows) : js ref :=
  match session ≫= (tbl !!.) with
  | Some row => onPostRead (w_hooks w) (RItem row)
  | None => Ok RUndefined
  end.

(** A request: the authenticated item is read, then the mutation is
    served for it. *)
Definition serve (session : option nat) (m : mutation) : table_op ref :=
  λ tbl, match authenticated session tbl with
         | Ok user =>
             match m with
             | MCreate data => createMutation user data tbl
             | MUpdate i data => updateMutation user i data tbl
             | MDelete i => deleteMutation user i tbl
             end
         | Throw e => (Throw e, tbl)
         end.

(** One step of the list under requests, with the session and the
    mutation as its label. *)
Inductive mstep : option nat * mutation → rows → rows → Prop :=
| mstep_serve session m tbl : mstep (session, m) tbl (serve session m tbl).2.

(** The tables that requests reach, with the requests that led there. *)
Inductive mreachable : list (option nat * mutation) → rows → Prop :=
| mreachable_nil : mreachable [] []
| mreachable_snoc rqs rq tbl tbl' :
    mreachable rqs tbl → mstep rq tbl tbl' → mreachable (rqs ++ [rq]) tbl'.

(** The table after a list of requests. *)
Definition serve_all (rqs : list (option nat * mutation)) (tbl : rows) : rows :=
  foldl (λ t rq, (serve rq.1 rq.2 t).2) tbl rqs.

End mutations.

(** ** What the theorems speak of *)

(** The fields that the comments of the source protect against other
    users. *)
Definition protected (data : item) : bool :=
  bool_decide ("email" ∈ dom data) || bool_decide ("password" ∈ dom data).

(** The outcome of asking one access function, or of not asking it. *)
Definition answer_of (asked : bool) (r : js value) : js unit :=
  if asked then
    let* v := r in
    if truthy v then Ok tt else Throw access_denied
  else Ok tt.

(** The defaults that the list [User] declares. *)
Definition User_defaults : item := {["state" := VStr "active"; "isAdmin" := VBool false]}.

(** A field of a row of a table. *)
Definition field_at (tbl : rows) (i : nat) (k : string) : option value :=
  tbl !! i ≫= (.!! k).

(** The requests of one session. *)
Definition by_session (session : option nat) (ms : list mutation)
    : list (option nat * mutation) :=
  (λ m, (session, m)) <$> ms.

(** ** Lemmas on the access of the fields *)

Section field_access_lemmas.
Implicit Types (op : operation) (user existing : ref) (data u e : item)
  (cfg : field_config) (n : string).

(** A field that declares no access for the operation restricts
    nothing. *)
Lemma restricted_open op user existing data n cfg :
  field_access_for op (fc_access cfg) = None →
  restricted op user existing data (n, cfg) = Ok false.
Proof. intros Hnone. unfold restricted. simpl. rewrite Hnone. by case_bool_decide. Qed.

(** An update of a user asks the access of [email] and of [password],
    which are the same function. *)
Lemma checkFieldAccess_User_update user existing data :
  checkFieldAccess OpUpdate User user existing data
  = answer_of (protected data) (admin_or_same_id (AccessArgs user existing)).
Proof.
  unfold checkFieldAccess, protected, answer_of. cbn [User lc_fields rmapM].
  rewrite !restricted_open by done. unfold restricted. cbn [fst snd fc_access field_access_for].
  unfold email_access, password_update.
  destruct (admin_or_same_id (AccessArgs user existing)) as [v|];
    do 2 case_bool_decide; simpl; try done; by destruct (truthy v).
Qed.

(** A creation asks the access of [email] only: [password] declares an
    access for reading and for updating. *)
Lemma checkFieldAccess_User_create user data :
  checkFieldAccess OpCreate User user RUndefined data
  = answer_of (bool_decide ("email" ∈ dom data))
      (admin_or_same_id (AccessArgs user RUndefined)).
Proof.
  unfold checkFieldAccess, answer_of. cbn [User lc_fields rmapM].
  rewrite !restricted_open, (restricted_open _ _ _ _ "password") by done.
  unfold restricted. cbn [fst snd fc_access field_access_for]. unfold email_access.
  destruct (admin_or_same_id (AccessArgs user RUndefined)) as [v|];
    case_bool_decide; simpl; try done.
  by destruct (truthy v).
Qed.

(** The shared function answers as the policy prescribes when both
    records are there. *)
Lemma answer_of_known asked user u e :
  ref_item user = Some u →
  answer_of asked (admin_or_same_id (AccessArgs user (RItem e)))
  = if asked && negb (may_touch (principal_of user) (get_prop e "id"))
    then Throw access_denied else Ok tt.
Proof.
  intros Hu. unfold answer_of, principal_of. rewrite Hu.
  destruct asked; [|done]. rewrite (admin_or_same_id_known _ u e) by done.
  simpl. rewrite js_or_truthy. simpl. by destruct (_ || _).
Qed.

(** Whoever may not touch the record gets no [Ok] for a protected
    field. *)
Lemma answer_of_refused user e :
  may_touch (principal_of user) (get_prop e "id") = false →
  is_ok (answer_of true (admin_or_same_id (AccessArgs user (RItem e)))) = false.
Proof.
  intros Hno. destruct (ref_item user) as [u|] eqn:Hu.
  - by rewrite (answer_of_known _ _ u), Hno.
  - unfold answer_of. rewrite is_ok_rbind.
    pose proof (admin_or_same_id_anonymous (AccessArgs user (RItem e)) Hu).
    by destruct (admin_or_same_id _).
Qed.

(** An access that is granted: no protected field is named, or the user
    may touch the record. *)
Lemma answer_of_granted user e data :
  answer_of (protected data) (admin_or_same_id (AccessArgs user (RItem e))) = Ok tt →
  protected data = false ∨ may_touch (principal_of user) (get_prop e "id") = true.
Proof.
  intros Hok. destruct (protected data); [|by left]. right.
  destruct (may_touch _ _) eqn:Hno; [done|].
  apply answer_of_refused in Hno. by rewrite Hok in Hno.
Qed.

Lemma default_of_none data n ty acc :
  default_of data (n, FieldConfig ty None acc) = None.
Proof. unfold default_of. simpl. by case_bool_decide. Qed.

(** The defaults of the list [User]: [state] and [isAdmin], each when the
    data hold nothing for it. *)
Lemma resolveDefaults_User data :
  resolveDefaults User data
  = data ∪ ((if bool_decide (get_prop data "state" = VUndefined)
             then {["state" := VStr "active"]} else ∅)
            ∪ (if bool_decide (get_prop data "isAdmin" = VUndefined)
               then {["isAdmin" := VBool false]} else ∅)).
Proof.
  unfold resolveDefaults, spread. f_equal. cbn [User lc_fields omap list_omap].
  rewrite !default_of_none. unfold default_of. cbn [fst snd fc_defaultValue].
  do 2 case_bool_decide; simpl;
    by rewrite ?insert_union_singleton_l, ?insert_empty, ?(left_id ∅ _), ?(right_id ∅ _).
Qed.

End field_access_lemmas.

(** ** Lemmas on a list whose identifier is the primary key *)

Section primary_key_lemmas.
Import FbMongoIdInterface.
Context (a : FbMongoIdInterface.t) (Hpk : isPrimaryKey (field a) = true).
Implicit Types (user : ref) (data row old u : item) (tbl : rows) (i j : nat) (k : string).

Notation Hs := (setupHooks a no_hooks).
Notation Ws := (list_adapter (setupHooks a no_hooks)).

Lemma row_of_primary_key data : row_of Hs data = Ok (to_store data).
Proof.
  unfold row_of, setupHooks. rewrite Hpk. simpl. unfold onPreSave. simpl.
  by rewrite rbind_Ok_r, (mongo_preSaveHook_eq (RItem data) data).
Qed.

(** A row is read as [from_store] returns it, or the reading throws. *)
Lemma onPostRead_row row r :
  onPostRead Hs (RItem row) = Ok r →
  r = RItem (from_store row) ∧ truthy (get_prop row "toObject") = false.
Proof.
  rewrite onPostRead_primary_key_row by done.
  destruct (truthy (get_prop row "toObject")); [done|]. by intros [= <-].
Qed.

Lemma onPostRead_plain row :
  truthy (get_prop row "toObject") = false →
  onPostRead Hs (RItem row) = Ok (RItem (from_store row)).
Proof. intros Hto. by rewrite onPostRead_primary_key_row, Hto. Qed.

Lemma getAccessControlledItem_row i tbl row :
  tbl !! i = Some row → truthy (get_prop row "toObject") = false →
  getAccessControlledItem Hs i tbl = Ok (RItem (from_store row)).
Proof. intros Hi Hto. unfold getAccessControlledItem. rewrite Hi. by apply onPostRead_plain. Qed.

Lemma authenticated_row j tbl row :
  tbl !! j = Some row → truthy (get_prop row "toObject") = false →
  authenticated Ws (Some j) tbl = Ok (RItem (from_store row)).
Proof. intros Hj Hto. unfold authenticated. simpl. rewrite Hj. by apply onPostRead_plain. Qed.

(** What an update writes. *)
Lemma update_primary_key i data tbl old :
  tbl !! i = Some old → (update Hs i data tbl).2 = <[i := to_store data ∪ old]> tbl.
Proof. intros Hi. unfold update. by rewrite Hi, row_of_primary_key. Qed.

(** Data without an identifier are stored as they are. *)
Lemma to_store_no_id data : data !! "id" = None → to_store data = data.
Proof. intros Hid. unfold to_store, get_prop. by rewrite Hid. Qed.

(** An update of a record that is read: the access of the protected
    fields decides. *)
Lemma updateMutation_eq user i data tbl row :
  tbl !! i = Some row → truthy (get_prop row "toObject") = false →
  updateMutation Ws User user i data tbl
  = match answer_of (protected data)
            (admin_or_same_id (AccessArgs user (RItem (from_store row)))) with
    | Ok _ => update Hs i data tbl
    | Throw e => (Throw e, tbl)
    end.
Proof.
  intros Hi Hto. unfold updateMutation. writer_simpl.
  by rewrite (getAccessControlledItem_row i tbl row), checkFieldAccess_User_update.
Qed.

Lemma update_primary_key_plain i data tbl old :
  tbl !! i = Some old → data !! "id" = None →
  truthy (get_prop old "toObject") = false → data !! "toObject" = None →
  update Hs i data tbl = (Ok (RItem (from_store (data ∪ old))), <[i := data ∪ old]> tbl).
Proof.
  intros Hi Hid Hto Hdto. unfold update. rewrite Hi, row_of_primary_key, to_store_no_id by done.
  rewrite onPostRead_plain; [done|]. unfold get_prop in *. rewrite lookup_union, Hdto.
  by destruct (old !! "toObject").
Qed.

(** The authenticated item of a request that is served: nobody, or the
    row of the session as it is read. *)
Lemma authenticated_cases session tbl user :
  authenticated Ws session tbl = Ok user →
  user = RUndefined
  ∨ ∃ j row, session = Some j ∧ tbl !! j = Some row ∧ user = RItem (from_store row).
Proof.
  unfold authenticated. destruct session as [j|]; simpl; [|intros [= <-]; by left].
  destruct (tbl !! j) as [row|] eqn:Hj; simpl; [|intros [= <-]; by left].
  intros [-> _]%onPostRead_row. right. by exists j, row.
Qed.

(** The table after an update: as it was, or with the data written over
    the row, and then the data name no protected field or the user may
    touch the record. *)
Lemma updateMutation_cases user i data tbl :
  (updateMutation Ws User user i data tbl).2 = tbl
  ∨ ∃ old, tbl !! i = Some old
      ∧ (protected data = false
         ∨ may_touch (principal_of user) (get_prop (from_store old) "id") = true)
      ∧ (updateMutation Ws User user i data tbl).2 = <[i := to_store data ∪ old]> tbl.
Proof.
  unfold updateMutation, getAccessControlledItem. writer_simpl.
  destruct (tbl !! i) as [old|] eqn:Hi; [|by left].
  destruct (onPostRead Hs (RItem old)) as [r|] eqn:Hr; [|by left].
  apply onPostRead_row in Hr as [-> Hto]. rewrite checkFieldAccess_User_update.
  destruct (answer_of _ _) as [[]|] eqn:Hans; [|by left].
  right. exists old. split; [done|]. split; [by eapply answer_of_granted|].
  by apply update_primary_key.
Qed.

(** The table after a creation: as it was, or with one more row. *)
Lemma createMutation_cases user data tbl :
  (createMutation Ws User user data tbl).2 = tbl
  ∨ (createMutation Ws User user data tbl).2 = tbl ++ [to_store (resolveDefaults User data)].
Proof.
  unfold createMutation. writer_simpl. destruct (checkFieldAccess _ _ _ _ _); [|by left].
  right. unfold create. by rewrite row_of_primary_key.
Qed.

(** A field that the data do not name keeps its value. *)
Lemma to_store_union_other data old k :
  k ≠ "id" → k ≠ "_id" → k ∉ dom data → (to_store data ∪ old) !! k = old !! k.
Proof.
  intros Hid H_id Hk. rewrite lookup_union, mongo_to_store_other by done.
  apply not_elem_of_dom in Hk. rewrite Hk. by destruct (old !! k).
Qed.

End primary_key_lemmas.

(** ** One mutation *)

Section one_mutation.
Import FbMongoIdInterface.
Context (a : FbMongoIdInterface.t) (Hpk : isPrimaryKey (field a) = true).
Implicit Types (user : ref) (data row u : item) (tbl : rows) (i j : nat) (k : string)
  (v : value).

Notation Hs := (setupHooks a no_hooks).
Notation Ws := (list_adapter (setupHooks a no_hooks)).

(** C25: An update is served as the policy of the comments prescribes: for an
    authenticated user it is refused exactly when the data name [email] or
    [password] and the user is neither an administrator nor the owner of
    the record, and it is the update of the list adapter otherwise. *)
Theorem updateMutation_policy user u i data tbl row :
  ref_item user = Some u →
  tbl !! i = Some row → truthy (get_prop row "toObject") = false →
  updateMutation Ws User user i data tbl
  = if protected data
       && negb (may_touch (principal_of user) (get_prop (from_store row) "id"))
    then (Throw access_denied, tbl)
    else update Hs i data tbl.
Proof.
  intros Hu Hi Hto.
  rewrite (updateMutation_eq a Hpk _ _ _ _ row), (answer_of_known _ _ u) by done.
  by destruct (_ && _).
Qed.

(** C15: One update leaves every [email] and every [password] of the table as
    it was, unless the user is an administrator or the owner of the record:
    whoever asks, authenticated or not, and whatever the data and the
    outcome. *)
Theorem updateMutation_integrity user i data tbl j k :
  (∀ row, tbl !! i = Some row →
          may_touch (principal_of user) (get_prop (from_store row) "id") = false) →
  k = "email" ∨ k = "password" →
  field_at (updateMutation Ws User user i data tbl).2 j k = field_at tbl j k.
Proof.
  intros Hno Hk.
  destruct (updateMutation_cases a Hpk user i data tbl) as [->|(row & Hi & Hmay & ->)]; [done|].
  destruct Hmay as [Hp|Hyes]; [|by rewrite (Hno row Hi) in Hyes].
  unfold field_at. destruct (decide (j = i)) as [->|]; [|by rewrite list_lookup_insert_ne].
  rewrite list_lookup_insert_eq by (by eapply lookup_lt_Some). rewrite Hi. simpl.
  apply orb_false_iff in Hp as [He%bool_decide_eq_false Hpw%bool_decide_eq_false].
  apply to_store_union_other; by destruct Hk as [->| ->].
Qed.

(** Anyone sets [isAdmin] of any record: the field declares no access and
    the list declares none for updating, so the update is served for every
    authenticated item, [undefined] included. *)
Theorem updateMutation_isAdmin_open user i v tbl row :
  tbl !! i = Some row → truthy (get_prop row "toObject") = false →
  updateMutation Ws User user i {["isAdmin" := v]} tbl
  = (Ok (RItem (from_store (<["isAdmin" := v]> row))), <[i := <["isAdmin" := v]> row]> tbl).
Proof.
  intros Hi Hto. rewrite (updateMutation_eq a Hpk _ _ _ _ row) by done.
  replace (protected {["isAdmin" := v]}) with false by (symmetry; by_compute). simpl.
  by rewrite (update_primary_key_plain a Hpk _ _ _ row), <-insert_union_singleton_l.
Qed.

(** Anyone deletes any record: the list declares no access for deleting,
    and no field is asked. *)
Theorem deleteMutation_open user i tbl row :
  tbl !! i = Some row → truthy (get_prop row "toObject") = false →
  deleteMutation Ws user i tbl = (Ok (RItem (from_store row)), delete i tbl).
Proof.
  intros Hi Hto. unfold deleteMutation. writer_simpl.
  by rewrite (getAccessControlledItem_row a Hpk i tbl row).
Qed.

(** A creation by an administrator, or without [email], stores the data
    with the defaults of the list for what they leave out. *)
Theorem createMutation_defaults user u data tbl :
  ref_item user = Some u →
  truthy (get_prop u "isAdmin") = true ∨ "email" ∉ dom data →
  data !! "state" = None → data !! "isAdmin" = None →
  (createMutation Ws User user data tbl).2 = tbl ++ [to_store (data ∪ User_defaults)].
Proof.
  intros Hu Hmay Hstate Hadmin. unfold createMutation. writer_simpl.
  rewrite checkFieldAccess_User_create.
  assert (answer_of (bool_decide ("email" ∈ dom data))
            (admin_or_same_id (AccessArgs user RUndefined)) = Ok tt) as ->.
  { unfold answer_of. case_bool_decide as He; [|done]. destruct Hmay as [Ha|]; [|done].
    rewrite (admin_or_same_id_admin _ u) by done. simpl. by rewrite Ha. }
  rewrite resolveDefaults_User. unfold get_prop. rewrite Hstate, Hadmin. simpl.
  unfold create, User_defaults. by rewrite row_of_primary_key, <-insert_union_singleton_l.
Qed.

(** C35: Nobody but an administrator creates a record with an [email]: for
    another authenticated user the access function reads the identifier of
    a record that does not exist yet, and the creation throws a
    [TypeError] before anything is stored. *)
Theorem createMutation_email_throws user u data tbl :
  ref_item user = Some u → truthy (get_prop u "isAdmin") = false →
  "email" ∈ dom data →
  createMutation Ws User user data tbl = (Throw (no_property "undefined" "id"), tbl).
Proof.
  intros Hu Ha He. unfold createMutation. writer_simpl.
  rewrite checkFieldAccess_User_create.
  rewrite bool_decide_eq_true_2 by done. unfold answer_of, admin_or_same_id.
  rewrite (ref_get_item _ _ _ Hu). simpl. by rewrite Ha.
Qed.

End one_mutation.

(** ** Sequences of requests *)

Section sequences.
Context (w : writer) (l : list_config).
Implicit Types (rq : option nat * mutation) (rqs : list (option nat * mutation))
  (tbl : rows).

(** A request leaves the table as it was or as one operation of the list
    adapter leaves it. *)
Lemma mstep_step rq tbl tbl' : mstep w l rq tbl tbl' → tbl' = tbl ∨ w_step w tbl tbl'.
Proof.
  intros [session m ?]. unfold serve. destruct (authenticated _ _ _) as [user|]; [|by left].
  destruct m as [data|i data|i]; simpl.
  - unfold createMutation. destruct (checkFieldAccess _ _ _ _ _); [|by left].
    right. apply w_create_step.
  - unfold updateMutation. destruct (getAccessControlledItem _ _ _); [|by left].
    destruct (checkFieldAccess _ _ _ _ _); [|by left]. right. apply w_update_step.
  - unfold deleteMutation. destruct (getAccessControlledItem _ _ _); [|by left].
    right. apply w_remove_step.
Qed.

Lemma serve_all_snoc rqs rq tbl :
  serve_all w l (rqs ++ [rq]) tbl = (serve w l rq.1 rq.2 (serve_all w l rqs tbl)).2.
Proof. unfold serve_all. by rewrite foldl_snoc. Qed.

(** The tables that requests reach are the ones that [serve_all]
    computes. *)
Lemma mreachable_serve_all rqs tbl :
  mreachable w l rqs tbl ↔ tbl = serve_all w l rqs [].
Proof.
  split.
  - induction 1 as [|rqs rq tbl tbl' _ IH Hstep]; [done|].
    inversion Hstep; subst. by rewrite serve_all_snoc.
  - intros ->. induction rqs as [|rq rqs IH] using rev_ind; [constructor|].
    rewrite serve_all_snoc. econstructor; [exact IH|]. destruct rq. constructor.
Qed.

(** The tables that requests reach are among those that the steps of the
    list adapter reach. *)
Lemma mreachable_steps rqs tbl : mreachable w l rqs tbl → rtc (w_step w) [] tbl.
Proof.
  induction 1 as [|rqs rq tbl tbl' _ IH Hstep]; [apply rtc_refl|].
  destruct (mstep_step _ _ _ Hstep) as [->|Hs]; [done|]. by eapply rtc_r.
Qed.

End sequences.

(** Every sequence of requests is a sequence of operations of the list
    adapter, so that what holds of the tables that the list adapter
    reaches holds under requests: with the relational adapter for the
    identifier field, every row of every table that requests reach
    satisfies the invariant of what the pre-save hook stores, whoever sent
    the requests and whatever was refused. *)
Theorem mreachable_stored_ok (a : KnexMongoIdInterface.t) (others : hooks) (l : list_config)
    (rqs : list (option nat * mutation)) (tbl : rows) :
  mreachable (list_adapter (hooks_of a others)) l rqs tbl → table_stored_ok a tbl.
Proof.
  intros Htbl%mreachable_steps. revert Htbl.
  apply reachable_invariant; [constructor|]. intros t t'. apply step_table_stored_ok.
Qed.

Section two_requests.
Import FbMongoIdInterface.
Context (a : FbMongoIdInterface.t) (Hpk : isPrimaryKey (field a) = true).

Notation Hs := (setupHooks a no_hooks).
Notation Ws := (list_adapter (setupHooks a no_hooks)).

(** C17: The guarantee of one update does not hold of two: a user who is no
    administrator sets [isAdmin] on the own record and, being read as an
    administrator by the next request, changes the [email] of another
    user. *)
Theorem escalation (i j : nat) (x : value) (tbl : rows) (ri rj : item) :
  i ≠ j → tbl !! i = Some ri → tbl !! j = Some rj →
  truthy (get_prop ri "toObject") = false → truthy (get_prop rj "toObject") = false →
  serve_all Ws User
    (by_session (Some j) [MUpdate j {["isAdmin" := VBool true]}; MUpdate i {["email" := x]}])
    tbl
  = <[i := <["email" := x]> ri]> (<[j := <["isAdmin" := VBool true]> rj]> tbl).
Proof.
  intros Hij Hi Hj Htoi Htoj. unfold serve_all, by_session, serve. simpl.
  rewrite (authenticated_row a Hpk j tbl rj), (updateMutation_eq a Hpk _ _ _ _ rj) by done.
  replace (protected {["isAdmin" := VBool true]}) with false by (symmetry; by_compute).
  simpl. rewrite (update_primary_key_plain a Hpk _ _ _ rj), <-insert_union_singleton_l by done.
  simpl. set (rj' := <["isAdmin" := VBool true]> rj).
  assert (<[j:=rj']> tbl !! j = Some rj') as Hj'
    by (apply list_lookup_insert_eq; by eapply lookup_lt_Some).
  assert (<[j:=rj']> tbl !! i = Some ri) as Hi' by (by rewrite list_lookup_insert_ne).
  assert (truthy (get_prop rj' "toObject") = false) as Htoj'
    by (unfold rj'; by rewrite get_prop_insert_ne).
  rewrite (authenticated_row a Hpk j _ rj'), (updateMutation_eq a Hpk _ _ _ _ ri) by done.
  rewrite (answer_of_known _ _ (from_store rj')) by done.
  unfold principal_of. simpl. rewrite from_store_isAdmin. unfold rj' at 1.
  rewrite get_prop_insert_eq. simpl. rewrite andb_false_r.
  by rewrite (update_primary_key_plain a Hpk _ _ _ ri), <-insert_union_singleton_l.
Qed.

End two_requests.

(** ** Witnesses

    A table of two users, Ada at row 0 and Bob at row 1, neither an
    administrator, over a list whose identifier field is the primary
    key. *)

Lemma updateMutation_policy_witness :
  updateMutation
    (list_adapter (FbMongoIdInterface.setupHooks
       (FbMongoIdInterface.Adapter (FbMongoIdInterface.Field true) "id" ∅ Ok) no_hooks))
    User (RItem {["id" := VStr "b0b"; "isAdmin" := VBool false]}) 0
    {["email" := VStr "bob@example.org"]}
    [ {["_id" := VStr "ada"; "email" := VStr "ada@example.org"]};
      {["_id" := VStr "b0b"; "email" := VStr "bob@example.org"]} ]
  = (Throw access_denied,
     [ {["_id" := VStr "ada"; "email" := VStr "ada@example.org"]};
       {["_id" := VStr "b0b"; "email" := VStr "bob@example.org"]} ]).
Proof.
  rewrite (updateMutation_policy
             (FbMongoIdInterface.Adapter (FbMongoIdInterface.Field true) "id" ∅ Ok) eq_refl
             _ {["id" := VStr "b0b"; "isAdmin" := VBool false]} 0 _ _
             {["_id" := VStr "ada"; "email" := VStr "ada@example.org"]}); [|done|done|by_compute].
  replace (protected _ && _) with true; [done|symmetry; by_compute].
Defined.

Lemma updateMutation_integrity_witness :
  field_at
    (updateMutation
       (list_adapter (FbMongoIdInterface.setupHooks
          (FbMongoIdInterface.Adapter (FbMongoIdInterface.Field true) "id" ∅ Ok) no_hooks))
       User RUndefined 0 {["email" := VStr "eve@example.org"]}
       [ {["_id" := VStr "ada"; "email" := VStr "ada@example.org"]} ]).2 0 "email"
  = field_at [ {["_id" := VStr "ada"; "email" := VStr "ada@example.org"]} ] 0 "email".
Proof.
  apply (updateMutation_integrity
           (FbMongoIdInterface.Adapter (FbMongoIdInterface.Field true) "id" ∅ Ok) eq_refl).
  - done.
  - by left.
Defined.

Lemma updateMutation_isAdmin_open_witness :
  updateMutation
    (list_adapter (FbMongoIdInterface.setupHooks
       (FbMongoIdInterface.Adapter (FbMongoIdInterface.Field true) "id" ∅ Ok) no_hooks))
    User RUndefined 0 {["isAdmin" := VBool true]}
    [ {["_id" := VStr "b0b"; "isAdmin" := VBool false]} ]
  = (Ok (RItem (FbMongoIdInterface.from_store
                  (<["isAdmin" := VBool true]> {["_id" := VStr "b0b"; "isAdmin" := VBool false]}))),
     <[0 := <["isAdmin" := VBool true]> {["_id" := VStr "b0b"; "isAdmin" := VBool false]}]>
       [ {["_id" := VStr "b0b"; "isAdmin" := VBool false]} ]).
Proof.
  apply (updateMutation_isAdmin_open
           (FbMongoIdInterface.Adapter (FbMongoIdInterface.Field true) "id" ∅ Ok) eq_refl);
    [done|by_compute].
Defined.

Lemma deleteMutation_open_witness :
  deleteMutation
    (list_adapter (FbMongoIdInterface.setupHooks
       (FbMongoIdInterface.Adapter (FbMongoIdInterface.Field true) "id" ∅ Ok) no_hooks))
    RUndefined 0 [ {["_id" := VStr "ada"]} ]
  = (Ok (RItem (FbMongoIdInterface.from_store {["_id" := VStr "ada"]})),
     delete 0 [ {["_id" := VStr "ada"]} ]).
Proof.
  apply (deleteMutation_open
           (FbMongoIdInterface.Adapter (FbMongoIdInterface.Field true) "id" ∅ Ok) eq_refl);
    [done|by_compute].
Defined.

Lemma createMutation_defaults_witness :
  (createMutation
     (list_adapter (FbMongoIdInterface.setupHooks
        (FbMongoIdInterface.Adapter (FbMongoIdInterface.Field true) "id" ∅ Ok) no_hooks))
     User (RItem {["id" := VStr "b0b"]}) {["name" := VStr "Eve"]} []).2
  = [] ++ [FbMongoIdInterface.to_store ({["name" := VStr "Eve"]} ∪ User_defaults)].
Proof.
  apply (createMutation_defaults
           (FbMongoIdInterface.Adapter (FbMongoIdInterface.Field true) "id" ∅ Ok) eq_refl
           _ {["id" := VStr "b0b"]}); [done| |done|done].
  right. by_compute.
Defined.

Lemma createMutation_email_throws_witness :
  createMutation
    (list_adapter (FbMongoIdInterface.setupHooks
       (FbMongoIdInterface.Adapter (FbMongoIdInterface.Field true) "id" ∅ Ok) no_hooks))
    User (RItem {["id" := VStr "b0b"]}) {["email" := VStr "eve@example.org"]} []
  = (Throw (no_property "undefined" "id"), []).
Proof.
  apply (createMutation_email_throws
           (FbMongoIdInterface.Adapter (FbMongoIdInterface.Field true) "id" ∅ Ok)
           _ {["id" := VStr "b0b"]}); [done|by_compute|by_compute].
Defined.

Lemma mreachable_stored_ok_witness :
  table_stored_ok
    (KnexMongoIdInterface.new (KnexMongoIdInterface.Base "fbId" ∅ VUndefined VUndefined))
    (serve_all
       (list_adapter
          (hooks_of (KnexMongoIdInterface.new
                       (KnexMongoIdInterface.Base "fbId" ∅ VUndefined VUndefined)) no_hooks))
       User [(None, MCreate {["fbId" := VStr "5F8D0D55B54764421B7156C3"]})] []).
Proof.
  apply (mreachable_stored_ok _ no_hooks User
           [(None, MCreate {["fbId" := VStr "5F8D0D55B54764421B7156C3"]})]).
  by apply mreachable_serve_all.
Defined.

Lemma escalation_witness :
  serve_all
    (list_adapter (FbMongoIdInterface.setupHooks
       (FbMongoIdInterface.Adapter (FbMongoIdInterface.Field true) "id" ∅ Ok) no_hooks))
    User
    (by_session (Some 1)
       [MUpdate 1 {["isAdmin" := VBool true]}; MUpdate 0 {["email" := VStr "bob@example.org"]}])
    [ {["_id" := VStr "ada"; "email" := VStr "ada@example.org"]};
      {["_id" := VStr "b0b"; "isAdmin" := VBool false]} ]
  = <[0 := <["email" := VStr "bob@example.org"]>
             {["_id" := VStr "ada"; "email" := VStr "ada@example.org"]}]>
      (<[1 := <["isAdmin" := VBool true]> {["_id" := VStr "b0b"; "isAdmin" := VBool false]}]>
         [ {["_id" := VStr "ada"; "email" := VStr "ada@example.org"]};
           {["_id" := VStr "b0b"; "isAdmin" := VBool false]} ]).
Proof.
  apply (escalation
           (FbMongoIdInterface.Adapter (FbMongoIdInterface.Field true) "id" ∅ Ok) eq_refl);
    [done|done|done|by_compute|by_compute].
Defined.
