(* ===== verification/Integrity.v ===== *)
(** * Integrity of the protected fields under sequences of requests

    [Mutation] shows that one update leaves [email] and [password] of a
    record alone unless an administrator or the owner sends it, and that
    two updates in a row do not.  This file settles what does hold of every
    sequence of requests over the list [User] of [src/index.js] when its
    identifier field is the primary key: as long as the data of the
    requests name fields that the list declares other than [isAdmin], and
    nothing is deleted, a record that has an identifier keeps its [email]
    and its [password] whatever the users who are neither administrators
    nor its owner send, in whatever order, creations included.  The two
    hypotheses on the data are both needed: [Mutation] has the requests
    that go through [isAdmin], and this file has the ones that go through
    the identifier, which [gqlUpdateInputFields] of [FbIdImplementation]
    ([src/fb/field-fbId.js], lines 17 to 19) declares as an input of
    updates. *)

From Stdlib Require Import Ascii String Lia.
From S2P Require Import Prelude JsString JsValue Normalise Framework KnexAdapter.
From S2P Require Import MongoAdapter Access FieldType Ownership ListAdapter Mutation.

(** ** What the theorems speak of *)

(** The fields of a row that decide who the record is when it is read:
    the identifier as it is stored, the identifier as it is read, and
    [isAdmin]. *)
Definition identity (row : item) : value * value * value :=
  (get_prop row "_id", get_prop row "id", get_prop row "isAdmin").

(** Who a row is when it is the row of the session. *)
Definition principal_of_row (row : item) : principal :=
  principal_of (RItem (FbMongoIdInterface.from_store row)).

(** The identifier that the access functions compare. *)
Definition owner_id (row : item) : value :=
  get_prop (FbMongoIdInterface.from_store row) "id".

(** The names of the fields that a list declares. *)
Definition input_names (l : list_config) : gset string := list_to_set (lc_fields l).*1.

(** A creation or an update whose data name declared fields other than
    [isAdmin]. *)
Definition ordinary (l : list_config) (m : mutation) : bool :=
  match m with
  | MCreate data | MUpdate _ data => bool_decide (dom data ⊆ input_names l ∖ {["isAdmin"]})
  | MDelete _ => false
  end.

(** A request without a session, or with the session of a row in [S]. *)
Definition sent_by (S : nat → Prop) (rq : option nat * mutation) : Prop :=
  from_option S True rq.1.

(** No row of [S] may touch the record whose identifier is [x]. *)
Definition strangers (S : nat → Prop) (x : value) (tbl : rows) : Prop :=
  ∀ j row, S j → tbl !! j = Some row → may_touch (principal_of_row row) x = false.

(** Row [i] is the record whose identifier is [x]. *)
Definition owned (x : value) (i : nat) (tbl : rows) : Prop :=
  owner_id <$> tbl !! i = Some x.

(** The state of the list as far as the record at row [i] is concerned:
    the rows of [S] are strangers to it, and its protected fields are
    [v]. *)
Definition guarded (S : nat → Prop) (x : value) (i : nat) (v : option value * option value)
    (tbl : rows) : Prop :=
  strangers S x tbl ∧ owned x i tbl ∧ (field_at tbl i "email", field_at tbl i "password") = v.

(** The names that the update input of the identifier field declares. *)
Definition identifier_input : list string :=
  input_field_name
    <$> FbIdImplementation.gqlUpdateInputFields (FbIdImplementation.Implementation "id").

(** ** Lemmas on the identity of a row *)

Section identity_lemmas.
Import FbMongoIdInterface.
Implicit Types (row old data : item) (x v : value) (tbl : rows) (i j : nat) (k : string).

Lemma owner_id_eq row :
  owner_id row
  = if truthy (get_prop row "_id") then VStr (string_of (get_prop row "_id"))
    else get_prop row "id".
Proof.
  unfold owner_id. destruct (truthy (get_prop row "_id")) eqn:Hid.
  - by apply from_store_id.
  - unfold from_store. by rewrite Hid.
Qed.

Lemma principal_of_row_eq row :
  principal_of_row row = Known (owner_id row) (truthy (get_prop row "isAdmin")).
Proof. unfold principal_of_row, principal_of, owner_id. simpl. by rewrite from_store_isAdmin. Qed.

Lemma identity_owner_id row old : identity row = identity old → owner_id row = owner_id old.
Proof. intros [= H_id Hid _]. by rewrite !owner_id_eq, H_id, Hid. Qed.

Lemma identity_principal row old :
  identity row = identity old → principal_of_row row = principal_of_row old.
Proof.
  intros Hrow. rewrite !principal_of_row_eq, (identity_owner_id _ _ Hrow).
  by injection Hrow as _ _ ->.
Qed.

(** Data that name none of the three fields leave the identity of the row
    they are written over. *)
Lemma identity_union data old :
  data !! "_id" = None → data !! "id" = None → data !! "isAdmin" = None →
  identity (to_store data ∪ old) = identity old.
Proof.
  intros H_id Hid Hadmin. rewrite to_store_no_id by done.
  unfold identity, get_prop. by rewrite !lookup_union, H_id, Hid, Hadmin, !(left_id None _).
Qed.

Lemma strict_eq_undefined x : x ≠ VUndefined → strict_eq x VUndefined = false.
Proof. by destruct x. Qed.

(** What the data of an ordinary request do not name. *)
Lemma ordinary_names data k :
  dom data ⊆ input_names User ∖ {["isAdmin"]} → k ∈ ["_id"; "id"; "isAdmin"] →
  data !! k = None.
Proof.
  intros Hdom Hk. apply not_elem_of_dom. intros Hin%Hdom.
  apply elem_of_difference in Hin as [Hin Hadmin].
  apply elem_of_list_to_set in Hin. cbn in Hin.
  repeat (apply elem_of_cons in Hk as [->|Hk]; [set_solver|]). by apply elem_of_nil in Hk.
Qed.

(** The row of a creation whose data name no [isAdmin] and no identifier
    is a stranger to every record that has an identifier. *)
Lemma created_row_stranger data x :
  dom data ⊆ input_names User ∖ {["isAdmin"]} → x ≠ VUndefined →
  may_touch (principal_of_row (to_store (resolveDefaults User data))) x = false.
Proof.
  intros Hdom Hx.
  pose proof (ordinary_names data "_id" Hdom ltac:(set_solver)) as H_id.
  pose proof (ordinary_names data "id" Hdom ltac:(set_solver)) as Hid.
  pose proof (ordinary_names data "isAdmin" Hdom ltac:(set_solver)) as Hadmin.
  rewrite resolveDefaults_User. unfold get_prop. rewrite Hadmin. simpl.
  set (ds := (if bool_decide _ then _ else _) ∪ _).
  assert (ds !! "_id" = None ∧ ds !! "id" = None ∧ ds !! "isAdmin" = Some (VBool false))
    as (Hd_id & Hdid & Hdadmin) by (unfold ds; by case_bool_decide).
  rewrite to_store_no_id by (by rewrite lookup_union, Hid, Hdid).
  change (may_touch (principal_of_row (data ∪ ds)) x = false).
  rewrite principal_of_row_eq, owner_id_eq. unfold get_prop.
  rewrite !lookup_union, H_id, Hd_id, Hid, Hdid, Hadmin, Hdadmin. simpl.
  by apply strict_eq_undefined.
Qed.

End identity_lemmas.

(** ** Lemmas on the state of the list *)

Section guarded_lemmas.
Context (S : nat → Prop) (x : value) (i : nat).
Implicit Types (row old data : item) (tbl : rows) (j : nat) (v : option value * option value).

(** Writing a row of the same identity, and the same protected fields
    when it is the row of the record, keeps the state. *)
Lemma guarded_insert j row old tbl v :
  tbl !! j = Some old → identity row = identity old →
  (j = i → row !! "email" = old !! "email" ∧ row !! "password" = old !! "password") →
  guarded S x i v tbl → guarded S x i v (<[j := row]> tbl).
Proof.
  intros Hj Hrow Hfields (Hstr & Hown & Hv). pose proof (lookup_lt_Some _ _ _ Hj) as Hlt.
  split; [|split].
  - intros j' row' HS. destruct (decide (j' = j)) as [->|].
    + rewrite list_lookup_insert_eq by done. intros [= <-].
      rewrite (identity_principal _ _ Hrow). by eapply Hstr.
    + rewrite list_lookup_insert_ne by done. by apply Hstr.
  - unfold owned in *. destruct (decide (i = j)) as [->|]; [|by rewrite list_lookup_insert_ne].
    rewrite list_lookup_insert_eq by done. rewrite Hj in Hown. simpl in *.
    by rewrite (identity_owner_id _ _ Hrow).
  - rewrite <-Hv. unfold field_at.
    destruct (decide (i = j)) as [->|]; [|by rewrite list_lookup_insert_ne].
    rewrite list_lookup_insert_eq, Hj by done. simpl. by destruct (Hfields eq_refl) as [-> ->].
Qed.

(** One more row, of a stranger, keeps the state. *)
Lemma guarded_snoc row tbl v :
  may_touch (principal_of_row row) x = false →
  guarded S x i v tbl → guarded S x i v (tbl ++ [row]).
Proof.
  intros Hrow (Hstr & Hown & Hv).
  assert (i < length tbl) as Hlt.
  { unfold owned in Hown. destruct (tbl !! i) eqn:Hi; [by eapply lookup_lt_Some|done]. }
  split; [|split].
  - intros j row' HS [Hj|[_ Hj]]%lookup_app_Some; [by eapply Hstr|].
    apply list_lookup_singleton_Some in Hj as [_ <-]. done.
  - unfold owned. by rewrite lookup_app_l.
  - rewrite <-Hv. unfold field_at. by rewrite lookup_app_l.
Qed.

End guarded_lemmas.

(** ** Requests that keep the state *)

Section integrity.
Import FbMongoIdInterface.
Context (a : FbMongoIdInterface.t) (Hpk : isPrimaryKey (field a) = true).
Context (S : nat → Prop) (x : value) (Hx : x ≠ VUndefined) (i : nat).
Implicit Types (user : ref) (row old data : item) (tbl : rows) (j : nat)
  (rq : option nat * mutation) (v : option value * option value).

Notation Hs := (setupHooks a no_hooks).
Notation Ws := (list_adapter (setupHooks a no_hooks)).

(** Whoever a request of [S] is served for may not touch the record. *)
Lemma authenticated_stranger rq tbl user :
  sent_by S rq → strangers S x tbl →
  authenticated Ws rq.1 tbl = Ok user → may_touch (principal_of user) x = false.
Proof.
  intros HS Hstr [->|(j & row & Hrq & Hj & ->)]%(authenticated_cases a Hpk); [done|].
  unfold sent_by in HS. rewrite Hrq in HS. by eapply Hstr.
Qed.

Lemma updateMutation_guarded user j data tbl v :
  dom data ⊆ input_names User ∖ {["isAdmin"]} →
  may_touch (principal_of user) x = false →
  guarded S x i v tbl → guarded S x i v (updateMutation Ws User user j data tbl).2.
Proof.
  intros Hdom Hno Hg.
  destruct (updateMutation_cases a Hpk user j data tbl) as [->|(old & Hj & Hmay & ->)]; [done|].
  apply (guarded_insert _ _ _ _ _ old); [done| |intros ->|done].
  - apply identity_union; apply ordinary_names; set_solver.
  - destruct Hg as (_ & Hown & _). unfold owned in Hown. rewrite Hj in Hown.
    injection Hown as Hown. unfold owner_id in Hown. rewrite Hown, Hno in Hmay.
    destruct Hmay as [Hp|]; [|done].
    apply orb_false_iff in Hp as [He%bool_decide_eq_false Hpw%bool_decide_eq_false].
    split; by apply to_store_union_other.
Qed.

Lemma createMutation_guarded user data tbl v :
  dom data ⊆ input_names User ∖ {["isAdmin"]} →
  guarded S x i v tbl → guarded S x i v (createMutation Ws User user data tbl).2.
Proof.
  intros Hdom Hg. destruct (createMutation_cases a Hpk user data tbl) as [->| ->]; [done|].
  apply guarded_snoc; [|done]. by apply created_row_stranger.
Qed.

(** One ordinary request of [S] keeps the state. *)
Lemma serve_guarded rq tbl v :
  ordinary User rq.2 = true → sent_by S rq →
  guarded S x i v tbl → guarded S x i v (serve Ws User rq.1 rq.2 tbl).2.
Proof.
  intros Hord HS Hg. unfold serve.
  destruct (authenticated Ws rq.1 tbl) as [user|] eqn:Hauth; [|done].
  pose proof (authenticated_stranger rq tbl user HS (proj1 Hg) Hauth) as Hno.
  destruct rq as [s [data|j data|j]]; simpl in *; [..|done];
    apply bool_decide_eq_true in Hord.
  - by apply createMutation_guarded.
  - by apply updateMutation_guarded.
Qed.

Lemma serve_all_guarded rqs tbl v :
  Forall (λ rq, ordinary User rq.2 = true ∧ sent_by S rq) rqs →
  guarded S x i v tbl → guarded S x i v (serve_all Ws User rqs tbl).
Proof.
  intros Hrqs. revert tbl. induction Hrqs as [|rq rqs [Hord HS] _ IH]; intros tbl Hg; [done|].
  apply IH. by apply serve_guarded.
Qed.

(** C16: Over the list [User] whose identifier field is the primary key, a
    record at row [i] that has an identifier keeps its [email] and its
    [password] under every sequence of creations and updates whose data
    name only fields that the list declares, [isAdmin] apart (so never the
    identifier), sent without a session or with the session of a row of
    [S], when no row of [S] is an administrator or the owner of the
    record: in whatever order, and whether the requests are served or
    refused. *)
Theorem integrity_of_sequences (rqs : list (option nat * mutation)) tbl (k : string) :
  Forall (λ rq, ordinary User rq.2 = true ∧ sent_by S rq) rqs →
  strangers S x tbl → owned x i tbl →
  k = "email" ∨ k = "password" →
  field_at (serve_all Ws User rqs tbl) i k = field_at tbl i k.
Proof.
  intros Hrqs Hstr Hown Hk.
  destruct (serve_all_guarded rqs tbl _ Hrqs (conj Hstr (conj Hown eq_refl)))
    as (_ & _ & [= He Hp]).
  by destruct Hk as [->| ->].
Qed.

End integrity.

(** ** The identifier as an input *)

Section identifier.
Import FbMongoIdInterface.
Context (a : FbMongoIdInterface.t) (Hpk : isPrimaryKey (field a) = true).

Notation Hs := (setupHooks a no_hooks).
Notation Ws := (list_adapter (setupHooks a no_hooks)).

(** C18: The update input of the identifier field declares [id], and an update
    that names it is served for anyone: a user who writes the identifier
    of another record over the own one is read as the owner of that record
    by the next request, and changes its [email]. *)
Theorem takeover_by_identifier (i j : nat) (s : string) (x : value) (tbl : rows)
    (ri rj : item) :
  i ≠ j → tbl !! i = Some ri → tbl !! j = Some rj →
  get_prop ri "_id" = VStr s → s ≠ EmptyString →
  truthy (get_prop ri "toObject") = false → truthy (get_prop rj "toObject") = false →
  identifier_input = ["id"]
  ∧ serve_all Ws User
      (by_session (Some j) [MUpdate j {["id" := VStr s]}; MUpdate i {["email" := x]}]) tbl
    = <[i := <["email" := x]> ri]> (<[j := <["_id" := VStr s]> rj]> tbl).
Proof.
  intros Hij Hi Hj Hs_id Hs Htoi Htoj. split; [done|].
  assert (truthy (VStr s) = true) as Hts by (by apply truthy_VStr).
  unfold serve_all, by_session, serve. simpl.
  rewrite (authenticated_row a Hpk j tbl rj), (updateMutation_eq a Hpk _ _ _ _ rj) by done.
  replace (protected {["id" := VStr s]}) with false by (symmetry; by_compute).
  simpl. rewrite (update_primary_key a Hpk _ _ _ rj) by done.
  assert (to_store {["id" := VStr s]} ∪ rj = <["_id" := VStr s]> rj) as ->.
  { unfold to_store, get_prop. rewrite lookup_singleton_eq. cbn [default from_option id].
    rewrite Hts.
    rewrite delete_insert_ne, delete_singleton_eq by done.
    by rewrite insert_empty, <-insert_union_singleton_l. }
  set (rj' := <["_id" := VStr s]> rj).
  assert (<[j:=rj']> tbl !! j = Some rj') as Hj'
    by (apply list_lookup_insert_eq; by eapply lookup_lt_Some).
  assert (<[j:=rj']> tbl !! i = Some ri) as Hi' by (by rewrite list_lookup_insert_ne).
  assert (truthy (get_prop rj' "toObject") = false) as Htoj'
    by (unfold rj'; by rewrite get_prop_insert_ne).
  rewrite (authenticated_row a Hpk j _ rj'), (updateMutation_eq a Hpk _ _ _ _ ri) by done.
  rewrite (answer_of_known _ _ (from_store rj')) by done.
  assert (may_touch (principal_of (RItem (from_store rj'))) (get_prop (from_store ri) "id") = true)
    as ->.
  { change (may_touch (principal_of_row rj') (owner_id ri) = true).
    rewrite principal_of_row_eq, !owner_id_eq. unfold rj' at 1 2.
    rewrite get_prop_insert_eq, Hs_id, Hts. simpl.
    rewrite bool_decide_eq_true_2 by done. apply orb_true_r. }
  rewrite andb_false_r.
  by rewrite (update_primary_key_plain a Hpk _ _ _ ri), <-insert_union_singleton_l.
Qed.

End identifier.

(** ** Witnesses

    Ada at row 0 and Bob at row 1, neither an administrator.  Bob asks for
    the [email] of Ada to be changed, creates a user, and changes the own
    [name]; a request without a session asks for the [password] of Ada to
    be changed. *)

Lemma integrity_of_sequences_witness :
  field_at
    (serve_all
       (list_adapter (FbMongoIdInterface.setupHooks
          (FbMongoIdInterface.Adapter (FbMongoIdInterface.Field true) "id" ∅ Ok) no_hooks))
       User
       [ (Some 1, MUpdate 0 {["email" := VStr "bob@example.org"]});
         (Some 1, MCreate {["name" := VStr "Eve"]});
         (None, MUpdate 0 {["password" := VStr "secret"]});
         (Some 1, MUpdate 1 {["name" := VStr "Robert"]}) ]
       [ {["_id" := VStr "ada"; "email" := VStr "ada@example.org"]};
         {["_id" := VStr "b0b"; "isAdmin" := VBool false]} ])
    0 "email"
  = field_at
      [ {["_id" := VStr "ada"; "email" := VStr "ada@example.org"]};
        {["_id" := VStr "b0b"; "isAdmin" := VBool false]} ]
      0 "email".
Proof.
  apply (integrity_of_sequences
           (FbMongoIdInterface.Adapter (FbMongoIdInterface.Field true) "id" ∅ Ok) eq_refl
           (λ j, j = 1) (VStr "ada")); [done| | | |by left].
  - repeat (apply Forall_cons; split; [split; [by_compute|done]|]). apply Forall_nil_2.
  - intros j row -> [= <-]. by_compute.
  - unfold owned. by_compute.
Defined.

Lemma takeover_by_identifier_witness :
  identifier_input = ["id"]
  ∧ serve_all
      (list_adapter (FbMongoIdInterface.setupHooks
         (FbMongoIdInterface.Adapter (FbMongoIdInterface.Field true) "id" ∅ Ok) no_hooks))
      User
      (by_session (Some 1)
         [MUpdate 1 {["id" := VStr "ada"]}; MUpdate 0 {["email" := VStr "bob@example.org"]}])
      [ {["_id" := VStr "ada"; "email" := VStr "ada@example.org"]};
        {["_id" := VStr "b0b"; "isAdmin" := VBool false]} ]
    = <[0 := <["email" := VStr "bob@example.org"]>
               {["_id" := VStr "ada"; "email" := VStr "ada@example.org"]}]>
        (<[1 := <["_id" := VStr "ada"]> {["_id" := VStr "b0b"; "isAdmin" := VBool false]}]>
           [ {["_id" := VStr "ada"; "email" := VStr "ada@example.org"]};
             {["_id" := VStr "b0b"; "isAdmin" := VBool false]} ]).
Proof.
  apply (takeover_by_identifier
           (FbMongoIdInterface.Adapter (FbMongoIdInterface.Field true) "id" ∅ Ok) eq_refl
           0 1 "ada"); [done|done|done|done|done|by_compute|by_compute].
Defined.
